(** * Ocean Air ticket back office: derived-state rules, checked against the code

    A shallow embedding of the JavaScript sources [utils.js], [ui.js],
    [manage.js], [booking.js], [settlement.js], [reports.js], [tickets.js],
    [clients.js], [main.js] and [api.js].

    Conventions of the embedding.
    - A JavaScript string is a [string] of ASCII code units; case mapping acts
      on the letters A-Z and a-z, white space is TAB, LF, VT, FF, CR and SPACE.
    - A JavaScript number that holds an amount, a year, a day or a time value
      is a [Z]; [NaN] and [undefined] are [None] of an [option].  An amount
      of the sheet is a double in the application; a record holds it as a
      whole number, and a sum over records stands for the accumulation that
      the code performs over the same rows in the same order.  The two agree
      while the amounts are whole and their sizes stay within 2^53 - 1;
      module [Doubles] gives the arithmetic of the language and the unpaid
      grouping on the numbers of the cells, where this is proved and where
      amounts with fractions or beyond 2^53 show the difference.
    - A [Date] is its time value, milliseconds since the epoch in UTC.  The
      host's local time zone is a fixed offset [LocalTZA] (milliseconds east
      of UTC), and the host's generic [new Date(string)] parser, which the
      language leaves to the implementation, is a function [DateParse].
    - The spreadsheet is a list of rows; row [i] of the list is sheet row
      [i + 2], as the parsers number them. *)

From Stdlib Require Import ZArith List String Ascii Bool Lia DecimalString.
From Stdlib Require Import Sorted Permutation SpecFloat.
Import ListNotations.
Open Scope Z_scope.

(** ** JavaScript strings *)

Module Js.

Definition code (c : ascii) : Z := Z.of_N (N_of_ascii c).

Definition isDigit (c : ascii) : bool := (48 <=? code c) && (code c <=? 57).

(** [\s] on ASCII *)
Definition isSpace (c : ascii) : bool :=
  ((9 <=? code c) && (code c <=? 13)) || (code c =? 32).

Definition isUpper (c : ascii) : bool := (65 <=? code c) && (code c <=? 90).
Definition isLower (c : ascii) : bool := (97 <=? code c) && (code c <=? 122).

Definition lowerChar (c : ascii) : ascii :=
  if isUpper c then ascii_of_N (Z.to_N (code c + 32)) else c.
Definition upperChar (c : ascii) : ascii :=
  if isLower c then ascii_of_N (Z.to_N (code c - 32)) else c.

Fixpoint mapChars (f : ascii -> ascii) (s : string) : string :=
  match s with
  | EmptyString => EmptyString
  | String c r => String (f c) (mapChars f r)
  end.

Definition toLowerCase : string -> string := mapChars lowerChar.
Definition toUpperCase : string -> string := mapChars upperChar.

(** [s.startsWith(p)] *)
Fixpoint startsWith (s p : string) : bool :=
  match p, s with
  | EmptyString, _ => true
  | String a p', String b s' => Ascii.eqb a b && startsWith s' p'
  | String _ _, EmptyString => false
  end.

(** [s.includes(p)] *)
Fixpoint includes (s p : string) : bool :=
  startsWith s p ||
  match s with
  | EmptyString => false
  | String _ r => includes r p
  end.

Fixpoint trimStart (s : string) : string :=
  match s with
  | String c r => if isSpace c then trimStart r else s
  | EmptyString => EmptyString
  end.

Fixpoint trimEnd (s : string) : string :=
  match s with
  | EmptyString => EmptyString
  | String c r =>
      let r' := trimEnd r in
      if isSpace c && (r' =? "")%string then EmptyString else String c r'
  end.

Definition trim (s : string) : string := trimEnd (trimStart s).

(** A JavaScript string is truthy when it is not empty. *)
Definition truthy (s : string) : bool := negb (s =? "")%string.

(** [a || b] on strings *)
Definition orElse (a b : string) : string := if truthy a then a else b.

(** The longest prefix of decimal digits, and what follows it. *)
Fixpoint spanDigits (s : string) : string * string :=
  match s with
  | String c r =>
      if isDigit c then let '(d, rest) := spanDigits r in (String c d, rest)
      else (EmptyString, s)
  | EmptyString => (EmptyString, EmptyString)
  end.

Fixpoint digitsValue (acc : Z) (s : string) : Z :=
  match s with
  | String c r => digitsValue (10 * acc + (code c - 48)) r
  | EmptyString => acc
  end.

(** [parseInt(s, 10)]: leading white space, an optional sign, then the
    longest run of digits; [NaN] ([None]) when there is no digit. *)
Definition parseInt (s : string) : option Z :=
  let s1 := trimStart s in
  let '(neg, s2) :=
    match s1 with
    | String c r =>
        if (c =? "-")%char then (true, r)
        else if (c =? "+")%char then (false, r)
        else (false, s1)
    | EmptyString => (false, s1)
    end in
  match fst (spanDigits s2) with
  | EmptyString => None
  | ds => Some (if neg then - digitsValue 0 ds else digitsValue 0 ds)
  end.

(** Every character of the string satisfies [p]. *)
Fixpoint allChars (p : ascii -> bool) (s : string) : bool :=
  match s with
  | EmptyString => true
  | String c r => p c && allChars p r
  end.

(** [s.split(/[-\/]/)] *)
Definition isDateSep (c : ascii) : bool := (c =? "-")%char || (c =? "/")%char.

Fixpoint splitDate (s : string) : list string :=
  match s with
  | EmptyString => [EmptyString]
  | String c r =>
      if isDateSep c then EmptyString :: splitDate r
      else match splitDate r with
           | h :: t => String c h :: t
           | [] => [String c EmptyString]
           end
  end.

(** [s.replace(/\s*\(fees\)\s*$/i, '')]: the pattern is anchored at the end
    of the string, and the leftmost position where it matches is taken. *)
Definition feesTail (s : string) : bool :=
  startsWith (toLowerCase s) "(fees)" &&
  (trimStart (substring 6 (length s) s) =? "")%string.

Fixpoint stripFees (s : string) : string :=
  if feesTail (trimStart s) then EmptyString
  else match s with
       | EmptyString => EmptyString
       | String c r => String c (stripFees r)
       end.

(** [/\(fees\)\s*$/i.test(s)] *)
Fixpoint testFeesAtEnd (s : string) : bool :=
  feesTail s ||
  match s with
  | EmptyString => false
  | String _ r => testFeesAtEnd r
  end.

End Js.

(** ** Dates: the time arithmetic of the language standard *)

Module JsDate.

Definition msPerDay : Z := 86400000.
Definition msPerHour : Z := 3600000.
Definition msPerMinute : Z := 60000.

Definition DayFromYear (y : Z) : Z :=
  365 * (y - 1970) + (y - 1969) / 4 - (y - 1901) / 100 + (y - 1601) / 400.

Definition isLeap (y : Z) : bool :=
  ((y mod 4 =? 0) && negb (y mod 100 =? 0)) || (y mod 400 =? 0).

Definition DaysInYear (y : Z) : Z := if isLeap y then 366 else 365.

(** The largest year whose first day is not after day [n]: an estimate from
    the mean length of a year, corrected by at most one. *)
Definition YearFromDay (n : Z) : Z :=
  let y0 := 1970 + (400 * n) / 146097 in
  if n <? DayFromYear y0 then y0 - 1
  else if DayFromYear (y0 + 1) <=? n then y0 + 1
  else y0.

(** Days of the year before the first of month [m] (0 = January). *)
Definition daysBeforeMonth (leap : bool) (m : Z) : Z :=
  let l := if leap then 1 else 0 in
  if m <=? 0 then 0
  else if m =? 1 then 31
  else if m =? 2 then 59 + l
  else if m =? 3 then 90 + l
  else if m =? 4 then 120 + l
  else if m =? 5 then 151 + l
  else if m =? 6 then 181 + l
  else if m =? 7 then 212 + l
  else if m =? 8 then 243 + l
  else if m =? 9 then 273 + l
  else if m =? 10 then 304 + l
  else if m =? 11 then 334 + l
  else 365 + l.

Definition daysInMonth (y m : Z) : Z :=
  daysBeforeMonth (isLeap y) (m + 1) - daysBeforeMonth (isLeap y) m.

Definition MonthFromDay (n : Z) : Z :=
  let y := YearFromDay n in
  let d := n - DayFromYear y in
  let b := daysBeforeMonth (isLeap y) in
  if d <? b 1 then 0 else if d <? b 2 then 1 else if d <? b 3 then 2
  else if d <? b 4 then 3 else if d <? b 5 then 4 else if d <? b 6 then 5
  else if d <? b 7 then 6 else if d <? b 8 then 7 else if d <? b 9 then 8
  else if d <? b 10 then 9 else if d <? b 11 then 10 else 11.

Definition DateFromDay (n : Z) : Z :=
  let y := YearFromDay n in
  n - DayFromYear y - daysBeforeMonth (isLeap y) (MonthFromDay n) + 1.

(** [MakeDay(year, month, date)] *)
Definition MakeDay (year month date : Z) : Z :=
  let ym := year + month / 12 in
  let mn := month mod 12 in
  DayFromYear ym + daysBeforeMonth (isLeap ym) mn + date - 1.

(** [TimeClip] *)
Definition TimeClip (t : Z) : option Z :=
  if Z.abs t <=? 8640000000000000 then Some t else None.

Section Host.

(** The host's offset from UTC, in milliseconds east. *)
Variable LocalTZA : Z.

Definition LocalDay (t : Z) : Z := (t + LocalTZA) / msPerDay.

Definition getFullYear (t : Z) : Z := YearFromDay (LocalDay t).
Definition getMonth (t : Z) : Z := MonthFromDay (LocalDay t).
Definition getDate (t : Z) : Z := DateFromDay (LocalDay t).

(** [new Date(year, month, day)]: local midnight of that day. *)
Definition newDate (year month day : Z) : option Z :=
  let yr := if (0 <=? year) && (year <=? 99) then 1900 + year else year in
  TimeClip (MakeDay yr month day * msPerDay - LocalTZA).

(** [Date.UTC(year, month, day)] *)
Definition DateUTC (year month day : Z) : option Z :=
  let yr := if (0 <=? year) && (year <=? 99) then 1900 + year else year in
  TimeClip (MakeDay yr month day * msPerDay).

(** [d.setHours(h, m, s, ms)] *)
Definition setHours (t h m s ms : Z) : option Z :=
  TimeClip (LocalDay t * msPerDay
            + h * msPerHour + m * msPerMinute + s * 1000 + ms - LocalTZA).

End Host.

End JsDate.

(** ** utils.js: parseSheetDate and parseDeadline *)

Section Utils.

Variable LocalTZA : Z.
(** [new Date(string)]: the host's generic parser, [None] for an invalid
    date. *)
Variable DateParse : string -> option Z.

Definition monthMap : list (string * Z) :=
  [("JAN", 0); ("FEB", 1); ("MAR", 2); ("APR", 3); ("MAY", 4); ("JUN", 5);
   ("JUL", 6); ("AUG", 7); ("SEP", 8); ("OCT", 9); ("NOV", 10);
   ("DEC", 11)]%string.

Fixpoint lookup {A : Type} (m : list (string * A)) (k : string) : option A :=
  match m with
  | [] => None
  | (k', v) :: r => if (k' =? k)%string then Some v else lookup r k
  end.

(** [new Date(year, month, day)], kept when reading the year, the month
    and the day back gives the same numbers. *)
Definition checkedDate (year month day : Z) : option Z :=
  match JsDate.newDate LocalTZA year month day with
  | Some d =>
      if (JsDate.getFullYear LocalTZA d =? year)
         && (JsDate.getMonth LocalTZA d =? month)
         && (JsDate.getDate LocalTZA d =? day)
      then Some d else None
  | None => None
  end.

(** The three-part branch of [parseSheetDate]: the date it returns, or [None]
    when control falls through to the generic parse. *)
Definition parseSheetDateParts (parts : list string) : option Z :=
  match parts with
  | [p0; p1; p2] =>
      let '(day, month, year) :=
        match Js.parseInt p1 with
        | None =>
            (Js.parseInt p0, lookup monthMap (Js.toUpperCase p1),
             Js.parseInt p2)
        | Some n1 =>
            (Some n1, option_map (fun m => m - 1) (Js.parseInt p0),
             Js.parseInt p2)
        end in
      match day, month, year with
      | Some day, Some month, Some year =>
          if (1900 <? year) && (0 <? day) && (day <=? 31)
             && (0 <=? month) && (month <? 12)
          then checkedDate year month day
          else None
      | _, _, _ => None
      end
  | _ => None
  end.

Definition parseSheetDate (dateString : string) : Z :=
  if negb (Js.truthy dateString) then 0
  else
    let safeDateString := Js.trim dateString in
    match parseSheetDateParts (Js.splitDate safeDateString) with
    | Some d => d
    | None =>
        match DateParse safeDateString with
        | Some fallbackDate => fallbackDate
        | None => 0
        end
    end.

(** [/(\d+):(\d+)(:(\d+))?\s*(AM|PM)/i] tried at the head of [s]: the
    captures 1, 2 and 5. *)
Definition ampmHere (s : string) : option string :=
  let u := Js.toUpperCase (substring 0 2 s) in
  if ((u =? "AM") || (u =? "PM"))%string then Some (substring 0 2 s)
  else None.

Definition matchTimeHere (s : string) : option (string * string * string) :=
  let '(h, r1) := Js.spanDigits s in
  match h, r1 with
  | String _ _, String ":"%char r2 =>
      let '(m, r3) := Js.spanDigits r2 in
      let tail (r : string) :=
        option_map (fun ap => (h, m, ap)) (ampmHere (Js.trimStart r)) in
      match m with
      | EmptyString => None
      | String _ _ =>
          match r3 with
          | String ":"%char r4 =>
              let '(sec, r5) := Js.spanDigits r4 in
              match sec with
              | EmptyString => tail r3
              | String _ _ =>
                  match tail r5 with
                  | Some x => Some x
                  | None => tail r3
                  end
              end
          | _ => tail r3
          end
      end
  | _, _ => None
  end.

(** [timeStr.match(...)]: the leftmost position where the pattern matches. *)
Fixpoint matchTime (s : string) : option (string * string * string) :=
  match matchTimeHere s with
  | Some x => Some x
  | None =>
      match s with
      | EmptyString => None
      | String _ r => matchTime r
      end
  end.

(** The hour of the 24-hour clock that [parseDeadline] passes to
    [setHours]. *)
Definition hours24 (hours : Z) (ampm : string) : Z :=
  let hours := if (ampm =? "PM")%string && (hours <? 12)
               then hours + 12 else hours in
  if (ampm =? "AM")%string && (hours =? 12) then 0 else hours.

(** [parseDeadline]: [None] is [null]; [Some d] is a [Date] whose time value
    is [d] ([None] for an invalid date). *)
Definition parseDeadline (dateStr timeStr : string) : option (option Z) :=
  if negb (Js.truthy dateStr) || negb (Js.truthy timeStr) then None
  else
    let date := parseSheetDate dateStr in
    if date =? 0 then None
    else
      match matchTime timeStr with
      | None => None
      | Some (p1, p2, p5) =>
          match Js.parseInt p1, Js.parseInt p2 with
          | Some hours, Some minutes =>
              Some (JsDate.setHours LocalTZA date
                      (hours24 hours (Js.toUpperCase p5)) minutes 0 0)
          | _, _ => Some None
          end
      end.

End Utils.

(** ** The records of the three sheets *)

Record Ticket := mkTicket {
  issued_date : string;
  name : string;
  id_no : string;
  phone : string;
  account_name : string;
  account_type : string;
  account_link : string;
  departure : string;
  destination : string;
  departing_on : string;
  airline : string;
  base_fare : Z;
  booking_reference : string;
  net_amount : Z;
  paid : bool;
  payment_method : string;
  paid_date : string;
  commission : Z;
  remarks : string;
  extra_fare : Z;
  date_change : Z;
  gender : string;
  rowIndex : Z
}.

Record Settlement := mkSettlement {
  settlement_date : string;
  amount_paid : Z;
  s_payment_method : string;
  transaction_id : string;
  status : string;
  notes : string;
  s_rowIndex : Z
}.

Record Booking := mkBooking {
  b_name : string;
  b_id_no : string;
  b_phone : string;
  b_account_name : string;
  b_account_type : string;
  b_account_link : string;
  b_departure : string;
  b_destination : string;
  b_departing_on : string;
  pnr : string;
  remark : string;
  enddate : string;
  endtime : string;
  b_rowIndex : Z
}.

(** ** Fee rows and passenger names (manage.js, ui.js) *)

(** manage.js, [isFeeRow] *)
Definition isFeeRow (t : Ticket) : bool :=
  let name := Js.toLowerCase (name t) in
  let remarks := Js.toLowerCase (remarks t) in
  Js.includes name "(fees)" || Js.includes remarks "fee entry".

(** ui.js, [isFeeEntryRow] *)
Definition isFeeEntryRow (ticket : Ticket) : bool :=
  let name := name ticket in
  let remarks := Js.toLowerCase (remarks ticket) in
  Js.testFeesAtEnd name || Js.includes remarks "fee entry".

(** ui.js, [normalizePassengerName] *)
Definition normalizePassengerName (name : string) : string :=
  let raw := Js.trim name in
  if negb (Js.truthy raw) then "N/A"%string
  else Js.trim (Js.stripFees raw).

(** ** Unpaid grouping (ui.js, updateNotifications) *)

Record UnpaidGroup := mkGroup {
  g_pnr : string;
  passengers : list string;
  totalDue : Z
}.

(** [passengers.includes(cleanName)] *)
Definition inNames (n : string) (l : list string) : bool :=
  existsb (fun x => (x =? n)%string) l.

(** The body of the [forEach] for a ticket that is not skipped, on the group
    [g] of its PNR. *)
Definition addToGroup (t : Ticket) (g : UnpaidGroup) : UnpaidGroup :=
  let amt := net_amount t + extra_fare t + date_change t in
  let ps :=
    if Js.truthy (name t) then
      let cleanName := normalizePassengerName (name t) in
      if inNames cleanName (passengers g) then passengers g
      else passengers g ++ [cleanName]
    else passengers g in
  mkGroup (g_pnr g) ps (totalDue g + amt).

(** [unpaidGroups] is an object used as a map; its keys are kept in the
    order of their first insertion.  ([Object.values] lists keys that are
    array indices first; nothing below depends on the order of the groups.)
    The keys are upper-case, so none is a property of [Object.prototype]. *)
Fixpoint upsertGroup (t : Ticket) (k : string) (gs : list UnpaidGroup)
  : list UnpaidGroup :=
  match gs with
  | [] => [addToGroup t (mkGroup k [] 0)]
  | g :: r =>
      if (g_pnr g =? k)%string then addToGroup t g :: r
      else g :: upsertGroup t k r
  end.

Definition isCancelledOrRefunded (t : Ticket) : bool :=
  let lowerRemarks := Js.toLowerCase (remarks t) in
  Js.includes lowerRemarks "cancel" || Js.includes lowerRemarks "refund".

Definition unpaidStep (gs : list UnpaidGroup) (t : Ticket)
  : list UnpaidGroup :=
  if paid t then gs
  else if isCancelledOrRefunded t then gs
  else
    let k := Js.toUpperCase (Js.orElse (booking_reference t) "N/A") in
    upsertGroup t k gs.

Definition unpaidGroups (allTickets : list Ticket) : list UnpaidGroup :=
  fold_left unpaidStep allTickets [].

Definition sumZ {A : Type} (f : A -> Z) (l : list A) : Z :=
  fold_left (fun sum x => sum + f x) l 0.

(** ** Sorting *)

(** [array.sort(compare)]: the sort of an array is stable (ECMAScript 2019),
    which an insertion from the right is.  A ticket stays before a later one
    unless [compare] of the two is positive. *)
Fixpoint insertBy (compare : Ticket -> Ticket -> Z) (t : Ticket)
    (l : list Ticket) : list Ticket :=
  match l with
  | [] => [t]
  | h :: r =>
      if compare t h <=? 0 then t :: h :: r else h :: insertBy compare t r
  end.

Definition sortBy (compare : Ticket -> Ticket -> Z) (l : list Ticket)
  : list Ticket :=
  fold_right (insertBy compare) [] l.

(** ** Balance calculator (reports.js, exportToPdf; settlement.js,
       updateSettlementDashboard) *)

(** Comparisons of time values; a comparison with [NaN] is false. *)
Definition ltT (a b : option Z) : bool :=
  match a, b with Some x, Some y => x <? y | _, _ => false end.
Definition leT (a b : option Z) : bool :=
  match a, b with Some x, Some y => x <=? y | _, _ => false end.
Definition eqT (a b : option Z) : bool :=
  match a, b with Some x, Some y => x =? y | _, _ => false end.

Definition bindT (a : option Z) (f : Z -> option Z) : option Z :=
  match a with Some x => f x | None => None end.

(** [remarks?.toLowerCase().includes('full refund')] *)
Definition hasFullRefund (t : Ticket) : bool :=
  Js.includes (Js.toLowerCase (remarks t)) "full refund".

Definition revenueOf (ts : list Ticket) : Z :=
  sumZ (fun t => net_amount t + date_change t) ts.
Definition commissionOf (ts : list Ticket) : Z := sumZ commission ts.
Definition paidOf (ss : list Settlement) : Z := sumZ amount_paid ss.

(** The rows of the merged report: one per social account and issue date. *)
Record MergedRow := mkMerged {
  m_key : string;
  m_pax : Z;
  m_net_amount : Z;
  m_date_change : Z;
  m_commission : Z;
  m_names : list string
}.

Definition mergeInto (t : Ticket) (g : MergedRow) : MergedRow :=
  mkMerged (m_key g) (m_pax g + 1) (m_net_amount g + net_amount t)
    (m_date_change g + date_change t) (m_commission g + commission t)
    (if inNames (name t) (m_names g) then m_names g
     else m_names g ++ [name t]).

Fixpoint upsertMerged (t : Ticket) (k : string) (gs : list MergedRow)
  : list MergedRow :=
  match gs with
  | [] => [mergeInto t (mkMerged k 0 0 0 0 [])]
  | g :: r =>
      if (m_key g =? k)%string then mergeInto t g :: r
      else g :: upsertMerged t k r
  end.

Definition mergedData (ts : list Ticket) : list MergedRow :=
  fold_left
    (fun gs t => upsertMerged t (account_link t ++ "-" ++ issued_date t) gs)
    ts [].

Record Balance := mkBalance {
  totalNetAmount : Z;
  totalDateChange : Z;
  totalCommission : Z;
  previousEndOfMonthDue : Z;
  grandTotal : Z;
  totalSettlements : Z;
  amountToPay : Z
}.

Section Balance.

Variable LocalTZA : Z.
Variable DateParse : string -> option Z.

Let parseDate := parseSheetDate LocalTZA DateParse.
Let year := JsDate.getFullYear LocalTZA.
Let month := JsDate.getMonth LocalTZA.
Let day := JsDate.getDate LocalTZA.

(** [new Date(Date.UTC(2025, 10, 1))] *)
Definition RESET_DATE : option Z := JsDate.DateUTC 2025 10 1.

(** Month and year of the last instant before
    [new Date(d.getFullYear(), d.getMonth(), 1)]. *)
Definition previousMonthOf (d : option Z) : option Z * option Z :=
  let firstDayOfMonth :=
    bindT d (fun s => JsDate.newDate LocalTZA (year s) (month s) 1) in
  let lastDayOfPreviousMonth :=
    bindT firstDayOfMonth (fun f => JsDate.TimeClip (f - 1)) in
  (option_map month lastDayOfPreviousMonth,
   option_map year lastDayOfPreviousMonth).

Definition inMonth (m y : option Z) (s : string) : bool :=
  let d := parseDate s in
  eqT (Some (month d)) m && eqT (Some (year d)) y.

(** The branch for a period that starts before the reset date. *)
Definition legacyDue (start : option Z) (allTickets : list Ticket)
    (allSettlements : list Settlement) : Z :=
  let '(previousMonth, previousYear) := previousMonthOf start in
  let ticketsLastMonth :=
    filter (fun t => inMonth previousMonth previousYear (issued_date t)
                     && negb (hasFullRefund t)) allTickets in
  let settlementsLastMonth :=
    filter (fun s => inMonth previousMonth previousYear (settlement_date s))
      allSettlements in
  revenueOf ticketsLastMonth
  - (commissionOf ticketsLastMonth + paidOf settlementsLastMonth).

(** The branch for a period that starts on or after the reset date; [upTo]
    is the bound the caller compares with. *)
Definition resetDue (upTo : option Z) (allTickets : list Ticket)
    (allSettlements : list Settlement) : Z :=
  let filterStartDate := RESET_DATE in
  let ticketsBefore :=
    filter (fun t =>
              let ticketDate := Some (parseDate (issued_date t)) in
              leT filterStartDate ticketDate && ltT ticketDate upTo
              && negb (hasFullRefund t)) allTickets in
  let settlementsBefore :=
    filter (fun s =>
              let settlementDate := Some (parseDate (settlement_date s)) in
              leT filterStartDate settlementDate && ltT settlementDate upTo)
      allSettlements in
  revenueOf ticketsBefore
  - (commissionOf ticketsBefore + paidOf settlementsBefore).

(** exportToPdf, the carried-over balance of a date-range report whose
    period starts at [startDate]. *)
Definition reportPreviousDue (startDate : option Z)
    (allTickets : list Ticket) (allSettlements : list Settlement) : Z :=
  let reportStartDate :=
    bindT startDate (fun s => JsDate.DateUTC (year s) (month s) (day s)) in
  if ltT reportStartDate RESET_DATE
  then legacyDue startDate allTickets allSettlements
  else resetDue startDate allTickets allSettlements.

Definition inRange (startDate endDate : option Z) (s : string) : bool :=
  let d := Some (parseDate s) in leT startDate d && leT d endDate.

(** exportToPdf with export type 'range': the figures of the settlement
    table, [None] when the export stops because no ticket is in range.  The
    tickets are sorted by issue date, oldest first, before the table is
    built. *)
Definition exportToPdf (isMerged : bool) (startDateStr endDateStr : string)
    (allTickets : list Ticket) (allSettlements : list Settlement)
  : option Balance :=
  let startDate :=
    JsDate.setHours LocalTZA (parseDate startDateStr) 0 0 0 0 in
  let endDate :=
    JsDate.setHours LocalTZA (parseDate endDateStr) 23 59 59 999 in
  let ticketsToExport :=
    filter (fun t => inRange startDate endDate (issued_date t)) allTickets in
  match ticketsToExport with
  | [] => None
  | _ :: _ =>
      let sorted :=
        sortBy (fun a b => parseDate (issued_date a)
                           - parseDate (issued_date b)) ticketsToExport in
      let '(net, dc, com) :=
        if isMerged then
          let rows := mergedData sorted in
          (sumZ m_net_amount rows, sumZ m_date_change rows,
           sumZ m_commission rows)
        else
          (sumZ net_amount sorted, sumZ date_change sorted,
           sumZ commission sorted) in
      let previous := reportPreviousDue startDate allTickets allSettlements in
      let grand := net + dc + previous in
      let settlementsInRange :=
        filter (fun s => inRange startDate endDate (settlement_date s))
          allSettlements in
      let settled := paidOf settlementsInRange in
      Some (mkBalance net dc com previous grand settled
              (grand - (com + settled)))
  end.

(** updateSettlementDashboard at the instant [now]. *)
Definition dashboardPreviousDue (now : Z) (allTickets : list Ticket)
    (allSettlements : list Settlement) : Z :=
  let currentMonth := month now in
  let currentYear := year now in
  let firstDayOfCurrentMonth := JsDate.DateUTC currentYear currentMonth 1 in
  if ltT firstDayOfCurrentMonth RESET_DATE
  then legacyDue (Some now) allTickets allSettlements
  else resetDue firstDayOfCurrentMonth allTickets allSettlements.

Definition ticketsThisMonth (now : Z) (allTickets : list Ticket)
  : list Ticket :=
  filter (fun t => inMonth (Some (month now)) (Some (year now))
                     (issued_date t)
                   && negb (hasFullRefund t)) allTickets.

Record Dashboard := mkDashboard {
  revenueThisMonth : Z;
  commissionThisMonth : Z;
  extraFareThisMonth : Z;
  totalSettlementsThisMonth : Z;
  dashPreviousDue : Z;
  totalOutstandingRevenue : Z;
  endOfMonthSettlement : Z;
  totalProfitThisMonth : Z
}.

Definition updateSettlementDashboard (now : Z) (allTickets : list Ticket)
    (allSettlements : list Settlement) : Dashboard :=
  let previous := dashboardPreviousDue now allTickets allSettlements in
  let ts := ticketsThisMonth now allTickets in
  let revenue := revenueOf ts in
  let com := commissionOf ts in
  let extra := sumZ extra_fare ts in
  let settled :=
    paidOf (filter (fun s => inMonth (Some (month now)) (Some (year now))
                               (settlement_date s)) allSettlements) in
  let outstanding := (revenue + previous) - settled in
  mkDashboard revenue com extra settled previous outstanding
    (outstanding - com) (com + extra).

End Balance.

(** ** The remote sheet and asynchronous calls *)

(** How a request to the sheet ends: resolved, or rejected with the error's
    message. *)
Inductive Response := Resolved | Rejected (message : string).

(** One element of the [data] of [batchUpdateSheet]: the row of the range
    [Sheet!A<row>:<last column><row>] and the values written there. *)
Record BatchEntry (V : Type) := mkEntry { e_row : Z; e_values : V }.
Arguments mkEntry {V} _ _.
Arguments e_row {V} _.
Arguments e_values {V} _.

(** An asynchronous function with at most a chain of awaited requests:
    [Await st req k] has issued [req] while the application state is [st],
    and continues with [k] when the request settles. *)
Inductive Async (St Req : Type) : Type :=
| Done (st : St)
| Await (st : St) (req : Req) (k : Response -> Async St Req).
Arguments Done {St Req} _.
Arguments Await {St Req} _ _ _.

(** Run to completion against a remote end that answers each request. *)
Fixpoint run {St Req : Type} (remote : Req -> Response) (p : Async St Req)
  : St :=
  match p with
  | Done st => st
  | Await _ req k => run remote (k (remote req))
  end.

(** The requests issued on the way. *)
Fixpoint requests {St Req : Type} (remote : Req -> Response)
    (p : Async St Req) : list Req :=
  match p with
  | Done _ => []
  | Await _ req k => req :: requests remote (k (remote req))
  end.

(** Overwrite position [n] of a list of rows.  Every row index the callers
    write comes from the parser, so it lies inside the data; outside, the
    list is left as it is. *)
Fixpoint setNth {A : Type} (n : nat) (v : A) (l : list A) : list A :=
  match n, l with
  | O, _ :: r => v :: r
  | S n', x :: r => x :: setNth n' v r
  | _, [] => []
  end.

(** Sheet row [row] is position [row - 2] of the data. *)
Definition writeRow {A : Type} (l : list A) (e : BatchEntry A) : list A :=
  if e_row e <? 2 then l else setNth (Z.to_nat (e_row e - 2)) (e_values e) l.

Definition applyBatch {A : Type} (data : list (BatchEntry A)) (l : list A)
  : list A :=
  fold_left writeRow data l.

(** ** booking.js *)

Definition Toast : Type := string * string.

Record AppState := mkState {
  allBookings : list Booking;
  isSubmitting : bool;
  (** whether [state.cache['bookingData']] holds a response *)
  bookingCache : bool;
  (** the messages passed to [showToast], oldest first *)
  toasts : list Toast
}.

Definition setBookings (bs : list Booking) (st : AppState) : AppState :=
  mkState bs (isSubmitting st) (bookingCache st) (toasts st).
Definition setSubmitting (b : bool) (st : AppState) : AppState :=
  mkState (allBookings st) b (bookingCache st) (toasts st).
Definition clearBookingCache (st : AppState) : AppState :=
  mkState (allBookings st) (isSubmitting st) false (toasts st).
Definition showToast (message type : string) (st : AppState) : AppState :=
  mkState (allBookings st) (isSubmitting st) (bookingCache st)
    (toasts st ++ [(message, type)]).

(** The toast of [batchUpdateSheet] when the request is rejected. *)
Definition updateErrorToast (message : string) : AppState -> AppState :=
  showToast ("Update Error: " ++ message) "error".

Definition trimBooking (b : Booking) (i : Z) : Booking :=
  mkBooking (Js.trim (b_name b)) (Js.trim (b_id_no b)) (Js.trim (b_phone b))
    (Js.trim (b_account_name b)) (Js.trim (b_account_type b))
    (Js.trim (b_account_link b)) (Js.trim (b_departure b))
    (Js.trim (b_destination b)) (Js.trim (b_departing_on b))
    (Js.trim (pnr b)) (Js.trim (remark b)) (Js.trim (enddate b))
    (Js.trim (endtime b)) i.

Fixpoint parseRowsFrom (i : Z) (rows : list Booking) : list Booking :=
  match rows with
  | [] => []
  | r :: rest => trimBooking r i :: parseRowsFrom (i + 1) rest
  end.

(** [parseBookingData] on the rows below the header: every cell trimmed,
    [rowIndex = i + 2]. *)
Definition parseBookingData (rows : list Booking) : list Booking :=
  parseRowsFrom 2 rows.

(** [!booking.remark || String(booking.remark).trim() === ''] *)
Definition hasNoAction (b : Booking) : bool :=
  negb (Js.truthy (remark b)) || (Js.trim (remark b) =? "")%string.

(** The values array written for a booking, with the remark replaced. *)
Definition bookingValues (b : Booking) (newRemark : string) : Booking :=
  mkBooking (b_name b) (b_id_no b) (b_phone b) (b_account_name b)
    (b_account_type b) (b_account_link b) (b_departure b) (b_destination b)
    (b_departing_on b) (pnr b) newRemark (enddate b) (endtime b)
    (b_rowIndex b).

Definition bookingEntry (newRemark : string) (b : Booking)
  : BatchEntry Booking :=
  mkEntry (b_rowIndex b) (bookingValues b newRemark).

(** [rowIndices.includes(b.rowIndex)] *)
Definition includesRow (rowIndices : list Z) (r : Z) : bool :=
  existsb (fun x => x =? r) rowIndices.

Definition withoutRows (rowIndices : list Z) (bs : list Booking)
  : list Booking :=
  filter (fun b => negb (includesRow rowIndices (b_rowIndex b))) bs.

Section Bookings.

Variable LocalTZA : Z.
Variable DateParse : string -> option Z.

(** [deadline && deadline < now] *)
Definition deadlinePassed (now : Z) (b : Booking) : bool :=
  match parseDeadline LocalTZA DateParse (enddate b) (endtime b) with
  | Some (Some deadline) => deadline <? now
  | _ => false
  end.

Definition isExpired (now : Z) (b : Booking) : bool :=
  hasNoAction b && deadlinePassed now b.

(** [handleExpiredBookings], after the batch write has settled: the rest of
    the [try] block, or the [catch] block. *)
Definition afterSweep (st : AppState)
    (expiredBookingsToUpdate : list (BatchEntry Booking)) (r : Response)
  : Async AppState (list (BatchEntry Booking)) :=
  match r with
  | Resolved =>
      let st1 := clearBookingCache st in
      let updatedRowIndices := map e_row expiredBookingsToUpdate in
      Done (setBookings (withoutRows updatedRowIndices (allBookings st1)) st1)
  | Rejected message =>
      Done (showToast "Could not update expired bookings automatically."
              "error" (updateErrorToast message st))
  end.

(** [handleExpiredBookings] at the instant [now] *)
Definition handleExpiredBookings (now : Z) (st : AppState)
  : Async AppState (list (BatchEntry Booking)) :=
  let expiredBookingsToUpdate :=
    map (bookingEntry "end") (filter (isExpired now) (allBookings st)) in
  match expiredBookingsToUpdate with
  | [] => Done st
  | _ :: _ =>
      Await st expiredBookingsToUpdate (afterSweep st expiredBookingsToUpdate)
  end.

(** [loadBookingData] once the sheet has answered with [rows] ([None] when
    the response has no values). *)
Definition loadBookingData (now : Z) (rows : option (list Booking))
    (st : AppState) : Async AppState (list (BatchEntry Booking)) :=
  match rows with
  | Some values =>
      handleExpiredBookings now (setBookings (parseBookingData values) st)
  | None => Done (setBookings [] st)
  end.

(** The list [displayBookings] shows: no remark, travel date not before
    [today] (local midnight of the current day). *)
Definition activeBookings (today : Z) (st : AppState) : list Booking :=
  filter (fun b =>
            hasNoAction b
            && (today <=? parseSheetDate LocalTZA DateParse
                            (b_departing_on b)))
    (allBookings st).

End Bookings.

(** [updateBookingStatus]; [displayBookings] and [updateNotifications]
    render the state and are left out. *)
Definition updateBookingStatus (rowIndices : list Z) (remarks : string)
    (st : AppState) : Async AppState (list (BatchEntry Booking)) :=
  if isSubmitting st then Done st
  else
    let st1 :=
      showToast "Updating booking status..." "info" (setSubmitting true st) in
    let bookingsToUpdate :=
      flat_map (fun rowIndex =>
                  match find (fun b => b_rowIndex b =? rowIndex)
                          (allBookings st1) with
                  | Some b => [b]
                  | None => []
                  end) rowIndices in
    let originalAllBookings := allBookings st1 in
    let st2 := setBookings (withoutRows rowIndices (allBookings st1)) st1 in
    let rollback (s : AppState) :=
      setSubmitting false (setBookings originalAllBookings s) in
    let data := map (bookingEntry remarks) bookingsToUpdate in
    match data with
    | [] => Done (rollback st2)
    | _ :: _ =>
        Await st2 data (fun r =>
          match r with
          | Resolved =>
              Done (setSubmitting false
                      (showToast "Booking updated successfully!" "success"
                         (clearBookingCache st2)))
          | Rejected message => Done (rollback (updateErrorToast message st2))
          end)
    end.

(** ** manage.js, handleUpdateTicket *)

(** [String(n)] for an integer *)
Definition showZ (n : Z) : string := NilZero.string_of_int (Z.to_int n).

(** [String(n).padStart(2, '0')] *)
Definition pad2 (n : Z) : string :=
  let s := showZ n in
  match s with
  | String _ EmptyString => String "0"%char s
  | EmptyString => "00"%string
  | _ => s
  end.

(** utils.js, [formatPaymentMethod] *)
Definition formatPaymentMethod (method bank : string) : string :=
  let m := Js.trim method in
  let b := Js.trim bank in
  if negb (Js.truthy m) then ""%string
  else if (m =? "Mobile Banking")%string && Js.truthy b
       then ("Mobile Banking (" ++ b ++ ")")%string
       else m.

(** The values of the update form, as [handleUpdateTicket] reads them. *)
Record UpdateForm := mkForm {
  f_pnr : string;
  update_departing_on : string;
  (** [parseFloat(value)]; [None] is [NaN], an empty field *)
  update_base_fare : option Z;
  update_net_amount : option Z;
  update_commission : option Z;
  (** [parseFloat(value) || 0] *)
  date_change_fees : Z;
  update_extra_fare : Z;
  update_paid : bool;
  update_payment_method : string;
  update_payment_method_bank : string;
  update_paid_date : string
}.

(** Which of the two requests of an update the sheet rejects. *)
Record Remote := mkRemote { batchUpdateOk : bool; appendOk : bool }.

Inductive UpdateOutcome :=
| Threw                               (** no ticket has the PNR *)
| NoChanges                           (** 'No changes were made.' *)
| UpdateFailed (sheet : list Ticket)  (** a request was rejected *)
| Updated (sheet : list Ticket).

Definition setRowIndex (i : Z) (t : Ticket) : Ticket :=
  mkTicket (issued_date t) (name t) (id_no t) (phone t) (account_name t)
    (account_type t) (account_link t) (departure t) (destination t)
    (departing_on t) (airline t) (base_fare t) (booking_reference t)
    (net_amount t) (paid t) (payment_method t) (paid_date t) (commission t)
    (remarks t) (extra_fare t) (date_change t) (gender t) i.

(** [appendToSheet]: the row goes below the last row of the data. *)
Definition appendRow (sheet : list Ticket) (row : Ticket) : list Ticket :=
  sheet ++ [setRowIndex (Z.of_nat (List.length sheet) + 2) row].

(** The payment fields computed from the form and the first ticket of the
    PNR. *)
Record Payment := mkPayment {
  finalPaid : bool;
  finalPaymentMethod : string;
  finalPaidDate : string
}.

Definition hasNewFees (form : UpdateForm) : bool :=
  (0 <? date_change_fees form) || (0 <? update_extra_fare form).

Section Manage.

Variable LocalTZA : Z.
Variable DateParse : string -> option Z.

(** [formatDateForSheet] of a [Date] *)
Definition formatTime (t : Z) : string :=
  (pad2 (JsDate.getMonth LocalTZA t + 1) ++ "/"
   ++ pad2 (JsDate.getDate LocalTZA t) ++ "/"
   ++ showZ (JsDate.getFullYear LocalTZA t))%string.

(** [formatDateForSheet] of a string *)
Definition formatDateForSheet (dateString : string) : string :=
  if negb (Js.truthy dateString) then ""%string
  else match DateParse dateString with
       | Some t => formatTime t
       | None => dateString
       end.

Definition originalMethod (originalTicket : Ticket) : string :=
  Js.trim (payment_method originalTicket).

Definition originalPaidDate (originalTicket : Ticket) : string :=
  if paid originalTicket then formatDateForSheet (paid_date originalTicket)
  else ""%string.

Definition finalPayment (now : Z) (form : UpdateForm)
    (originalTicket : Ticket) : Payment :=
  let newPaymentMethod :=
    formatPaymentMethod (Js.trim (update_payment_method form))
      (Js.trim (update_payment_method_bank form)) in
  let newPaidDate := Js.trim (update_paid_date form) in
  let finalPaid := update_paid form in
  mkPayment finalPaid
    (if finalPaid
     then Js.orElse newPaymentMethod (originalMethod originalTicket)
     else ""%string)
    (if finalPaid then
       (if Js.truthy newPaidDate then formatDateForSheet newPaidDate
        else Js.orElse (originalPaidDate originalTicket) (formatTime now))
     else ""%string).

(** One flag per entry that the code may push to [historyDetails]. *)
Definition historyDetails (form : UpdateForm) (pay : Payment)
    (originalTicket : Ticket) : list bool :=
  let newTravelDateVal := update_departing_on form in
  let differs (v : option Z) (old : Z) :=
    match v with Some x => negb (x =? old) | None => false end in
  [ Js.truthy newTravelDateVal
    && negb (parseSheetDate LocalTZA DateParse newTravelDateVal
             =? parseSheetDate LocalTZA DateParse
                  (departing_on originalTicket));
    differs (update_base_fare form) (base_fare originalTicket);
    differs (update_net_amount form) (net_amount originalTicket);
    differs (update_commission form) (commission originalTicket);
    0 <? date_change_fees form;
    0 <? update_extra_fare form;
    negb (hasNewFees form)
    && negb (eqb (finalPaid pay) (paid originalTicket));
    negb (hasNewFees form)
    && negb (finalPaymentMethod pay
             =? (if finalPaid pay then originalMethod originalTicket
                 else ""))%string;
    negb (hasNewFees form)
    && negb (finalPaidDate pay
             =? (if finalPaid pay then originalPaidDate originalTicket
                 else ""))%string ].

(** The travel date written to a row. *)
Definition departingOn (form : UpdateForm) (t : Ticket) : string :=
  if Js.truthy (update_departing_on form)
  then formatDateForSheet (update_departing_on form)
  else departing_on t.

(** The [values] written over the row of [ticket]. *)
Definition rowValues (form : UpdateForm) (pay : Payment) (ticket : Ticket)
  : Ticket :=
  let rowPaid := if hasNewFees form then paid ticket else finalPaid pay in
  let rowMethod := if hasNewFees form then payment_method ticket
                   else finalPaymentMethod pay in
  let rowPaidDate := if hasNewFees form then paid_date ticket
                     else finalPaidDate pay in
  let pick (v : option Z) (old : Z) :=
    match v with
    | Some x => if negb (isFeeRow ticket) then x else old
    | None => old
    end in
  mkTicket (issued_date ticket) (name ticket) (id_no ticket) (phone ticket)
    (account_name ticket) (account_type ticket) (account_link ticket)
    (departure ticket) (destination ticket) (departingOn form ticket)
    (airline ticket)
    (pick (update_base_fare form) (base_fare ticket))
    (booking_reference ticket)
    (pick (update_net_amount form) (net_amount ticket))
    rowPaid rowMethod rowPaidDate
    (pick (update_commission form) (commission ticket))
    (remarks ticket) (extra_fare ticket) (date_change ticket)
    (gender ticket) (rowIndex ticket).

(** The new row for the fees. *)
Definition feeRow (now : Z) (form : UpdateForm) (pay : Payment)
    (originalTicket : Ticket) : Ticket :=
  let today := formatTime now in
  let newPaidDate := Js.trim (update_paid_date form) in
  let feePaidDate :=
    if finalPaid pay then
      (if Js.truthy newPaidDate then formatDateForSheet newPaidDate
       else today)
    else ""%string in
  mkTicket today (name originalTicket ++ " (Fees)")
    (id_no originalTicket) (phone originalTicket)
    (account_name originalTicket) (account_type originalTicket)
    (account_link originalTicket) (departure originalTicket)
    (destination originalTicket) (departingOn form originalTicket)
    (airline originalTicket) 0 (booking_reference originalTicket) 0
    (finalPaid pay) (finalPaymentMethod pay) feePaidDate 0 "Fee Entry"
    (update_extra_fare form) (date_change_fees form)
    (gender originalTicket) 0.

(** [handleUpdateTicket] at the instant [now], on the tickets in memory,
    which mirror the sheet; the result is the sheet after the writes.  A
    request is accepted or rejected as a whole.  The history entry and the
    reloads that follow the writes do not touch the ticket sheet and are left
    out. *)
Definition handleUpdateTicket (now : Z) (form : UpdateForm)
    (remote : Remote) (allTickets : list Ticket) : UpdateOutcome :=
  let pnr := f_pnr form in
  let ticketsToUpdate :=
    filter (fun t => (booking_reference t =? pnr)%string) allTickets in
  match ticketsToUpdate with
  | [] => Threw
  | originalTicket :: _ =>
      let pay := finalPayment now form originalTicket in
      if negb (existsb (fun b => b) (historyDetails form pay originalTicket))
      then NoChanges
      else
        let dataForBatchUpdate :=
          map (fun ticket =>
                 mkEntry (rowIndex ticket) (rowValues form pay ticket))
            ticketsToUpdate in
        if negb (batchUpdateOk remote) then UpdateFailed allTickets
        else
          let sheet1 := applyBatch dataForBatchUpdate allTickets in
          if hasNewFees form then
            if negb (appendOk remote) then UpdateFailed sheet1
            else Updated (appendRow sheet1 (feeRow now form pay originalTicket))
          else Updated sheet1
  end.

End Manage.

(** The in-memory tickets mirror the sheet: the ticket at position [i] is
    sheet row [i + 2]. *)
Definition wellIndexed (sheet : list Ticket) : Prop :=
  forall i t, nth_error sheet i = Some t -> rowIndex t = Z.of_nat i + 2.

(** The frame of an update that only adds fees: what a row keeps. *)
Definition keepsAmounts (t t' : Ticket) : Prop :=
  paid t' = paid t /\ payment_method t' = payment_method t
  /\ paid_date t' = paid_date t /\ net_amount t' = net_amount t
  /\ base_fare t' = base_fare t /\ commission t' = commission t
  /\ extra_fare t' = extra_fare t /\ date_change t' = date_change t
  /\ booking_reference t' = booking_reference t /\ name t' = name t
  /\ remarks t' = remarks t.

(** The fare fields of the form are left as they are on a row: each is
    empty or holds the value the row already has. *)
Definition faresUntouched (form : UpdateForm) (t : Ticket) : Prop :=
  (forall v, update_base_fare form = Some v -> v = base_fare t)
  /\ (forall v, update_net_amount form = Some v -> v = net_amount t)
  /\ (forall v, update_commission form = Some v -> v = commission t).

(** ** Hosts, and the figures as the specification words them *)

(** Asia/Yangon, UTC+06:30, where the amounts are in MMK. *)
Definition yangonTZA : Z := 23400000.

(** A generic date parser in the manner of the legacy parser of V8: it reads
    [month/day/year] with any day from 1 to 31, lets a day past the end of
    the month roll into the next month, and rejects everything else. *)
Definition lenientDateParse (LocalTZA : Z) (s : string) : option Z :=
  let '(a, r1) := Js.spanDigits s in
  match r1 with
  | String "/"%char r2 =>
      let '(b, r3) := Js.spanDigits r2 in
      match r3 with
      | String "/"%char r4 =>
          let '(c, r5) := Js.spanDigits r4 in
          match Js.parseInt a, Js.parseInt b, Js.parseInt c, r5 with
          | Some mo, Some d, Some y, EmptyString =>
              if (1 <=? mo) && (mo <=? 12) && (1 <=? d) && (d <=? 31)
                 && (100 <=? y)
              then JsDate.newDate LocalTZA y (mo - 1) d
              else None
          | _, _, _, _ => None
          end
      | _ => None
      end
  | _ => None
  end.

(** A generic date parser that rejects every string. *)
Definition strictDateParse (s : string) : option Z := None.

(** A ticket with the given fields and every other field empty. *)
Definition ticketOf (row : Z) (issued nm ref rem : string)
    (net extra change com : Z) (pd : bool) : Ticket :=
  mkTicket issued nm "" "" "" "" "" "" "" "" "" 0 ref net pd "" "" com rem
    extra change "" row.

(** The two tickets of the scenario on unpaid grouping. *)
Definition scenarioTickets : list Ticket :=
  [ ticketOf 2 "" "JOHN (Fees)" "AB1" "Fee Entry" 0 5000 0 0 false;
    ticketOf 3 "" "MR JOHN" "AB1" "" 100000 0 0 0 false ]%string.

(** A ticket counts as unpaid and not cancelled. *)
Definition unpaidActive (t : Ticket) : bool :=
  negb (paid t) && negb (isCancelledOrRefunded t).

Definition amountOf (t : Ticket) : Z :=
  net_amount t + extra_fare t + date_change t.

(** The key under which a ticket is grouped. *)
Definition groupKey (t : Ticket) : string :=
  Js.toUpperCase (Js.orElse (booking_reference t) "N/A").

(** Calendar days, as (year, month, day), compared in order. *)
Definition Civil : Type := Z * Z * Z.

Definition civilOf (LocalTZA : Z) (t : Z) : Civil :=
  (JsDate.getFullYear LocalTZA t, JsDate.getMonth LocalTZA t,
   JsDate.getDate LocalTZA t).

Definition civilOfDay (n : Z) : Civil :=
  (JsDate.YearFromDay n, JsDate.MonthFromDay n, JsDate.DateFromDay n).

Definition civilLt (a b : Civil) : bool :=
  let '(y1, m1, d1) := a in
  let '(y2, m2, d2) := b in
  (y1 <? y2) || ((y1 =? y2) && ((m1 <? m2) || ((m1 =? m2) && (d1 <? d2)))).

Definition civilLe (a b : Civil) : bool := negb (civilLt b a).

Definition cutover : Civil := (2025, 10, 1).

Section SpecBalance.

Variable LocalTZA : Z.
Variable DateParse : string -> option Z.

Let dayOf (s : string) : Civil :=
  civilOf LocalTZA (parseSheetDate LocalTZA DateParse s).

(** The carried-over balance in the words of the specification, for a period
    that starts on the calendar day [start]: before the cut-over day, the
    figures of the calendar month before; from the cut-over day on, the
    figures of every day from the cut-over day (included) to the start of the
    period (excluded).  As everywhere in the balance, a ticket with a full
    refund does not count. *)
Definition specPreviousDue (start : Civil) (allTickets : list Ticket)
    (allSettlements : list Settlement) : Z :=
  let '(y, m, _) := start in
  let within (s : string) : bool :=
    if civilLt start cutover then
      let '(py, pm) := if m =? 0 then (y - 1, 11) else (y, m - 1) in
      let '(ty, tm, _) := dayOf s in
      (ty =? py) && (tm =? pm)
    else civilLe cutover (dayOf s) && civilLt (dayOf s) start in
  let ts := filter (fun t => within (issued_date t)
                             && negb (hasFullRefund t)) allTickets in
  let ss := filter (fun s => within (settlement_date s)) allSettlements in
  revenueOf ts - commissionOf ts - paidOf ss.

(** The revenue of a period in the words of the specification: the tickets
    issued from [startDate] to [endDate] whose remarks name neither a
    cancellation nor a refund. *)
Definition specRevenue (startDate endDate : option Z)
    (allTickets : list Ticket) : Z :=
  revenueOf
    (filter (fun t => inRange LocalTZA DateParse startDate endDate
                        (issued_date t)
                      && negb (isCancelledOrRefunded t)) allTickets).

End SpecBalance.

(** A MM/DD/YYYY and a DD-Mon-YYYY spelling of the day [d] of month [m]
    (0 = January) of year [y]: decimal numerals, with or without leading
    zeros, and the English abbreviation of the month in any case. *)
Definition allDigits : string -> bool := Js.allChars Js.isDigit.

Definition numeral (s : string) (n : Z) : Prop :=
  s <> EmptyString /\ allDigits s = true /\ Js.digitsValue 0 s = n.

Definition spellsMDY (s : string) (y m d : Z) : Prop :=
  exists a b c,
    s = (a ++ "/" ++ b ++ "/" ++ c)%string
    /\ numeral a (m + 1) /\ numeral b d /\ numeral c y.

Definition spellsDMonY (s : string) (y m d : Z) : Prop :=
  exists a mon c,
    s = (a ++ "-" ++ mon ++ "-" ++ c)%string
    /\ numeral a d /\ lookup monthMap (Js.toUpperCase mon) = Some m
    /\ numeral c y.

(** A day of the calendar with a four-digit year after 1900. *)
Definition validDay (y m d : Z) : Prop :=
  1900 < y <= 9999 /\ 0 <= m < 12 /\ 1 <= d <= JsDate.daysInMonth y m.

(** [s.endsWith(p)] *)
Definition endsWith (s p : string) : bool :=
  (length p <=? length s)%nat
  && (substring (length s - length p) (length p) s =? p)%string.

(** A fee entry in the words of the specification: the name ends with
    "(Fees)", in any case, or the remarks contain "fee entry". *)
Definition specIsFee (t : Ticket) : bool :=
  endsWith (Js.toLowerCase (name t)) "(fees)"
  || Js.includes (Js.toLowerCase (remarks t)) "fee entry".

(** A ticket whose name has "(Fees)" in the middle. *)
Definition feesInsideName : Ticket :=
  ticketOf 2 "11/05/2025" "JOHN (Fees) JR" "AB1" "" 100000 0 0 0 false.

(** A ticket issued on the cut-over day, and one partly cancelled. *)
Definition cutoverDayTicket : Ticket :=
  ticketOf 2 "11/01/2025" "JOHN" "AB1" "" 100000 0 0 0 true.

Definition cancelledTicket : Ticket :=
  ticketOf 2 "11/05/2025" "JOHN" "AB1"
    "Canceled on 11/06/2025 with 50,000 refund" 30000 0 0 0 true.

(** Local midnight of 1 December 2025 and noon of 15 December 2025, and noon
    of 15 November 2025, in Yangon. *)
Definition dec1Yangon : Z := 1764523800000.
Definition dec15NoonYangon : Z := 1765776600000.
Definition nov15NoonYangon : Z := 1763184600000.

Definition decemberTicket : Ticket :=
  ticketOf 3 "12/02/2025" "MARY" "CD2" "" 5 0 0 0 true.

Definition decemberFirstTicket : Ticket :=
  ticketOf 4 "12/01/2025" "PAUL" "EF3" "" 70000 0 0 0 true.

(** A state with two active bookings, on sheet rows 2 and 3. *)
Definition bookingOf (row : Z) (nm travel ref rem d t : string) : Booking :=
  mkBooking nm "" "" "" "" "" "" "" travel ref rem d t row.

Definition twoBookings : AppState :=
  mkState
    [ bookingOf 2 "JOHN" "12/20/2025" "AB1" "" "12/01/2025" "05:00 PM";
      bookingOf 3 "MARY" "12/24/2025" "CD2" "" "" "" ]%string
    false true [].

(** A PNR of two passengers with different fares and an earlier fee row, and
    a form that adds an extra fare of 5000 and leaves the fares empty. *)
Definition pnrSheet : list Ticket :=
  [ mkTicket "10/01/2025" "JOHN" "" "" "" "" "" "" "" "11/20/2025" "" 90000
      "AB1" 100000 true "Cash" "10/01/2025" 4000 "" 0 0 "MR" 2;
    mkTicket "10/01/2025" "MARY" "" "" "" "" "" "" "" "11/20/2025" "" 60000
      "AB1" 75000 false "" "" 3000 "" 0 0 "MISS" 3;
    mkTicket "10/02/2025" "PAUL" "" "" "" "" "" "" "" "11/22/2025" "" 50000
      "CD2" 55000 false "" "" 2000 "" 0 0 "MR" 4;
    mkTicket "10/05/2025" "JOHN (Fees)" "" "" "" "" "" "" "" "11/20/2025" ""
      0 "AB1" 0 true "Cash" "10/05/2025" 0 "Fee Entry" 0 20000 "MR" 5
  ]%string.

Definition extraFareForm : UpdateForm :=
  mkForm "AB1" "" None None None 0 5000 false "" "" "".

(** The keys of the groups, and the total of one key. *)
Definition keysOf (gs : list UnpaidGroup) : list string := map g_pnr gs.

Definition dueOfKey (k : string) (gs : list UnpaidGroup) : Z :=
  sumZ totalDue (filter (fun g => (g_pnr g =? k)%string) gs).

(** Characters that are neither white space nor a date separator: a string
    of them is one part of a date, untouched by [trim] and [split]. *)
Definition plain (c : ascii) : bool :=
  negb (Js.isSpace c) && negb (Js.isDateSep c).

(** The same form with the net amount of the first ticket typed in. *)
Definition extraFareFormWithNet : UpdateForm :=
  mkForm "AB1" "" None (Some 100000) None 0 5000 false "" "" "".

(** ** manage.js: cancelling, voiding and updating single rows *)

(** The two actions of the cancel sub-modal; [refundLabel] is
    [refundAmount.toLocaleString()], which the host formats. *)
Inductive CancelType :=
| Refund
| Cancel (cancellationFee : Z) (refundLabel : string).

(** [state.allTickets.find(t => t.rowIndex === rowIndex)] *)
Definition findRow (row : Z) (allTickets : list Ticket) : option Ticket :=
  find (fun t => rowIndex t =? row) allTickets.

(** [updatedValues] of [handleCancelTicket].  The 22 values of the row are
    the fields of the ticket in the order of the columns A to V; index 11 is
    the base fare, 13 the net amount, 17 the commission, 18 the remarks. *)
Definition cancelValues (dateStr : string) (type : CancelType)
    (ticket : Ticket) : Ticket :=
  match type with
  | Refund =>
      mkTicket (issued_date ticket) (name ticket) (id_no ticket)
        (phone ticket) (account_name ticket) (account_type ticket)
        (account_link ticket) (departure ticket) (destination ticket)
        (departing_on ticket) (airline ticket) 0 (booking_reference ticket)
        0 (paid ticket) (payment_method ticket) (paid_date ticket) 0
        ("Full Refund on " ++ dateStr) (extra_fare ticket)
        (date_change ticket) (gender ticket) (rowIndex ticket)
  | Cancel cancellationFee refundLabel =>
      mkTicket (issued_date ticket) (name ticket) (id_no ticket)
        (phone ticket) (account_name ticket) (account_type ticket)
        (account_link ticket) (departure ticket) (destination ticket)
        (departing_on ticket) (airline ticket) (base_fare ticket)
        (booking_reference ticket) cancellationFee (paid ticket)
        (payment_method ticket) (paid_date ticket) (commission ticket)
        ("Canceled on " ++ dateStr ++ " with " ++ refundLabel ++ " refund")
        (extra_fare ticket) (date_change ticket) (gender ticket)
        (rowIndex ticket)
  end.


(** [updateSheet] on the row of the range: the sheet after the request, which
    is accepted ([ok]) or rejected as a whole. *)
Definition updateSheet (ok : bool) (rowIndex : Z) (values : Ticket)
    (sheet : list Ticket) : list Ticket :=
  if ok then writeRow sheet (mkEntry rowIndex values) else sheet.


Section ManageRows.

Variable LocalTZA : Z.
Variable DateParse : string -> option Z.

(** [handleCancelTicket] once the user has confirmed, at the instant [now]:
    the sheet after the write.  Nothing is written when no ticket has the
    row index. *)
Definition handleCancelTicket (now : Z) (rowIndex : Z) (type : CancelType)
    (ok : bool) (allTickets : list Ticket) : list Ticket :=
  match findRow rowIndex allTickets with
  | None => allTickets
  | Some ticket =>
      let dateStr := formatTime LocalTZA now in
      updateSheet ok rowIndex (cancelValues dateStr type ticket) allTickets
  end.




End ManageRows.

(** manage.js, [findTicketForManage]: the tickets of a PNR, before they are
    sorted for display. *)
Definition ticketsOfPnr (pnr : string) (allTickets : list Ticket)
  : list Ticket :=
  filter (fun t => (booking_reference t =? pnr)%string) allTickets.

(** manage.js, [remarkCheck] of [displayManageResults]: the row shows a
    disabled 'Refunded' button instead of 'Manage'. *)
Definition remarkCheck (r : string) : bool :=
  if negb (Js.truthy r) then false
  else
    let lowerRemark := Js.toLowerCase r in
    Js.includes lowerRemark "refund" || Js.includes lowerRemark "cancel".

(** The contribution of a ticket to the total of the unpaid groups. *)
Definition unpaidShare (t : Ticket) : Z :=
  if unpaidActive t then amountOf t else 0%Z.

(** ** utils.js: dates for display and for the settlement sheet *)

Definition monthNames : list string :=
  ["Jan"; "Feb"; "Mar"; "Apr"; "May"; "Jun"; "Jul"; "Aug"; "Sep"; "Oct";
   "Nov"; "Dec"]%string.

(** [String(monthNames[m])] in a template: "undefined" outside the array *)
Definition monthName (m : Z) : string :=
  if m <? 0 then "undefined"%string
  else nth (Z.to_nat m) monthNames "undefined"%string.

Section DisplayDates.

Variable LocalTZA : Z.
Variable DateParse : string -> option Z.

(** The [`${day}-${month}-${year}`] of both functions, for a valid date. *)
Definition dayMonthYear (t : Z) : string :=
  (pad2 (JsDate.getDate LocalTZA t) ++ "-"
   ++ monthName (JsDate.getMonth LocalTZA t) ++ "-"
   ++ showZ (JsDate.getFullYear LocalTZA t))%string.

(** [formatDateToDDMMMYYYY]; the getters of an invalid date give [NaN]. *)
Definition formatDateToDDMMMYYYY (dateString : string) : string :=
  if negb (Js.truthy dateString) then ""%string
  else match DateParse dateString with
       | Some t => dayMonthYear t
       | None => "NaN-undefined-NaN"%string
       end.

(** [formatDateToDMMMY]; [parseSheetDate] returns no invalid date. *)
Definition formatDateToDMMMY (dateString : string) : string :=
  if negb (Js.truthy dateString) then ""%string
  else
    let date := parseSheetDate LocalTZA DateParse dateString in
    if date =? 0 then dateString else dayMonthYear date.

End DisplayDates.

(** [numeral], decided. *)
Definition numeralb (s : string) (n : Z) : bool :=
  negb (s =? "")%string && allDigits s && (Js.digitsValue 0 s =? n).

(** ** utils.js: the payment method and its bank *)

(** [.] of a regular expression: any character but a line terminator *)
Definition isDot (c : ascii) : bool :=
  negb ((Js.code c =? 10) || (Js.code c =? 13)).

(** [(.+)\)] up to the end of the string: the group, when the string is a
    non-empty run of [.] followed by a last ")". *)
Fixpoint closing (s : string) : option string :=
  match s with
  | EmptyString => None
  | String c r =>
      if (r =? ")")%string
      then (if isDot c then Some (String c EmptyString) else None)
      else if isDot c then option_map (String c) (closing r) else None
  end.

(** [\s*\((.+)\)\s*$] at the head of a string without trailing white
    space: the white space is skipped as a whole, since "(" is no white
    space. *)
Definition afterMethod (rest : string) : option string :=
  match Js.trimStart rest with
  | String c r => if (c =? "(")%char then closing r else None
  | EmptyString => None
  end.

(** [(.+?)] grows by one character at a time until the rest matches. *)
Fixpoint matchFrom (g1 rest : string) : option (string * string) :=
  match afterMethod rest with
  | Some g2 => Some (g1, g2)
  | None =>
      match rest with
      | String c r =>
          if isDot c then matchFrom (g1 ++ String c EmptyString) r else None
      | EmptyString => None
      end
  end.

(** [raw.match(/^(.+?)\s*\((.+)\)\s*$/)] on a trimmed string: the groups
    1 and 2. *)
Definition matchMethod (raw : string) : option (string * string) :=
  match raw with
  | String c r => if isDot c then matchFrom (String c EmptyString) r else None
  | EmptyString => None
  end.

(** [parsePaymentMethod]: the method and the bank *)
Definition parsePaymentMethod (paymentMethod : string) : string * string :=
  let raw := Js.trim paymentMethod in
  if negb (Js.truthy raw) then (EmptyString, EmptyString)
  else
    match matchMethod raw with
    | Some (g1, g2) => (Js.trim g1, Js.trim g2)
    | None => (raw, EmptyString)
    end.

(** The string holds no "(". *)
Definition noParen (s : string) : bool :=
  Js.allChars (fun c => negb (c =? "(")%char) s.

(** ** booking.js: the bookings in memory and the rows of the sheet *)

(** Every booking in memory is the parse of the sheet row it names. *)
Definition mirrored (rows bs : list Booking) : Prop :=
  forall b, In b bs ->
    exists n r, nth_error rows n = Some r
                /\ b = trimBooking r (Z.of_nat n + 2).

(** The sheet after the batches of the requests, all accepted. *)
Definition sheetAfter {V : Type} (reqs : list (list (BatchEntry V)))
    (rows : list V) : list V :=
  fold_left (fun sheet data => applyBatch data sheet) reqs rows.

(** ** booking.js: the groups that [displayBookings] shows *)

(** [booking.groupId], which [parseBookingData] builds from the trimmed
    cells. *)
Definition groupId (b : Booking) : string :=
  let groupIdBase :=
    Js.orElse (pnr b) (b_phone b ++ "-" ++ b_account_link b) in
  (groupIdBase ++ "-" ++ b_departing_on b ++ "-" ++ b_departure b ++ "-"
   ++ b_destination b)%string.

(** An entry of [groupedBookings]: the copy of the first booking of the
    group, the passengers and the row indices. *)
Record BookingGroup := mkBGroup {
  g_first : Booking;
  g_passengers : list (string * string * Z);
  rowIndices : list Z
}.

Definition addPassenger (booking : Booking) (g : BookingGroup)
  : BookingGroup :=
  mkBGroup (g_first g)
    (g_passengers g ++ [(b_name booking, b_id_no booking, b_rowIndex booking)])
    (rowIndices g ++ [b_rowIndex booking]).

(** [acc] is an object used as a map; a group id holds three "-" at least,
    so none is an array index or a property of [Object.prototype], and
    [Object.values] lists the groups in the order of their first booking. *)
Fixpoint upsertBooking (booking : Booking) (acc : list BookingGroup)
  : list BookingGroup :=
  match acc with
  | [] => [addPassenger booking (mkBGroup booking [] [])]
  | g :: r =>
      if (groupId (g_first g) =? groupId booking)%string
      then addPassenger booking g :: r
      else g :: upsertBooking booking r
  end.

Definition groupedBookings (bookings : list Booking) : list BookingGroup :=
  fold_left (fun acc booking => upsertBooking booking acc) bookings [].

Section DisplayBookings.

Variable LocalTZA : Z.
Variable DateParse : string -> option Z.

(** The key of the sort of the groups. *)
Definition travelTime (g : BookingGroup) : Z :=
  parseSheetDate LocalTZA DateParse (b_departing_on (g_first g)).

(** [displayableGroups.sort((a, b) => ...)]: the sort of an array is stable
    (ECMAScript 2019), which an insertion from the right is. *)
Fixpoint insertGroup (g : BookingGroup) (l : list BookingGroup)
  : list BookingGroup :=
  match l with
  | [] => [g]
  | h :: t =>
      if travelTime g <=? travelTime h then g :: h :: t
      else h :: insertGroup g t
  end.

Definition sortGroups (l : list BookingGroup) : list BookingGroup :=
  fold_right insertGroup [] l.

(** [state.filteredBookings] after [displayBookings()] on the day that
    starts at [today]. *)
Definition displayBookings (today : Z) (st : AppState) : list BookingGroup :=
  sortGroups (groupedBookings (activeBookings LocalTZA DateParse today st)).

End DisplayBookings.

(** The key of a group, the bookings of a key, and the passenger entry of a
    booking. *)
Definition gkey (g : BookingGroup) : string := groupId (g_first g).

Definition groupOf (k : string) (bs : list Booking) : list Booking :=
  filter (fun b => (groupId b =? k)%string) bs.

Definition passengerOf (b : Booking) : string * string * Z :=
  (b_name b, b_id_no b, b_rowIndex b).

(** The group holds the bookings of its key, in their order, and copies the
    first of them. *)
Definition holds (bs : list Booking) (g : BookingGroup) : Prop :=
  rowIndices g = map b_rowIndex (groupOf (gkey g) bs)
  /\ g_passengers g = map passengerOf (groupOf (gkey g) bs)
  /\ hd_error (groupOf (gkey g) bs) = Some (g_first g).

(** ** ui.js: pages and page buttons *)

(** [Math.ceil(length / rowsPerPage)], for a positive page size *)
Definition pageCount (len rowsPerPage : Z) : Z := - ((- len) / rowsPerPage).

(** A bound of [Array.prototype.slice], relative to the end when negative *)
Definition sliceIndex (len i : Z) : Z :=
  if i <? 0 then Z.max (len + i) 0 else Z.min i len.

(** [array.slice(start, end)] *)
Definition slice {A : Type} (start stop : Z) (l : list A) : list A :=
  let len := Z.of_nat (List.length l) in
  let k := sliceIndex len start in
  let final := sliceIndex len stop in
  firstn (Z.to_nat (final - k)) (skipn (Z.to_nat k) l).

(** [data.slice((page - 1) * rowsPerPage, page * rowsPerPage)], the rows
    that the render functions show on a page *)
Definition pageRows {A : Type} (rowsPerPage page : Z) (data : list A)
  : list A :=
  slice ((page - 1) * rowsPerPage) (page * rowsPerPage) data.

(** A button of the pagination bar: its label, the page it renders, and
    whether it is enabled. *)
Inductive PageLabel := First | Dots | Number (i : Z) | Last.

Record PageButton := mkButton {
  label : PageLabel;
  target : Z;
  enabled : bool
}.

(** The sliding window of [setupGenericPagination]: [startPage] and
    [endPage]. *)
Definition pageWindow (pageCount currentPage : Z) : Z * Z :=
  let maxPagesToShow := 5 in
  let startPage := Z.max 1 (currentPage - maxPagesToShow / 2) in
  let endPage := Z.min pageCount (startPage + maxPagesToShow - 1) in
  let startPage :=
    if endPage - startPage + 1 <? maxPagesToShow
    then Z.max 1 (endPage - maxPagesToShow + 1) else startPage in
  (startPage, endPage).

(** The pages [startPage] to [endPage] of the [for] loop *)
Definition pagesFrom (startPage endPage : Z) : list Z :=
  map (fun i => startPage + Z.of_nat i)
    (seq 0 (Z.to_nat (endPage - startPage + 1))).

(** The buttons that [setupGenericPagination] appends, in order; none when
    there is one page at most. *)
Definition setupGenericPagination (len rowsPerPage currentPage : Z)
  : list PageButton :=
  let pageCount := pageCount len rowsPerPage in
  if pageCount <=? 1 then []
  else
    let '(startPage, endPage) := pageWindow pageCount currentPage in
    [mkButton First 1 (1 <? currentPage)]
    ++ (if 1 <? startPage then [mkButton Dots (startPage - 1) true] else [])
    ++ map (fun i => mkButton (Number i) i true) (pagesFrom startPage endPage)
    ++ (if endPage <? pageCount then [mkButton Dots (endPage + 1) true]
        else [])
    ++ [mkButton Last pageCount (currentPage <? pageCount)].

(** ** api.js: the cache of [fetchFromSheet] *)

Record CacheEntry (D : Type) := mkCacheEntry {
  c_data : D;
  c_timestamp : Z
}.
Arguments mkCacheEntry {D} _ _.
Arguments c_data {D} _.
Arguments c_timestamp {D} _.

(** [state.cache]: the entry of a key, [None] when it is missing or null *)
Definition Cache (D : Type) : Type := string -> option (CacheEntry D).

(** [state.cache[key] = entry] *)
Definition setCache {D : Type} (key : string) (entry : option (CacheEntry D))
    (cache : Cache D) : Cache D :=
  fun k => if (k =? key)%string then entry else cache k.

Definition CACHE_DURATION : Z := 5 * 60 * 1000.

(** How the sheet answers a request: with data, at the instant [Date.now()]
    reads when the response is stored, or with a failure. *)
Inductive Answer (D : Type) : Type :=
| Arrived (data : D) (arrival : Z)
| Failed.
Arguments Arrived {D} _ _.
Arguments Failed {D}.

(** The outcome of a call: the data returned ([None] when the call throws),
    the cache afterwards, and whether a request was sent. *)
Record Fetched (D : Type) := mkFetched {
  fetched : option D;
  cacheAfter : Cache D;
  requested : bool
}.
Arguments mkFetched {D} _ _ _.
Arguments fetched {D} _.
Arguments cacheAfter {D} _.
Arguments requested {D} _.

(** [fetchFromSheet(range, cacheKey)] called at the instant [now] *)
Definition fetchFromSheet {D : Type} (cacheKey : string) (now : Z)
    (answer : Answer D) (cache : Cache D) : Fetched D :=
  let request :=
    match answer with
    | Arrived data arrival =>
        mkFetched (Some data)
          (setCache cacheKey (Some (mkCacheEntry data arrival)) cache) true
    | Failed => mkFetched None cache true
    end in
  match cache cacheKey with
  | Some e =>
      if now - c_timestamp e <? CACHE_DURATION
      then mkFetched (Some (c_data e)) cache false
      else request
  | None => request
  end.

(** ** ui.js: the flights of the next two days *)

(** [d.setDate(date)]: the local day becomes day [date] of the month of [t],
    counted on from the first of the month, at the same local time. *)
Definition setDate (LocalTZA t date : Z) : option Z :=
  let local := t + LocalTZA in
  JsDate.TimeClip
    (JsDate.MakeDay (JsDate.getFullYear LocalTZA t)
       (JsDate.getMonth LocalTZA t) date * JsDate.msPerDay
     + local mod JsDate.msPerDay - LocalTZA).

(** [s.split(' ')[0]] *)
Fixpoint firstWord (s : string) : string :=
  match s with
  | EmptyString => EmptyString
  | String c r => if (c =? " ")%char then EmptyString
                  else String c (firstWord r)
  end.

(** The arrow between the two airports of a route, U+2192 in UTF-8. *)
Definition arrow : string :=
  String (ascii_of_nat 226)
    (String (ascii_of_nat 134) (String (ascii_of_nat 146) EmptyString)).

Record UpcomingGroup := mkUpcoming {
  u_pnr : string;
  u_passengers : list string;
  u_route : string
}.

(** The body of [addToGroup] on the group of the PNR. *)
Definition addUpcoming (t : Ticket) (g : UpcomingGroup) : UpcomingGroup :=
  mkUpcoming (u_pnr g)
    (if negb (isFeeEntryRow t) && Js.truthy (name t)
     then u_passengers g ++ [normalizePassengerName (name t)]
     else u_passengers g)
    (if negb (Js.truthy (u_route g)) && Js.truthy (departure t)
        && Js.truthy (destination t)
     then (firstWord (departure t) ++ " " ++ arrow ++ " "
           ++ firstWord (destination t))%string
     else u_route g).

(** [addToGroup(groups, t)]; the keys are upper-case, and the groups are
    listed in the order of their first ticket. *)
Fixpoint addToGroups (t : Ticket) (k : string) (groups : list UpcomingGroup)
  : list UpcomingGroup :=
  match groups with
  | [] => [addUpcoming t (mkUpcoming k [] EmptyString)]
  | g :: r =>
      if (u_pnr g =? k)%string then addUpcoming t g :: r
      else g :: addToGroups t k r
  end.

Section Upcoming.

Variable LocalTZA : Z.
Variable DateParse : string -> option Z.

(** Local midnight of the day [days] days after today, as the code builds
    [tomorrow] and [dayAfter]. *)
Definition dayAhead (today days : Z) : option Z :=
  bindT (setDate LocalTZA today (JsDate.getDate LocalTZA today + days))
    (fun d => JsDate.setHours LocalTZA d 0 0 0 0).

(** The day section a ticket falls in: 1 for tomorrow, 2 for the day after,
    [None] when the ticket is skipped. *)
Definition upcomingSlot (today : Z) (t : Ticket) : option Z :=
  if isCancelledOrRefunded t then None
  else
    let travelDate :=
      JsDate.setHours LocalTZA
        (parseSheetDate LocalTZA DateParse (departing_on t)) 0 0 0 0 in
    if eqT travelDate (dayAhead today 1) then Some 1
    else if eqT travelDate (dayAhead today 2) then Some 2
    else None.

(** [updateUpcomingPnrs] at the instant [today]: the groups of tomorrow and
    of the day after. *)
Definition updateUpcomingPnrs (today : Z) (allTickets : list Ticket)
  : list UpcomingGroup * list UpcomingGroup :=
  fold_left
    (fun '(tomorrowGroups, dayAfterGroups) t =>
       match upcomingSlot today t with
       | Some 1 => (addToGroups t (groupKey t) tomorrowGroups, dayAfterGroups)
       | Some _ => (tomorrowGroups, addToGroups t (groupKey t) dayAfterGroups)
       | None => (tomorrowGroups, dayAfterGroups)
       end)
    allTickets ([], []).

End Upcoming.

(** The groups of the tickets selected by [sel], and the passengers that
    the tickets of a key contribute. *)
Definition groupsFor (sel : Ticket -> bool) (ts : list Ticket)
  : list UpcomingGroup :=
  fold_left
    (fun groups t => if sel t then addToGroups t (groupKey t) groups
                     else groups) ts [].

Definition namesFor (sel : Ticket -> bool) (k : string) (ts : list Ticket)
  : list string :=
  map (fun t => normalizePassengerName (name t))
    (filter (fun t => sel t && (groupKey t =? k)%string
                      && negb (isFeeEntryRow t) && Js.truthy (name t)) ts).

(** ** main.js: the cards and the chart of the dashboard *)

Record MainDashboard := mkMain {
  totalTickets : Z;
  totalRevenue : Z;
  mainCommission : Z;
  mainExtraFare : Z
}.

(** One bar group of the comparison chart. *)
Record MonthData := mkMonth {
  md_revenue : Z;
  md_profit : Z;
  md_tickets : Z
}.

Section MainDashboards.

Variable LocalTZA : Z.
Variable DateParse : string -> option Z.

(** [updateDashboardData] at the instant [now]: the four cards. *)
Definition updateDashboardData (now : Z) (allTickets : list Ticket)
  : MainDashboard :=
  let selectedMonth := JsDate.getMonth LocalTZA now in
  let selectedYear := JsDate.getFullYear LocalTZA now in
  let ticketsInPeriod :=
    filter (fun t =>
              let lowerRemarks := Js.toLowerCase (remarks t) in
              inMonth LocalTZA DateParse (Some selectedMonth)
                (Some selectedYear) (issued_date t)
              && negb (Js.includes lowerRemarks "cancel")
              && negb (Js.includes lowerRemarks "refund")) allTickets in
  let passengerTicketsInPeriod :=
    filter (fun t => negb (isFeeEntryRow t)) ticketsInPeriod in
  mkMain (Z.of_nat (List.length passengerTicketsInPeriod))
    (sumZ (fun t => net_amount t + date_change t) ticketsInPeriod)
    (sumZ commission ticketsInPeriod)
    (sumZ extra_fare ticketsInPeriod).

(** [monthlyData[month]] updated by a ticket. *)
Definition addToMonth (t : Ticket) (d : MonthData) : MonthData :=
  mkMonth (md_revenue d + (net_amount t + date_change t))
    (md_profit d + (commission t + extra_fare t))
    (if negb (isFeeEntryRow t) then md_tickets d + 1 else md_tickets d).

(** [updateComparisonChart] at the instant [now]: [monthlyData].  The month
    of a date is 0 to 11, so the entry of a ticket's month exists. *)
Definition updateComparisonChart (now : Z) (allTickets : list Ticket)
  : list MonthData :=
  let currentYear := JsDate.getFullYear LocalTZA now in
  let ticketsThisYear :=
    filter (fun t =>
              (JsDate.getFullYear LocalTZA
                 (parseSheetDate LocalTZA DateParse (issued_date t))
               =? currentYear)
              && negb (hasFullRefund t)) allTickets in
  fold_left
    (fun monthlyData t =>
       let month :=
         JsDate.getMonth LocalTZA
           (parseSheetDate LocalTZA DateParse (issued_date t)) in
       match nth_error monthlyData (Z.to_nat month) with
       | Some d => setNth (Z.to_nat month) (addToMonth t d) monthlyData
       | None => monthlyData
       end)
    ticketsThisYear (repeat (mkMonth 0 0 0) 12).

End MainDashboards.

(** ** ui.js: the unpaid tickets of the notification centre *)

Record ModalGroup := mkModal {
  mg_pnr : string;
  mg_passengers : list string;
  mg_routes : list string;
  total_due : Z;
  (** the date and the raw text of the earliest issue date *)
  earliestIssued : option (Z * string)
}.

(** [set.add(x)] on a [Set] of strings, which keeps the order of insertion *)
Definition setAdd (x : string) (l : list string) : list string :=
  if inNames x l then l else l ++ [x].

Section NotificationModal.

Variable LocalTZA : Z.
Variable DateParse : string -> option Z.

(** The body of the [reduce] of [showNotificationModal], on the group of the
    PNR. *)
Definition addModal (t : Ticket) (g : ModalGroup) : ModalGroup :=
  let cleanName := normalizePassengerName (name t) in
  let passengers :=
    if Js.truthy cleanName && negb (cleanName =? "N/A")%string
    then setAdd cleanName (mg_passengers g) else mg_passengers g in
  let amt := net_amount t + extra_fare t + date_change t in
  let route :=
    if Js.truthy (departure t) && Js.truthy (destination t)
    then (firstWord (departure t) ++ " " ++ arrow ++ " "
          ++ firstWord (destination t))%string
    else EmptyString in
  let routes :=
    if Js.truthy route then setAdd route (mg_routes g) else mg_routes g in
  let issuedDate := parseSheetDate LocalTZA DateParse (issued_date t) in
  let earliest :=
    if negb (issuedDate =? 0) then
      match earliestIssued g with
      | None => Some (issuedDate, issued_date t)
      | Some (date, raw) =>
          if issuedDate <? date then Some (issuedDate, issued_date t)
          else Some (date, raw)
      end
    else earliestIssued g in
  mkModal (mg_pnr g) passengers routes (total_due g + amt) earliest.

Fixpoint upsertModal (t : Ticket) (pnr : string) (acc : list ModalGroup)
  : list ModalGroup :=
  match acc with
  | [] => [addModal t (mkModal pnr [] [] 0 None)]
  | g :: r =>
      if (mg_pnr g =? pnr)%string then addModal t g :: r
      else g :: upsertModal t pnr r
  end.

(** [groupedUnpaidTickets] of [showNotificationModal], before the groups are
    sorted by their earliest issue date; the sort reorders the groups and
    changes none. *)
Definition groupedUnpaidTickets (allTickets : list Ticket)
  : list ModalGroup :=
  let unpaidTickets :=
    filter (fun t => negb (paid t) && negb (isCancelledOrRefunded t))
      allTickets in
  fold_left
    (fun acc t =>
       let pnr := Js.toUpperCase (booking_reference t) in
       if negb (Js.truthy pnr) then acc else upsertModal t pnr acc)
    unpaidTickets [].

End NotificationModal.

(** ** tickets.js: the ticket search and its date presets *)

(** The values of the search form. *)
Record SearchForm := mkSearch {
  searchName : string;
  searchBooking : string;
  searchStartDate : string;
  searchEndDate : string;
  searchTravelDate : string;
  searchDeparture : string;
  searchDestination : string;
  searchAirline : string;
  searchNotPaidToggle : bool
}.

(** The presets of [setDateRangePreset]. *)
Inductive Preset := Last7 | Last30 | ThisMonth | OtherPreset.

Section Search.

Variable LocalTZA : Z.
Variable DateParse : string -> option Z.

(** A bound of the search: [None] is null, [Some d] the date after
    [setHours], which is invalid when [d] is [None]. *)
Definition searchBound (val : string) (h m sec ms : Z) : option (option Z) :=
  if Js.truthy val
  then Some (JsDate.setHours LocalTZA
               (parseSheetDate LocalTZA DateParse val) h m sec ms)
  else None.

(** [!bound || a >= bound] and [!bound || a <= bound] *)
Definition notBefore (bound : option (option Z)) (a : Z) : bool :=
  match bound with None => true | Some b => leT b (Some a) end.
Definition notAfter (bound : option (option Z)) (a : Z) : bool :=
  match bound with None => true | Some b => leT (Some a) b end.

(** [!query || (field && field.toUpperCase() === query)] *)
Definition fieldIs (query field : string) : bool :=
  negb (Js.truthy query)
  || (Js.truthy field && (Js.toUpperCase field =? query)%string).

(** [parseSheetDate(b.issued_date) - parseSheetDate(a.issued_date)
    || b.rowIndex - a.rowIndex], the comparison of the sort of the results:
    newest first, and the larger row index first among equal dates. *)
Definition newerFirst (a b : Ticket) : Z :=
  let byDate :=
    parseSheetDate LocalTZA DateParse (issued_date b)
    - parseSheetDate LocalTZA DateParse (issued_date a) in
  if byDate =? 0 then rowIndex b - rowIndex a else byDate.

(** [performSearch]: [state.filteredTickets], the tickets that match, sorted
    by issue date and row index. *)
Definition performSearch (form : SearchForm) (allTickets : list Ticket)
  : list Ticket :=
  let name' := Js.toUpperCase (searchName form) in
  let bookRef := Js.toUpperCase (searchBooking form) in
  let travelDateVal := searchTravelDate form in
  let departure' := Js.toUpperCase (searchDeparture form) in
  let destination' := Js.toUpperCase (searchDestination form) in
  let airline' := Js.toUpperCase (searchAirline form) in
  let notPaidOnly := searchNotPaidToggle form in
  let searchStartDate := searchBound (searchStartDate form) 0 0 0 0 in
  let searchEndDate := searchBound (searchEndDate form) 23 59 59 999 in
  let searchTravelDate :=
    if Js.truthy travelDateVal
    then Some (parseSheetDate LocalTZA DateParse travelDateVal) else None in
  sortBy newerFirst (filter
    (fun t =>
       let issuedDate := parseSheetDate LocalTZA DateParse (issued_date t) in
       let travelDate :=
         parseSheetDate LocalTZA DateParse (departing_on t) in
       let nameMatch :=
         negb (Js.truthy name')
         || Js.includes (Js.toUpperCase (name t)) name' in
       let bookRefMatch :=
         negb (Js.truthy bookRef)
         || Js.includes (Js.toUpperCase (booking_reference t)) bookRef in
       let issuedDateMatch :=
         notBefore searchStartDate issuedDate
         && notAfter searchEndDate issuedDate in
       let travelDateMatch :=
         match searchTravelDate with
         | None => true
         | Some d => travelDate =? d
         end in
       let departureMatch := fieldIs departure' (departure t) in
       let destinationMatch := fieldIs destination' (destination t) in
       let airlineMatch := fieldIs airline' (airline t) in
       let paidMatch := negb notPaidOnly || negb (paid t) in
       nameMatch && bookRefMatch && issuedDateMatch && travelDateMatch
       && departureMatch && destinationMatch && airlineMatch && paidMatch)
    allTickets).

(** [startDate] of [setDateRangePreset]; the clock reads [now] in both
    [new Date()]. *)
Definition presetStart (now : Z) (range : Preset) : option Z :=
  match range with
  | Last7 => setDate LocalTZA now (JsDate.getDate LocalTZA now - 7)
  | Last30 => setDate LocalTZA now (JsDate.getDate LocalTZA now - 30)
  | ThisMonth =>
      JsDate.newDate LocalTZA (JsDate.getFullYear LocalTZA now)
        (JsDate.getMonth LocalTZA now) 1
  | OtherPreset => Some now
  end.

(** [formatDateForSheet] of a [Date], which may be invalid *)
Definition formatDate (d : option Z) : string :=
  match d with
  | Some t => formatTime LocalTZA t
  | None => "Invalid Date"%string
  end.

(** [setDateRangePreset]: the form with the two date inputs set, on which
    [performSearch] then runs; the inputs are text fields and keep the text
    they are given. *)
Definition setDateRangePreset (now : Z) (range : Preset) (form : SearchForm)
  : SearchForm :=
  mkSearch (searchName form) (searchBooking form)
    (formatDate (presetStart now range)) (formatDate (Some now))
    (searchTravelDate form) (searchDeparture form) (searchDestination form)
    (searchAirline form) (searchNotPaidToggle form).

End Search.

(** The days that the start of a preset lies before today. *)
Definition daysBack (LocalTZA now : Z) (range : Preset) : Z :=
  match range with
  | Last7 => 7
  | Last30 => 30
  | ThisMonth => JsDate.getDate LocalTZA now - 1
  | OtherPreset => 0
  end.

(** The local day of the issue date of a ticket, as the application reads
    it. *)
Definition issuedDay (LocalTZA : Z) (DateParse : string -> option Z)
    (t : Ticket) : Z :=
  JsDate.LocalDay LocalTZA (parseSheetDate LocalTZA DateParse (issued_date t)).

(** ** clients.js: the client directory *)

Record Client := mkClient {
  cl_name : string;
  cl_phone : string;
  cl_account_name : string;
  cl_account_type : string;
  cl_account_link : string;
  cl_id_no : string;
  cl_gender : string;
  ticket_count : Z;
  total_spent : Z;
  last_travel : Z
}.

(** [`${ticket.name}|${ticket.phone}|${ticket.account_name}`] *)
Definition clientKey (ticket : Ticket) : string :=
  (name ticket ++ "|" ++ phone ticket ++ "|" ++ account_name ticket)%string.

(** The same key, read from the fields of a client. *)
Definition clientKeyOf (c : Client) : string :=
  (cl_name c ++ "|" ++ cl_phone c ++ "|" ++ cl_account_name c)%string.

Section Clients.

Variable LocalTZA : Z.
Variable DateParse : string -> option Z.

(** The entry made for a key that has none. *)
Definition newClient (ticket : Ticket) : Client :=
  mkClient (name ticket) (phone ticket) (account_name ticket)
    (account_type ticket) (account_link ticket) (id_no ticket)
    (gender ticket) 0 0 0.

(** The two updates of the entry of the key of a ticket. *)
Definition countTicket (ticket : Ticket) (c : Client) : Client :=
  let lowerRemarks := Js.toLowerCase (remarks ticket) in
  let c1 :=
    if negb (Js.includes lowerRemarks "cancel")
       && negb (Js.includes lowerRemarks "refund")
    then mkClient (cl_name c) (cl_phone c) (cl_account_name c)
           (cl_account_type c) (cl_account_link c) (cl_id_no c)
           (cl_gender c) (ticket_count c + 1)
           (total_spent c
            + (net_amount ticket + extra_fare ticket + date_change ticket))
           (last_travel c)
    else c in
  let travelDate := parseSheetDate LocalTZA DateParse (departing_on ticket) in
  if last_travel c1 <? travelDate
  then mkClient (cl_name c1) (cl_phone c1) (cl_account_name c1)
         (cl_account_type c1) (cl_account_link c1) (cl_id_no c1)
         (cl_gender c1) (ticket_count c1) (total_spent c1) travelDate
  else c1.

(** The object [clients], its keys in the order of their insertion: a key
    holds two bars, so it is no array index and no property of the
    prototype. *)
Fixpoint upsertClient (ticket : Ticket) (key : string)
    (clients : list (string * Client)) : list (string * Client) :=
  match clients with
  | [] => [(key, countTicket ticket (newClient ticket))]
  | (k, c) :: r =>
      if (k =? key)%string then (k, countTicket ticket c) :: r
      else (k, c) :: upsertClient ticket key r
  end.

Definition clientsOf (allTickets : list Ticket) : list (string * Client) :=
  fold_left
    (fun clients ticket => upsertClient ticket (clientKey ticket) clients)
    allTickets [].

(** [buildClientList]: [Object.values(clients)], before the clients are
    sorted by name; the sort reorders the clients and changes none. *)
Definition buildClientList (allTickets : list Ticket) : list Client :=
  map snd (clientsOf allTickets).

End Clients.

(** The figures of the history of a client: the number of active tickets
    and the two totals. *)
Record ClientHistory := mkHistory {
  activeTickets : Z;
  totalSpent : Z;
  totalProfit : Z
}.

(** [viewClientHistory]: the figures of the modal, or [None] when the name
    has no ticket and the modal stays closed.  The tickets of the name are
    sorted by issue date, newest first, before they are counted and
    summed. *)
Definition viewClientHistory (LocalTZA : Z) (DateParse : string -> option Z)
    (clientName : string) (allTickets : list Ticket)
  : option ClientHistory :=
  let clientTickets :=
    sortBy
      (fun a b =>
         parseSheetDate LocalTZA DateParse (issued_date b)
         - parseSheetDate LocalTZA DateParse (issued_date a))
      (filter (fun t => (name t =? clientName)%string) allTickets) in
  if (Z.of_nat (List.length clientTickets) =? 0) then None
  else
    let activeClientTickets :=
      filter
        (fun t =>
           let lowerRemarks := Js.toLowerCase (remarks t) in
           negb (Js.includes lowerRemarks "cancel")
           && negb (Js.includes lowerRemarks "refund"))
        clientTickets in
    let totalSpent :=
      fold_left
        (fun sum t => sum + net_amount t + extra_fare t + date_change t)
        activeClientTickets 0 in
    let totalProfit :=
      fold_left (fun sum t => sum + commission t + extra_fare t)
        activeClientTickets 0 in
    Some (mkHistory (Z.of_nat (List.length activeClientTickets))
            totalSpent totalProfit).

(** Three tickets of two names: one name with two phone numbers and a
    cancelled ticket. *)
Definition directoryTickets : list Ticket :=
  [ mkTicket "11/08/2025" "MR A" "" "0911" "" "" "" "" "" "" "" 0 "P1"
      100 false "" "" 0 "" 5 0 "" 2;
    mkTicket "11/09/2025" "MR A" "" "0922" "" "" "" "" "" "" "" 0 "P2"
      200 false "" "" 0 "Cancelled" 0 0 "" 3;
    mkTicket "11/10/2025" "MS B" "" "0911" "" "" "" "" "" "" "" 0 "P3"
      400 false "" "" 0 "" 0 0 "" 4 ]%string.

(** ** Numbers: the amounts as the language adds them

    An amount of a ticket is a number of the language, an IEEE 754 double
    that [parseTicketData] reads from a cell with [parseFloat(..) || 0].  The
    records above hold the amounts as whole numbers; here the arithmetic of
    the language is spelled out, with the binary64 format of the standard
    library ([prec = 53], [emax = 1024], rounding to nearest, ties to
    even), and the unpaid grouping is given once more on the numbers of the
    cells. *)

Module Doubles.

Definition number : Type := spec_float.

(** [0], [a + b], and the double nearest to a whole number *)
Definition zero : number := S754_zero false.
Definition add : number -> number -> number := SFadd 53 1024.
Definition ofZ (z : Z) : number := binary_normalize 53 1024 z 0 false.

(** [Number.MAX_SAFE_INTEGER], 2^53 - 1 *)
Definition MAX_SAFE_INTEGER : Z := 9007199254740991.

(** [x || 0]: [NaN], [0] and [-0] are falsy. *)
Definition orZero (x : number) : number :=
  match x with
  | S754_nan | S754_zero _ => zero
  | _ => x
  end.

Record UnpaidGroup := mkGroup {
  g_pnr : string;
  passengers : list string;
  totalDue : number
}.

Section Cells.

(** The numbers in the cells of the row of a ticket. *)
Variables net_amount extra_fare date_change : Ticket -> number.

(** [(t.net_amount || 0) + (t.extra_fare || 0) + (t.date_change || 0)] *)
Definition amt (t : Ticket) : number :=
  add (add (orZero (net_amount t)) (orZero (extra_fare t)))
    (orZero (date_change t)).

Definition addToGroup (t : Ticket) (g : UnpaidGroup) : UnpaidGroup :=
  let ps :=
    if Js.truthy (name t) then
      let cleanName := normalizePassengerName (name t) in
      if inNames cleanName (passengers g) then passengers g
      else (passengers g ++ [cleanName])%list
    else passengers g in
  mkGroup (g_pnr g) ps (add (totalDue g) (amt t)).

Fixpoint upsertGroup (t : Ticket) (k : string) (gs : list UnpaidGroup)
  : list UnpaidGroup :=
  match gs with
  | [] => [addToGroup t (mkGroup k [] zero)]
  | g :: r =>
      if (g_pnr g =? k)%string then addToGroup t g :: r
      else g :: upsertGroup t k r
  end.

Definition unpaidStep (gs : list UnpaidGroup) (t : Ticket)
  : list UnpaidGroup :=
  if paid t then gs
  else if isCancelledOrRefunded t then gs
  else
    let k := Js.toUpperCase (Js.orElse (booking_reference t) "N/A") in
    upsertGroup t k gs.

(** [unpaidGroups] of [updateNotifications], the totals added as the
    language adds them. *)
Definition unpaidGroups (allTickets : list Ticket) : list UnpaidGroup :=
  fold_left unpaidStep allTickets [].

End Cells.

(** A sum taken from left to right, starting at 0. *)
Definition sum {A : Type} (f : A -> number) (l : list A) : number :=
  fold_left (fun s x => add s (f x)) l zero.

End Doubles.

(** Four unpaid tickets of two PNRs whose amounts are whole numbers around
    2^53, and three whose amounts are the doubles nearest to 0.1, 0.1 and
    1.1; the extra fare and the date-change fee are 0. *)
Definition largeTickets : list Ticket :=
  [ ticketOf 2 "" "A" "AB1" "" 1 0 0 0 false;
    ticketOf 3 "" "B" "CD2" "" 9007199254740992 0 0 0 false;
    ticketOf 4 "" "A" "AB1" "" 1 0 0 0 false;
    ticketOf 5 "" "B" "CD2" "" 1 0 0 0 false ]%string.

Definition netOfLarge (t : Ticket) : Doubles.number :=
  Doubles.ofZ (net_amount t).

Definition fractionTickets : list Ticket :=
  [ ticketOf 2 "" "A" "AB1" "" 0 0 0 0 false;
    ticketOf 3 "" "B" "CD2" "" 0 0 0 0 false;
    ticketOf 4 "" "A" "AB1" "" 0 0 0 0 false ]%string.

(** 0.1 is 7205759403792794 * 2^-56, 1.1 is 4953959590107546 * 2^-52. *)
Definition netOfFraction (t : Ticket) : Doubles.number :=
  if rowIndex t =? 4 then S754_finite false 4953959590107546 (-52)
  else S754_finite false 7205759403792794 (-56).

Definition noAmount (t : Ticket) : Doubles.number := Doubles.zero.

(** The amounts of a ticket are whole: the numbers of its cells are those of
    the record. *)
Definition wholeAmounts (net extra change : Ticket -> Doubles.number)
    (t : Ticket) : Prop :=
  net t = Doubles.ofZ (net_amount t)
  /\ extra t = Doubles.ofZ (extra_fare t)
  /\ change t = Doubles.ofZ (date_change t).

(** The size of the amounts of a ticket. *)
Definition absAmount (t : Ticket) : Z :=
  Z.abs (net_amount t) + Z.abs (extra_fare t) + Z.abs (date_change t).

(** The double of a whole number of at most 53 bits. *)
Definition canon (s : bool) (m : positive) : Doubles.number :=
  S754_finite s (Pos.shiftl m (Z.to_N (53 - Zpos (digits2_pos m))))
    (Zpos (digits2_pos m) - 53).

(** The cells A to M of a row of the booking sheet. *)
Definition cellsOf (b : Booking) : list string :=
  [b_name b; b_id_no b; b_phone b; b_account_name b; b_account_type b;
   b_account_link b; b_departure b; b_destination b; b_departing_on b;
   pnr b; remark b; enddate b; endtime b].

(** Tickets of November and December 2025, one of them refunded in full,
    and a settlement of December. *)
Definition carrySheet : list Ticket :=
  [ mkTicket "11/10/2025" "JOHN" "" "" "" "" "" "" "" "12/20/2025" "" 90000
      "AB1" 100000 true "Cash" "11/10/2025" 4000 "" 0 0 "MR" 2;
    mkTicket "12/03/2025" "MARY" "" "" "" "" "" "" "" "12/24/2025" "" 60000
      "CD2" 75000 false "" "" 3000 "" 0 5000 "MISS" 3;
    mkTicket "12/05/2025" "PAUL" "" "" "" "" "" "" "" "12/26/2025" "" 0
      "EF3" 0 false "" "" 0 "Full Refund on 12/06/2025" 0 0 "MR" 4
  ]%string.

Definition carrySettlements : list Settlement :=
  [ mkSettlement "09-Dec-2025" 50000 "Cash" "" "Paid" "" 2 ]%string.

(** The tickets of the other rows of the sheet. *)
Definition otherRows (row : Z) (sheet : list Ticket) : list Ticket :=
  filter (fun u => negb (rowIndex u =? row)) sheet.

(** * Properties *)

Local Open Scope string_scope.

(** ** Calendar arithmetic *)

(** Split on the twelve months. *)
Ltac months m :=
  assert (m = 0 \/ m = 1 \/ m = 2 \/ m = 3 \/ m = 4 \/ m = 5 \/ m = 6
          \/ m = 7 \/ m = 8 \/ m = 9 \/ m = 10 \/ m = 11) as Hmonths by lia;
  repeat (destruct Hmonths as [-> | Hmonths]); [ .. | subst m].

Section Calendar.

Import JsDate.
Local Open Scope Z_scope.

Lemma step4 y :
  (y + 1 - 1969) / 4 = (y - 1969) / 4 + (if y mod 4 =? 0 then 1 else 0).
Proof. destruct (Z.eqb_spec (y mod 4) 0); Z.div_mod_to_equations; lia. Qed.

Lemma step100 y :
  (y + 1 - 1901) / 100
  = (y - 1901) / 100 + (if y mod 100 =? 0 then 1 else 0).
Proof. destruct (Z.eqb_spec (y mod 100) 0); Z.div_mod_to_equations; lia. Qed.

Lemma step400 y :
  (y + 1 - 1601) / 400
  = (y - 1601) / 400 + (if y mod 400 =? 0 then 1 else 0).
Proof. destruct (Z.eqb_spec (y mod 400) 0); Z.div_mod_to_equations; lia. Qed.

Lemma mod_100_4 y : y mod 100 = 0 -> y mod 4 = 0.
Proof. intros. Z.div_mod_to_equations; lia. Qed.

Lemma mod_400_100 y : y mod 400 = 0 -> y mod 100 = 0.
Proof. intros. Z.div_mod_to_equations; lia. Qed.

Lemma DayFromYear_succ y : DayFromYear (y + 1) = DayFromYear y + DaysInYear y.
Proof.
  unfold DayFromYear, DaysInYear, isLeap.
  rewrite step4, step100, step400.
  pose proof (mod_100_4 y). pose proof (mod_400_100 y).
  destruct (Z.eqb_spec (y mod 4) 0); destruct (Z.eqb_spec (y mod 100) 0);
    destruct (Z.eqb_spec (y mod 400) 0); cbn [negb andb orb]; lia.
Qed.

Lemma DayFromYear_mono a b : a <= b -> DayFromYear a <= DayFromYear b.
Proof. unfold DayFromYear. intros. Z.div_mod_to_equations. lia. Qed.

(** [YearFromDay] is the year of the language standard: the largest year
    that starts on or before the day. *)
Lemma YearFromDay_spec n :
  DayFromYear (YearFromDay n) <= n < DayFromYear (YearFromDay n + 1).
Proof.
  unfold YearFromDay.
  set (y0 := 1970 + (400 * n) / 146097).
  assert (Hlo : DayFromYear (y0 - 1) <= n).
  { unfold DayFromYear, y0. Z.div_mod_to_equations. lia. }
  assert (Hhi : n < DayFromYear (y0 + 1 + 1)).
  { unfold DayFromYear, y0. Z.div_mod_to_equations. lia. }
  destruct (Z.ltb_spec n (DayFromYear y0)).
  - replace (y0 - 1 + 1) with y0 by lia. lia.
  - destruct (Z.leb_spec (DayFromYear (y0 + 1)) n); lia.
Qed.

Lemma YearFromDay_unique n y :
  DayFromYear y <= n < DayFromYear (y + 1) -> YearFromDay n = y.
Proof.
  intros H. pose proof (YearFromDay_spec n) as S.
  destruct (Z.lt_trichotomy (YearFromDay n) y) as [L|[E|G]]; auto.
  - pose proof (DayFromYear_mono (YearFromDay n + 1) y ltac:(lia)). lia.
  - pose proof (DayFromYear_mono (y + 1) (YearFromDay n) ltac:(lia)). lia.
Qed.

Lemma MakeDay_in_year y m d :
  0 <= m < 12 -> 1 <= d <= daysInMonth y m ->
  MakeDay y m d = DayFromYear y + daysBeforeMonth (isLeap y) m + d - 1
  /\ DayFromYear y <= MakeDay y m d < DayFromYear (y + 1).
Proof.
  intros Hm Hd. unfold MakeDay.
  replace (m / 12) with 0 by (Z.div_mod_to_equations; lia).
  replace (m mod 12) with m by (Z.div_mod_to_equations; lia).
  replace (y + 0) with y by lia. split; [reflexivity|].
  rewrite DayFromYear_succ. unfold DaysInYear, daysInMonth in *.
  months m; destruct (isLeap y); cbn in *; lia.
Qed.

Lemma read_back y m d :
  0 <= m < 12 -> 1 <= d <= daysInMonth y m ->
  YearFromDay (MakeDay y m d) = y
  /\ MonthFromDay (MakeDay y m d) = m
  /\ DateFromDay (MakeDay y m d) = d.
Proof.
  intros Hm Hd. destruct (MakeDay_in_year y m d Hm Hd) as [E R].
  pose proof (YearFromDay_unique _ _ R) as Y.
  assert (M : MonthFromDay (MakeDay y m d) = m).
  { unfold MonthFromDay. rewrite Y, E. unfold daysInMonth in Hd.
    months m; destruct (isLeap y); cbn in *;
      repeat match goal with
             | |- context [?a <? ?b] => destruct (Z.ltb_spec a b); try lia
             end. }
  split; [assumption|]. split; [assumption|].
  unfold DateFromDay. rewrite M, Y, E. lia.
Qed.

Lemma LocalDay_midnight tza n : LocalDay tza (n * msPerDay - tza) = n.
Proof.
  unfold LocalDay. replace (n * msPerDay - tza + tza) with (n * msPerDay) by lia.
  apply Z.div_mul. discriminate.
Qed.

(** A valid day of a four-digit year is a [Date] that reads back as it was
    written. *)
Lemma checkedDate_valid tza y m d :
  Z.abs tza <= msPerDay -> validDay y m d ->
  checkedDate tza y m d = Some (MakeDay y m d * msPerDay - tza).
Proof.
  intros Htz [Hy [Hm Hd]]. unfold checkedDate, newDate.
  replace ((0 <=? y) && (y <=? 99)) with false
    by (symmetry; apply Bool.andb_false_iff; right; apply Z.leb_gt; lia).
  destruct (MakeDay_in_year y m d Hm Hd) as [_ R].
  pose proof (DayFromYear_mono 1901 y ltac:(lia)) as L.
  pose proof (DayFromYear_mono (y + 1) 10000 ltac:(lia)) as U.
  change (DayFromYear 1901) with (-25202) in L.
  change (DayFromYear 10000) with 2932897 in U.
  unfold TimeClip.
  replace (Z.abs (MakeDay y m d * msPerDay - tza) <=? 8640000000000000)
    with true by (symmetry; apply Z.leb_le; unfold msPerDay in *; lia).
  unfold getFullYear, getMonth, getDate. rewrite LocalDay_midnight.
  destruct (read_back y m d Hm Hd) as [-> [-> ->]].
  now rewrite !Z.eqb_refl.
Qed.

Lemma civil_of_day n :
  0 <= MonthFromDay n < 12
  /\ 1 <= DateFromDay n <= daysInMonth (YearFromDay n) (MonthFromDay n)
  /\ MakeDay (YearFromDay n) (MonthFromDay n) (DateFromDay n) = n.
Proof.
  pose proof (YearFromDay_spec n) as S. rewrite DayFromYear_succ in S.
  assert (A : 0 <= MonthFromDay n < 12
              /\ 1 <= DateFromDay n
                 <= daysInMonth (YearFromDay n) (MonthFromDay n)).
  { unfold DateFromDay, MonthFromDay, daysInMonth, DaysInYear in *.
    destruct (isLeap (YearFromDay n)); cbn in *;
      repeat match goal with
             | |- context [?a <? ?b] => destruct (Z.ltb_spec a b)
             end; cbn; lia. }
  destruct A as [A1 A2]. repeat split; try lia.
  rewrite (proj1 (MakeDay_in_year _ _ _ A1 A2)).
  unfold DateFromDay. lia.
Qed.

Lemma MakeDay_lt y1 m1 d1 y2 m2 d2 :
  0 <= m1 < 12 -> 1 <= d1 <= daysInMonth y1 m1 ->
  0 <= m2 < 12 -> 1 <= d2 <= daysInMonth y2 m2 ->
  civilLt (y1, m1, d1) (y2, m2, d2) = true ->
  MakeDay y1 m1 d1 < MakeDay y2 m2 d2.
Proof.
  intros Hm1 Hd1 Hm2 Hd2 H.
  destruct (MakeDay_in_year y1 m1 d1 Hm1 Hd1) as [E1 R1].
  destruct (MakeDay_in_year y2 m2 d2 Hm2 Hd2) as [E2 R2].
  unfold civilLt in H.
  destruct (Z.ltb_spec y1 y2) as [Hy|Hy].
  - pose proof (DayFromYear_mono (y1 + 1) y2 ltac:(lia)). lia.
  - cbn [orb] in H. apply Bool.andb_true_iff in H. destruct H as [Ey H].
    apply Z.eqb_eq in Ey. subst y2. rewrite E1, E2.
    unfold daysInMonth in *.
    destruct (Z.ltb_spec m1 m2) as [Hm|Hm].
    + clear H.
      assert (daysBeforeMonth (isLeap y1) (m1 + 1)
              <= daysBeforeMonth (isLeap y1) m2).
      { assert (m1 + 1 = m2 \/ m1 + 1 < m2) as [<-|L] by lia; [lia|].
        unfold daysBeforeMonth. destruct (isLeap y1);
          repeat match goal with
                 | |- context [?a <=? ?b] => destruct (Z.leb_spec a b)
                 | |- context [?a =? ?b] => destruct (Z.eqb_spec a b)
                 end; lia. }
      lia.
    + cbn [orb] in H. apply Bool.andb_true_iff in H. destruct H as [Em H].
      apply Z.eqb_eq in Em. subst m2. apply Z.ltb_lt in H. lia.
Qed.

Lemma civilLt_total a b : civilLt a b = false -> a = b \/ civilLt b a = true.
Proof.
  destruct a as [[y1 m1] d1], b as [[y2 m2] d2]. unfold civilLt.
  destruct (Z.ltb_spec y1 y2), (Z.ltb_spec y2 y1), (Z.eqb_spec y1 y2),
    (Z.eqb_spec y2 y1), (Z.ltb_spec m1 m2), (Z.ltb_spec m2 m1),
    (Z.eqb_spec m1 m2), (Z.eqb_spec m2 m1), (Z.ltb_spec d1 d2),
    (Z.ltb_spec d2 d1); cbn; intros C; try discriminate C; try lia;
    try (now right); left; repeat f_equal; lia.
Qed.

Lemma civilLt_days n1 n2 :
  civilLt (civilOfDay n1) (civilOfDay n2) = (n1 <? n2).
Proof.
  destruct (civil_of_day n1) as [M1 [D1 E1]].
  destruct (civil_of_day n2) as [M2 [D2 E2]].
  unfold civilOfDay.
  destruct (Z.ltb_spec n1 n2) as [L|L].
  - destruct (civilLt _ _) eqn:C; [reflexivity|].
    apply civilLt_total in C. destruct C as [C|C].
    + injection C as Y M D. rewrite Y, M, D in E1. lia.
    + apply MakeDay_lt in C; try assumption. lia.
  - destruct (civilLt _ _) eqn:C; [|reflexivity].
    apply MakeDay_lt in C; try assumption. lia.
Qed.

Lemma civilOf_UTC t : civilOf 0 t = civilOfDay (t / msPerDay).
Proof.
  unfold civilOf, civilOfDay, getFullYear, getMonth, getDate, LocalDay.
  now rewrite Z.add_0_r.
Qed.

Lemma year_bounds n :
  -25202 <= n < 2932897 -> 1901 <= YearFromDay n <= 9999.
Proof.
  intros H. pose proof (YearFromDay_spec n) as S.
  split.
  - destruct (Z.le_gt_cases 1901 (YearFromDay n)); [assumption|].
    pose proof (DayFromYear_mono (YearFromDay n + 1) 1901 ltac:(lia)) as X.
    change (DayFromYear 1901) with (-25202) in X. lia.
  - destruct (Z.le_gt_cases (YearFromDay n) 9999); [assumption|].
    pose proof (DayFromYear_mono 10000 (YearFromDay n) ltac:(lia)) as X.
    change (DayFromYear 10000) with 2932897 in X. lia.
Qed.

(** The day before the first of a month is in the month before. *)
Lemma day_before_month y m :
  0 <= m < 12 ->
  let py := if m =? 0 then y - 1 else y in
  let pm := if m =? 0 then 11 else m - 1 in
  YearFromDay (MakeDay y m 1 - 1) = py
  /\ MonthFromDay (MakeDay y m 1 - 1) = pm.
Proof.
  intros Hm py pm.
  assert (Hp : 0 <= pm < 12) by (unfold pm; destruct (Z.eqb_spec m 0); lia).
  assert (Hd : 1 <= daysInMonth py pm <= daysInMonth py pm).
  { unfold daysInMonth, pm.
    months m; destruct (isLeap py); cbn; lia. }
  assert (E : MakeDay y m 1 - 1 = MakeDay py pm (daysInMonth py pm)).
  { rewrite (proj1 (MakeDay_in_year py pm _ Hp Hd)).
    assert (H1 : 1 <= 1 <= daysInMonth y m).
    { unfold daysInMonth. months m; destruct (isLeap y); cbn; lia. }
    rewrite (proj1 (MakeDay_in_year y m 1 Hm H1)).
    unfold py, pm, daysInMonth. destruct (Z.eqb_spec m 0) as [->|N].
    - pose proof (DayFromYear_succ (y - 1)) as S.
      replace (y - 1 + 1) with y in S by lia. unfold DaysInYear in S.
      destruct (isLeap (y - 1)); destruct (isLeap y); cbn; lia.
    - months m; try lia; destruct (isLeap y); cbn; lia. }
  rewrite E. destruct (read_back py pm _ Hp Hd) as [Y [M _]]. now split.
Qed.

Lemma TimeClip_Some t d : JsDate.TimeClip t = Some d -> d = t.
Proof.
  unfold JsDate.TimeClip. destruct (_ <=? _)%Z; congruence.
Qed.

End Calendar.

(** ** parseSheetDate *)

Section DateStrings.

Import Js.

Lemma digit_char c :
  isDigit c = true ->
  plain c = true /\ (c =? "-")%char = false /\ (c =? "+")%char = false.
Proof.
  destruct c as [[] [] [] [] [] [] [] []]; vm_compute; intros H;
    first [discriminate H | repeat split].
Qed.

Lemma upper_char c :
  isUpper (upperChar c) = true ->
  plain c = true /\ isDigit c = false
  /\ (c =? "-")%char = false /\ (c =? "+")%char = false.
Proof.
  destruct c as [[] [] [] [] [] [] [] []]; vm_compute; intros H;
    first [discriminate H | repeat split].
Qed.

Lemma plain_char c :
  plain c = true -> isSpace c = false /\ isDateSep c = false.
Proof.
  unfold plain. intros H. apply Bool.andb_true_iff in H.
  destruct H as [H1 H2]. now rewrite Bool.negb_true_iff in H1, H2.
Qed.

Lemma allChars_impl (p q : ascii -> bool) s :
  (forall c, p c = true -> q c = true) ->
  allChars p s = true -> allChars q s = true.
Proof.
  intros Hpq. induction s as [|c r IH]; cbn [allChars]; [reflexivity|].
  intros H. apply Bool.andb_true_iff in H. destruct H as [H1 H2].
  rewrite (Hpq _ H1), (IH H2). reflexivity.
Qed.

Lemma allChars_app p a b :
  allChars p (a ++ b) = allChars p a && allChars p b.
Proof.
  induction a as [|c r IH]; cbn [append allChars]; [reflexivity|].
  now rewrite IH, Bool.andb_assoc.
Qed.

Lemma spanDigits_all s : allChars isDigit s = true -> spanDigits s = (s, "").
Proof.
  induction s as [|c r IH]; cbn [allChars spanDigits]; [reflexivity|].
  intros H. apply Bool.andb_true_iff in H. destruct H as [H1 H2].
  now rewrite H1, (IH H2).
Qed.

Lemma parseInt_numeral a n : numeral a n -> parseInt a = Some n.
Proof.
  intros [Hne [Hd <-]]. destruct a as [|c r]; [contradiction|].
  pose proof Hd as Hall. unfold allDigits in Hd. cbn [allChars] in Hd.
  apply Bool.andb_true_iff in Hd. destruct Hd as [Hc _].
  destruct (digit_char c Hc) as [Hp [Hm Hpl]].
  destruct (plain_char c Hp) as [Hs _].
  unfold parseInt. cbn [trimStart]. rewrite Hs, Hm, Hpl.
  rewrite spanDigits_all by exact Hall. reflexivity.
Qed.

Lemma splitDate_plain s : allChars plain s = true -> splitDate s = [s].
Proof.
  induction s as [|c r IH]; cbn [allChars splitDate]; [reflexivity|].
  intros H. apply Bool.andb_true_iff in H. destruct H as [H1 H2].
  destruct (plain_char c H1) as [_ ->]. now rewrite (IH H2).
Qed.

Lemma splitDate_app a sep r :
  allChars plain a = true -> isDateSep sep = true ->
  splitDate (a ++ String sep r) = a :: splitDate r.
Proof.
  intros Ha Hsep. induction a as [|c a IH]; cbn [append splitDate].
  - now rewrite Hsep.
  - cbn [allChars] in Ha. apply Bool.andb_true_iff in Ha.
    destruct Ha as [H1 H2]. destruct (plain_char c H1) as [_ ->].
    now rewrite (IH H2).
Qed.

Lemma trimEnd_id s : allChars (fun c => negb (isSpace c)) s = true ->
  trimEnd s = s.
Proof.
  induction s as [|c r IH]; cbn [allChars trimEnd]; [reflexivity|].
  intros H. apply Bool.andb_true_iff in H. destruct H as [H1 H2].
  apply Bool.negb_true_iff in H1. now rewrite H1, (IH H2).
Qed.

Lemma plain_not_space s :
  allChars plain s = true -> allChars (fun c => negb (isSpace c)) s = true.
Proof.
  apply allChars_impl. intros c H. destruct (plain_char c H) as [-> _].
  reflexivity.
Qed.

Lemma digits_plain s : allDigits s = true -> allChars plain s = true.
Proof. apply allChars_impl. intros c H. now destruct (digit_char c H). Qed.

(** A month name, in any case, is a plain part that is not a number. *)
Lemma month_part mon :
  mon <> "" -> allChars isUpper (toUpperCase mon) = true ->
  allChars plain mon = true /\ parseInt mon = None.
Proof.
  intros Hne Hup. split.
  - clear Hne. induction mon as [|c r IH]; [reflexivity|].
    cbn [toUpperCase mapChars allChars] in *.
    apply Bool.andb_true_iff in Hup. destruct Hup as [H1 H2].
    destruct (upper_char c H1) as [-> _]. now apply IH.
  - destruct mon as [|c r]; [contradiction|].
    cbn [toUpperCase mapChars allChars] in Hup.
    apply Bool.andb_true_iff in Hup. destruct Hup as [H1 _].
    destruct (upper_char c H1) as [Hp [Hd [Hm Hpl]]].
    destruct (plain_char c Hp) as [Hs _].
    unfold parseInt. cbn [trimStart]. rewrite Hs, Hm, Hpl.
    cbn [spanDigits]. rewrite Hd. reflexivity.
Qed.

Lemma lookup_monthMap u m :
  lookup monthMap u = Some m ->
  allChars isUpper u = true /\ u <> "" /\ (0 <= m < 12)%Z.
Proof.
  unfold monthMap. cbn [lookup].
  repeat match goal with
         | |- context [(?k =? u)%string] =>
             destruct (String.eqb_spec k u);
             [ subst u; intros H; injection H as <-;
               repeat split; (reflexivity || discriminate || lia) | ]
         end.
  discriminate.
Qed.

Variable LocalTZA : Z.
Variable DateParse : string -> option Z.

(** Three plain parts between separators reach the three-part branch as
    they are. *)
Lemma parseSheetDate_three a b c sep1 sep2 :
  a <> "" -> allChars plain a = true -> allChars plain b = true ->
  allChars plain c = true ->
  isDateSep sep1 = true -> isDateSep sep2 = true ->
  isSpace sep1 = false -> isSpace sep2 = false ->
  parseSheetDate LocalTZA DateParse (a ++ String sep1 (b ++ String sep2 c))
  = match parseSheetDateParts LocalTZA [a; b; c] with
    | Some d => d
    | None =>
        match DateParse (a ++ String sep1 (b ++ String sep2 c)) with
        | Some t => t
        | None => 0%Z
        end
    end.
Proof.
  intros Hne Ha Hb Hc H1 H2 S1 S2.
  set (s := a ++ String sep1 (b ++ String sep2 c)).
  assert (Htrim : trim s = s).
  { unfold trim, s. destruct a as [|x a']; [contradiction|].
    cbn [append trimStart]. cbn [allChars] in Ha.
    apply Bool.andb_true_iff in Ha. destruct Ha as [Hx Ha'].
    destruct (plain_char x Hx) as [-> _].
    apply trimEnd_id. cbn [allChars]. rewrite (proj1 (plain_char x Hx)).
    cbn [negb andb]. rewrite allChars_app. cbn [allChars].
    rewrite allChars_app. cbn [allChars].
    rewrite S1, S2, !plain_not_space by assumption. reflexivity. }
  unfold parseSheetDate. rewrite Htrim.
  assert (Htruthy : truthy s = true).
  { unfold s. destruct a; [contradiction | reflexivity]. }
  rewrite Htruthy. cbn [negb].
  unfold s at 1. rewrite splitDate_app by assumption.
  rewrite splitDate_app by assumption.
  rewrite splitDate_plain by assumption. reflexivity.
Qed.

End DateStrings.

Section SheetDates.

Variable LocalTZA : Z.
Variable DateParse : string -> option Z.
Hypothesis tza_small : (Z.abs LocalTZA <= JsDate.msPerDay)%Z.

Lemma daysInMonth_le_31 y m :
  (0 <= m < 12)%Z -> (JsDate.daysInMonth y m <= 31)%Z.
Proof.
  intros Hm. unfold JsDate.daysInMonth.
  assert (m = 0 \/ m = 1 \/ m = 2 \/ m = 3 \/ m = 4 \/ m = 5 \/ m = 6
          \/ m = 7 \/ m = 8 \/ m = 9 \/ m = 10 \/ m = 11)%Z as H by lia.
  repeat (destruct H as [-> | H]); [ .. | subst m];
    destruct (JsDate.isLeap y); cbn; lia.
Qed.

Lemma in_range_checks y m d :
  validDay y m d ->
  ((1900 <? y) && (0 <? d) && (d <=? 31) && (0 <=? m) && (m <? 12))%Z = true.
Proof.
  intros [Hy [Hm Hd]]. pose proof (daysInMonth_le_31 y m Hm).
  repeat (apply Bool.andb_true_iff; split);
    (apply Z.ltb_lt || apply Z.leb_le); lia.
Qed.

Lemma parse_MDY s y m d :
  validDay y m d -> spellsMDY s y m d ->
  parseSheetDate LocalTZA DateParse s
  = (JsDate.MakeDay y m d * JsDate.msPerDay - LocalTZA)%Z.
Proof.
  intros Hv [a [b [c [-> [Ha [Hb Hc]]]]]].
  change (a ++ "/" ++ b ++ "/" ++ c)
    with (a ++ String "/" (b ++ String "/" c)).
  rewrite parseSheetDate_three;
    try reflexivity;
    try (apply digits_plain; first [apply Ha | apply Hb | apply Hc]);
    [| apply Ha].
  unfold parseSheetDateParts.
  rewrite (parseInt_numeral _ _ Ha), (parseInt_numeral _ _ Hb),
          (parseInt_numeral _ _ Hc).
  cbn [option_map]. replace (m + 1 - 1)%Z with m by lia.
  rewrite (in_range_checks y m d Hv).
  now rewrite (checkedDate_valid LocalTZA y m d tza_small Hv).
Qed.

Lemma parse_DMonY s y m d :
  validDay y m d -> spellsDMonY s y m d ->
  parseSheetDate LocalTZA DateParse s
  = (JsDate.MakeDay y m d * JsDate.msPerDay - LocalTZA)%Z.
Proof.
  intros Hv [a [mon [c [-> [Ha [Hmon Hc]]]]]].
  change (a ++ "-" ++ mon ++ "-" ++ c)
    with (a ++ String "-" (mon ++ String "-" c)).
  destruct (lookup_monthMap _ _ Hmon) as [Hup [Hne _]].
  assert (Hmne : mon <> "") by (intros ->; now apply Hne).
  destruct (month_part mon Hmne Hup) as [Hplain Hnan].
  rewrite parseSheetDate_three;
    try reflexivity; try assumption;
    try (apply digits_plain; first [apply Ha | apply Hc]);
    [| apply Ha].
  unfold parseSheetDateParts.
  rewrite Hnan, (parseInt_numeral _ _ Ha), Hmon, (parseInt_numeral _ _ Hc).
  rewrite (in_range_checks y m d Hv).
  now rewrite (checkedDate_valid LocalTZA y m d tza_small Hv).
Qed.

End SheetDates.

Lemma checkedDate_feb30 LocalTZA : checkedDate LocalTZA 2025 1 30 = None.
Proof.
  unfold checkedDate, JsDate.newDate. cbn [andb Z.leb Z.compare].
  destruct (JsDate.TimeClip _) as [t|] eqn:E; [|reflexivity].
  apply TimeClip_Some in E. subst t.
  unfold JsDate.getMonth. rewrite LocalDay_midnight.
  replace (JsDate.MonthFromDay (JsDate.MakeDay 2025 1 30) =? 1)%Z
    with false by (vm_compute; reflexivity).
  now rewrite Bool.andb_false_r.
Qed.

(** What [parseSheetDate] guarantees on every host whose offset from UTC is
    at most a day.  A MM/DD/YYYY spelling and a DD-Mon-YYYY spelling of the
    same valid day parse to the same date, local midnight of that day.  The
    empty string gives the epoch.  "garbage", "nonsense", "13/45/2025" and
    "02/30/2025" fail the three-part validation and are handed to the generic
    parser of the host: the result is what that parser returns, and the
    epoch when it rejects the string.  In general an input gives the epoch
    when both the three-part validation and the generic parser reject it. *)
Theorem parseSheetDate_contract (LocalTZA : Z)
    (DateParse : string -> option Z) :
  (Z.abs LocalTZA <= JsDate.msPerDay)%Z ->
  (forall y m d s1 s2,
     validDay y m d -> spellsMDY s1 y m d -> spellsDMonY s2 y m d ->
     parseSheetDate LocalTZA DateParse s1
     = parseSheetDate LocalTZA DateParse s2
     /\ parseSheetDate LocalTZA DateParse s1
        = (JsDate.MakeDay y m d * JsDate.msPerDay - LocalTZA)%Z
     /\ civilOf LocalTZA (parseSheetDate LocalTZA DateParse s1) = (y, m, d))
  /\ parseSheetDate LocalTZA DateParse "" = 0%Z
  /\ (forall s, In s ["garbage"; "nonsense"; "13/45/2025"; "02/30/2025"] ->
        parseSheetDate LocalTZA DateParse s
        = match DateParse s with Some t => t | None => 0%Z end)
  /\ (forall s,
        parseSheetDateParts LocalTZA (Js.splitDate (Js.trim s)) = None ->
        DateParse (Js.trim s) = None ->
        parseSheetDate LocalTZA DateParse s = 0%Z).
Proof.
  intros Htz. split; [|split; [|split]].
  - intros y m d s1 s2 Hv H1 H2.
    rewrite (parse_MDY LocalTZA DateParse Htz s1 y m d Hv H1).
    rewrite (parse_DMonY LocalTZA DateParse Htz s2 y m d Hv H2).
    split; [reflexivity|]. split; [reflexivity|].
    destruct Hv as [_ [Hm Hd]].
    unfold civilOf, JsDate.getFullYear, JsDate.getMonth, JsDate.getDate.
    rewrite LocalDay_midnight.
    destruct (read_back y m d Hm Hd) as [-> [-> ->]]. reflexivity.
  - reflexivity.
  - intros s [<-|[<-|[<-|[<-|[]]]]]; unfold parseSheetDate.
    + reflexivity.
    + reflexivity.
    + reflexivity.
    + change (parseSheetDateParts LocalTZA
                (Js.splitDate (Js.trim "02/30/2025")))
        with (checkedDate LocalTZA 2025 1 30).
      rewrite checkedDate_feb30. reflexivity.
  - intros s Hp Hd. unfold parseSheetDate.
    destruct (negb (Js.truthy s)); [reflexivity|].
    now rewrite Hp, Hd.
Qed.

Example parseSheetDate_two_spellings :
  (Z.abs yangonTZA <= JsDate.msPerDay)%Z
  /\ validDay 2025 10 1
  /\ spellsMDY "11/01/2025" 2025 10 1
  /\ spellsDMonY "01-Nov-2025" 2025 10 1
  /\ parseSheetDate yangonTZA (lenientDateParse yangonTZA) "11/01/2025"
     = parseSheetDate yangonTZA (lenientDateParse yangonTZA) "01-Nov-2025".
Proof.
  assert (T : (Z.abs yangonTZA <= JsDate.msPerDay)%Z)
    by (vm_compute; discriminate).
  assert (V : validDay 2025 10 1)
    by (repeat split; vm_compute; congruence).
  assert (M : spellsMDY "11/01/2025" 2025 10 1).
  { exists "11", "01", "2025". repeat split; discriminate. }
  assert (D : spellsDMonY "01-Nov-2025" 2025 10 1).
  { exists "01", "Nov", "2025". repeat split; discriminate. }
  repeat (split; [assumption|]).
  exact (proj1 (proj1 (parseSheetDate_contract yangonTZA
                         (lenientDateParse yangonTZA) T)
                  2025 10 1 "11/01/2025" "01-Nov-2025" V M D)).
Defined.

(** C2, at "02/30/2025" on a host whose generic parser accepts a day past
    the end of the month, as V8 does.  The three-part branch rejects the
    date, because it does not read back as 30 February; control then falls
    through to the generic parser, and the result is 2 March 2025 instead of
    the epoch. *)
Theorem feb30_not_rejected :
  parseSheetDateParts 0 (Js.splitDate (Js.trim "02/30/2025")) = None
  /\ lenientDateParse 0 "02/30/2025" = Some 1740873600000%Z
  /\ parseSheetDate 0 (lenientDateParse 0) "02/30/2025" = 1740873600000%Z
  /\ civilOf 0 (parseSheetDate 0 (lenientDateParse 0) "02/30/2025")
     = (2025, 2, 2)%Z
  /\ parseSheetDate 0 (lenientDateParse 0) "02/30/2025" <> 0%Z.
Proof. vm_compute. repeat split. discriminate. Qed.

(** ** Fee rows *)

(** C9, at a name that has "(Fees)" in the middle.  The name does not end
    with "(Fees)" and the remarks are empty, so the row is not a fee entry;
    [isFeeEntryRow] says so, but [isFeeRow], which looks for "(fees)"
    anywhere in the name, classifies the row as a fee entry. *)
Theorem fee_detectors_disagree :
  specIsFee feesInsideName = false
  /\ isFeeEntryRow feesInsideName = false
  /\ isFeeRow feesInsideName = true.
Proof. vm_compute. repeat split. Qed.

(** ** Unpaid grouping *)

Lemma sumZ_from {A : Type} (f : A -> Z) (l : list A) (a : Z) :
  fold_left (fun sum x => sum + f x) l a = a + sumZ f l.
Proof.
  unfold sumZ. revert a.
  induction l as [|x l IH]; intros a; cbn [fold_left].
  - lia.
  - rewrite IH, (IH (0 + f x)). lia.
Qed.

Lemma sumZ_nil {A : Type} (f : A -> Z) : sumZ f [] = 0.
Proof. reflexivity. Qed.

Lemma sumZ_cons {A : Type} (f : A -> Z) (x : A) (l : list A) :
  sumZ f (x :: l) = f x + sumZ f l.
Proof. unfold sumZ at 1. cbn [fold_left]. rewrite sumZ_from. lia. Qed.

Lemma sumZ_app {A : Type} (f : A -> Z) (l1 l2 : list A) :
  sumZ f (l1 ++ l2)%list = sumZ f l1 + sumZ f l2.
Proof.
  induction l1 as [|x l1 IH]; cbn [app].
  - rewrite sumZ_nil. lia.
  - rewrite !sumZ_cons, IH. lia.
Qed.

Lemma totalDue_addToGroup t g :
  totalDue (addToGroup t g) = totalDue g + amountOf t.
Proof. reflexivity. Qed.

Lemma g_pnr_addToGroup t g : g_pnr (addToGroup t g) = g_pnr g.
Proof. reflexivity. Qed.

Lemma sum_upsertGroup t k gs :
  sumZ totalDue (upsertGroup t k gs) = sumZ totalDue gs + amountOf t.
Proof.
  induction gs as [|g gs IH]; cbn [upsertGroup].
  - rewrite sumZ_cons, sumZ_nil, totalDue_addToGroup. cbn [totalDue]. lia.
  - destruct (g_pnr g =? k); rewrite !sumZ_cons.
    + rewrite totalDue_addToGroup. lia.
    + rewrite IH. lia.
Qed.

Lemma sum_unpaidStep gs t :
  sumZ totalDue (unpaidStep gs t)
  = sumZ totalDue gs + (if unpaidActive t then amountOf t else 0).
Proof.
  unfold unpaidStep, unpaidActive.
  destruct (paid t); cbn [negb andb]; [lia|].
  destruct (isCancelledOrRefunded t); cbn [negb]; [lia|].
  apply sum_upsertGroup.
Qed.

Lemma sum_unpaid_from ts gs :
  sumZ totalDue (fold_left unpaidStep ts gs)
  = sumZ totalDue gs + sumZ amountOf (filter unpaidActive ts).
Proof.
  revert gs. induction ts as [|t ts IH]; intros gs; cbn [fold_left filter].
  - rewrite sumZ_nil. lia.
  - rewrite IH, sum_unpaidStep.
    destruct (unpaidActive t); [rewrite sumZ_cons|]; lia.
Qed.

Lemma keys_upsertGroup t k gs :
  keysOf (upsertGroup t k gs)
  = if existsb (fun x => x =? k) (keysOf gs) then keysOf gs
    else (keysOf gs ++ [k])%list.
Proof.
  induction gs as [|g gs IH]; cbn [upsertGroup keysOf map existsb].
  - reflexivity.
  - destruct (g_pnr g =? k) eqn:E; cbn [orb map].
    + reflexivity.
    + fold (keysOf gs). fold (keysOf (upsertGroup t k gs)). rewrite IH.
      destruct (existsb (fun x => x =? k) (keysOf gs)); reflexivity.
Qed.

Lemma existsb_eqb_In k l : existsb (fun x => x =? k) l = true <-> In k l.
Proof.
  rewrite existsb_exists. split.
  - intros [x [Hx E]]. apply String.eqb_eq in E. now subst.
  - intros H. exists k. split; [assumption | apply String.eqb_refl].
Qed.

Lemma NoDup_snoc {A : Type} (l : list A) (x : A) :
  NoDup l -> ~ In x l -> NoDup (l ++ [x])%list.
Proof.
  intros Hl Hx. induction Hl as [|y l Hy Hl IH]; cbn [app].
  - constructor; [intros [] | constructor].
  - constructor.
    + rewrite in_app_iff. intros [H|[H|[]]]; [now apply Hy|].
      subst. apply Hx. now left.
    + apply IH. intros H. apply Hx. now right.
Qed.

Lemma NoDup_keys_upsert t k gs :
  NoDup (keysOf gs) -> NoDup (keysOf (upsertGroup t k gs)).
Proof.
  intros H. rewrite keys_upsertGroup.
  destruct (existsb (fun x => x =? k) (keysOf gs)) eqn:E; [assumption|].
  apply NoDup_snoc; [assumption|].
  intros Hin. apply existsb_eqb_In in Hin. congruence.
Qed.

Lemma NoDup_keys_unpaid ts gs :
  NoDup (keysOf gs) -> NoDup (keysOf (fold_left unpaidStep ts gs)).
Proof.
  revert gs. induction ts as [|t ts IH]; intros gs H; cbn [fold_left].
  - assumption.
  - apply IH. unfold unpaidStep.
    destruct (paid t); [assumption|].
    destruct (isCancelledOrRefunded t); [assumption|].
    now apply NoDup_keys_upsert.
Qed.

Lemma dueOfKey_cons k g gs :
  dueOfKey k (g :: gs)
  = (if g_pnr g =? k then totalDue g else 0) + dueOfKey k gs.
Proof.
  unfold dueOfKey. cbn [filter].
  destruct (g_pnr g =? k); [rewrite sumZ_cons|]; lia.
Qed.

Lemma dueOfKey_upsert t k gs k' :
  dueOfKey k' (upsertGroup t k gs)
  = dueOfKey k' gs + (if k =? k' then amountOf t else 0).
Proof.
  induction gs as [|g gs IH]; cbn [upsertGroup].
  - rewrite dueOfKey_cons. cbn [g_pnr addToGroup totalDue].
    unfold dueOfKey. cbn [filter]. rewrite sumZ_nil.
    unfold amountOf. destruct (k =? k'); lia.
  - destruct (g_pnr g =? k) eqn:E; rewrite !dueOfKey_cons.
    + apply String.eqb_eq in E. rewrite g_pnr_addToGroup, E.
      rewrite totalDue_addToGroup. destruct (k =? k'); lia.
    + rewrite IH. lia.
Qed.

Lemma dueOfKey_unpaidStep k gs t :
  dueOfKey k (unpaidStep gs t)
  = dueOfKey k gs
    + (if unpaidActive t && (groupKey t =? k) then amountOf t else 0).
Proof.
  unfold unpaidStep, unpaidActive.
  destruct (paid t); cbn [negb andb]; [lia|].
  destruct (isCancelledOrRefunded t); cbn [negb andb]; [lia|].
  fold (groupKey t). apply dueOfKey_upsert.
Qed.

Lemma dueOfKey_unpaid_from k ts gs :
  dueOfKey k (fold_left unpaidStep ts gs)
  = dueOfKey k gs
    + sumZ amountOf
        (filter (fun t => unpaidActive t && (groupKey t =? k)) ts).
Proof.
  revert gs. induction ts as [|t ts IH]; intros gs; cbn [fold_left filter].
  - rewrite sumZ_nil. lia.
  - rewrite IH, dueOfKey_unpaidStep.
    destruct (unpaidActive t && (groupKey t =? k)); [rewrite sumZ_cons|]; lia.
Qed.

Lemma dueOfKey_absent k gs : ~ In k (keysOf gs) -> dueOfKey k gs = 0.
Proof.
  induction gs as [|g gs IH]; intros H.
  - reflexivity.
  - rewrite dueOfKey_cons. cbn [keysOf map In] in H.
    destruct (g_pnr g =? k) eqn:E.
    + apply String.eqb_eq in E. tauto.
    + rewrite IH; [lia | tauto].
Qed.

Lemma dueOfKey_member g gs :
  NoDup (keysOf gs) -> In g gs -> dueOfKey (g_pnr g) gs = totalDue g.
Proof.
  induction gs as [|h gs IH]; intros Hnd Hin; [destruct Hin|].
  cbn [keysOf map] in Hnd. inversion Hnd as [|x l Hx Hl]; subst.
  rewrite dueOfKey_cons. destruct Hin as [->|Hin].
  - rewrite String.eqb_refl, dueOfKey_absent by assumption. lia.
  - destruct (g_pnr h =? g_pnr g) eqn:E.
    + apply String.eqb_eq in E. exfalso. apply Hx. rewrite E.
      now apply in_map.
    + rewrite IH by assumption. lia.
Qed.

(** With whole amounts added exactly, the unpaid groups partition the
    unpaid, non-cancelled tickets: the amounts due of all groups add up to
    the amounts of those tickets taken one by one; no two groups have the
    same PNR; and the amount due of each group is the sum over the tickets
    of its own PNR. *)
Lemma unpaid_groups_exact (allTickets : list Ticket) :
  sumZ totalDue (unpaidGroups allTickets)
  = sumZ (fun t => net_amount t + extra_fare t + date_change t)
      (filter (fun t => negb (paid t) && negb (isCancelledOrRefunded t))
         allTickets)
  /\ NoDup (map g_pnr (unpaidGroups allTickets))
  /\ forall g, In g (unpaidGroups allTickets) ->
       totalDue g
       = sumZ (fun t => net_amount t + extra_fare t + date_change t)
           (filter (fun t => negb (paid t) && negb (isCancelledOrRefunded t)
                             && (Js.toUpperCase
                                   (Js.orElse (booking_reference t) "N/A")
                                 =? g_pnr g))
              allTickets).
Proof.
  unfold unpaidGroups. split; [|split].
  - rewrite sum_unpaid_from, sumZ_nil. reflexivity.
  - apply (NoDup_keys_unpaid allTickets []). constructor.
  - intros g Hg.
    rewrite <- (dueOfKey_member g (fold_left unpaidStep allTickets []));
      [| apply (NoDup_keys_unpaid allTickets []); constructor | assumption].
    rewrite dueOfKey_unpaid_from. reflexivity.
Qed.

(** *** The arithmetic of the language on whole amounts *)

Section Exact.
Local Open Scope Z_scope.

Lemma shiftl_succ m k : Pos.shiftl m (N.succ k) = xO (Pos.shiftl m k).
Proof.
  destruct k as [|p]; [reflexivity|].
  cbn [N.succ Pos.shiftl]. apply Pos.iter_succ.
Qed.

Lemma shiftl_add m a b :
  Pos.shiftl (Pos.shiftl m a) b = Pos.shiftl m (a + b)%N.
Proof.
  induction b as [|b IH] using N.peano_ind.
  - now rewrite N.add_0_r.
  - now rewrite N.add_succ_r, !shiftl_succ, IH.
Qed.

Lemma shiftl_value m k : Zpos (Pos.shiftl m k) = Zpos m * 2 ^ Z.of_N k.
Proof.
  induction k as [|k IH] using N.peano_ind.
  - cbn [Pos.shiftl]. change (Z.of_N 0) with 0. lia.
  - rewrite shiftl_succ, N2Z.inj_succ, Z.pow_succ_r by apply N2Z.is_nonneg.
    rewrite Pos2Z.inj_xO, IH. lia.
Qed.

Lemma digits_shiftl m k :
  Zpos (digits2_pos (Pos.shiftl m k)) = Zpos (digits2_pos m) + Z.of_N k.
Proof.
  induction k as [|k IH] using N.peano_ind.
  - cbn [Pos.shiftl]. change (Z.of_N 0) with 0. lia.
  - rewrite shiftl_succ, N2Z.inj_succ. cbn [digits2_pos]. lia.
Qed.

Lemma digits_bounds m :
  2 ^ (Zpos (digits2_pos m) - 1) <= Zpos m < 2 ^ Zpos (digits2_pos m).
Proof.
  assert (S : forall d, 0 < d -> 2 ^ d = 2 * 2 ^ (d - 1)).
  { intros d Hd. replace d with (Z.succ (d - 1)) at 1 by lia.
    apply Z.pow_succ_r. lia. }
  induction m as [m IH|m IH|]; cbn [digits2_pos].
  - pose proof (S _ (Pos2Z.is_pos (digits2_pos m))) as E.
    rewrite Pos2Z.inj_succ.
    replace (Z.succ (Zpos (digits2_pos m)) - 1)
      with (Zpos (digits2_pos m)) by lia.
    rewrite Z.pow_succ_r by lia. lia.
  - pose proof (S _ (Pos2Z.is_pos (digits2_pos m))) as E.
    rewrite Pos2Z.inj_succ.
    replace (Z.succ (Zpos (digits2_pos m)) - 1)
      with (Zpos (digits2_pos m)) by lia.
    rewrite Z.pow_succ_r by lia. lia.
  - cbn. lia.
Qed.

Lemma digits_safe m :
  Zpos m <= Doubles.MAX_SAFE_INTEGER -> Zpos (digits2_pos m) <= 53.
Proof.
  intros H. destruct (Z.le_gt_cases (Zpos (digits2_pos m)) 53) as [L|G];
    [exact L|exfalso].
  pose proof (digits_bounds m) as [B _].
  assert (2 ^ 53 <= 2 ^ (Zpos (digits2_pos m) - 1))
    by (apply Z.pow_le_mono_r; lia).
  unfold Doubles.MAX_SAFE_INTEGER in H. change (2 ^ 53) with 9007199254740992 in *.
  lia.
Qed.

Lemma iter_pos_iter {A : Type} (f : A -> A) p :
  forall x, iter_pos f p x = Pos.iter f x p.
Proof.
  induction p as [p IH|p IH|]; intros x; cbn [iter_pos Pos.iter].
  - rewrite !IH. now rewrite <- !Pos.iter_swap.
  - now rewrite !IH.
  - reflexivity.
Qed.

Lemma shr_zeros m p : forall j,
  iter_pos shr_1 p
    (Build_shr_record (Zpos (Pos.shiftl m (N.pos p + j))) false false)
  = Build_shr_record (Zpos (Pos.shiftl m j)) false false.
Proof.
  intros j. rewrite iter_pos_iter. revert j.
  induction p as [|p IH] using Pos.peano_ind; intros j.
  - cbn [Pos.iter]. change (N.pos 1 + j)%N with (1 + j)%N.
    rewrite N.add_1_l, shiftl_succ. reflexivity.
  - rewrite Pos.iter_succ.
    replace (N.pos (Pos.succ p) + j)%N with (N.pos p + N.succ j)%N by lia.
    rewrite IH, shiftl_succ. reflexivity.
Qed.

Lemma shr_none M e :
  Zpos (digits2_pos M) = 53 -> -1074 <= e ->
  shr_fexp 53 1024 (Zpos M) e loc_Exact
  = (Build_shr_record (Zpos M) false false, e).
Proof.
  intros D He. unfold shr_fexp, fexp, emin.
  cbn [Zdigits2 shr_record_of_loc]. rewrite D.
  replace (Z.max (53 + e - 53) (3 - 1024 - 53) - e) with 0 by lia.
  reflexivity.
Qed.

Lemma round_aux_exact s mx ex M e :
  shr_fexp 53 1024 mx ex loc_Exact
  = (Build_shr_record (Zpos M) false false, e) ->
  Zpos (digits2_pos M) = 53 -> -1074 <= e <= 971 ->
  binary_round_aux 53 1024 s mx ex loc_Exact = S754_finite s M e.
Proof.
  intros H D He. unfold binary_round_aux. rewrite H.
  cbn [shr_m loc_of_shr_record round_nearest_even].
  rewrite shr_none by (assumption || lia). cbn [shr_m].
  destruct (Z.leb_spec e (1024 - 53)); [reflexivity|lia].
Qed.

Lemma round_shift s m k :
  Zpos (digits2_pos m) <= 53 ->
  binary_round 53 1024 s (Pos.shiftl m k) (- Z.of_N k) = canon s m.
Proof.
  intros D. pose proof (Pos2Z.is_pos (digits2_pos m)) as Dp.
  set (d := Zpos (digits2_pos m)) in *.
  assert (DM : Zpos (digits2_pos (Pos.shiftl m (Z.to_N (53 - d)))) = 53).
  { rewrite digits_shiftl. fold d. rewrite Z2N.id by lia. lia. }
  unfold binary_round. rewrite digits_shiftl. fold d.
  unfold fexp, emin.
  replace (Z.max (d + Z.of_N k + - Z.of_N k - 53) (3 - 1024 - 53))
    with (d - 53) by lia.
  unfold shl_align, canon. fold d.
  destruct (d - 53 - - Z.of_N k) as [|p|p] eqn:Q.
  - assert (K : k = Z.to_N (53 - d)) by lia.
    replace (- Z.of_N k) with (d - 53) by lia. rewrite K.
    apply round_aux_exact; [apply shr_none| |]; assumption || lia.
  - replace (d - 53) with (- Z.of_N k + Zpos p) by lia.
    apply round_aux_exact; [|assumption|lia].
    unfold shr_fexp, fexp, emin.
    cbn [Zdigits2 shr_record_of_loc]. rewrite digits_shiftl. fold d.
    replace (Z.max (d + Z.of_N k + - Z.of_N k - 53) (3 - 1024 - 53)
             - - Z.of_N k) with (Zpos p) by lia.
    cbn [shr].
    replace k with (N.pos p + Z.to_N (53 - d))%N at 1 by lia.
    now rewrite shr_zeros.
  - replace (Pos.iter xO (Pos.shiftl m k) p)
      with (Pos.shiftl (Pos.shiftl m k) (N.pos p)) by reflexivity.
    rewrite shiftl_add.
    replace (k + N.pos p)%N with (Z.to_N (53 - d)) by lia.
    apply round_aux_exact; [apply shr_none| |]; assumption || lia.
Qed.

Lemma ofZ_pos m :
  Zpos m <= Doubles.MAX_SAFE_INTEGER -> Doubles.ofZ (Zpos m) = canon false m.
Proof.
  intros H. unfold Doubles.ofZ, binary_normalize.
  apply (round_shift false m 0). now apply digits_safe.
Qed.

Lemma ofZ_neg m :
  Zpos m <= Doubles.MAX_SAFE_INTEGER -> Doubles.ofZ (Zneg m) = canon true m.
Proof.
  intros H. unfold Doubles.ofZ, binary_normalize.
  apply (round_shift true m 0). now apply digits_safe.
Qed.

Lemma normalize_shift n k :
  Z.abs n <= Doubles.MAX_SAFE_INTEGER ->
  binary_normalize 53 1024 (n * 2 ^ Z.of_N k) (- Z.of_N k) false = Doubles.ofZ n.
Proof.
  intros H. destruct n as [|m|m].
  - reflexivity.
  - rewrite <- shiftl_value, ofZ_pos by exact H. cbn [binary_normalize].
    apply round_shift. now apply digits_safe.
  - change (Zneg m) with (- Zpos m). rewrite Z.mul_opp_l, <- shiftl_value.
    change (- Zpos m) with (Zneg m). rewrite ofZ_neg by exact H.
    cbn [Z.opp binary_normalize]. apply round_shift. now apply digits_safe.
Qed.

Lemma align_fst M e e' :
  e' <= e -> fst (shl_align M e e') = Pos.shiftl M (Z.to_N (e - e')).
Proof.
  intros H. unfold shl_align. destruct (e' - e) as [|p|p] eqn:Q.
  - replace (e - e') with 0 by lia. reflexivity.
  - lia.
  - replace (e - e') with (Zpos p) by lia. reflexivity.
Qed.

(** The sign and the magnitude of a whole number. *)
Lemma add_canon sx mx sy my :
  Zpos mx <= Doubles.MAX_SAFE_INTEGER -> Zpos my <= Doubles.MAX_SAFE_INTEGER ->
  let x := cond_Zopp sx (Zpos mx) in
  let y := cond_Zopp sy (Zpos my) in
  Z.abs (x + y) <= Doubles.MAX_SAFE_INTEGER ->
  Doubles.add (canon sx mx) (canon sy my) = Doubles.ofZ (x + y).
Proof.
  intros Hx Hy x y Hs.
  pose proof (digits_safe mx Hx) as Dx. pose proof (digits_safe my Hy) as Dy.
  pose proof (Pos2Z.is_pos (digits2_pos mx)) as Px.
  pose proof (Pos2Z.is_pos (digits2_pos my)) as Py.
  unfold Doubles.add, canon. cbn [SFadd].
  set (dx := Zpos (digits2_pos mx)) in *.
  set (dy := Zpos (digits2_pos my)) in *.
  set (ez := Z.min (dx - 53) (dy - 53)).
  rewrite !align_fst by (unfold ez; lia). rewrite !shiftl_add.
  set (K := Z.to_N (- ez)).
  replace (Z.to_N (53 - dx) + Z.to_N (dx - 53 - ez))%N with K
    by (unfold K, ez; lia).
  replace (Z.to_N (53 - dy) + Z.to_N (dy - 53 - ez))%N with K
    by (unfold K, ez; lia).
  replace ez with (- Z.of_N K) by (unfold K, ez; lia).
  rewrite !shiftl_value.
  replace (cond_Zopp sx (Zpos mx * 2 ^ Z.of_N K)
           + cond_Zopp sy (Zpos my * 2 ^ Z.of_N K))
    with ((x + y) * 2 ^ Z.of_N K)
    by (unfold x, y; destruct sx, sy; cbn [cond_Zopp]; lia).
  now apply normalize_shift.
Qed.

Lemma add_whole a b :
  Z.abs a <= Doubles.MAX_SAFE_INTEGER -> Z.abs b <= Doubles.MAX_SAFE_INTEGER ->
  Z.abs (a + b) <= Doubles.MAX_SAFE_INTEGER ->
  Doubles.add (Doubles.ofZ a) (Doubles.ofZ b) = Doubles.ofZ (a + b).
Proof.
  intros Ha Hb Hs.
  destruct a as [|ma|ma], b as [|mb|mb];
    rewrite ?Z.add_0_l, ?Z.add_0_r;
    rewrite ?(ofZ_pos ma), ?(ofZ_neg ma), ?(ofZ_pos mb), ?(ofZ_neg mb)
      by assumption;
    try reflexivity.
  - now apply (add_canon false ma false mb).
  - now apply (add_canon false ma true mb).
  - now apply (add_canon true ma false mb).
  - now apply (add_canon true ma true mb).
Qed.

End Exact.

Lemma ofZ_orZero z :
  Z.abs z <= Doubles.MAX_SAFE_INTEGER ->
  Doubles.orZero (Doubles.ofZ z) = Doubles.ofZ z.
Proof.
  intros H. destruct z as [|m|m].
  - reflexivity.
  - now rewrite ofZ_pos by exact H.
  - now rewrite ofZ_neg by exact H.
Qed.

(** A sum of whole numbers, taken from left to right, is exact as long as
    the sizes of the terms add up to at most 2^53 - 1. *)
Lemma fold_add_whole {A : Type} (f : A -> Z) (g : A -> Doubles.number)
    (l : list A) :
  (forall x, In x l -> g x = Doubles.ofZ (f x)) ->
  forall a,
  Z.abs a + sumZ (fun x => Z.abs (f x)) l <= Doubles.MAX_SAFE_INTEGER ->
  fold_left (fun s x => Doubles.add s (g x)) l (Doubles.ofZ a)
  = Doubles.ofZ (a + sumZ f l).
Proof.
  induction l as [|x l IH]; intros Hg a Hb; cbn [fold_left].
  - rewrite sumZ_nil. f_equal. lia.
  - rewrite sumZ_cons in Hb. rewrite sumZ_cons.
    assert (P : 0 <= sumZ (fun x => Z.abs (f x)) l).
    { clear. induction l as [|y l IH]; [rewrite sumZ_nil; lia|].
      rewrite sumZ_cons. lia. }
    rewrite (Hg x) by now left.
    rewrite add_whole by lia.
    rewrite IH; [f_equal; lia | intros y Hy; apply Hg; now right | lia].
Qed.

Lemma sum_whole {A : Type} (f : A -> Z) (g : A -> Doubles.number)
    (l : list A) :
  (forall x, In x l -> g x = Doubles.ofZ (f x)) ->
  sumZ (fun x => Z.abs (f x)) l <= Doubles.MAX_SAFE_INTEGER ->
  Doubles.sum g l = Doubles.ofZ (sumZ f l).
Proof.
  intros Hg Hb. unfold Doubles.sum.
  change Doubles.zero with (Doubles.ofZ 0).
  rewrite (fold_add_whole f g l Hg 0) by (cbn [Z.abs]; lia).
  f_equal.
Qed.

Section WholeAmounts.

Variables net extra change : Ticket -> Doubles.number.

(** A group of the numbers and a group of the records agree. *)
Let agree (gd : Doubles.UnpaidGroup) (g : UnpaidGroup) : Prop :=
  Doubles.g_pnr gd = g_pnr g
  /\ Doubles.passengers gd = passengers g
  /\ Doubles.totalDue gd = Doubles.ofZ (totalDue g).

Lemma amt_whole t :
  wholeAmounts net extra change t ->
  absAmount t <= Doubles.MAX_SAFE_INTEGER ->
  Doubles.amt net extra change t = Doubles.ofZ (amountOf t).
Proof.
  intros (E1 & E2 & E3) H. unfold absAmount in H.
  unfold Doubles.amt, amountOf. rewrite E1, E2, E3.
  rewrite !ofZ_orZero by lia. rewrite !add_whole by lia. reflexivity.
Qed.

Lemma agree_addToGroup t gd g :
  agree gd g -> wholeAmounts net extra change t ->
  Z.abs (totalDue g) + absAmount t <= Doubles.MAX_SAFE_INTEGER ->
  agree (Doubles.addToGroup net extra change t gd) (addToGroup t g).
Proof.
  intros (K & P & T) W H. unfold agree, Doubles.addToGroup, addToGroup.
  cbn [Doubles.g_pnr Doubles.passengers Doubles.totalDue g_pnr passengers
       totalDue].
  assert (A : 0 <= absAmount t) by (unfold absAmount; lia).
  assert (B : Z.abs (amountOf t) <= absAmount t)
    by (unfold amountOf, absAmount; lia).
  split; [exact K|]. split; [now rewrite P|].
  rewrite T, amt_whole by (assumption || lia).
  rewrite add_whole by lia. reflexivity.
Qed.

Lemma agree_upsertGroup t k gsd gs bound :
  Forall2 agree gsd gs -> wholeAmounts net extra change t ->
  0 <= bound ->
  (forall g, In g gs -> Z.abs (totalDue g) <= bound) ->
  bound + absAmount t <= Doubles.MAX_SAFE_INTEGER ->
  Forall2 agree (Doubles.upsertGroup net extra change t k gsd)
    (upsertGroup t k gs)
  /\ (forall g, In g (upsertGroup t k gs) ->
        Z.abs (totalDue g) <= bound + absAmount t).
Proof.
  intros F W B0 Hb H.
  assert (A : 0 <= absAmount t) by (unfold absAmount; lia).
  assert (Am : Z.abs (amountOf t) <= absAmount t)
    by (unfold amountOf, absAmount; lia).
  induction F as [|gd g gsd gs R F IH];
    cbn [Doubles.upsertGroup upsertGroup].
  - split.
    + constructor; [|constructor].
      apply agree_addToGroup; [now repeat split|exact W|].
      cbn [totalDue Z.abs]. lia.
    + intros g [<-|[]]. cbn [addToGroup totalDue]. fold (amountOf t). lia.
  - destruct R as (K & P & T). rewrite K.
    assert (Hg : Z.abs (totalDue g) <= bound) by (apply Hb; now left).
    destruct (g_pnr g =? k)%string.
    + split.
      * constructor; [|exact F].
        apply agree_addToGroup; [now repeat split|exact W|lia].
      * intros g' [<-|Hg'].
        -- cbn [addToGroup totalDue]. fold (amountOf t). lia.
        -- assert (Z.abs (totalDue g') <= bound) by (apply Hb; now right).
           lia.
    + destruct IH as [IH1 IH2]; [intros g' Hg'; apply Hb; now right|].
      split.
      * constructor; [now repeat split|exact IH1].
      * intros g' [<-|Hg']; [lia|now apply IH2].
Qed.

Lemma sumZ_nonneg {A : Type} (f : A -> Z) (l : list A) :
  (forall x, 0 <= f x) -> 0 <= sumZ f l.
Proof.
  intros H. induction l as [|x l IH]; [rewrite sumZ_nil; lia|].
  rewrite sumZ_cons. specialize (H x). lia.
Qed.

Lemma absAmount_nonneg t : 0 <= absAmount t.
Proof. unfold absAmount. lia. Qed.

Lemma agree_unpaid_from ts : forall gsd gs bound,
  Forall2 agree gsd gs ->
  (forall t, In t ts -> unpaidActive t = true ->
             wholeAmounts net extra change t) ->
  0 <= bound ->
  (forall g, In g gs -> Z.abs (totalDue g) <= bound) ->
  bound + sumZ absAmount (filter unpaidActive ts)
  <= Doubles.MAX_SAFE_INTEGER ->
  Forall2 agree
    (fold_left (Doubles.unpaidStep net extra change) ts gsd)
    (fold_left unpaidStep ts gs).
Proof.
  induction ts as [|t ts IH]; intros gsd gs bound F W B0 Hb H;
    cbn [fold_left]; [exact F|].
  cbn [filter] in H.
  pose proof (sumZ_nonneg absAmount (filter unpaidActive ts)
                absAmount_nonneg) as P.
  pose proof (absAmount_nonneg t) as A.
  assert (W' : forall u, In u ts -> unpaidActive u = true ->
                         wholeAmounts net extra change u)
    by (intros u Hu; apply W; now right).
  unfold Doubles.unpaidStep at 2, unpaidStep at 2.
  pose proof (W t (or_introl eq_refl)) as Wt.
  assert (U : unpaidActive t
              = negb (paid t) && negb (isCancelledOrRefunded t))
    by reflexivity.
  rewrite U in H, Wt.
  destruct (paid t); cbn [negb andb] in H, Wt;
    [now apply (IH gsd gs bound)|].
  destruct (isCancelledOrRefunded t); cbn [negb] in H, Wt;
    [now apply (IH gsd gs bound)|].
  rewrite sumZ_cons in H.
  destruct (agree_upsertGroup t
              (Js.toUpperCase (Js.orElse (booking_reference t) "N/A"))
              gsd gs bound F (Wt eq_refl) B0 Hb ltac:(lia)) as [F' Hb'].
  apply (IH _ _ (bound + absAmount t)); try assumption; lia.
Qed.

Lemma agree_keys gsd gs :
  Forall2 agree gsd gs -> map Doubles.g_pnr gsd = map g_pnr gs.
Proof.
  induction 1 as [|gd g gsd gs (K & _) _ IH]; [reflexivity|].
  cbn [map]. now rewrite K, IH.
Qed.

Lemma agree_member gsd gs gd :
  Forall2 agree gsd gs -> In gd gsd ->
  exists g, In g gs /\ agree gd g.
Proof.
  induction 1 as [|gd' g gsd gs R _ IH]; intros H; [destruct H|].
  destruct H as [<-|H].
  - exists g. split; [now left|exact R].
  - destruct (IH H) as (g' & Hg' & R'). exists g'. split; [now right|exact R'].
Qed.

Lemma agree_sum_from gsd gs :
  Forall2 agree gsd gs ->
  forall a,
  Z.abs a + sumZ (fun g => Z.abs (totalDue g)) gs
  <= Doubles.MAX_SAFE_INTEGER ->
  fold_left (fun s x => Doubles.add s (Doubles.totalDue x)) gsd
    (Doubles.ofZ a)
  = Doubles.ofZ (a + sumZ totalDue gs).
Proof.
  induction 1 as [|gd g gsd gs (_ & _ & T) _ IH]; intros a H;
    cbn [fold_left].
  - rewrite sumZ_nil. f_equal. lia.
  - rewrite sumZ_cons in H. rewrite sumZ_cons, T.
    pose proof (sumZ_nonneg (fun g => Z.abs (totalDue g)) gs
                  ltac:(intros; lia)) as P.
    rewrite add_whole by lia. rewrite IH by lia. f_equal. lia.
Qed.

Lemma agree_sum gsd gs :
  Forall2 agree gsd gs ->
  sumZ (fun g => Z.abs (totalDue g)) gs <= Doubles.MAX_SAFE_INTEGER ->
  Doubles.sum Doubles.totalDue gsd = Doubles.ofZ (sumZ totalDue gs).
Proof.
  intros F H. unfold Doubles.sum. change Doubles.zero with (Doubles.ofZ 0).
  rewrite (agree_sum_from gsd gs F 0) by (cbn [Z.abs]; lia).
  f_equal.
Qed.

End WholeAmounts.

(** The sizes of the totals of the groups are within the sizes of the
    amounts of their tickets. *)
Lemma abs_unpaid_from ts : forall gs,
  sumZ (fun g => Z.abs (totalDue g)) (fold_left unpaidStep ts gs)
  <= sumZ (fun g => Z.abs (totalDue g)) gs
     + sumZ absAmount (filter unpaidActive ts).
Proof.
  assert (U : forall t k gs,
            sumZ (fun g => Z.abs (totalDue g)) (upsertGroup t k gs)
            <= sumZ (fun g => Z.abs (totalDue g)) gs + absAmount t).
  { intros t k gs.
    assert (Am : Z.abs (amountOf t) <= absAmount t)
      by (unfold amountOf, absAmount; lia).
    induction gs as [|g gs IH]; cbn [upsertGroup].
    - rewrite sumZ_cons, !sumZ_nil. cbn [addToGroup totalDue].
      fold (amountOf t). lia.
    - destruct (g_pnr g =? k)%string; rewrite !sumZ_cons.
      + cbn [addToGroup totalDue]. fold (amountOf t). lia.
      + lia. }
  induction ts as [|t ts IH]; intros gs; cbn [fold_left filter].
  - rewrite sumZ_nil. lia.
  - pose proof (IH (unpaidStep gs t)) as I.
    assert (S : sumZ (fun g => Z.abs (totalDue g)) (unpaidStep gs t)
                <= sumZ (fun g => Z.abs (totalDue g)) gs
                   + (if unpaidActive t then absAmount t else 0)).
    { unfold unpaidStep.
      assert (E : unpaidActive t
                  = negb (paid t) && negb (isCancelledOrRefunded t))
        by reflexivity.
      rewrite E.
      destruct (paid t); cbn [negb andb]; [lia|].
      destruct (isCancelledOrRefunded t); cbn [negb]; [lia|].
      apply U. }
    destruct (unpaidActive t); [rewrite sumZ_cons|]; lia.
Qed.

Lemma sumZ_le {A : Type} (f g : A -> Z) (l : list A) :
  (forall x, f x <= g x) -> sumZ f l <= sumZ g l.
Proof.
  intros H. induction l as [|x l IH]; [rewrite !sumZ_nil; lia|].
  rewrite !sumZ_cons. specialize (H x). lia.
Qed.

Lemma sumZ_member {A : Type} (f : A -> Z) (l : list A) x :
  (forall y, 0 <= f y) -> In x l -> f x <= sumZ f l.
Proof.
  intros H. induction l as [|y l IH]; intros Hx; [destruct Hx|].
  rewrite sumZ_cons. pose proof (sumZ_nonneg f l H).
  destruct Hx as [->|Hx]; [lia|]. specialize (IH Hx). specialize (H y). lia.
Qed.

Lemma sumZ_sublist {A : Type} (f : A -> Z) (p : A -> bool) (l : list A) :
  (forall y, 0 <= f y) -> sumZ f (filter p l) <= sumZ f l.
Proof.
  intros H. induction l as [|y l IH]; cbn [filter]; [lia|].
  specialize (H y). destruct (p y); rewrite ?sumZ_cons; lia.
Qed.

Lemma filter_filter {A : Type} (p q : A -> bool) (l : list A) :
  filter (fun x => p x && q x) l = filter q (filter p l).
Proof.
  induction l as [|x l IH]; [reflexivity|]. cbn [filter].
  destruct (p x); cbn [andb filter]; [destruct (q x)|]; now rewrite IH.
Qed.

Lemma sumZ_perm {A : Type} (f : A -> Z) (l l' : list A) :
  Permutation l l' -> sumZ f l = sumZ f l'.
Proof.
  induction 1 as [|x l l' _ IH|x y l|l l' l'' _ IH1 _ IH2].
  - reflexivity.
  - now rewrite !sumZ_cons, IH.
  - rewrite !sumZ_cons. lia.
  - now rewrite IH1.
Qed.

(** C3, for whole amounts.  When the numbers in the cells of the unpaid,
    non-cancelled tickets are whole and their sizes add up to at most
    2^53 - 1, every addition of the grouping is exact: the amounts due of
    the groups add up to the amounts of those tickets taken one by one,
    which is their exact sum, in whatever order the groups are listed; no
    two groups have the same PNR; and the amount due of each group is the
    sum over the tickets of its own PNR. *)
Theorem unpaid_groups_whole_amounts
    (net extra change : Ticket -> Doubles.number)
    (allTickets : list Ticket) :
  let unpaid :=
    filter (fun t => negb (paid t) && negb (isCancelledOrRefunded t))
      allTickets in
  let ofPnr (k : string) :=
    filter (fun t => (Js.toUpperCase (Js.orElse (booking_reference t) "N/A")
                      =? k)%string) unpaid in
  let amount t := net_amount t + extra_fare t + date_change t in
  (forall t, In t unpaid -> wholeAmounts net extra change t) ->
  sumZ absAmount unpaid <= Doubles.MAX_SAFE_INTEGER ->
  let groups := Doubles.unpaidGroups net extra change allTickets in
  Doubles.sum Doubles.totalDue groups
  = Doubles.sum (Doubles.amt net extra change) unpaid
  /\ Doubles.sum Doubles.totalDue groups = Doubles.ofZ (sumZ amount unpaid)
  /\ NoDup (map Doubles.g_pnr groups)
  /\ (forall g, In g groups ->
       Doubles.totalDue g
       = Doubles.sum (Doubles.amt net extra change) (ofPnr (Doubles.g_pnr g))
       /\ Doubles.totalDue g
          = Doubles.ofZ (sumZ amount (ofPnr (Doubles.g_pnr g))))
  /\ forall listed, Permutation groups listed ->
       Doubles.sum Doubles.totalDue listed
       = Doubles.ofZ (sumZ amount unpaid).
Proof.
  intros unpaid ofPnr amount W B groups.
  change (fun t => negb (paid t) && negb (isCancelledOrRefunded t))
    with unpaidActive in unpaid.
  destruct (unpaid_groups_exact allTickets) as (S & N & G).
  change (fun t => negb (paid t) && negb (isCancelledOrRefunded t))
    with unpaidActive in S, G.
  fold unpaid in S.
  assert (F : Forall2
                (fun gd g =>
                   Doubles.g_pnr gd = g_pnr g
                   /\ Doubles.passengers gd = passengers g
                   /\ Doubles.totalDue gd = Doubles.ofZ (totalDue g))
                groups (unpaidGroups allTickets)).
  { apply (agree_unpaid_from net extra change allTickets [] [] 0).
    - constructor.
    - intros t Ht Ut. apply W. unfold unpaid. apply filter_In. now split.
    - lia.
    - intros g [].
    - fold unpaid. lia. }
  assert (P : forall t, 0 <= absAmount t) by apply absAmount_nonneg.
  assert (A : forall l, (forall t, In t l -> In t unpaid) ->
              sumZ absAmount l <= Doubles.MAX_SAFE_INTEGER ->
              Doubles.sum (Doubles.amt net extra change) l
              = Doubles.ofZ (sumZ amount l)).
  { intros l Hl Bl. apply sum_whole.
    - intros t Ht. apply amt_whole; [now apply W, Hl|].
      pose proof (sumZ_member absAmount l t P Ht). lia.
    - apply Z.le_trans with (2 := Bl). apply sumZ_le.
      intros t. unfold amount, absAmount. lia. }
  assert (T : Doubles.sum Doubles.totalDue groups
              = Doubles.ofZ (sumZ amount unpaid)).
  { rewrite (agree_sum groups (unpaidGroups allTickets) F).
    - now rewrite S.
    - pose proof (abs_unpaid_from allTickets []) as X.
      rewrite sumZ_nil in X. fold (unpaidGroups allTickets) in X.
      fold unpaid in X. lia. }
  split; [|split; [exact T|split; [|split]]].
  - rewrite T. symmetry. now apply A.
  - rewrite (agree_keys _ _ F). exact N.
  - intros gd Hgd.
    destruct (agree_member _ _ gd F Hgd) as (g & Hg & K & _ & E).
    assert (X : Doubles.totalDue gd
                = Doubles.ofZ (sumZ amount (ofPnr (Doubles.g_pnr gd)))).
    { rewrite E, (G g Hg), K. unfold ofPnr, unpaid.
      now rewrite <- filter_filter. }
    split; [|exact X]. rewrite X. symmetry. apply A.
    + intros t Ht. unfold ofPnr in Ht. now apply filter_In in Ht.
    + apply Z.le_trans with (2 := B). unfold ofPnr.
      now apply sumZ_sublist.
  - intros listed Hp.
    destruct (Permutation_Forall2 Hp F) as (gs' & Hp' & F').
    rewrite (agree_sum listed gs' F').
    + now rewrite <- (sumZ_perm totalDue _ _ Hp'), S.
    + rewrite <- (sumZ_perm (fun g => Z.abs (totalDue g)) _ _ Hp').
      pose proof (abs_unpaid_from allTickets []) as X.
      rewrite sumZ_nil in X. fold (unpaidGroups allTickets) in X.
      fold unpaid in X. lia.
Qed.

Lemma unpaid_groups_whole_amounts_witness :
  (forall t,
     In t (filter (fun t => negb (paid t) && negb (isCancelledOrRefunded t))
             scenarioTickets) ->
     wholeAmounts (fun t => Doubles.ofZ (net_amount t))
       (fun t => Doubles.ofZ (extra_fare t))
       (fun t => Doubles.ofZ (date_change t)) t)
  /\ sumZ absAmount
       (filter (fun t => negb (paid t) && negb (isCancelledOrRefunded t))
          scenarioTickets) <= Doubles.MAX_SAFE_INTEGER
  /\ Doubles.sum Doubles.totalDue
       (Doubles.unpaidGroups (fun t => Doubles.ofZ (net_amount t))
          (fun t => Doubles.ofZ (extra_fare t))
          (fun t => Doubles.ofZ (date_change t)) scenarioTickets)
     = Doubles.ofZ 105000.
Proof.
  assert (W : forall t,
            In t (filter (fun t => negb (paid t)
                                   && negb (isCancelledOrRefunded t))
                    scenarioTickets) ->
            wholeAmounts (fun t => Doubles.ofZ (net_amount t))
              (fun t => Doubles.ofZ (extra_fare t))
              (fun t => Doubles.ofZ (date_change t)) t)
    by (intros t _; now repeat split).
  assert (B : sumZ absAmount
                (filter (fun t => negb (paid t)
                                  && negb (isCancelledOrRefunded t))
                   scenarioTickets) <= Doubles.MAX_SAFE_INTEGER)
    by (vm_compute; discriminate).
  split; [exact W|]. split; [exact B|].
  exact (proj1 (proj2 (unpaid_groups_whole_amounts _ _ _ scenarioTickets
                         W B))).
Defined.

(** C3, as it is worded, fails: the totals of the groups are rounded.  Of
    four unpaid tickets with the whole amounts 1 and 2^53 for one PNR each,
    then 1 for each again, the groups owe 2 and 2^53, which add up to
    2^53 + 2; the amounts taken one by one add up to 2^53, and their exact
    sum is 2^53 + 3.  With the amounts 0.1 and 1.1 for one PNR and 0.1 for
    another the two sums differ as well. *)
Lemma unpaid_totals_are_rounded :
  (let groups :=
     Doubles.unpaidGroups netOfLarge noAmount noAmount largeTickets in
   let unpaid :=
     filter (fun t => negb (paid t) && negb (isCancelledOrRefunded t))
       largeTickets in
   map Doubles.totalDue groups
   = [Doubles.ofZ 2; Doubles.ofZ 9007199254740992]
   /\ Doubles.sum Doubles.totalDue groups = Doubles.ofZ 9007199254740994
   /\ Doubles.sum (Doubles.amt netOfLarge noAmount noAmount) unpaid
      = Doubles.ofZ 9007199254740992
   /\ sumZ (fun t => net_amount t + extra_fare t + date_change t) unpaid
      = 9007199254740995
   /\ Doubles.sum Doubles.totalDue groups
      <> Doubles.sum (Doubles.amt netOfLarge noAmount noAmount) unpaid)
  /\ Doubles.sum Doubles.totalDue
       (Doubles.unpaidGroups netOfFraction noAmount noAmount fractionTickets)
     <> Doubles.sum (Doubles.amt netOfFraction noAmount noAmount)
          (filter (fun t => negb (paid t) && negb (isCancelledOrRefunded t))
             fractionTickets).
Proof.
  cbv zeta. repeat split; try (vm_compute; reflexivity);
    vm_compute; discriminate.
Qed.

(** C4, as the code has it.  On the two tickets of the scenario the only
    unpaid group is that of PNR AB1, its amount due is 105000, and its
    passengers are JOHN and MR JOHN: the fee suffix is stripped and no
    placeholder appears, but a title before the name is kept, so the two
    names stay distinct. *)
Theorem scenario_unpaid_group :
  unpaidGroups scenarioTickets
  = [mkGroup "AB1" ["JOHN"; "MR JOHN"] 105000].
Proof. vm_compute. reflexivity. Qed.

(** C4, as it is worded, fails: no unpaid group of the scenario has JOHN as
    its only passenger. *)
Lemma scenario_passengers_not_single :
  ~ (exists g, In g (unpaidGroups scenarioTickets)
               /\ g_pnr g = "AB1" /\ totalDue g = 105000
               /\ passengers g = ["JOHN"]).
Proof.
  intros [g [Hin [_ [_ Hp]]]].
  vm_compute in Hin. destruct Hin as [<-|[]]. discriminate Hp.
Qed.

(** ** Sorting *)

Section SortedTickets.

(** A comparison that orders the tickets: it is transitive, and of two
    tickets one may stay before the other. *)
Variable compare : Ticket -> Ticket -> Z.
Hypothesis compare_trans :
  forall a b c, (compare a b <= 0 -> compare b c <= 0 -> compare a c <= 0)%Z.
Hypothesis compare_total :
  forall a b, (0 < compare a b -> compare b a <= 0)%Z.

(** The order of the sort. *)
Let before (a b : Ticket) : Prop := (compare a b <= 0)%Z.

Lemma in_insertBy t l x : In x (insertBy compare t l) <-> x = t \/ In x l.
Proof.
  induction l as [|h r IH]; cbn [insertBy].
  - cbn. intuition congruence.
  - destruct (compare t h <=? 0)%Z; cbn [In].
    + intuition congruence.
    + rewrite IH. intuition congruence.
Qed.


Lemma sorted_insertBy t l :
  StronglySorted before l -> StronglySorted before (insertBy compare t l).
Proof.
  induction l as [|h r IH]; intros S; cbn [insertBy].
  - constructor; constructor.
  - inversion S as [|? ? Sr Hall]. subst.
    destruct (Z.leb_spec (compare t h) 0) as [L|G].
    + constructor; [exact S|]. constructor; [exact L|].
      rewrite Forall_forall in *. intros x Hx.
      apply (compare_trans t h x L). now apply Hall.
    + constructor; [now apply IH|].
      rewrite Forall_forall in *. intros x Hx.
      apply in_insertBy in Hx. destruct Hx as [->|Hx]; [|now apply Hall].
      now apply compare_total.
Qed.

Lemma sorted_sortBy l : StronglySorted before (sortBy compare l).
Proof.
  induction l as [|h r IH]; [constructor|].
  cbn [sortBy fold_right]. now apply sorted_insertBy.
Qed.

Lemma insertBy_first t l :
  (forall x, In x l -> before t x) -> insertBy compare t l = t :: l.
Proof.
  destruct l as [|h r]; intros H; [reflexivity|]. cbn [insertBy].
  destruct (Z.leb_spec (compare t h) 0) as [_|G]; [reflexivity|].
  specialize (H h (or_introl eq_refl)). unfold before in H. lia.
Qed.

(** A stable sort and a filter can be taken in either order. *)
Lemma filter_insertBy (p : Ticket -> bool) t l :
  StronglySorted before l ->
  filter p (insertBy compare t l)
  = if p t then insertBy compare t (filter p l) else filter p l.
Proof.
  induction l as [|h r IH]; intros S; cbn [insertBy].
  - cbn [filter]. now destruct (p t).
  - inversion S as [|? ? Sr Hall]. subst. rewrite Forall_forall in Hall.
    destruct (Z.leb_spec (compare t h) 0) as [L|G].
    + cbn [filter]. destruct (p t); [|reflexivity].
      symmetry. apply (insertBy_first t (filter p (h :: r))).
      intros x Hx. apply filter_In in Hx. destruct Hx as [[<-|Hx] _];
        [exact L|].
      apply (compare_trans t h x L). now apply Hall.
    + cbn [filter]. rewrite (IH Sr).
      destruct (p h), (p t); cbn [insertBy]; try reflexivity.
      destruct (Z.leb_spec (compare t h) 0); [lia|reflexivity].
Qed.

Lemma filter_sortBy (p : Ticket -> bool) l :
  filter p (sortBy compare l) = sortBy compare (filter p l).
Proof.
  induction l as [|h r IH]; [reflexivity|].
  cbn [sortBy fold_right filter]. fold (sortBy compare r).
  rewrite filter_insertBy by apply sorted_sortBy.
  rewrite IH. now destruct (p h).
Qed.

Lemma length_filter_sortBy (p : Ticket -> bool) l :
  List.length (filter p (sortBy compare l)) = List.length (filter p l).
Proof.
  assert (I : forall t r,
            List.length (filter p (insertBy compare t r))
            = List.length (filter p (t :: r))).
  { intros t r. induction r as [|h r IH]; [reflexivity|].
    cbn [insertBy]. destruct (compare t h <=? 0)%Z; [reflexivity|].
    cbn [filter] in *. destruct (p h), (p t); cbn [List.length] in *;
      now rewrite IH. }
  induction l as [|h r IH]; [reflexivity|].
  cbn [sortBy fold_right]. fold (sortBy compare r).
  rewrite I. cbn [filter]. destruct (p h); cbn [List.length]; now rewrite IH.
Qed.

Lemma sumZ_sortBy (f : Ticket -> Z) l :
  sumZ f (sortBy compare l) = sumZ f l.
Proof.
  assert (I : forall t r,
            sumZ f (insertBy compare t r) = (f t + sumZ f r)%Z).
  { intros t r. induction r as [|h r IH]; [apply sumZ_cons|].
    cbn [insertBy]. destruct (compare t h <=? 0)%Z.
    - now rewrite sumZ_cons.
    - rewrite !sumZ_cons, IH. lia. }
  induction l as [|h r IH]; [reflexivity|].
  cbn [sortBy fold_right]. fold (sortBy compare r).
  now rewrite I, sumZ_cons, IH.
Qed.

Lemma length_sortBy l : List.length (sortBy compare l) = List.length l.
Proof.
  assert (I : forall t r,
            List.length (insertBy compare t r) = S (List.length r)).
  { intros t r. induction r as [|h r IH]; [reflexivity|].
    cbn [insertBy]. destruct (compare t h <=? 0)%Z; [reflexivity|].
    cbn [List.length]. now rewrite IH. }
  induction l as [|h r IH]; [reflexivity|].
  cbn [sortBy fold_right]. fold (sortBy compare r).
  rewrite I, IH. reflexivity.
Qed.

End SortedTickets.

(** ** Balance calculator *)

(** C1, in a time zone east of UTC.  For a report that starts on 1 December
    2025 in Yangon, and for the dashboard in December 2025, a ticket issued
    on 1 November 2025 is left out of the carried-over balance: its date is
    local midnight, which is before the reset instant, midnight UTC.  Summed
    by calendar days, from the cut-over day on, the balance is 100000.  On
    the dashboard a ticket issued on 1 December 2025 is carried over as well,
    although the period starts on that day. *)
Theorem cutover_day_left_out :
  civilOf yangonTZA dec1Yangon = (2025, 11, 1)
  /\ civilOf yangonTZA dec15NoonYangon = (2025, 11, 15)
  /\ reportPreviousDue yangonTZA strictDateParse (Some dec1Yangon)
       [cutoverDayTicket] [] = 0
  /\ option_map previousEndOfMonthDue
       (exportToPdf yangonTZA strictDateParse false "12/01/2025"
          "12/31/2025" [cutoverDayTicket; decemberTicket] []) = Some 0
  /\ dashboardPreviousDue yangonTZA strictDateParse dec15NoonYangon
       [cutoverDayTicket] [] = 0
  /\ specPreviousDue yangonTZA strictDateParse (2025, 11, 1)
       [cutoverDayTicket] [] = 100000
  /\ dashboardPreviousDue yangonTZA strictDateParse dec15NoonYangon
       [decemberFirstTicket] [] = 70000
  /\ specPreviousDue yangonTZA strictDateParse (2025, 11, 1)
       [decemberFirstTicket] [] = 0.
Proof. vm_compute. repeat split. Qed.

(** *** In UTC the code and the specification agree *)

Section UTC.
Import JsDate.
Local Open Scope Z_scope.
Variable DateParse : string -> option Z.

Lemma getters_UTC t :
  getFullYear 0 t = YearFromDay (t / msPerDay)
  /\ getMonth 0 t = MonthFromDay (t / msPerDay)
  /\ getDate 0 t = DateFromDay (t / msPerDay).
Proof.
  unfold getFullYear, getMonth, getDate, LocalDay. now rewrite Z.add_0_r.
Qed.

Lemma TimeClip_days n k :
  -25202 <= n < 2932897 -> -1 <= k <= 0 ->
  TimeClip (n * msPerDay + k) = Some (n * msPerDay + k).
Proof.
  intros Hn Hk. unfold TimeClip.
  replace (Z.abs (n * msPerDay + k) <=? 8640000000000000) with true;
    [reflexivity|].
  symmetry. apply Z.leb_le. unfold msPerDay. lia.
Qed.

Lemma report_mode_UTC n :
  -25202 <= n < 2932897 ->
  ltT (bindT (Some (n * msPerDay))
         (fun s => DateUTC (getFullYear 0 s) (getMonth 0 s) (getDate 0 s)))
      RESET_DATE
  = (n <? 20393)
  /\ civilLt (civilOfDay n) cutover = (n <? 20393).
Proof.
  intros Hn. split.
  - cbn [bindT]. destruct (getters_UTC (n * msPerDay)) as [-> [-> ->]].
    rewrite Z.div_mul by discriminate.
    unfold DateUTC. pose proof (year_bounds n Hn) as Y.
    replace ((0 <=? YearFromDay n) && (YearFromDay n <=? 99)) with false
      by (symmetry; apply Bool.andb_false_iff; right; apply Z.leb_gt; lia).
    rewrite (proj2 (proj2 (civil_of_day n))).
    replace (n * msPerDay) with (n * msPerDay + 0) by lia.
    rewrite TimeClip_days by lia.
    change RESET_DATE with (Some (20393 * msPerDay)). cbn [ltT].
    unfold msPerDay.
    destruct (Z.ltb_spec (n * 86400000 + 0) (20393 * 86400000));
      destruct (Z.ltb_spec n 20393); lia.
  - change cutover with (civilOfDay 20393). apply civilLt_days.
Qed.


Lemma previousMonthOf_UTC n :
  -25202 <= n < 2932897 ->
  let y := YearFromDay n in
  let m := MonthFromDay n in
  previousMonthOf 0 (Some (n * msPerDay))
  = (Some (if m =? 0 then 11 else m - 1),
     Some (if m =? 0 then y - 1 else y)).
Proof.
  intros Hn. cbv zeta. unfold previousMonthOf. cbn [bindT].
  destruct (getters_UTC (n * msPerDay)) as [-> [-> _]].
  rewrite Z.div_mul by discriminate.
  destruct (civil_of_day n) as [Hm _].
  pose proof (year_bounds n Hn) as Y.
  revert Hm Y. generalize (MonthFromDay n) as m, (YearFromDay n) as y.
  intros m y Hm Y.
  assert (H1 : 1 <= 1 <= daysInMonth y m).
  { unfold daysInMonth. months m; destruct (isLeap y); cbn; lia. }
  destruct (MakeDay_in_year y m 1 Hm H1) as [_ R].
  pose proof (DayFromYear_mono 1901 y ltac:(lia)) as L.
  pose proof (DayFromYear_mono (y + 1) 10000 ltac:(lia)) as U.
  change (DayFromYear 1901) with (-25202) in L.
  change (DayFromYear 10000) with 2932897 in U.
  unfold newDate.
  replace ((0 <=? y) && (y <=? 99)) with false
    by (symmetry; apply Bool.andb_false_iff; right; apply Z.leb_gt; lia).
  replace (MakeDay y m 1 * msPerDay - 0) with (MakeDay y m 1 * msPerDay + 0)
    by lia.
  rewrite TimeClip_days by lia. cbn [bindT].
  replace (MakeDay y m 1 * msPerDay + 0 - 1)
    with (MakeDay y m 1 * msPerDay + -1) by lia.
  rewrite TimeClip_days by lia. cbn [option_map].
  destruct (getters_UTC (MakeDay y m 1 * msPerDay + -1)) as [-> [-> _]].
  replace ((MakeDay y m 1 * msPerDay + -1) / msPerDay)
    with (MakeDay y m 1 - 1)
    by (unfold msPerDay; Z.div_mod_to_equations; lia).
  destruct (day_before_month y m Hm) as [-> ->]. reflexivity.
Qed.

Lemma filter_same {A : Type} (f g : A -> bool) l :
  (forall x, f x = g x) -> filter f l = filter g l.
Proof. intros H. apply filter_ext. exact H. Qed.

(** In UTC the carried-over balance of a report is the balance of the
    specification, summed by calendar days. *)
Lemma report_agrees_in_UTC n ts ss :
  -25202 <= n < 2932897 ->
  reportPreviousDue 0 DateParse (Some (n * msPerDay)) ts ss
  = specPreviousDue 0 DateParse (civilOf 0 (n * msPerDay)) ts ss.
Proof.
  intros Hn. destruct (report_mode_UTC n Hn) as [Hmode Hcut].
  unfold reportPreviousDue. rewrite Hmode.
  rewrite civilOf_UTC, Z.div_mul by discriminate.
  unfold specPreviousDue. unfold civilOfDay at 1.
  fold (civilOfDay n). rewrite Hcut.
  destruct (n <? 20393) eqn:Emode.
  - unfold legacyDue. rewrite (previousMonthOf_UTC n Hn).
    set (y := YearFromDay n). set (m := MonthFromDay n).
    assert (P : forall s,
              inMonth 0 DateParse (Some (if m =? 0 then 11 else m - 1))
                (Some (if m =? 0 then y - 1 else y)) s
              = (let '(py, pm) := if m =? 0 then (y - 1, 11) else (y, m - 1) in
                 let '(ty, tm, _) :=
                   civilOf 0 (parseSheetDate 0 DateParse s) in
                 (ty =? py) && (tm =? pm))).
    { intros s. unfold inMonth, civilOf. cbn [eqT].
      destruct (m =? 0); apply Bool.andb_comm. }
    rewrite (filter_same _ _ ts (fun t => f_equal (fun b => b && _) (P _))).
    rewrite (filter_same _ _ ss (fun s => P _)).
    lia.
  - unfold resetDue.
    assert (P : forall s,
              leT RESET_DATE (Some (parseSheetDate 0 DateParse s))
              && ltT (Some (parseSheetDate 0 DateParse s))
                   (Some (n * msPerDay))
              = civilLe cutover (civilOf 0 (parseSheetDate 0 DateParse s))
                && civilLt (civilOf 0 (parseSheetDate 0 DateParse s))
                     (civilOfDay n)).
    { intros s. set (t := parseSheetDate 0 DateParse s).
      rewrite civilOf_UTC. unfold civilLe.
      change cutover with (civilOfDay 20393). rewrite !civilLt_days.
      change RESET_DATE with (Some (20393 * msPerDay)). cbn [leT ltT].
      unfold msPerDay.
      destruct (Z.leb_spec (20393 * 86400000) t);
        destruct (Z.ltb_spec t (n * 86400000));
        destruct (Z.ltb_spec (t / 86400000) 20393);
        destruct (Z.ltb_spec (t / 86400000) n); cbn; try reflexivity;
        exfalso; Z.div_mod_to_equations; lia. }
    rewrite (filter_same _ _ ts (fun t => f_equal (fun b => b && _) (P _))).
    rewrite (filter_same _ _ ss (fun s => P _)).
    lia.
Qed.

End UTC.

Lemma sumZ_plus {A : Type} (f g : A -> Z) (l : list A) :
  sumZ (fun x => f x + g x) l = sumZ f l + sumZ g l.
Proof.
  induction l as [|x l IH].
  - reflexivity.
  - rewrite !sumZ_cons, IH. lia.
Qed.

Section MergedTotals.

(** A column of the merged table and the ticket field it accumulates. *)
Variable col : MergedRow -> Z.
Variable field : Ticket -> Z.
Hypothesis col_mergeInto :
  forall t g, col (mergeInto t g) = col g + field t.
Hypothesis col_fresh : forall k, col (mkMerged k 0 0 0 0 []) = 0.

Lemma sum_upsertMerged t k gs :
  sumZ col (upsertMerged t k gs) = sumZ col gs + field t.
Proof.
  induction gs as [|g gs IH]; cbn [upsertMerged].
  - rewrite sumZ_cons, sumZ_nil, col_mergeInto, col_fresh. lia.
  - destruct (m_key g =? k); rewrite !sumZ_cons.
    + rewrite col_mergeInto. lia.
    + rewrite IH. lia.
Qed.

Lemma sum_merged_from ts gs :
  sumZ col
    (fold_left
       (fun gs t => upsertMerged t (account_link t ++ "-" ++ issued_date t) gs)
       ts gs)
  = sumZ col gs + sumZ field ts.
Proof.
  revert gs. induction ts as [|t ts IH]; intros gs; cbn [fold_left].
  - rewrite sumZ_nil. lia.
  - rewrite IH, sum_upsertMerged, sumZ_cons. lia.
Qed.

Lemma sum_mergedData ts : sumZ col (mergedData ts) = sumZ field ts.
Proof. unfold mergedData. rewrite sum_merged_from, sumZ_nil. lia. Qed.

End MergedTotals.

Lemma revenueOf_split ts :
  revenueOf ts = sumZ net_amount ts + sumZ date_change ts.
Proof. unfold revenueOf. apply sumZ_plus. Qed.

(** C8, as the code has it.  The revenue figure of a date-range report,
    merged or not, is the sum of net amount and date-change fee over every
    ticket issued in the period, whatever its remarks; the report is not
    produced when no ticket is in the period.  The revenue figure of the
    dashboard is that sum over the tickets issued in the current month whose
    remarks do not contain "full refund". *)
Theorem revenue_figures (LocalTZA : Z) (DateParse : string -> option Z)
    (isMerged : bool) (startDateStr endDateStr : string) (now : Z)
    (allTickets : list Ticket) (allSettlements : list Settlement) :
  let parse := parseSheetDate LocalTZA DateParse in
  let startDate := JsDate.setHours LocalTZA (parse startDateStr) 0 0 0 0 in
  let endDate := JsDate.setHours LocalTZA (parse endDateStr) 23 59 59 999 in
  let inPeriod :=
    filter (fun t => leT startDate (Some (parse (issued_date t)))
                     && leT (Some (parse (issued_date t))) endDate)
      allTickets in
  match exportToPdf LocalTZA DateParse isMerged startDateStr endDateStr
          allTickets allSettlements with
  | Some b =>
      totalNetAmount b + totalDateChange b
      = sumZ (fun t => net_amount t + date_change t) inPeriod
  | None => inPeriod = []
  end
  /\ revenueThisMonth
       (updateSettlementDashboard LocalTZA DateParse now allTickets
          allSettlements)
     = sumZ (fun t => net_amount t + date_change t)
         (filter (fun t =>
                    (JsDate.getMonth LocalTZA (parse (issued_date t))
                     =? JsDate.getMonth LocalTZA now)%Z
                    && (JsDate.getFullYear LocalTZA (parse (issued_date t))
                        =? JsDate.getFullYear LocalTZA now)%Z
                    && negb (Js.includes (Js.toLowerCase (remarks t))
                               "full refund"))
            allTickets).
Proof.
  cbv zeta. split.
  - unfold exportToPdf, inRange.
    destruct (filter _ allTickets) as [|t ts] eqn:E; [reflexivity|].
    fold (revenueOf (t :: ts)). rewrite revenueOf_split.
    destruct isMerged; cbn [totalNetAmount totalDateChange].
    + rewrite (sum_mergedData m_net_amount net_amount),
              (sum_mergedData m_date_change date_change);
        try (intros; reflexivity).
      now rewrite !sumZ_sortBy.
    + now rewrite !sumZ_sortBy.
  - reflexivity.
Qed.

(** C8, as it is worded, fails: a ticket issued on 5 November 2025 and then
    partly cancelled, with a cancellation fee of 30000 as its net amount,
    adds 30000 to the revenue of the November report and of the November
    dashboard, while the sum over the tickets that are neither cancelled nor
    refunded is 0. *)
Lemma cancelled_ticket_is_revenue :
  option_map (fun b => totalNetAmount b + totalDateChange b)
    (exportToPdf yangonTZA strictDateParse false "11/01/2025" "11/30/2025"
       [cancelledTicket] []) = Some 30000
  /\ revenueThisMonth
       (updateSettlementDashboard yangonTZA strictDateParse nov15NoonYangon
          [cancelledTicket] []) = 30000
  /\ isCancelledOrRefunded cancelledTicket = true
  /\ specRevenue yangonTZA strictDateParse
       (JsDate.setHours yangonTZA
          (parseSheetDate yangonTZA strictDateParse "11/01/2025") 0 0 0 0)
       (JsDate.setHours yangonTZA
          (parseSheetDate yangonTZA strictDateParse "11/30/2025")
          23 59 59 999)
       [cancelledTicket] = 0.
Proof. vm_compute. repeat split. Qed.

(** ** Writes to the sheet *)

Lemma setNth_length {A : Type} (v : A) (l : list A) : forall n,
  List.length (setNth n v l) = List.length l.
Proof.
  induction l as [|x l IH]; intros [|n]; cbn [setNth List.length];
    try reflexivity.
  now rewrite IH.
Qed.

Lemma nth_error_setNth {A : Type} (v : A) (l : list A) : forall n i,
  nth_error (setNth n v l) i
  = if (n =? i)%nat && (i <? List.length l)%nat then Some v
    else nth_error l i.
Proof.
  induction l as [|x l IH]; intros n i.
  - destruct n, i; cbn; try reflexivity.
    now rewrite Bool.andb_false_r.
  - destruct n as [|n], i as [|i]; cbn [setNth nth_error]; try reflexivity.
    rewrite IH. reflexivity.
Qed.

Lemma writeRow_length {A : Type} (l : list A) (e : BatchEntry A) :
  List.length (writeRow l e) = List.length l.
Proof.
  unfold writeRow. destruct (e_row e <? 2)%Z; [reflexivity|].
  apply setNth_length.
Qed.

Lemma nth_error_writeRow {A : Type} (l : list A) (e : BatchEntry A) i :
  (i < List.length l)%nat ->
  nth_error (writeRow l e) i
  = if (e_row e =? Z.of_nat i + 2)%Z then Some (e_values e)
    else nth_error l i.
Proof.
  intros Hi. unfold writeRow.
  destruct (Z.ltb_spec (e_row e) 2).
  - destruct (Z.eqb_spec (e_row e) (Z.of_nat i + 2)); [lia | reflexivity].
  - rewrite nth_error_setNth.
    apply Nat.ltb_lt in Hi. rewrite Hi, Bool.andb_true_r.
    destruct (Z.eqb_spec (e_row e) (Z.of_nat i + 2)) as [E|E].
    + replace (Z.to_nat (e_row e - 2)) with i by lia.
      now rewrite Nat.eqb_refl.
    + destruct (Nat.eqb_spec (Z.to_nat (e_row e - 2)) i); [lia|reflexivity].
Qed.

(** After a batch in which every entry writes a value with [P], a row that
    some entry addresses holds a value with [P]. *)
Lemma applyBatch_written {A : Type} (P : A -> Prop)
    (data : list (BatchEntry A)) : forall (l : list A) i,
  (forall e, In e data -> P (e_values e)) ->
  (i < List.length l)%nat ->
  (exists e, In e data /\ e_row e = Z.of_nat i + 2)
  \/ (exists v, nth_error l i = Some v /\ P v) ->
  exists v, nth_error (applyBatch data l) i = Some v /\ P v.
Proof.
  unfold applyBatch.
  induction data as [|e data IH]; intros l i HP Hi H; cbn [fold_left].
  - destruct H as [[e [[] _]]|H]. assumption.
  - apply IH.
    + intros e' He'. apply HP. now right.
    + now rewrite writeRow_length.
    + rewrite nth_error_writeRow by assumption.
      destruct (Z.eqb_spec (e_row e) (Z.of_nat i + 2)) as [E|E].
      * right. exists (e_values e). split; [reflexivity|].
        apply HP. now left.
      * destruct H as [[e' [[->|He'] Hr]]|H].
        -- contradiction.
        -- left. now exists e'.
        -- now right.
Qed.

Lemma applyBatch_length {A : Type} (data : list (BatchEntry A)) :
  forall l, List.length (applyBatch data l) = List.length l.
Proof.
  unfold applyBatch.
  induction data as [|e data IH]; intros l; cbn [fold_left].
  - reflexivity.
  - now rewrite IH, writeRow_length.
Qed.

(** A property of the rows, by position, that every write respects holds
    after the batch. *)
Lemma applyBatch_invariant {A : Type} (Q : nat -> A -> Prop)
    (data : list (BatchEntry A)) : forall l,
  (forall e i, In e data -> e_row e = Z.of_nat i + 2 -> Q i (e_values e)) ->
  (forall i v, nth_error l i = Some v -> Q i v) ->
  forall i v, nth_error (applyBatch data l) i = Some v -> Q i v.
Proof.
  unfold applyBatch.
  induction data as [|e data IH]; intros l Hd Hl i v H; cbn [fold_left] in H.
  - now apply Hl.
  - revert H. apply IH.
    + intros e' j He'. apply Hd. now right.
    + intros j w Hj.
      assert (Hlt : (j < List.length l)%nat).
      { rewrite <- (writeRow_length l e). apply nth_error_Some. congruence. }
      rewrite nth_error_writeRow in Hj by assumption.
      destruct (Z.eqb_spec (e_row e) (Z.of_nat j + 2)) as [E|E].
      * injection Hj as <-. apply Hd; [now left | assumption].
      * now apply Hl.
Qed.

(** ** Updating the tickets of a PNR *)

Lemma wellIndexed_unique sheet t i j :
  wellIndexed sheet -> nth_error sheet i = Some t ->
  rowIndex t = Z.of_nat j + 2 -> i = j.
Proof. intros W H E. apply W in H. lia. Qed.

Lemma rowValues_keeps LocalTZA DateParse form pay t :
  hasNewFees form = true ->
  (isFeeRow t = false -> faresUntouched form t) ->
  keepsAmounts t (rowValues LocalTZA DateParse form pay t).
Proof.
  intros Hf Hu. unfold keepsAmounts, rowValues. rewrite Hf.
  cbn [paid payment_method paid_date net_amount base_fare commission
       extra_fare date_change booking_reference name remarks].
  assert (P : forall (v : option Z) (old : Z),
            (isFeeRow t = false -> forall x, v = Some x -> x = old) ->
            match v with
            | Some x => if negb (isFeeRow t) then x else old
            | None => old
            end = old).
  { intros [x|] old H; [|reflexivity].
    destruct (isFeeRow t); cbn [negb]; [reflexivity|]. now apply H. }
  repeat split; try reflexivity; apply P; intros Hn; apply (Hu Hn).
Qed.

Lemma history_of_new_fees LocalTZA DateParse form pay o :
  hasNewFees form = true ->
  existsb (fun b => b) (historyDetails LocalTZA DateParse form pay o) = true.
Proof.
  unfold hasNewFees, historyDetails. intros H.
  apply existsb_exists.
  apply Bool.orb_true_iff in H. destruct H as [H|H].
  - exists (0 <? date_change_fees form)%Z. split; [|assumption].
    do 4 right. now left.
  - exists (0 <? update_extra_fare form)%Z. split; [|assumption].
    do 5 right. now left.
Qed.

(** A fare typed into the form is written to every passenger row of the
    PNR: with the net amount of the first ticket typed in, the second
    passenger's net amount of 75000 becomes 100000, while the earlier fee row
    keeps its 0. *)
Remark typed_fare_reaches_every_row :
  match handleUpdateTicket yangonTZA strictDateParse nov15NoonYangon
          extraFareFormWithNet (mkRemote true true) pnrSheet with
  | Updated sheet => map net_amount sheet = [100000; 100000; 55000; 0; 0]
  | _ => False
  end.
Proof. vm_compute. reflexivity. Qed.

(** ** Booking status updates *)

Lemma withoutRows_spec rowIndices bs b :
  In b (withoutRows rowIndices bs)
  <-> In b bs /\ ~ In (b_rowIndex b) rowIndices.
Proof.
  unfold withoutRows, includesRow. rewrite filter_In, negb_true_iff.
  split; intros [Hb H]; split; try assumption.
  - intros Hin. apply not_true_iff_false in H. apply H.
    apply existsb_exists. exists (b_rowIndex b). split; [assumption|].
    apply Z.eqb_refl.
  - apply not_true_iff_false. intros E. apply existsb_exists in E.
    destruct E as [x [Hx E]]. apply Z.eqb_eq in E. subst. contradiction.
Qed.

Lemma found_rows_nonempty (rowIndices : list Z) (bs : list Booking) :
  (exists b, In b bs /\ In (b_rowIndex b) rowIndices) ->
  flat_map (fun rowIndex =>
              match find (fun b => (b_rowIndex b =? rowIndex)%Z) bs with
              | Some b => [b]
              | None => []
              end) rowIndices <> [].
Proof.
  intros [b [Hb Hr]] E.
  assert (Hin : forall x, ~ In x
            (flat_map (fun rowIndex =>
               match find (fun b => (b_rowIndex b =? rowIndex)%Z) bs with
               | Some b => [b]
               | None => []
               end) rowIndices)) by (rewrite E; intros x []).
  destruct (find (fun b0 => (b_rowIndex b0 =? b_rowIndex b)%Z) bs) as [c|] eqn:F.
  - apply (Hin c). apply in_flat_map. exists (b_rowIndex b).
    split; [assumption|]. rewrite F. now left.
  - apply (find_none _ _ F) in Hb. rewrite Z.eqb_refl in Hb. discriminate.
Qed.

(** C6. A booking-status update that is admitted (no other submission is in
    flight) has, while its batch write is in flight, already removed the
    rows from the active list; and when the write is rejected, or no record
    is found for the rows, the active list ends as it was before the removal,
    with the submission flag cleared and the cache untouched.  At most one
    request is sent. *)
Theorem optimistic_update_rollback (rowIndices : list Z) (remarks : string)
    (st : AppState) :
  isSubmitting st = false ->
  let p := updateBookingStatus rowIndices remarks st in
  (forall st' req k, p = Await st' req k ->
     allBookings st'
     = filter (fun b => negb (existsb (fun x => (x =? b_rowIndex b)%Z)
                                rowIndices)) (allBookings st)
     /\ (forall b, In b (allBookings st') -> ~ In (b_rowIndex b) rowIndices)
     /\ req <> [])
  /\ ((exists b, In b (allBookings st) /\ In (b_rowIndex b) rowIndices) ->
      exists st' req k, p = Await st' req k)
  /\ (forall message,
        let st'' := run (fun _ => Rejected message) p in
        allBookings st'' = allBookings st
        /\ isSubmitting st'' = false
        /\ bookingCache st'' = bookingCache st)
  /\ (forall remote, (List.length (requests remote p) <= 1)%nat).
Proof.
  intros Hsub p. subst p. unfold updateBookingStatus. rewrite Hsub.
  cbn [allBookings showToast setSubmitting setBookings].
  pose proof (found_rows_nonempty rowIndices (allBookings st)) as Hfound.
  destruct (map (bookingEntry remarks) _) as [|e es] eqn:E.
  - split; [|split; [|split]].
    + intros st' req k H. discriminate H.
    + intros Hex. apply Hfound in Hex.
      apply map_eq_nil in E. contradiction.
    + intros message. cbn. auto.
    + intros remote. cbn. lia.
  - split; [|split; [|split]].
    + intros st' req k H. injection H as <- <- <-.
      cbn [allBookings]. split; [reflexivity|]. split; [|discriminate].
      intros b Hb. now apply withoutRows_spec in Hb.
    + intros _. eauto.
    + intros message. cbn. auto.
    + intros remote. cbn. destruct (remote (e :: es)); cbn; lia.
Qed.

Lemma optimistic_update_rollback_witness :
  isSubmitting twoBookings = false
  /\ allBookings
       (run (fun _ => Rejected "quota")
          (updateBookingStatus [2] "cancel" twoBookings))
     = allBookings twoBookings.
Proof.
  split; [reflexivity|].
  exact (proj1 (proj1 (proj2 (proj2
           (optimistic_update_rollback [2] "cancel" twoBookings eq_refl)))
         "quota")).
Defined.

(** ** The expiry sweep *)

Lemma parseRowsFrom_nth rows : forall i n b,
  nth_error (parseRowsFrom i rows) n = Some b ->
  exists r, nth_error rows n = Some r /\ b = trimBooking r (i + Z.of_nat n).
Proof.
  induction rows as [|r rows IH]; intros i n b H.
  - destruct n; discriminate H.
  - destruct n as [|n]; cbn [parseRowsFrom nth_error] in *.
    + injection H as <-. exists r. split; [reflexivity|].
      f_equal. lia.
    + apply IH in H. destruct H as [r' [H1 H2]]. exists r'.
      split; [assumption|]. rewrite H2. f_equal. lia.
Qed.

Lemma parseRowsFrom_rowIndex rows i n b :
  nth_error (parseRowsFrom i rows) n = Some b ->
  b_rowIndex b = i + Z.of_nat n.
Proof.
  intros H. apply parseRowsFrom_nth in H. destruct H as [r [_ ->]].
  reflexivity.
Qed.

Lemma parseRowsFrom_length rows : forall i,
  List.length (parseRowsFrom i rows) = List.length rows.
Proof.
  induction rows as [|r rows IH]; intros i; cbn [parseRowsFrom List.length].
  - reflexivity.
  - now rewrite IH.
Qed.

(** The row index identifies a parsed booking. *)
Lemma parsed_row_unique rows b b' :
  In b (parseBookingData rows) -> In b' (parseBookingData rows) ->
  b_rowIndex b = b_rowIndex b' -> b = b'.
Proof.
  unfold parseBookingData. intros H H' E.
  apply In_nth_error in H. apply In_nth_error in H'.
  destruct H as [n H]. destruct H' as [n' H'].
  pose proof (parseRowsFrom_rowIndex _ _ _ _ H) as R.
  pose proof (parseRowsFrom_rowIndex _ _ _ _ H') as R'.
  assert (n = n') by lia. subst n'. congruence.
Qed.

Section Sweep.

Variable LocalTZA : Z.
Variable DateParse : string -> option Z.

Lemma parseDeadline_null dateStr timeStr :
  dateStr = "" \/ timeStr = "" \/ matchTime timeStr = None
  \/ parseSheetDate LocalTZA DateParse dateStr = 0 ->
  parseDeadline LocalTZA DateParse dateStr timeStr = None.
Proof.
  unfold parseDeadline. intros [->|[->|[H|H]]].
  - reflexivity.
  - now rewrite Bool.orb_true_r.
  - destruct (_ || _); [reflexivity|].
    destruct (_ =? 0)%Z; [reflexivity|]. now rewrite H.
  - destruct (_ || _); [reflexivity|]. now rewrite H.
Qed.

Lemma expired_rows_spec now rows b :
  In b (parseBookingData rows) ->
  (In (b_rowIndex b)
     (map e_row
        (map (bookingEntry "end")
           (filter (isExpired LocalTZA DateParse now)
              (parseBookingData rows))))
   <-> isExpired LocalTZA DateParse now b = true).
Proof.
  intros Hb. rewrite map_map. cbn [bookingEntry e_row]. split.
  - intros H. apply in_map_iff in H. destruct H as [b' [E H]].
    apply filter_In in H. destruct H as [Hb' Hx].
    rewrite (parsed_row_unique rows b b'); auto.
  - intros H. apply in_map_iff. exists b. split; [reflexivity|].
    apply filter_In. now split.
Qed.

Lemma withoutRows_expired now rows :
  withoutRows
    (map e_row
       (map (bookingEntry "end")
          (filter (isExpired LocalTZA DateParse now)
             (parseBookingData rows))))
    (parseBookingData rows)
  = filter (fun b => negb (isExpired LocalTZA DateParse now b))
      (parseBookingData rows).
Proof.
  unfold withoutRows. apply filter_ext_in. intros b Hb. f_equal.
  pose proof (expired_rows_spec now rows b Hb) as S.
  unfold includesRow.
  destruct (isExpired LocalTZA DateParse now b) eqn:E.
  - apply existsb_exists. exists (b_rowIndex b).
    split; [now apply S | apply Z.eqb_refl].
  - apply not_true_iff_false. intros X. apply existsb_exists in X.
    destruct X as [x [Hx Ex]]. apply Z.eqb_eq in Ex. subst x.
    apply S in Hx. discriminate.
Qed.

End Sweep.

(** The deadline is the local day of the end date plus the time of day of
    the end time, read on a 12-hour clock. *)
Lemma parseDeadline_value LocalTZA DateParse dateStr timeStr d :
  parseDeadline LocalTZA DateParse dateStr timeStr = Some (Some d) ->
  exists h m ap hours minutes,
    matchTime timeStr = Some (h, m, ap)
    /\ Js.parseInt h = Some hours /\ Js.parseInt m = Some minutes
    /\ d = JsDate.LocalDay LocalTZA
             (parseSheetDate LocalTZA DateParse dateStr) * JsDate.msPerDay
           + hours24 hours (Js.toUpperCase ap) * JsDate.msPerHour
           + minutes * JsDate.msPerMinute - LocalTZA.
Proof.
  unfold parseDeadline. destruct (_ || _); [discriminate|].
  destruct (_ =? 0)%Z; [discriminate|].
  destruct (matchTime timeStr) as [[[h m] ap]|]; [|discriminate].
  destruct (Js.parseInt h) as [hours|] eqn:Eh; [|discriminate].
  destruct (Js.parseInt m) as [minutes|] eqn:Em; [|discriminate].
  intros H. injection H as H. apply TimeClip_Some in H.
  exists h, m, ap, hours, minutes.
  split; [reflexivity|]. split; [assumption|]. split; [assumption|].
  subst d. lia.
Qed.

(** The 12-hour clock: 12 AM is hour 0, 1 AM to 11 AM keep their hour, 12 PM
    is hour 12, and 1 PM to 11 PM are 13 to 23. *)
Lemma hours24_clock h :
  (hours24 h "AM" = if h =? 12 then 0 else h)%Z
  /\ (hours24 h "PM" = if h <? 12 then h + 12 else h)%Z.
Proof.
  unfold hours24. cbn [String.eqb Ascii.eqb Bool.eqb andb].
  split; [reflexivity|].
  destruct (Z.ltb_spec h 12); reflexivity.
Qed.

(** A well-formed end date and end time give a deadline. *)
Lemma spanDigits_app ds rest :
  allDigits ds = true ->
  match rest with
  | String c _ => Js.isDigit c = false
  | EmptyString => True
  end ->
  Js.spanDigits (ds ++ rest) = (ds, rest).
Proof.
  intros Hd Hr. induction ds as [|c ds IH]; cbn [append].
  - destruct rest as [|c r]; [reflexivity|].
    cbn [Js.spanDigits]. now rewrite Hr.
  - unfold allDigits in Hd. cbn [Js.allChars] in Hd.
    apply Bool.andb_true_iff in Hd. destruct Hd as [H1 H2].
    cbn [Js.spanDigits]. now rewrite H1, (IH H2).
Qed.

Lemma matchTime_here s x : matchTimeHere s = Some x -> matchTime s = Some x.
Proof. intros H. destruct s; cbn [matchTime]; now rewrite H. Qed.

Lemma matchTime_wellformed hh mm ap hours minutes :
  numeral hh hours -> numeral mm minutes ->
  In ap ["AM"; "PM"; "am"; "pm"] ->
  matchTime (hh ++ ":" ++ mm ++ " " ++ ap) = Some (hh, mm, ap).
Proof.
  intros (Nh & Dh & _) (Nm & Dm & _) Hap. apply matchTime_here.
  unfold matchTimeHere.
  rewrite (spanDigits_app hh (":" ++ mm ++ " " ++ ap) Dh) by reflexivity.
  destruct hh as [|c hh]; [contradiction|].
  change (":" ++ mm ++ " " ++ ap) with (String ":" (mm ++ " " ++ ap)).
  cbn iota beta.
  rewrite (spanDigits_app mm (" " ++ ap) Dm) by reflexivity.
  destruct mm as [|c' mm]; [contradiction|].
  destruct Hap as [<-|[<-|[<-|[<-|[]]]]]; reflexivity.
Qed.

Lemma hours24_range hours ap :
  1 <= hours <= 12 -> 0 <= hours24 hours ap <= 23.
Proof.
  intros H. unfold hours24. cbv zeta.
  destruct (ap =? "PM")%string, (ap =? "AM")%string; cbn [andb];
    repeat match goal with
           | |- context [(?a <? ?b)%Z] => destruct (Z.ltb_spec a b)
           | |- context [(?a =? ?b)%Z] => destruct (Z.eqb_spec a b)
           end; lia.
Qed.

Lemma valid_day_range y m d :
  validDay y m d -> -25202 <= JsDate.MakeDay y m d < 2932897.
Proof.
  intros (Hy & Hm & Hd).
  destruct (MakeDay_in_year y m d Hm Hd) as [_ R].
  pose proof (DayFromYear_mono 1901 y ltac:(lia)) as L.
  pose proof (DayFromYear_mono (y + 1) 10000 ltac:(lia)) as U.
  change (JsDate.DayFromYear 1901) with (-25202) in L.
  change (JsDate.DayFromYear 10000) with 2932897 in U. lia.
Qed.

Lemma parseDeadline_wellformed LocalTZA DateParse dateStr timeStr
    y m d hh mm ap hours minutes :
  Z.abs LocalTZA <= JsDate.msPerDay ->
  spellsMDY dateStr y m d \/ spellsDMonY dateStr y m d ->
  validDay y m d ->
  JsDate.MakeDay y m d * JsDate.msPerDay <> LocalTZA ->
  timeStr = (hh ++ ":" ++ mm ++ " " ++ ap)%string ->
  numeral hh hours -> numeral mm minutes ->
  1 <= hours <= 12 -> 0 <= minutes <= 59 ->
  In ap ["AM"; "PM"; "am"; "pm"] ->
  parseDeadline LocalTZA DateParse dateStr timeStr
  = Some (Some (JsDate.MakeDay y m d * JsDate.msPerDay
                + hours24 hours (Js.toUpperCase ap) * JsDate.msPerHour
                + minutes * JsDate.msPerMinute - LocalTZA)).
Proof.
  intros Htz Hs Hv Hne -> Hh Hm Rh Rm Hap.
  assert (E : parseSheetDate LocalTZA DateParse dateStr
              = JsDate.MakeDay y m d * JsDate.msPerDay - LocalTZA).
  { destruct Hs as [Hs|Hs];
      [now apply parse_MDY | now apply parse_DMonY]. }
  assert (Td : Js.truthy dateStr = true).
  { destruct Hs as [(a & b & c & -> & (Na & _) & _)
                   |(a & b & c & -> & (Na & _) & _)];
      destruct a; try contradiction; reflexivity. }
  assert (Tt : Js.truthy (hh ++ ":" ++ mm ++ " " ++ ap) = true).
  { destruct Hh as (Nh & _). destruct hh; [contradiction|reflexivity]. }
  unfold parseDeadline. rewrite Td, Tt, E. cbn [negb orb].
  destruct (Z.eqb_spec (JsDate.MakeDay y m d * JsDate.msPerDay - LocalTZA) 0)
    as [Z0|_]; [exfalso; lia|].
  rewrite (matchTime_wellformed hh mm ap hours minutes Hh Hm Hap).
  rewrite (parseInt_numeral _ _ Hh), (parseInt_numeral _ _ Hm).
  unfold JsDate.setHours. rewrite LocalDay_midnight.
  pose proof (valid_day_range y m d Hv) as Rd.
  pose proof (hours24_range hours (Js.toUpperCase ap) Rh) as R24.
  unfold JsDate.TimeClip.
  match goal with
  | |- context [(Z.abs ?t <=? _)%Z] =>
      destruct (Z.leb_spec (Z.abs t) 8640000000000000) as [_|N]
  end.
  - do 2 f_equal. lia.
  - unfold JsDate.msPerDay, JsDate.msPerHour, JsDate.msPerMinute in *. lia.
Qed.

(** C7. On a booking load the sweep takes exactly the bookings with an empty
    remark whose deadline, the end date plus the end time on a 12-hour clock
    (12 AM is hour 0, 12 PM is hour 12), is before now.  It writes them in
    one batch, each with the remark 'end'.  A booking with a well-formed
    end date (a valid day, not the epoch) and end time (hh:mm AM or PM) has
    such a deadline, so it is swept exactly when its deadline has passed
    and its remark is empty.  When the batch is accepted the
    rows of the sheet hold 'end', the bookings leave the in-memory list, and
    no active-booking query shows them, now or after a reload.  When the
    batch is rejected the failure is reported and nothing else is sent: the
    in-memory list stays as loaded. *)
Theorem expiry_sweep (LocalTZA : Z) (DateParse : string -> option Z)
    (now : Z) (rows : list Booking) (st : AppState) :
  let bs := parseBookingData rows in
  let expired := filter (isExpired LocalTZA DateParse now) bs in
  let data := map (bookingEntry "end") expired in
  let p := loadBookingData LocalTZA DateParse now (Some rows) st in
  (forall b, In b expired <->
     In b bs /\ hasNoAction b = true
     /\ exists d, parseDeadline LocalTZA DateParse (enddate b) (endtime b)
                  = Some (Some d) /\ d < now)
  /\ (forall b d,
        parseDeadline LocalTZA DateParse (enddate b) (endtime b)
        = Some (Some d) ->
        exists h m ap hours minutes,
          matchTime (endtime b) = Some (h, m, ap)
          /\ Js.parseInt h = Some hours /\ Js.parseInt m = Some minutes
          /\ d = JsDate.LocalDay LocalTZA
                   (parseSheetDate LocalTZA DateParse (enddate b))
                 * JsDate.msPerDay
                 + hours24 hours (Js.toUpperCase ap) * JsDate.msPerHour
                 + minutes * JsDate.msPerMinute - LocalTZA)
  /\ (Z.abs LocalTZA <= JsDate.msPerDay ->
      forall b y m d hh mm ap hours minutes,
        In b bs ->
        spellsMDY (enddate b) y m d \/ spellsDMonY (enddate b) y m d ->
        validDay y m d ->
        JsDate.MakeDay y m d * JsDate.msPerDay <> LocalTZA ->
        endtime b = (hh ++ ":" ++ mm ++ " " ++ ap)%string ->
        numeral hh hours -> numeral mm minutes ->
        1 <= hours <= 12 -> 0 <= minutes <= 59 ->
        In ap ["AM"; "PM"; "am"; "pm"] ->
        let deadline :=
          JsDate.MakeDay y m d * JsDate.msPerDay
          + hours24 hours (Js.toUpperCase ap) * JsDate.msPerHour
          + minutes * JsDate.msPerMinute - LocalTZA in
        parseDeadline LocalTZA DateParse (enddate b) (endtime b)
        = Some (Some deadline)
        /\ (In b expired <-> hasNoAction b = true /\ deadline < now))
  /\ hours24 12 "AM" = 0 /\ hours24 12 "PM" = 12
  /\ (expired = [] -> p = Done (setBookings bs st))
  /\ (expired <> [] ->
      exists k,
        p = Await (setBookings bs st) data k
        /\ (forall e, In e data -> remark (e_values e) = "end")
        /\ (exists st1,
              k Resolved = Done st1
              /\ allBookings st1
                 = filter (fun b => negb (isExpired LocalTZA DateParse now b))
                     bs
              /\ bookingCache st1 = false
              /\ forall today b, In b expired ->
                   ~ In b (activeBookings LocalTZA DateParse today st1))
        /\ (forall i b, nth_error bs i = Some b -> In b expired ->
              exists v, nth_error (applyBatch data rows) i = Some v
                        /\ remark v = "end"
                        /\ hasNoAction (trimBooking v (b_rowIndex b))
                           = false)
        /\ (forall message, exists st2,
              k (Rejected message) = Done st2
              /\ allBookings st2 = bs
              /\ In ("Could not update expired bookings automatically.",
                     "error") (toasts st2))).
Proof.
  intros bs expired data p.
  split; [|split; [|split; [|split; [|split; [|split]]]]].
  - intros b. unfold expired. rewrite filter_In.
    unfold isExpired, deadlinePassed. rewrite Bool.andb_true_iff.
    split.
    + intros [Hb [Hn Hd]]. repeat split; try assumption.
      destruct (parseDeadline _ _ _ _) as [[d|]|]; try discriminate.
      exists d. split; [reflexivity | now apply Z.ltb_lt].
    + intros [Hb [Hn [d [Hd Hlt]]]]. rewrite Hd.
      repeat split; try assumption. now apply Z.ltb_lt.
  - intros b d. apply parseDeadline_value.
  - intros Htz b y m d hh mm ap hours minutes Hb Hs Hv Hne Ht Hh Hm Rh Rm
      Hap deadline.
    assert (D : parseDeadline LocalTZA DateParse (enddate b) (endtime b)
                = Some (Some deadline))
      by (eapply parseDeadline_wellformed; eassumption).
    split; [exact D|]. unfold expired. rewrite filter_In.
    unfold isExpired, deadlinePassed. rewrite D, Bool.andb_true_iff, Z.ltb_lt.
    tauto.
  - reflexivity.
  - reflexivity.
  - intros E. unfold p, loadBookingData, handleExpiredBookings.
    cbn [allBookings setBookings]. fold bs. fold expired. now rewrite E.
  - intros NE. exists (afterSweep (setBookings bs st) data).
    split.
    { unfold p, loadBookingData, handleExpiredBookings.
      cbn [allBookings setBookings]. fold bs. fold expired. fold data.
      destruct data as [|e es] eqn:E; [|reflexivity].
      apply map_eq_nil in E. contradiction. }
    split; [|split; [|split]].
    + intros e' He'. apply in_map_iff in He'.
      destruct He' as [b [<- _]]. reflexivity.
    + eexists. split; [reflexivity|].
      cbn [allBookings setBookings clearBookingCache bookingCache].
      pose proof (withoutRows_expired LocalTZA DateParse now rows) as W.
      fold bs in W. fold expired in W. fold data in W.
      split; [exact W|]. split; [reflexivity|].
      intros today b Hb Hact. unfold activeBookings in Hact.
      apply filter_In in Hact. destruct Hact as [Hact _].
      cbn [allBookings] in Hact. rewrite W in Hact.
      apply filter_In in Hact. destruct Hact as [_ Hact].
      apply filter_In in Hb. destruct Hb as [_ Hb].
      rewrite Hb in Hact. discriminate.
    + intros i b Hi Hb.
      assert (Hlen : (i < List.length rows)%nat).
      { unfold bs, parseBookingData in Hi.
        rewrite <- (parseRowsFrom_length rows 2).
        apply nth_error_Some. congruence. }
      destruct (applyBatch_written
                  (fun v => remark v = "end") data rows i) as [v [Hv Hr]].
      * intros e' He'. apply in_map_iff in He'.
        destruct He' as [b' [<- _]]. reflexivity.
      * assumption.
      * left. exists (bookingEntry "end" b). split.
        -- unfold data. now apply in_map.
        -- cbn [bookingEntry e_row].
           unfold bs, parseBookingData in Hi.
           rewrite (parseRowsFrom_rowIndex _ _ _ _ Hi). lia.
      * exists v. repeat split; try assumption.
        unfold hasNoAction, trimBooking. cbn [remark]. rewrite Hr.
        reflexivity.
    + intros message. eexists. split; [reflexivity|].
      split; [reflexivity|].
      cbn [toasts showToast updateErrorToast setBookings].
      apply in_or_app. right. now left.
Qed.

Lemma expiry_sweep_witness :
  filter (isExpired yangonTZA strictDateParse dec15NoonYangon)
    (parseBookingData (allBookings twoBookings)) <> []
  /\ (exists k,
        loadBookingData yangonTZA strictDateParse dec15NoonYangon
          (Some (allBookings twoBookings)) twoBookings
        = Await
            (setBookings (parseBookingData (allBookings twoBookings))
               twoBookings)
            (map (bookingEntry "end")
               (filter (isExpired yangonTZA strictDateParse dec15NoonYangon)
                  (parseBookingData (allBookings twoBookings))))
            k)
  /\ Z.abs yangonTZA <= JsDate.msPerDay
  /\ parseDeadline yangonTZA strictDateParse "12/01/2025" "05:00 PM"
     = Some (Some 1764585000000).
Proof.
  assert (NE : filter (isExpired yangonTZA strictDateParse dec15NoonYangon)
                 (parseBookingData (allBookings twoBookings)) <> [])
    by (vm_compute; discriminate).
  assert (T : Z.abs yangonTZA <= JsDate.msPerDay)
    by (vm_compute; discriminate).
  pose proof (expiry_sweep yangonTZA strictDateParse dec15NoonYangon
                (allBookings twoBookings) twoBookings) as S.
  cbv zeta in S. destruct S as (_ & _ & W & _ & _ & _ & S).
  split; [exact NE|]. split.
  - destruct (S NE) as [k [Hk _]]. exists k. exact Hk.
  - split; [exact T|].
    assert (N5 : numeral "05" 5) by (repeat split; discriminate).
    assert (N0 : numeral "00" 0) by (repeat split; discriminate).
    assert (N12 : numeral "12" 12) by (repeat split; discriminate).
    assert (N01 : numeral "01" 1) by (repeat split; discriminate).
    assert (N25 : numeral "2025" 2025) by (repeat split; discriminate).
    destruct (W T (bookingOf 2 "JOHN" "12/20/2025" "AB1" "" "12/01/2025"
                     "05:00 PM") 2025 11 1 "05" "00" "PM" 5 0) as [D _].
    + left. reflexivity.
    + left. exists "12", "01", "2025". split; [reflexivity|].
      split; [exact N12|]. split; [exact N01|exact N25].
    + split; [lia|]. split; [lia|]. vm_compute. split; discriminate.
    + vm_compute. discriminate.
    + reflexivity.
    + exact N5.
    + exact N0.
    + lia.
    + lia.
    + right. now left.
    + exact D.
Defined.

(** C10. A booking whose end date or end time is empty, whose end time does
    not match the time pattern, or whose end date parses to the epoch has no
    deadline: [parseDeadline] returns null.  Whatever the time of the load
    and however the sheet answers, the sweep writes nothing to its row and
    the booking is still in the in-memory list afterwards. *)
Theorem missing_deadline_never_swept (LocalTZA : Z)
    (DateParse : string -> option Z) (now : Z) (rows : list Booking)
    (st : AppState) (remote : list (BatchEntry Booking) -> Response)
    (b : Booking) :
  In b (parseBookingData rows) ->
  enddate b = "" \/ endtime b = "" \/ matchTime (endtime b) = None
  \/ parseSheetDate LocalTZA DateParse (enddate b) = 0 ->
  let p := loadBookingData LocalTZA DateParse now (Some rows) st in
  parseDeadline LocalTZA DateParse (enddate b) (endtime b) = None
  /\ In b (allBookings (run remote p))
  /\ (forall req e, In req (requests remote p) -> In e req ->
        e_row e <> b_rowIndex b).
Proof.
  intros Hb Hbad p.
  pose proof (parseDeadline_null LocalTZA DateParse _ _ Hbad) as Hnull.
  assert (Hne : isExpired LocalTZA DateParse now b = false).
  { unfold isExpired, deadlinePassed. rewrite Hnull.
    apply Bool.andb_false_r. }
  pose proof (expired_rows_spec LocalTZA DateParse now rows b Hb) as S.
  split; [assumption|].
  unfold p, loadBookingData, handleExpiredBookings.
  cbn [allBookings setBookings].
  destruct (map (bookingEntry "end") _) as [|e es] eqn:E.
  - split; [assumption|]. intros req e' [].
  - cbn [run requests]. split.
    + destruct (remote _); cbn [afterSweep run allBookings setBookings
                                 clearBookingCache showToast
                                 updateErrorToast].
      * apply withoutRows_spec. split; [assumption|].
        intros Hin. apply S in Hin. congruence.
      * assumption.
    + intros req e' [<-|Hreq] He' Hrow.
      * assert (Hin : In (b_rowIndex b) (map e_row (e :: es))).
        { rewrite <- Hrow. now apply in_map. }
        apply S in Hin. congruence.
      * destruct (remote _); destruct Hreq.
Qed.

Lemma missing_deadline_never_swept_witness :
  In (bookingOf 3 "MARY" "12/24/2025" "CD2" "" "" "")
    (parseBookingData (allBookings twoBookings))
  /\ In (bookingOf 3 "MARY" "12/24/2025" "CD2" "" "" "")
       (allBookings
          (run (fun _ => Resolved)
             (loadBookingData yangonTZA strictDateParse dec15NoonYangon
                (Some (allBookings twoBookings)) twoBookings))).
Proof.
  assert (H : In (bookingOf 3 "MARY" "12/24/2025" "CD2" "" "" "")
                (parseBookingData (allBookings twoBookings)))
    by (vm_compute; auto).
  split; [exact H|].
  exact (proj1 (proj2
           (missing_deadline_never_swept yangonTZA strictDateParse
              dec15NoonYangon (allBookings twoBookings) twoBookings
              (fun _ => Resolved) _ H (or_introl eq_refl)))).
Defined.

(** * Further properties of the code *)

(** ** manage.js: cancelling, voiding and updating single rows *)

Lemma sumZ_filter {A : Type} (f : A -> Z) (p : A -> bool) (l : list A) :
  sumZ f (filter p l) = sumZ (fun x => if p x then f x else 0%Z) l.
Proof.
  induction l as [|x l IH]; cbn [filter]; [reflexivity|].
  rewrite (sumZ_cons (fun x => if p x then f x else 0%Z)).
  destruct (p x); [rewrite sumZ_cons|]; lia.
Qed.

Lemma sumZ_setNth {A : Type} (g : A -> Z) (v : A) (l : list A) :
  forall i old, nth_error l i = Some old ->
  sumZ g (setNth i v l) = (sumZ g l - g old + g v)%Z.
Proof.
  induction l as [|x l IH]; intros [|i] old H; try discriminate H.
  - injection H as <-. cbn [setNth]. rewrite !sumZ_cons. lia.
  - cbn [setNth nth_error] in *. rewrite !sumZ_cons, (IH _ _ H). lia.
Qed.

(** The total of the unpaid groups, ticket by ticket. *)
Lemma unpaid_total (l : list Ticket) :
  sumZ totalDue (unpaidGroups l)
  = sumZ (fun t => if unpaidActive t then amountOf t else 0%Z) l.
Proof.
  unfold unpaidGroups. rewrite sum_unpaid_from, sumZ_nil, sumZ_filter.
  reflexivity.
Qed.

(** On a sheet that the tickets mirror, the ticket found for a row index is
    the ticket at that row. *)
Lemma findRow_position sheet row t :
  wellIndexed sheet -> findRow row sheet = Some t ->
  exists i, nth_error sheet i = Some t /\ row = (Z.of_nat i + 2)%Z.
Proof.
  intros W F. unfold findRow in F. apply find_some in F.
  destruct F as [Hin E]. apply Z.eqb_eq in E.
  apply In_nth_error in Hin. destruct Hin as [i Hi]. exists i.
  split; [assumption|]. rewrite <- E. now apply W.
Qed.

Lemma writeRow_at {A : Type} (l : list A) (i : nat) (v : A) :
  writeRow l (mkEntry (Z.of_nat i + 2)%Z v) = setNth i v l.
Proof.
  unfold writeRow. cbn [e_row e_values].
  destruct (Z.ltb_spec (Z.of_nat i + 2) 2); [lia|].
  f_equal. lia.
Qed.

Lemma setNth_other {A : Type} (v : A) (l : list A) (i j : nat) :
  i <> j -> nth_error (setNth i v l) j = nth_error l j.
Proof.
  intros N. rewrite nth_error_setNth.
  destruct (Nat.eqb_spec i j); [contradiction | reflexivity].
Qed.

Lemma setNth_same {A : Type} (v : A) (l : list A) (i : nat) :
  (i < List.length l)%nat -> nth_error (setNth i v l) i = Some v.
Proof.
  intros L. rewrite nth_error_setNth, Nat.eqb_refl.
  apply Nat.ltb_lt in L. now rewrite L.
Qed.

(** What a write to the row of a ticket does to the sheet and to any sum
    over its rows, when the written values keep the row index. *)
Lemma row_write_effect sheet row t v :
  wellIndexed sheet -> findRow row sheet = Some t -> rowIndex v = row ->
  let sheet' := writeRow sheet (mkEntry row v) in
  wellIndexed sheet'
  /\ List.length sheet' = List.length sheet
  /\ findRow row sheet' = Some v
  /\ (forall i u, nth_error sheet i = Some u -> rowIndex u <> row ->
        nth_error sheet' i = Some u)
  /\ (forall g : Ticket -> Z,
        sumZ g sheet' = (sumZ g sheet - g t + g v)%Z).
Proof.
  intros W F Hv sheet'.
  destruct (findRow_position sheet row t W F) as [i [Hi Hrow]].
  assert (Hlt : (i < List.length sheet)%nat)
    by (apply nth_error_Some; congruence).
  assert (E : sheet' = setNth i v sheet)
    by (unfold sheet'; rewrite Hrow; apply writeRow_at).
  rewrite E.
  assert (W' : wellIndexed (setNth i v sheet)).
  { intros j u Hj. destruct (Nat.eq_dec i j) as [<-|N].
    - rewrite setNth_same in Hj by assumption. injection Hj as <-. lia.
    - rewrite setNth_other in Hj by assumption. now apply W. }
  split; [exact W'|]. split; [apply setNth_length|]. split; [|split].
  - unfold findRow.
    destruct (find _ (setNth i v sheet)) as [u|] eqn:Fu.
    + apply find_some in Fu. destruct Fu as [Hin Eu].
      apply Z.eqb_eq in Eu. apply In_nth_error in Hin.
      destruct Hin as [j Hj]. pose proof (W' _ _ Hj) as Rj.
      assert (j = i) by lia. subst j.
      rewrite setNth_same in Hj by assumption. now symmetry.
    + exfalso.
      assert (Hin : In v (setNth i v sheet)).
      { eapply nth_error_In. now apply setNth_same. }
      apply (find_none _ _ Fu) in Hin. rewrite Hv, Z.eqb_refl in Hin.
      discriminate.
  - intros j u Hj Hu. rewrite setNth_other; [assumption|].
    intros <-. apply W in Hj. lia.
  - intros g. now apply sumZ_setNth.
Qed.

Lemma startsWith_includes (s p : string) :
  Js.startsWith s p = true -> Js.includes s p = true.
Proof.
  intros H. destruct s; cbn [Js.includes]; now rewrite H.
Qed.

Lemma wellIndexed_pnrSheet : wellIndexed pnrSheet.
Proof.
  intros i t H. do 4 (destruct i as [|i]; [injection H as <-; reflexivity|]).
  destruct i; discriminate H.
Qed.

Lemma unpaid_total_share (l : list Ticket) :
  sumZ totalDue (unpaidGroups l) = sumZ unpaidShare l.
Proof. apply unpaid_total. Qed.

(** The figures of the dashboard as sums over the sheet. *)
Lemma dashboard_sums tz host clock sheet ss :
  let counted t :=
    inMonth tz host (Some (JsDate.getMonth tz clock))
      (Some (JsDate.getFullYear tz clock)) (issued_date t)
    && negb (hasFullRefund t) in
  let d := updateSettlementDashboard tz host clock sheet ss in
  revenueThisMonth d
  = sumZ (fun t => if counted t then (net_amount t + date_change t)%Z
                   else 0%Z) sheet
  /\ commissionThisMonth d
     = sumZ (fun t => if counted t then commission t else 0%Z) sheet
  /\ extraFareThisMonth d
     = sumZ (fun t => if counted t then extra_fare t else 0%Z) sheet.
Proof.
  cbv zeta. unfold updateSettlementDashboard, ticketsThisMonth, revenueOf,
    commissionOf. cbn [revenueThisMonth commissionThisMonth extraFareThisMonth].
  rewrite !sumZ_filter. now repeat split.
Qed.

(** Rows numbered from [k] on. *)
Lemma otherRows_all row l :
  (forall u, In u l -> rowIndex u <> row) -> otherRows row l = l.
Proof.
  unfold otherRows. induction l as [|x l IH]; intros H; [reflexivity|].
  cbn [filter]. destruct (Z.eqb_spec (rowIndex x) row) as [E|_].
  - exfalso. now apply (H x (or_introl eq_refl)).
  - cbn [negb]. f_equal. apply IH. intros u Hu. apply H. now right.
Qed.

(** A row that a left-to-right pass over the sheet skips counts as if it
    were not there; a row that the pass treats like the row it replaces
    changes nothing. *)
Lemma fold_skip_row {St : Type} (step : St -> Ticket -> St) (v : Ticket) :
  (forall gs, step gs v = gs) ->
  forall l k i t,
  (forall j u, nth_error l j = Some u -> rowIndex u = (Z.of_nat j + k)%Z) ->
  nth_error l i = Some t ->
  forall gs,
  fold_left step (setNth i v l) gs
  = fold_left step (otherRows (Z.of_nat i + k) l) gs.
Proof.
  intros Hv. induction l as [|x l IH]; intros k i t W Hi gs;
    [destruct i; discriminate Hi|].
  assert (Wx : rowIndex x = k) by (rewrite (W 0%nat x eq_refl); lia).
  assert (Wl : forall j u, nth_error l j = Some u ->
                 rowIndex u = (Z.of_nat j + (k + 1))%Z).
  { intros j u Hj. rewrite (W (S j) u Hj). lia. }
  destruct i as [|i]; cbn [setNth].
  - cbn [fold_left]. rewrite Hv. unfold otherRows. cbn [filter].
    replace (rowIndex x =? Z.of_nat 0 + k)%Z with true
      by (symmetry; apply Z.eqb_eq; lia).
    cbn [negb]. fold (otherRows (Z.of_nat 0 + k) l).
    rewrite otherRows_all; [reflexivity|].
    intros u Hu. apply In_nth_error in Hu. destruct Hu as [j Hj].
    rewrite (Wl j u Hj). lia.
  - cbn [nth_error] in Hi. unfold otherRows. cbn [filter].
    replace (rowIndex x =? Z.of_nat (S i) + k)%Z with false
      by (symmetry; apply Z.eqb_neq; lia).
    cbn [negb fold_left]. fold (otherRows (Z.of_nat (S i) + k) l).
    rewrite (IH (k + 1)%Z i t Wl Hi). f_equal. f_equal. lia.
Qed.


Lemma filter_skip_row (p : Ticket -> bool) (v : Ticket) sheet i t :
  p v = false -> wellIndexed sheet -> nth_error sheet i = Some t ->
  filter p (setNth i v sheet)
  = filter p (otherRows (Z.of_nat i + 2) sheet).
Proof.
  intros Hp W Hi.
  assert (F : forall l, filter p l
                        = rev (fold_left (fun acc u =>
                                            if p u then u :: acc else acc)
                                 l [])).
  { intros l.
    assert (G : forall acc,
              fold_left (fun acc u => if p u then u :: acc else acc) l acc
              = (rev (filter p l) ++ acc)%list).
    { induction l as [|x l IH]; intros acc; cbn [fold_left filter];
        [reflexivity|].
      rewrite IH. destruct (p x); [|reflexivity].
      cbn [rev]. now rewrite <- app_assoc. }
    now rewrite G, app_nil_r, rev_involutive. }
  rewrite !F. f_equal.
  apply (fold_skip_row (fun acc u => if p u then u :: acc else acc) v)
    with (t := t); [intros gs; now rewrite Hp | exact W | exact Hi].
Qed.


(** The sheet after an accepted write to the row of a ticket. *)
Lemma written_sheet sheet row t v :
  wellIndexed sheet -> findRow row sheet = Some t ->
  exists i, nth_error sheet i = Some t /\ row = (Z.of_nat i + 2)%Z
            /\ updateSheet true row v sheet = setNth i v sheet.
Proof.
  intros W F. destruct (findRow_position sheet row t W F) as [i [Hi Hrow]].
  exists i. split; [exact Hi|]. split; [exact Hrow|].
  unfold updateSheet. rewrite Hrow. apply writeRow_at.
Qed.

(** An unpaid ticket that is not cancelled has its PNR among the unpaid
    groups. *)
Lemma unpaid_key_listed t l :
  In t l -> unpaidActive t = true ->
  In (groupKey t) (map g_pnr (unpaidGroups l)).
Proof.
  intros Ht A. unfold unpaidGroups.
  assert (G : forall l gs,
            (In (groupKey t) (map g_pnr gs) \/ In t l) ->
            In (groupKey t) (map g_pnr (fold_left unpaidStep l gs))).
  { clear Ht l. induction l as [|x l IH]; intros gs [H|H]; cbn [fold_left].
    - exact H.
    - destruct H.
    - apply IH. left. unfold unpaidStep.
      destruct (paid x); [exact H|].
      destruct (isCancelledOrRefunded x); [exact H|].
      fold (groupKey x). fold (keysOf gs) in H.
      fold (keysOf (upsertGroup x (groupKey x) gs)).
      rewrite keys_upsertGroup.
      destruct (existsb _ (keysOf gs)); [exact H|].
      apply in_or_app. now left.
    - destruct H as [->|H]; [|apply IH; now right].
      apply IH. left. unfold unpaidStep.
      unfold unpaidActive in A. apply Bool.andb_true_iff in A.
      destruct A as [A1 A2].
      apply Bool.negb_true_iff in A1. apply Bool.negb_true_iff in A2.
      rewrite A1, A2. fold (groupKey t).
      fold (keysOf (upsertGroup t (groupKey t) gs)).
      rewrite keys_upsertGroup.
      destruct (existsb _ (keysOf gs)) eqn:E.
      + now apply existsb_eqb_In.
      + apply in_or_app. right. now left. }
  apply G. now right.
Qed.

(** A row marked as fully refunded is in no figure of the settlement
    dashboard. *)
Lemma dashboard_skip_row tz host clock sheet ss i t v :
  hasFullRefund v = true -> wellIndexed sheet ->
  nth_error sheet i = Some t ->
  updateSettlementDashboard tz host clock (setNth i v sheet) ss
  = updateSettlementDashboard tz host clock
      (otherRows (Z.of_nat i + 2) sheet) ss.
Proof.
  intros HF W Hi.
  assert (P : forall q : Ticket -> bool,
            filter (fun u => q u && negb (hasFullRefund u)) (setNth i v sheet)
            = filter (fun u => q u && negb (hasFullRefund u))
                (otherRows (Z.of_nat i + 2) sheet)).
  { intros q. apply filter_skip_row with (t := t); try assumption.
    now rewrite HF, Bool.andb_false_r. }
  assert (L : forall start,
            legacyDue tz host start (setNth i v sheet) ss
            = legacyDue tz host start (otherRows (Z.of_nat i + 2) sheet) ss).
  { intros start. unfold legacyDue.
    destruct (previousMonthOf tz start) as [pm py].
    now rewrite (P (fun u => inMonth tz host pm py (issued_date u))). }
  assert (R : forall upTo,
            resetDue tz host upTo (setNth i v sheet) ss
            = resetDue tz host upTo (otherRows (Z.of_nat i + 2) sheet) ss).
  { intros upTo. unfold resetDue. cbv zeta.
    now rewrite (P (fun u =>
                      leT RESET_DATE
                        (Some (parseSheetDate tz host (issued_date u)))
                      && ltT (Some (parseSheetDate tz host (issued_date u)))
                           upTo)). }
  unfold updateSettlementDashboard, dashboardPreviousDue, ticketsThisMonth.
  cbv zeta.
  rewrite (P (fun u =>
                inMonth tz host (Some (JsDate.getMonth tz clock))
                  (Some (JsDate.getFullYear tz clock)) (issued_date u))).
  rewrite L, R. reflexivity.
Qed.

(** Cancelling a ticket, with either action of the cancel sub-modal: the row
    of the ticket is written, no other row changes, and the ticket is from
    then on skipped as cancelled (the 'Manage' button is disabled, too): the
    unpaid groups, whatever the numbers in the cells, are those of the sheet
    without the row, whether or not a cancellation fee is due. *)
Theorem cancel_leaves_unpaid tz now row type t sheet :
  wellIndexed sheet -> findRow row sheet = Some t ->
  let sheet' := handleCancelTicket tz now row type true sheet in
  (exists t', findRow row sheet' = Some t'
              /\ isCancelledOrRefunded t' = true
              /\ remarkCheck (remarks t') = true)
  /\ List.length sheet' = List.length sheet
  /\ (forall i u, nth_error sheet i = Some u -> rowIndex u <> row ->
         nth_error sheet' i = Some u)
  /\ unpaidGroups sheet' = unpaidGroups (otherRows row sheet)
  /\ (forall net extra change,
        Doubles.unpaidGroups net extra change sheet'
        = Doubles.unpaidGroups net extra change (otherRows row sheet)).
Proof.
  intros W F sheet'. unfold sheet', handleCancelTicket. rewrite F.
  set (v := cancelValues (formatTime tz now) type t).
  assert (Hrow : rowIndex v = row).
  { unfold v. destruct type; cbn [cancelValues rowIndex].
    all: destruct (findRow_position _ _ _ W F) as [i [Hi ->]]; now apply W. }
  assert (C : isCancelledOrRefunded v = true).
  { unfold v, isCancelledOrRefunded. destruct type; cbn [cancelValues remarks].
    - apply Bool.orb_true_iff. right.
      cbn. now rewrite ?Bool.orb_true_r.
    - apply Bool.orb_true_iff. left. apply startsWith_includes. reflexivity. }
  destruct (row_write_effect sheet row t v W F Hrow) as (_ & L & Fv & Fr & _).
  destruct (written_sheet sheet row t v W F) as (i & Hi & Er & Es).
  unfold updateSheet in *.
  split; [|split; [exact L|split; [exact Fr|split]]].
  - exists v. repeat split; try assumption.
    unfold remarkCheck. unfold isCancelledOrRefunded in C.
    replace (Js.truthy (remarks v)) with true.
    + cbn [negb]. now rewrite Bool.orb_comm.
    + unfold v. now destruct type.
  - rewrite Es, Er. unfold unpaidGroups.
    apply (fold_skip_row unpaidStep v) with (t := t); try assumption.
    intros gs. unfold unpaidStep. rewrite C. now destruct (paid v).
  - intros net extra change. rewrite Es, Er. unfold Doubles.unpaidGroups.
    apply (fold_skip_row (Doubles.unpaidStep net extra change) v)
      with (t := t); try assumption.
    intros gs. unfold Doubles.unpaidStep. rewrite C. now destruct (paid v).
Qed.

Lemma cancel_leaves_unpaid_witness :
  exists t,
    wellIndexed pnrSheet /\ findRow 3 pnrSheet = Some t
    /\ map g_pnr (unpaidGroups pnrSheet) = ["AB1"; "CD2"]
    /\ map g_pnr
         (unpaidGroups
            (handleCancelTicket yangonTZA nov15NoonYangon 3
               (Cancel 10000 "65,000") true pnrSheet))
       = ["CD2"]
    /\ map passengers
         (unpaidGroups
            (handleCancelTicket yangonTZA nov15NoonYangon 3
               (Cancel 10000 "65,000") true pnrSheet))
       = map passengers (unpaidGroups (otherRows 3 pnrSheet)).
Proof.
  eexists. split; [exact wellIndexed_pnrSheet|].
  split; [reflexivity|]. split; [reflexivity|]. split; [reflexivity|].
  destruct (cancel_leaves_unpaid yangonTZA nov15NoonYangon 3
              (Cancel 10000 "65,000") _ pnrSheet wellIndexed_pnrSheet
              eq_refl) as (_ & _ & _ & S & _).
  now rewrite S.
Defined.





(** ** manage.js: the rows that an update of a PNR writes *)

Lemma find_app {A : Type} (p : A -> bool) (l1 l2 : list A) :
  find p (l1 ++ l2)
  = match find p l1 with Some x => Some x | None => find p l2 end.
Proof.
  induction l1 as [|x l1 IH]; cbn [find app]; [reflexivity|].
  now destruct (p x).
Qed.

(** A row after a batch holds the values of the last entry that addresses
    it, and what it held before when no entry does. *)
Lemma nth_error_applyBatch {A : Type} (data : list (BatchEntry A)) :
  forall (l : list A) i, (i < List.length l)%nat ->
  nth_error (applyBatch data l) i
  = match find (fun e => (e_row e =? Z.of_nat i + 2)%Z) (rev data) with
    | Some e => Some (e_values e)
    | None => nth_error l i
    end.
Proof.
  unfold applyBatch.
  induction data as [|e data IH]; intros l i Hi; cbn [fold_left rev find].
  - reflexivity.
  - rewrite IH by now rewrite writeRow_length.
    rewrite find_app. destruct (find _ (rev data)); [reflexivity|].
    cbn [find]. rewrite nth_error_writeRow by assumption.
    now destruct (e_row e =? Z.of_nat i + 2)%Z.
Qed.

(** The batch of [handleUpdateTicket] rewrites the rows of the PNR, each
    from its own ticket, and no other row. *)
Lemma update_batch_rows tz host form pay sheet i u :
  wellIndexed sheet -> nth_error sheet i = Some u ->
  nth_error
    (applyBatch
       (map (fun ticket =>
               mkEntry (rowIndex ticket) (rowValues tz host form pay ticket))
          (filter (fun t => (booking_reference t =? f_pnr form)%string)
             sheet)) sheet) i
  = Some (if (booking_reference u =? f_pnr form)%string
          then rowValues tz host form pay u else u).
Proof.
  intros W Hu.
  assert (Hi : (i < List.length sheet)%nat)
    by (apply nth_error_Some; congruence).
  rewrite nth_error_applyBatch by assumption.
  destruct (find _ (rev _)) as [e|] eqn:Fe.
  - apply find_some in Fe. destruct Fe as [He Hr].
    apply Z.eqb_eq in Hr. apply in_rev, in_map_iff in He.
    destruct He as [x [<- Hx]]. cbn [e_row e_values] in *.
    apply filter_In in Hx. destruct Hx as [Hx Hp].
    apply In_nth_error in Hx. destruct Hx as [n Hn].
    assert (n = i) by (eapply wellIndexed_unique; eassumption). subst n.
    assert (x = u) by congruence. subst x. now rewrite Hp.
  - destruct (booking_reference u =? f_pnr form)%string eqn:Hp;
      [|assumption].
    exfalso.
    assert (He : In (mkEntry (rowIndex u) (rowValues tz host form pay u))
                   (rev (map (fun ticket =>
                                mkEntry (rowIndex ticket)
                                  (rowValues tz host form pay ticket))
                           (filter (fun t => (booking_reference t
                                              =? f_pnr form)%string)
                              sheet)))).
    { apply in_rev. rewrite rev_involutive.
      apply in_map_iff. exists u. split; [reflexivity|].
      apply filter_In. split; [|assumption].
      eapply nth_error_In; eassumption. }
    apply (find_none _ _ Fe) in He. cbn [e_row] in He.
    rewrite (W _ _ Hu), Z.eqb_refl in He. discriminate.
Qed.

(** Every sheet that [handleUpdateTicket] can leave behind: the sheet as it
    was, the sheet after the batch, or that with the fee row appended. *)
Lemma update_outcome_sheet tz host now form remote sheet s' :
  handleUpdateTicket tz host now form remote sheet = Updated s'
  \/ handleUpdateTicket tz host now form remote sheet = UpdateFailed s' ->
  exists o rest,
    filter (fun t => (booking_reference t =? f_pnr form)%string) sheet
    = o :: rest
    /\ let pay := finalPayment tz host now form o in
       let sheet1 :=
         applyBatch
           (map (fun ticket =>
                   mkEntry (rowIndex ticket)
                     (rowValues tz host form pay ticket)) (o :: rest))
           sheet in
       (batchUpdateOk remote = false /\ s' = sheet)
       \/ (batchUpdateOk remote = true
           /\ (s' = sheet1
               \/ (hasNewFees form = true
                   /\ s' = appendRow sheet1 (feeRow tz host now form pay o)))).
Proof.
  unfold handleUpdateTicket.
  destruct (filter _ sheet) as [|o rest] eqn:F.
  { intros [H|H]; discriminate H. }
  intros H. exists o, rest. split; [reflexivity|]. cbv zeta.
  destruct (negb (existsb _ _)); [destruct H as [H|H]; discriminate H|].
  destruct (batchUpdateOk remote); cbn [negb] in *.
  - right. split; [reflexivity|].
    destruct (hasNewFees form).
    + destruct (appendOk remote); cbn [negb] in H.
      * right. split; [reflexivity|].
        destruct H as [H|H]; [now injection H | discriminate H].
      * left. destruct H as [H|H]; [discriminate H | now injection H].
    + left. destruct H as [H|H]; [now injection H | discriminate H].
  - left. split; [reflexivity|].
    destruct H as [H|H]; [discriminate H | now injection H].
Qed.

(** Whatever the outcome of an update, the rows of other PNRs are as they
    were, and every row keeps its issue date, name, PNR, remarks, fee columns
    and row index; a rejected batch leaves the sheet as a whole. *)
Theorem update_touches_one_pnr tz host now form remote sheet s' :
  wellIndexed sheet ->
  handleUpdateTicket tz host now form remote sheet = Updated s'
  \/ handleUpdateTicket tz host now form remote sheet = UpdateFailed s' ->
  (batchUpdateOk remote = false -> s' = sheet)
  /\ (forall i u, nth_error sheet i = Some u ->
        booking_reference u <> f_pnr form -> nth_error s' i = Some u)
  /\ (forall i u, nth_error sheet i = Some u ->
        exists u', nth_error s' i = Some u'
                   /\ issued_date u' = issued_date u /\ name u' = name u
                   /\ booking_reference u' = booking_reference u
                   /\ remarks u' = remarks u
                   /\ extra_fare u' = extra_fare u
                   /\ date_change u' = date_change u
                   /\ rowIndex u' = rowIndex u).
Proof.
  intros W H.
  destruct (update_outcome_sheet _ _ _ _ _ _ _ H) as (o & rest & F & Hs).
  cbv zeta in Hs. rewrite <- F in Hs.
  set (pay := finalPayment tz host now form o) in *.
  assert (R : forall i u, nth_error sheet i = Some u ->
            nth_error s' i
            = Some (if (booking_reference u =? f_pnr form)%string
                    then rowValues tz host form pay u else u)
            \/ nth_error s' i = Some u).
  { intros i u Hu.
    destruct Hs as [[_ ->]|[_ [->|[_ ->]]]].
    - now right.
    - left. now apply update_batch_rows.
    - left. unfold appendRow. rewrite nth_error_app1.
      + now apply update_batch_rows.
      + rewrite applyBatch_length. apply nth_error_Some. congruence. }
  split; [|split].
  - intros Hb. destruct Hs as [[_ E]|[Hb' _]]; [exact E | congruence].
  - intros i u Hu Hp. destruct (R i u Hu) as [E|E]; [|exact E].
    rewrite E. apply String.eqb_neq in Hp. now rewrite Hp.
  - intros i u Hu. destruct (R i u Hu) as [E|E]; rewrite E.
    + destruct (booking_reference u =? f_pnr form)%string.
      * eexists. split; [reflexivity|]. now repeat split.
      * exists u. now repeat split.
    + exists u. now repeat split.
Qed.

(** An update that adds no fees and that the sheet accepts appends no row
    and gives every row of the PNR the same paid status, payment method and
    paid date, computed from the form and the first ticket of the PNR; rows
    marked as unpaid lose their payment method and date. *)
Theorem payment_update_is_uniform tz host now form remote sheet s' :
  wellIndexed sheet ->
  hasNewFees form = false ->
  handleUpdateTicket tz host now form remote sheet = Updated s' ->
  List.length s' = List.length sheet
  /\ exists pay,
       finalPaid pay = update_paid form
       /\ (update_paid form = false ->
           finalPaymentMethod pay = ""%string
           /\ finalPaidDate pay = ""%string)
       /\ forall i u, nth_error sheet i = Some u ->
            booking_reference u = f_pnr form ->
            exists u', nth_error s' i = Some u'
                       /\ paid u' = finalPaid pay
                       /\ payment_method u' = finalPaymentMethod pay
                       /\ paid_date u' = finalPaidDate pay.
Proof.
  intros W Hn H.
  destruct (update_outcome_sheet _ _ _ _ _ _ _ (or_introl H))
    as (o & rest & F & Hs).
  cbv zeta in Hs. rewrite <- F in Hs.
  set (pay := finalPayment tz host now form o) in *.
  assert (E : s' = applyBatch
                (map (fun ticket =>
                        mkEntry (rowIndex ticket)
                          (rowValues tz host form pay ticket))
                   (filter (fun t => (booking_reference t
                                      =? f_pnr form)%string) sheet)) sheet).
  { destruct Hs as [[Hb ->]|[_ [->|[Hf _]]]].
    - exfalso. unfold handleUpdateTicket in H. rewrite F in H.
      destruct (negb (existsb _ _)); [discriminate H|].
      rewrite Hb in H. discriminate H.
    - reflexivity.
    - congruence. }
  split; [rewrite E; apply applyBatch_length|].
  exists pay. split; [reflexivity|]. split.
  - intros Hp. unfold pay, finalPayment.
    cbn [finalPaymentMethod finalPaidDate]. now rewrite Hp.
  - intros i u Hu Hp. rewrite E, (update_batch_rows _ _ _ _ _ _ _ W Hu).
    apply String.eqb_eq in Hp. rewrite Hp.
    eexists. split; [reflexivity|]. unfold rowValues. rewrite Hn.
    now repeat split.
Qed.

Lemma update_touches_one_pnr_witness :
  exists s',
    wellIndexed pnrSheet
    /\ handleUpdateTicket yangonTZA strictDateParse nov15NoonYangon
         extraFareForm (mkRemote true false) pnrSheet = UpdateFailed s'
    /\ nth_error s' 2 = nth_error pnrSheet 2.
Proof.
  eexists. split; [exact wellIndexed_pnrSheet|]. split; [reflexivity|].
  refine (proj1 (proj2 (update_touches_one_pnr yangonTZA strictDateParse
                          nov15NoonYangon extraFareForm (mkRemote true false)
                          pnrSheet _ wellIndexed_pnrSheet
                          (or_intror eq_refl))) 2%nat _ eq_refl _).
  intros H. discriminate H.
Defined.

Lemma payment_update_is_uniform_witness :
  exists s',
    wellIndexed pnrSheet
    /\ hasNewFees (mkForm "AB1" "" None None None 0 0 true "KBZ Pay" "" "")
       = false
    /\ handleUpdateTicket yangonTZA strictDateParse nov15NoonYangon
         (mkForm "AB1" "" None None None 0 0 true "KBZ Pay" "" "")
         (mkRemote true true) pnrSheet = Updated s'
    /\ List.length s' = 4%nat.
Proof.
  eexists. split; [exact wellIndexed_pnrSheet|]. split; [reflexivity|].
  split; [reflexivity|].
  exact (proj1 (payment_update_is_uniform yangonTZA strictDateParse
                  nov15NoonYangon
                  (mkForm "AB1" "" None None None 0 0 true "KBZ Pay" "" "")
                  (mkRemote true true) pnrSheet _ wellIndexed_pnrSheet
                  eq_refl eq_refl)).
Defined.

(** ** utils.js: dates that are written and read back *)

Lemma numeralb_spec s n : numeralb s n = true -> numeral s n.
Proof.
  unfold numeralb, numeral. intros H.
  apply Bool.andb_true_iff in H. destruct H as [H H3].
  apply Bool.andb_true_iff in H. destruct H as [H1 H2].
  split; [|split].
  - intros ->. discriminate H1.
  - exact H2.
  - now apply Z.eqb_eq.
Qed.

Lemma checked_below (P : Z -> bool) (k : Z) :
  forallb P (map Z.of_nat (seq 0 (Z.to_nat k))) = true ->
  forall n, (0 <= n < k)%Z -> P n = true.
Proof.
  intros H n Hn. rewrite forallb_forall in H. apply H.
  apply in_map_iff. exists (Z.to_nat n). split; [lia|].
  apply in_seq. lia.
Qed.

Lemma showZ_numeral n : (0 <= n <= 9999)%Z -> numeral (showZ n) n.
Proof.
  intros Hn. apply numeralb_spec.
  apply (checked_below (fun n => numeralb (showZ n) n) 10000);
    [vm_compute; reflexivity | lia].
Qed.

Lemma pad2_numeral n : (0 <= n <= 99)%Z -> numeral (pad2 n) n.
Proof.
  intros Hn. apply numeralb_spec.
  apply (checked_below (fun n => numeralb (pad2 n) n) 100);
    [vm_compute; reflexivity | lia].
Qed.

Lemma monthName_lookup m :
  (0 <= m < 12)%Z -> lookup monthMap (Js.toUpperCase (monthName m)) = Some m.
Proof. intros Hm. months m; reflexivity. Qed.

Section WrittenDates.

Variable LocalTZA : Z.
Variable DateParse : string -> option Z.
Hypothesis tza_small : (Z.abs LocalTZA <= JsDate.msPerDay)%Z.

(** The local midnight that starts the local day of [t]. *)
Let midnight (t : Z) : Z :=
  (JsDate.LocalDay LocalTZA t * JsDate.msPerDay - LocalTZA)%Z.

Lemma civil_valid t :
  (1900 < JsDate.getFullYear LocalTZA t <= 9999)%Z ->
  validDay (JsDate.getFullYear LocalTZA t) (JsDate.getMonth LocalTZA t)
    (JsDate.getDate LocalTZA t)
  /\ (JsDate.MakeDay (JsDate.getFullYear LocalTZA t)
        (JsDate.getMonth LocalTZA t) (JsDate.getDate LocalTZA t)
      * JsDate.msPerDay - LocalTZA)%Z = midnight t.
Proof.
  intros Hy. unfold JsDate.getFullYear, JsDate.getMonth, JsDate.getDate in *.
  destruct (civil_of_day (JsDate.LocalDay LocalTZA t)) as (Hm & Hd & E).
  split; [now repeat split|]. unfold midnight. now rewrite E.
Qed.

Lemma formatTime_spells t :
  (1900 < JsDate.getFullYear LocalTZA t <= 9999)%Z ->
  spellsMDY (formatTime LocalTZA t) (JsDate.getFullYear LocalTZA t)
    (JsDate.getMonth LocalTZA t) (JsDate.getDate LocalTZA t).
Proof.
  intros Hy. destruct (civil_valid t Hy) as [(_ & Hm & Hd) _].
  pose proof (daysInMonth_le_31 LocalTZA
                (JsDate.getFullYear LocalTZA t) _ Hm).
  unfold formatTime. eexists _, _, _. split; [reflexivity|].
  split; [|split]; [apply pad2_numeral | apply pad2_numeral
                    | apply showZ_numeral]; lia.
Qed.

Lemma dayMonthYear_spells t :
  (1900 < JsDate.getFullYear LocalTZA t <= 9999)%Z ->
  spellsDMonY (dayMonthYear LocalTZA t) (JsDate.getFullYear LocalTZA t)
    (JsDate.getMonth LocalTZA t) (JsDate.getDate LocalTZA t).
Proof.
  intros Hy. destruct (civil_valid t Hy) as [(_ & Hm & Hd) _].
  pose proof (daysInMonth_le_31 LocalTZA
                (JsDate.getFullYear LocalTZA t) _ Hm).
  unfold dayMonthYear. eexists _, _, _. split; [reflexivity|].
  split; [|split]; [apply pad2_numeral | now apply monthName_lookup
                    | apply showZ_numeral]; lia.
Qed.

Lemma midnight_civil t : civilOf LocalTZA (midnight t) = civilOf LocalTZA t.
Proof.
  unfold civilOf, midnight, JsDate.getFullYear, JsDate.getMonth,
    JsDate.getDate.
  now rewrite LocalDay_midnight.
Qed.

Lemma written_reads_back t :
  (1900 < JsDate.getFullYear LocalTZA t <= 9999)%Z ->
  parseSheetDate LocalTZA DateParse (formatTime LocalTZA t) = midnight t
  /\ parseSheetDate LocalTZA DateParse (dayMonthYear LocalTZA t) = midnight t.
Proof.
  intros Hy. destruct (civil_valid t Hy) as [Hv <-]. split.
  - apply (parse_MDY LocalTZA DateParse tza_small _ _ _ _ Hv).
    now apply formatTime_spells.
  - apply (parse_DMonY LocalTZA DateParse tza_small _ _ _ _ Hv).
    now apply dayMonthYear_spells.
Qed.

End WrittenDates.

Lemma spells_nonempty s y m d :
  spellsMDY s y m d \/ spellsDMonY s y m d -> Js.truthy s = true.
Proof.
  intros [(a & b & c & -> & (Ha & _) & _)|(a & b & c & -> & (Ha & _) & _)];
    destruct a; try contradiction; reflexivity.
Qed.

(** C5. When the form adds a positive date-change fee or extra fare and
    leaves the fare fields as they are on the rows of the PNR, and the sheet
    accepts the writes, the update appends exactly one row below the data: it
    is dated today (the local day of the clock, as MM/DD/YYYY, which the
    application reads back as that day for a year from 1901 to 9999),
    carries the PNR, has base fare, net amount and commission 0, holds the
    fees in extra_fare and date_change, and takes the paid status of the
    form.  Every row that was there keeps its paid status,
    payment method, paid date, net amount, base fare and commission (and its
    own fee columns, PNR, name and remarks). *)
Theorem fee_row_is_appended (LocalTZA : Z) (DateParse : string -> option Z)
    (now : Z) (form : UpdateForm) (sheet : list Ticket) :
  wellIndexed sheet ->
  (exists t, In t sheet /\ booking_reference t = f_pnr form) ->
  0 < date_change_fees form \/ 0 < update_extra_fare form ->
  (forall t, In t sheet -> booking_reference t = f_pnr form ->
             isFeeRow t = false -> faresUntouched form t) ->
  exists originals fee,
    handleUpdateTicket LocalTZA DateParse now form (mkRemote true true) sheet
    = Updated (originals ++ [fee])%list
    /\ List.length originals = List.length sheet
    /\ (forall i t, nth_error sheet i = Some t ->
          exists t', nth_error originals i = Some t' /\ keepsAmounts t t')
    /\ issued_date fee = formatTime LocalTZA now
    /\ (Z.abs LocalTZA <= JsDate.msPerDay ->
        1900 < JsDate.getFullYear LocalTZA now <= 9999 ->
        spellsMDY (issued_date fee) (JsDate.getFullYear LocalTZA now)
          (JsDate.getMonth LocalTZA now) (JsDate.getDate LocalTZA now)
        /\ civilOf LocalTZA
             (parseSheetDate LocalTZA DateParse (issued_date fee))
           = civilOf LocalTZA now)
    /\ booking_reference fee = f_pnr form
    /\ base_fare fee = 0 /\ net_amount fee = 0 /\ commission fee = 0
    /\ extra_fare fee = update_extra_fare form
    /\ date_change fee = date_change_fees form
    /\ paid fee = update_paid form
    /\ rowIndex fee = Z.of_nat (List.length sheet) + 2.
Proof.
  intros W [t0 [Hin0 Hp0]] Hfees Hfare.
  assert (Hnew : hasNewFees form = true).
  { unfold hasNewFees. apply Bool.orb_true_iff.
    destruct Hfees; [left | right]; now apply Z.ltb_lt. }
  unfold handleUpdateTicket.
  destruct (filter _ sheet) as [|o rest] eqn:F.
  { exfalso. assert (X : In t0 (filter
        (fun t => booking_reference t =? f_pnr form) sheet)).
    { apply filter_In. split; [assumption|]. now apply String.eqb_eq. }
    rewrite F in X. destruct X. }
  assert (Ho : In o sheet /\ booking_reference o = f_pnr form).
  { assert (X : In o (o :: rest)) by now left. rewrite <- F in X.
    apply filter_In in X. destruct X as [X1 X2].
    now apply String.eqb_eq in X2. }
  rewrite history_of_new_fees by assumption. rewrite Hnew.
  cbn [negb batchUpdateOk appendOk].
  set (pay := finalPayment LocalTZA DateParse now form o).
  set (data := map _ (o :: rest)).
  exists (applyBatch data sheet).
  eexists. split; [reflexivity|].
  split; [apply applyBatch_length|].
  split.
  - assert (Inv : forall i v, nth_error (applyBatch data sheet) i = Some v ->
                    forall u, nth_error sheet i = Some u -> keepsAmounts u v).
    { apply (applyBatch_invariant
               (fun j v => forall u, nth_error sheet j = Some u ->
                                     keepsAmounts u v)).
      - intros e j He Hrow u Hu. unfold data in He.
        apply in_map_iff in He. destruct He as [x [<- Hx]].
        cbn [e_row e_values] in *.
        rewrite <- F in Hx. apply filter_In in Hx. destruct Hx as [Hx Hpx].
        apply String.eqb_eq in Hpx.
        apply In_nth_error in Hx. destruct Hx as [n Hn].
        assert (n = j) by (eapply wellIndexed_unique; eassumption).
        subst n. assert (x = u) by congruence. subst x.
        apply rowValues_keeps; [assumption|].
        apply Hfare; [eapply nth_error_In; eassumption | assumption].
      - intros j v Hv u Hu. assert (v = u) by congruence. subst.
        unfold keepsAmounts. repeat split. }
    intros i t Hi.
    destruct (nth_error (applyBatch data sheet) i) as [t'|] eqn:N.
    + exists t'. split; [reflexivity|]. now apply (Inv i t' N t).
    + exfalso. apply nth_error_None in N.
      rewrite applyBatch_length in N.
      assert (i < List.length sheet)%nat by (apply nth_error_Some; congruence).
      lia.
  - cbn [setRowIndex feeRow issued_date booking_reference base_fare
         net_amount commission extra_fare date_change paid rowIndex
         finalPaid finalPayment pay].
    rewrite applyBatch_length. destruct Ho as [_ Ho].
    split; [reflexivity|]. split.
    { intros Htz Hy. split; [now apply formatTime_spells|].
      destruct (written_reads_back LocalTZA DateParse Htz now Hy) as [E _].
      rewrite E. apply midnight_civil. }
    repeat split; assumption || reflexivity.
Qed.

Lemma fee_row_is_appended_witness :
  (wellIndexed pnrSheet
   /\ (exists t, In t pnrSheet /\ booking_reference t = f_pnr extraFareForm)
   /\ (0 < date_change_fees extraFareForm
       \/ 0 < update_extra_fare extraFareForm)
   /\ (forall t, In t pnrSheet ->
                 booking_reference t = f_pnr extraFareForm ->
                 isFeeRow t = false -> faresUntouched extraFareForm t))
  /\ exists originals fee,
       handleUpdateTicket yangonTZA strictDateParse nov15NoonYangon
         extraFareForm (mkRemote true true) pnrSheet
       = Updated (originals ++ [fee])%list
       /\ List.length originals = List.length pnrSheet
       /\ issued_date fee = "11/15/2025"
       /\ net_amount fee = 0 /\ extra_fare fee = 5000.
Proof.
  assert (W : wellIndexed pnrSheet).
  { intros i t H. do 4 (destruct i as [|i]; [injection H as <-; reflexivity|]).
    destruct i; discriminate H. }
  assert (E : exists t, In t pnrSheet
                        /\ booking_reference t = f_pnr extraFareForm).
  { eexists. split; [left; reflexivity | reflexivity]. }
  assert (P : 0 < date_change_fees extraFareForm
              \/ 0 < update_extra_fare extraFareForm).
  { right. reflexivity. }
  assert (U : forall t, In t pnrSheet ->
                booking_reference t = f_pnr extraFareForm ->
                isFeeRow t = false -> faresUntouched extraFareForm t).
  { intros t _ _ _. repeat split; intros v H; discriminate H. }
  split; [now repeat split|].
  destruct (fee_row_is_appended yangonTZA strictDateParse nov15NoonYangon
              extraFareForm pnrSheet W E P U)
    as [originals [fee [H1 [H2 [_ [H4 [_ [_ [_ [H7 [_ [H9 _]]]]]]]]]]]].
  exists originals, fee. repeat split; assumption.
Defined.

(** A date that the application writes with [formatDateForSheet], such as
    the issue date of a fee row or a paid date, is read back by
    [parseSheetDate] as the local midnight of the same day, whatever the
    generic parser of the host does, for a year from 1901 to 9999; so a row
    dated now counts in the month of now. *)
Theorem written_date_reads_back tz host t :
  (Z.abs tz <= JsDate.msPerDay)%Z ->
  (1900 < JsDate.getFullYear tz t <= 9999)%Z ->
  let d := parseSheetDate tz host (formatTime tz t) in
  d = (JsDate.LocalDay tz t * JsDate.msPerDay - tz)%Z
  /\ civilOf tz d = civilOf tz t
  /\ inMonth tz host (Some (JsDate.getMonth tz t))
       (Some (JsDate.getFullYear tz t)) (formatTime tz t) = true.
Proof.
  intros Htz Hy d.
  destruct (written_reads_back tz host Htz t Hy) as [E _].
  fold d in E.
  assert (C : civilOf tz d = civilOf tz t)
    by (rewrite E; apply midnight_civil).
  split; [exact E|]. split; [exact C|].
  unfold inMonth. fold d. unfold civilOf in C.
  injection C as -> -> _. cbn [eqT]. now rewrite !Z.eqb_refl.
Qed.

Lemma written_date_reads_back_witness :
  (Z.abs yangonTZA <= JsDate.msPerDay)%Z
  /\ (1900 < JsDate.getFullYear yangonTZA nov15NoonYangon <= 9999)%Z
  /\ formatTime yangonTZA nov15NoonYangon = "11/15/2025"
  /\ inMonth yangonTZA strictDateParse (Some 10%Z) (Some 2025%Z)
       (formatTime yangonTZA nov15NoonYangon) = true.
Proof.
  assert (T : (Z.abs yangonTZA <= JsDate.msPerDay)%Z)
    by (vm_compute; discriminate).
  assert (Y : (1900 < JsDate.getFullYear yangonTZA nov15NoonYangon
               <= 9999)%Z)
    by (split; vm_compute; congruence).
  split; [exact T|]. split; [exact Y|]. split; [reflexivity|].
  exact (proj2 (proj2 (written_date_reads_back yangonTZA strictDateParse
                         nov15NoonYangon T Y))).
Defined.

(** [formatDateToDMMMY] on a MM/DD/YYYY or DD-Mon-YYYY spelling of a valid
    day: the result is the DD-Mon-YYYY spelling of the same day, it parses to
    the same date, and formatting it again changes nothing.  The one day
    that is shown as typed is the day whose local midnight is the epoch. *)
Theorem display_date_same_day tz host s y m d :
  (Z.abs tz <= JsDate.msPerDay)%Z ->
  validDay y m d ->
  spellsMDY s y m d \/ spellsDMonY s y m d ->
  let out := formatDateToDMMMY tz host s in
  ((JsDate.MakeDay y m d * JsDate.msPerDay)%Z <> tz ->
   spellsDMonY out y m d
   /\ parseSheetDate tz host out = parseSheetDate tz host s
   /\ formatDateToDMMMY tz host out = out)
  /\ ((JsDate.MakeDay y m d * JsDate.msPerDay)%Z = tz -> out = s).
Proof.
  intros Htz Hv Hs out.
  assert (P : parseSheetDate tz host s
              = (JsDate.MakeDay y m d * JsDate.msPerDay - tz)%Z).
  { destruct Hs as [Hs|Hs];
      [now apply parse_MDY | now apply parse_DMonY]. }
  pose proof (spells_nonempty _ _ _ _ Hs) as Ht.
  assert (G : JsDate.getFullYear tz (parseSheetDate tz host s) = y
              /\ JsDate.getMonth tz (parseSheetDate tz host s) = m
              /\ JsDate.getDate tz (parseSheetDate tz host s) = d).
  { rewrite P. unfold JsDate.getFullYear, JsDate.getMonth, JsDate.getDate.
    rewrite LocalDay_midnight. destruct Hv as (_ & Hm & Hd).
    now apply read_back. }
  destruct G as (Gy & Gm & Gd).
  assert (Eout : formatDateToDMMMY tz host s
                 = if (parseSheetDate tz host s =? 0)%Z then s
                   else dayMonthYear tz (parseSheetDate tz host s)).
  { unfold formatDateToDMMMY. now rewrite Ht. }
  unfold out. rewrite Eout. clear Eout. split.
  - intros Hne.
    destruct (Z.eqb_spec (parseSheetDate tz host s) 0) as [E|_]; [lia|].
    assert (Sp : spellsDMonY (dayMonthYear tz (parseSheetDate tz host s))
                   y m d).
    { pose proof (dayMonthYear_spells tz (parseSheetDate tz host s)) as D.
      rewrite Gy, Gm, Gd in D. apply D. destruct Hv as (Hy & _). lia. }
    assert (Pout : parseSheetDate tz host
                     (dayMonthYear tz (parseSheetDate tz host s))
                   = parseSheetDate tz host s).
    { rewrite P at 2. now apply parse_DMonY. }
    split; [exact Sp|]. split; [exact Pout|].
    unfold formatDateToDMMMY.
    rewrite (spells_nonempty _ y m d (or_intror Sp)). cbn [negb].
    rewrite Pout.
    destruct (Z.eqb_spec (parseSheetDate tz host s) 0) as [E|_]; [lia|].
    reflexivity.
  - intros He.
    destruct (Z.eqb_spec (parseSheetDate tz host s) 0) as [_|E];
      [reflexivity | lia].
Qed.

Lemma display_date_same_day_witness :
  (Z.abs yangonTZA <= JsDate.msPerDay)%Z
  /\ validDay 2025 10 1
  /\ spellsMDY "11/01/2025" 2025 10 1
  /\ formatDateToDMMMY yangonTZA strictDateParse "11/01/2025"
     = "01-Nov-2025"
  /\ parseSheetDate yangonTZA strictDateParse
       (formatDateToDMMMY yangonTZA strictDateParse "11/01/2025")
     = parseSheetDate yangonTZA strictDateParse "11/01/2025".
Proof.
  assert (T : (Z.abs yangonTZA <= JsDate.msPerDay)%Z)
    by (vm_compute; discriminate).
  assert (V : validDay 2025 10 1)
    by (repeat split; vm_compute; congruence).
  assert (M : spellsMDY "11/01/2025" 2025 10 1).
  { exists "11", "01", "2025". repeat split; discriminate. }
  repeat (split; [assumption|]). split; [reflexivity|].
  refine (proj1 (proj2 (proj1 (display_date_same_day yangonTZA
                                 strictDateParse "11/01/2025" 2025 10 1
                                 T V (or_introl M)) _))).
  vm_compute. discriminate.
Defined.

(** The date of a new settlement is written with [formatDateToDDMMMYYYY],
    which reads the form value with the generic parser of the host.  For a
    form value that is not empty and a time zone within a day of UTC: when
    that parser accepts the value as an instant of a local year from 1901 to
    9999, the date written to the sheet is read back by [parseSheetDate] as
    the local midnight of the local day of the parsed instant, so the
    settlement counts in the month of that day; when the parser rejects the
    value, the sheet gets "NaN-undefined-NaN". *)
Theorem settlement_date_reads_back tz host s :
  (Z.abs tz <= JsDate.msPerDay)%Z ->
  s <> ""%string ->
  let written := formatDateToDDMMMYYYY tz host s in
  (forall t, host s = Some t ->
     (1900 < JsDate.getFullYear tz t <= 9999)%Z ->
     parseSheetDate tz host written
     = (JsDate.LocalDay tz t * JsDate.msPerDay - tz)%Z
     /\ inMonth tz host (Some (JsDate.getMonth tz t))
          (Some (JsDate.getFullYear tz t)) written = true)
  /\ (host s = None -> written = "NaN-undefined-NaN"%string).
Proof.
  intros Htz Hs written.
  assert (Ht : Js.truthy s = true).
  { unfold Js.truthy. now destruct (String.eqb_spec s ""). }
  unfold written, formatDateToDDMMMYYYY. rewrite Ht. cbn [negb].
  split; [|now intros ->].
  intros t -> Hy.
  destruct (written_reads_back tz host Htz t Hy) as [_ E].
  split; [exact E|].
  assert (C : civilOf tz (parseSheetDate tz host (dayMonthYear tz t))
              = civilOf tz t)
    by (rewrite E; apply midnight_civil).
  unfold inMonth, civilOf in *.
  injection C as -> -> _. cbn [eqT]. now rewrite !Z.eqb_refl.
Qed.

Lemma settlement_date_reads_back_witness :
  (Z.abs yangonTZA <= JsDate.msPerDay)%Z
  /\ "11/01/2025"%string <> ""%string
  /\ formatDateToDDMMMYYYY yangonTZA (lenientDateParse yangonTZA)
       "11/01/2025" = "01-Nov-2025"
  /\ inMonth yangonTZA (lenientDateParse yangonTZA) (Some 10%Z)
       (Some 2025%Z)
       (formatDateToDDMMMYYYY yangonTZA (lenientDateParse yangonTZA)
          "11/01/2025") = true.
Proof.
  assert (T : (Z.abs yangonTZA <= JsDate.msPerDay)%Z)
    by (vm_compute; discriminate).
  assert (N : "11/01/2025"%string <> ""%string) by discriminate.
  split; [exact T|]. split; [exact N|]. split; [reflexivity|].
  refine (proj2 (proj1 (settlement_date_reads_back yangonTZA
                          (lenientDateParse yangonTZA) "11/01/2025" T N)
                   _ eq_refl _)).
  split; vm_compute; congruence.
Defined.

(** A full refund sets the base fare, the net amount and the commission of
    the row to 0 and marks it 'Full Refund on' the local day of the clock,
    as MM/DD/YYYY (which the application reads back as that day for a year
    from 1901 to 9999); the extra fare and the date-change fee stay in the
    row, yet the settlement dashboard shows, in every figure, what it shows
    for the sheet without the row. *)
Theorem full_refund_leaves_dashboard tz host now clock row t sheet ss :
  wellIndexed sheet -> findRow row sheet = Some t ->
  let sheet' := handleCancelTicket tz now row Refund true sheet in
  (exists t', findRow row sheet' = Some t'
              /\ base_fare t' = 0%Z /\ net_amount t' = 0%Z
              /\ commission t' = 0%Z
              /\ remarks t' = ("Full Refund on " ++ formatTime tz now)%string
              /\ hasFullRefund t' = true
              /\ extra_fare t' = extra_fare t
              /\ date_change t' = date_change t)
  /\ ((Z.abs tz <= JsDate.msPerDay)%Z ->
      (1900 < JsDate.getFullYear tz now <= 9999)%Z ->
      spellsMDY (formatTime tz now) (JsDate.getFullYear tz now)
        (JsDate.getMonth tz now) (JsDate.getDate tz now)
      /\ civilOf tz (parseSheetDate tz host (formatTime tz now))
         = civilOf tz now)
  /\ updateSettlementDashboard tz host clock sheet' ss
     = updateSettlementDashboard tz host clock (otherRows row sheet) ss.
Proof.
  intros W F sheet'. unfold sheet', handleCancelTicket. rewrite F.
  set (v := cancelValues (formatTime tz now) Refund t).
  assert (Hrow : rowIndex v = row).
  { unfold v. cbn [cancelValues rowIndex].
    destruct (findRow_position _ _ _ W F) as [i [Hi ->]]; now apply W. }
  assert (HF : hasFullRefund v = true).
  { unfold hasFullRefund. apply startsWith_includes. reflexivity. }
  destruct (row_write_effect sheet row t v W F Hrow) as (_ & _ & Fv & _ & _).
  destruct (written_sheet sheet row t v W F) as (i & Hi & Er & Es).
  unfold updateSheet in *.
  split; [exists v; now repeat split|]. split.
  - intros Htz Hy. split; [now apply formatTime_spells|].
    destruct (written_reads_back tz host Htz now Hy) as [E _].
    rewrite E. apply midnight_civil.
  - rewrite Es, Er. now apply dashboard_skip_row with (t := t).
Qed.

Lemma full_refund_leaves_dashboard_witness :
  exists t,
    wellIndexed pnrSheet /\ findRow 3 pnrSheet = Some t
    /\ revenueThisMonth
         (updateSettlementDashboard yangonTZA strictDateParse
            1760509800000 pnrSheet []) = 250000%Z
    /\ revenueThisMonth
         (updateSettlementDashboard yangonTZA strictDateParse 1760509800000
            (handleCancelTicket yangonTZA 1760509800000 3 Refund true
               pnrSheet) []) = 175000%Z
    /\ map remarks
         (handleCancelTicket yangonTZA 1760509800000 3 Refund true pnrSheet)
       = [""; "Full Refund on 10/15/2025"; ""; "Fee Entry"].
Proof.
  eexists. split; [exact wellIndexed_pnrSheet|].
  split; [reflexivity|]. split; [reflexivity|]. split; [|reflexivity].
  destruct (full_refund_leaves_dashboard yangonTZA strictDateParse
              1760509800000 1760509800000 3 _ pnrSheet []
              wellIndexed_pnrSheet eq_refl) as (_ & _ & R).
  rewrite R. reflexivity.
Defined.

(** ** reports.js and settlement.js: the settlement figures *)

Section MergedRows.










End MergedRows.

Lemma sumZ_ext {A : Type} (f g : A -> Z) (l : list A) :
  (forall x, f x = g x) -> sumZ f l = sumZ g l.
Proof.
  intros H. induction l as [|x l IH]; [reflexivity|].
  now rewrite !sumZ_cons, IH, H.
Qed.

Section CarryOver.
Import JsDate.
Local Open Scope Z_scope.
Variable DateParse : string -> option Z.

Lemma first_of_month y m :
  1901 <= y <= 9999 -> 0 <= m < 12 ->
  -25202 <= MakeDay y m 1 < 2932897
  /\ civilOfDay (MakeDay y m 1) = (y, m, 1)
  /\ DateUTC y m 1 = Some (MakeDay y m 1 * msPerDay).
Proof.
  intros Hy Hm.
  assert (H1 : 1 <= 1 <= daysInMonth y m).
  { unfold daysInMonth. months m; destruct (isLeap y); cbn; lia. }
  destruct (MakeDay_in_year y m 1 Hm H1) as [_ R].
  pose proof (DayFromYear_mono 1901 y ltac:(lia)) as L.
  pose proof (DayFromYear_mono (y + 1) 10000 ltac:(lia)) as U.
  change (DayFromYear 1901) with (-25202) in L.
  change (DayFromYear 10000) with 2932897 in U.
  assert (B : -25202 <= MakeDay y m 1 < 2932897) by lia.
  split; [exact B|]. split.
  - unfold civilOfDay. destruct (read_back y m 1 Hm H1) as [-> [-> ->]].
    reflexivity.
  - unfold DateUTC.
    replace ((0 <=? y) && (y <=? 99)) with false
      by (symmetry; apply Bool.andb_false_iff; right; apply Z.leb_gt; lia).
    replace (MakeDay y m 1 * msPerDay) with (MakeDay y m 1 * msPerDay + 0)
      by lia.
    apply TimeClip_days; lia.
Qed.

(** In UTC the instants of a calendar month are those from the first of the
    month to the first of the next. *)
Lemma month_window y m t :
  1901 <= y <= 9998 -> 0 <= m < 12 ->
  let y' := if m =? 11 then y + 1 else y in
  let m' := if m =? 11 then 0 else m + 1 in
  (getMonth 0 t =? m) && (getFullYear 0 t =? y)
  = (MakeDay y m 1 * msPerDay <=? t) && (t <? MakeDay y' m' 1 * msPerDay).
Proof.
  intros Hy Hm y' m'.
  assert (Hy' : 1901 <= y' <= 9999) by (unfold y'; destruct (m =? 11); lia).
  assert (Hm' : 0 <= m' < 12)
    by (unfold m'; destruct (Z.eqb_spec m 11); lia).
  destruct (first_of_month y m ltac:(lia) Hm) as (_ & C & _).
  destruct (first_of_month y' m' Hy' Hm') as (_ & C' & _).
  pose proof (civilLt_days (t / msPerDay) (MakeDay y m 1)) as L.
  pose proof (civilLt_days (t / msPerDay) (MakeDay y' m' 1)) as L'.
  rewrite C in L. rewrite C' in L'.
  destruct (getters_UTC t) as (-> & -> & _).
  destruct (civil_of_day (t / msPerDay)) as (Tm & Td & _).
  unfold civilOfDay, civilLt in L, L'.
  revert L L' Tm Td.
  generalize (YearFromDay (t / msPerDay)) as ty,
             (MonthFromDay (t / msPerDay)) as tm,
             (DateFromDay (t / msPerDay)) as td.
  intros ty tm td L L' Tm Td.
  assert (E1 : (MakeDay y m 1 * msPerDay <=? t)
               = negb (t / msPerDay <? MakeDay y m 1)).
  { unfold msPerDay.
    destruct (Z.leb_spec (MakeDay y m 1 * 86400000) t);
      destruct (Z.ltb_spec (t / 86400000) (MakeDay y m 1)); cbn;
      try reflexivity; exfalso; Z.div_mod_to_equations; lia. }
  assert (E2 : (t <? MakeDay y' m' 1 * msPerDay)
               = (t / msPerDay <? MakeDay y' m' 1)).
  { unfold msPerDay.
    destruct (Z.ltb_spec t (MakeDay y' m' 1 * 86400000));
      destruct (Z.ltb_spec (t / 86400000) (MakeDay y' m' 1)); cbn;
      try reflexivity; exfalso; Z.div_mod_to_equations; lia. }
  rewrite E1, E2, <- L, <- L'. clear E1 E2 L L' C C'.
  unfold y', m' in *. clear y' m' Hy' Hm'.
  destruct (Z.eqb_spec m 11);
    destruct (Z.eqb_spec tm m); destruct (Z.eqb_spec ty y);
    repeat match goal with
           | |- context [(?a <? ?b)] => destruct (Z.ltb_spec a b)
           | |- context [(?a =? ?b)] => destruct (Z.eqb_spec a b)
           end; cbn; try reflexivity; exfalso; lia.
Qed.

End CarryOver.

(** On a host in UTC, from November 2025 on, the balance carried into a
    month is summed over the tickets and the settlements dated from the
    reset date up to the first of that month, tickets with a full refund
    left out.  From one month to the next that selection grows by exactly
    the tickets and the settlements that the dashboard counts in the
    figures of the month: each of them is carried into the next month, none
    was carried into the month itself, and nothing else is added. *)
Theorem month_carries_over host now next ts ss :
  let y := JsDate.getFullYear 0 now in
  let m := JsDate.getMonth 0 now in
  (2025 < y \/ (y = 2025 /\ 10 <= m))%Z -> (y <= 9998)%Z ->
  JsDate.getFullYear 0 next = (if (m =? 11)%Z then y + 1 else y)%Z ->
  JsDate.getMonth 0 next = (if (m =? 11)%Z then 0 else m + 1)%Z ->
  let parse := parseSheetDate 0 host in
  let first t0 :=
    JsDate.DateUTC (JsDate.getFullYear 0 t0) (JsDate.getMonth 0 t0) 1 in
  let carriedT upTo t :=
    leT RESET_DATE (Some (parse (issued_date t)))
    && ltT (Some (parse (issued_date t))) upTo
    && negb (hasFullRefund t) in
  let carriedS upTo s :=
    leT RESET_DATE (Some (parse (settlement_date s)))
    && ltT (Some (parse (settlement_date s))) upTo in
  let monthT t :=
    inMonth 0 host (Some m) (Some y) (issued_date t)
    && negb (hasFullRefund t) in
  let monthS s := inMonth 0 host (Some m) (Some y) (settlement_date s) in
  let due upTo :=
    (revenueOf (filter (carriedT upTo) ts)
     - (commissionOf (filter (carriedT upTo) ts)
        + paidOf (filter (carriedS upTo) ss)))%Z in
  let shown := updateSettlementDashboard 0 host now ts ss in
  dashPreviousDue shown = due (first now)
  /\ dashPreviousDue (updateSettlementDashboard 0 host next ts ss)
     = due (first next)
  /\ revenueThisMonth shown = revenueOf (filter monthT ts)
  /\ commissionThisMonth shown = commissionOf (filter monthT ts)
  /\ totalSettlementsThisMonth shown = paidOf (filter monthS ss)
  /\ endOfMonthSettlement shown
     = (revenueThisMonth shown + dashPreviousDue shown
        - totalSettlementsThisMonth shown - commissionThisMonth shown)%Z
  /\ (forall t, carriedT (first next) t = carriedT (first now) t || monthT t)
  /\ (forall t, carriedT (first now) t && monthT t = false)
  /\ (forall s, carriedS (first next) s = carriedS (first now) s || monthS s)
  /\ (forall s, carriedS (first now) s && monthS s = false).
Proof.
  intros y m Hreset Hy Ey' Em'.
  assert (Hm : (0 <= m < 12)%Z).
  { unfold m, JsDate.getMonth. apply civil_of_day. }
  set (y' := (if (m =? 11)%Z then y + 1 else y)%Z) in *.
  set (m' := (if (m =? 11)%Z then 0 else m + 1)%Z) in *.
  assert (Hy1 : (1901 <= y <= 9999)%Z) by lia.
  assert (Hy' : (1901 <= y' <= 9999)%Z)
    by (unfold y'; destruct (m =? 11)%Z; lia).
  assert (Hm' : (0 <= m' < 12)%Z)
    by (unfold m'; destruct (Z.eqb_spec m 11); lia).
  destruct (first_of_month y m Hy1 Hm) as (B & C & U).
  destruct (first_of_month y' m' Hy' Hm') as (B' & C' & U').
  set (F := JsDate.MakeDay y m 1) in *.
  set (F' := JsDate.MakeDay y' m' 1) in *.
  assert (HF : (20393 <= F)%Z).
  { pose proof (civilLt_days F 20393) as L. rewrite C in L.
    change (civilOfDay 20393) with (2025, 10, 1)%Z in L.
    unfold civilLt in L.
    destruct (Z.ltb_spec F 20393) as [X|X]; [|exact X]. exfalso.
    revert L.
    repeat match goal with
           | |- context [(?a <? ?b)%Z] => destruct (Z.ltb_spec a b)
           | |- context [(?a =? ?b)%Z] => destruct (Z.eqb_spec a b)
           end; cbn; try discriminate; lia. }
  assert (HFF : (F <= F')%Z).
  { pose proof (civilLt_days F' F) as L. rewrite C, C' in L.
    unfold civilLt in L.
    destruct (Z.ltb_spec F' F) as [X|X]; [|exact X]. exfalso.
    revert L. unfold y', m'.
    destruct (Z.eqb_spec m 11);
      repeat match goal with
             | |- context [(?a <? ?b)%Z] => destruct (Z.ltb_spec a b)
             | |- context [(?a =? ?b)%Z] => destruct (Z.eqb_spec a b)
             end; cbn; try discriminate; lia. }
  assert (W : forall t,
            (JsDate.getMonth 0 t =? m)%Z && (JsDate.getFullYear 0 t =? y)%Z
            = (F * JsDate.msPerDay <=? t)%Z
              && (t <? F' * JsDate.msPerDay)%Z).
  { intros t. apply month_window; [lia | exact Hm]. }
  intros parse first carriedT carriedS monthT monthS due shown.
  assert (E1 : first now = Some (F * JsDate.msPerDay)%Z) by exact U.
  assert (E2 : first next = Some (F' * JsDate.msPerDay)%Z).
  { unfold first. rewrite Ey', Em'. exact U'. }
  assert (R : RESET_DATE = Some (20393 * JsDate.msPerDay)%Z) by reflexivity.
  assert (Prev : forall t,
            ltT (first t) RESET_DATE = false ->
            dashPreviousDue (updateSettlementDashboard 0 host t ts ss)
            = due (first t)).
  { intros t L. unfold updateSettlementDashboard. cbn [dashPreviousDue].
    unfold dashboardPreviousDue. fold (first t). rewrite L. reflexivity. }
  split; [|split].
  - apply Prev. rewrite E1, R. cbn [ltT]. apply Z.ltb_ge.
    unfold JsDate.msPerDay. lia.
  - apply Prev. rewrite E2, R. cbn [ltT]. apply Z.ltb_ge.
    unfold JsDate.msPerDay. lia.
  - split; [reflexivity|]. split; [reflexivity|]. split; [reflexivity|].
    split; [unfold shown, updateSettlementDashboard; cbn; lia|].
    assert (P : forall d nf,
              (20393 * JsDate.msPerDay <=? d)%Z
              && (d <? F' * JsDate.msPerDay)%Z && nf
              = (20393 * JsDate.msPerDay <=? d)%Z
                && (d <? F * JsDate.msPerDay)%Z && nf
                || (JsDate.getMonth 0 d =? m)%Z
                   && (JsDate.getFullYear 0 d =? y)%Z && nf).
    { intros d nf. rewrite W. unfold JsDate.msPerDay.
      destruct (Z.leb_spec (20393 * 86400000) d);
        destruct (Z.ltb_spec d (F' * 86400000));
        destruct (Z.ltb_spec d (F * 86400000));
        destruct (Z.leb_spec (F * 86400000) d); destruct nf; cbn;
        try reflexivity; exfalso; lia. }
    assert (Q : forall d nf,
              (20393 * JsDate.msPerDay <=? d)%Z
              && (d <? F * JsDate.msPerDay)%Z && nf
              && ((JsDate.getMonth 0 d =? m)%Z
                  && (JsDate.getFullYear 0 d =? y)%Z && nf) = false).
    { intros d nf. rewrite W. unfold JsDate.msPerDay.
      destruct (Z.leb_spec (20393 * 86400000) d);
        destruct (Z.ltb_spec d (F' * 86400000));
        destruct (Z.ltb_spec d (F * 86400000));
        destruct (Z.leb_spec (F * 86400000) d); destruct nf; cbn;
        try reflexivity; exfalso; lia. }
    unfold carriedT, carriedS, monthT, monthS, inMonth.
    rewrite E1, E2, R. cbn [leT ltT eqT].
    split; [|split; [|split]].
    + intros t. apply P.
    + intros t. apply Q.
    + intros s0.
      pose proof (P (parse (settlement_date s0)) true) as X.
      now rewrite !Bool.andb_true_r in X.
    + intros s0.
      pose proof (Q (parse (settlement_date s0)) true) as X.
      now rewrite !Bool.andb_true_r in X.
Qed.

Lemma month_carries_over_witness :
  ((2025 < JsDate.getFullYear 0 1765776600000
    \/ (JsDate.getFullYear 0 1765776600000 = 2025
        /\ 10 <= JsDate.getMonth 0 1765776600000))
   /\ JsDate.getFullYear 0 1765776600000 <= 9998)%Z
  /\ dashPreviousDue
       (updateSettlementDashboard 0 strictDateParse 1765776600000
          carrySheet carrySettlements) = 96000%Z
  /\ endOfMonthSettlement
       (updateSettlementDashboard 0 strictDateParse 1765776600000
          carrySheet carrySettlements) = 123000%Z
  /\ dashPreviousDue
       (updateSettlementDashboard 0 strictDateParse 1768455000000
          carrySheet carrySettlements) = 123000%Z
  /\ map rowIndex
       (filter (fun t =>
                  leT RESET_DATE
                    (Some (parseSheetDate 0 strictDateParse (issued_date t)))
                  && ltT
                       (Some (parseSheetDate 0 strictDateParse
                                (issued_date t)))
                       (JsDate.DateUTC
                          (JsDate.getFullYear 0 1768455000000)
                          (JsDate.getMonth 0 1768455000000) 1)
                  && negb (hasFullRefund t)) carrySheet) = [2; 3]%Z
  /\ forall t,
       leT RESET_DATE
         (Some (parseSheetDate 0 strictDateParse (issued_date t)))
       && ltT (Some (parseSheetDate 0 strictDateParse (issued_date t)))
            (JsDate.DateUTC (JsDate.getFullYear 0 1765776600000)
               (JsDate.getMonth 0 1765776600000) 1)
       && negb (hasFullRefund t)
       && (inMonth 0 strictDateParse
             (Some (JsDate.getMonth 0 1765776600000))
             (Some (JsDate.getFullYear 0 1765776600000)) (issued_date t)
           && negb (hasFullRefund t)) = false.
Proof.
  assert (R : (2025 < JsDate.getFullYear 0 1765776600000
               \/ (JsDate.getFullYear 0 1765776600000 = 2025
                   /\ 10 <= JsDate.getMonth 0 1765776600000))%Z).
  { right. split; vm_compute; [reflexivity | discriminate]. }
  assert (Y : (JsDate.getFullYear 0 1765776600000 <= 9998)%Z)
    by (vm_compute; discriminate).
  split; [now split|].
  do 4 (split; [vm_compute; reflexivity|]).
  exact (proj1 (proj2 (proj2 (proj2 (proj2 (proj2 (proj2 (proj2
           (month_carries_over strictDateParse 1765776600000 1768455000000
              carrySheet carrySettlements R Y eq_refl eq_refl))))))))).
Defined.

(** ** utils.js: the payment method and its bank *)

Lemma trimEnd_idem s : Js.trimEnd (Js.trimEnd s) = Js.trimEnd s.
Proof.
  induction s as [|c r IH]; [reflexivity|].
  cbn [Js.trimEnd].
  destruct (Js.isSpace c && (Js.trimEnd r =? ""))%bool eqn:E;
    [reflexivity|].
  cbn [Js.trimEnd]. rewrite IH, E. reflexivity.
Qed.

Lemma trimStart_head s :
  Js.trimStart s = ""
  \/ exists c r, Js.trimStart s = String c r /\ Js.isSpace c = false.
Proof.
  induction s as [|c r IH]; [now left|].
  cbn [Js.trimStart]. destruct (Js.isSpace c) eqn:E; [exact IH|].
  right. now exists c, r.
Qed.

Lemma trim_idem s : Js.trim (Js.trim s) = Js.trim s.
Proof.
  unfold Js.trim.
  destruct (trimStart_head s) as [->|(c & r & -> & Hc)]; [reflexivity|].
  cbn [Js.trimEnd]. rewrite Hc. cbn [andb Js.trimStart]. rewrite Hc.
  cbn [Js.trimEnd]. rewrite Hc, trimEnd_idem. reflexivity.
Qed.

Lemma trimEnd_paren s : Js.trimEnd (s ++ ")") = s ++ ")".
Proof.
  induction s as [|c r IH]; [reflexivity|].
  cbn [append Js.trimEnd]. rewrite IH.
  replace (r ++ ")" =? "") with false by (now destruct r).
  now rewrite Bool.andb_false_r.
Qed.

Lemma closing_group g :
  g <> "" -> Js.allChars isDot g = true -> closing (g ++ ")") = Some g.
Proof.
  induction g as [|c r IH]; intros Hne Hd; [contradiction|].
  cbn [Js.allChars] in Hd. apply Bool.andb_true_iff in Hd.
  destruct Hd as [Hc Hr]. cbn [append closing]. rewrite Hc.
  destruct r as [|c' r'].
  - reflexivity.
  - replace (String c' r' ++ ")" =? ")") with false.
    + rewrite IH; [reflexivity | discriminate | assumption].
    + symmetry. apply String.eqb_neq. cbn [append]. intros H.
      injection H as _ H. now destruct r'.
Qed.

Lemma noParen_trimStart s : noParen s = true -> noParen (Js.trimStart s) = true.
Proof.
  unfold noParen. induction s as [|c r IH]; intros H; [reflexivity|].
  cbn [Js.trimStart]. destruct (Js.isSpace c); [|exact H].
  cbn [Js.allChars] in H. apply Bool.andb_true_iff in H. now apply IH.
Qed.

Lemma matchFrom_noParen rest :
  noParen rest = true -> forall g1, matchFrom g1 rest = None.
Proof.
  induction rest as [|c r IH]; intros H g1.
  - reflexivity.
  - assert (A : afterMethod (String c r) = None).
    { unfold afterMethod. pose proof (noParen_trimStart _ H) as T.
      destruct (Js.trimStart (String c r)) as [|c' r']; [reflexivity|].
      unfold noParen in T. cbn [Js.allChars] in T.
      apply Bool.andb_true_iff in T. destruct T as [T _].
      now destruct (c' =? "(")%char. }
    cbn [matchFrom]. rewrite A.
    unfold noParen in H. cbn [Js.allChars] in H.
    apply Bool.andb_true_iff in H. destruct H as [_ H].
    destruct (isDot c); [now apply IH | reflexivity].
Qed.

Lemma matchMethod_noParen raw :
  noParen raw = true -> matchMethod raw = None.
Proof.
  intros H. destruct raw as [|c r]; [reflexivity|].
  cbn [matchMethod]. unfold noParen in H. cbn [Js.allChars] in H.
  apply Bool.andb_true_iff in H. destruct H as [_ H].
  destruct (isDot c); [now apply matchFrom_noParen | reflexivity].
Qed.

(** What [formatPaymentMethod] stores, [parsePaymentMethod] reads back: the
    trimmed method, and the trimmed bank when the method is "Mobile Banking"
    (and no bank otherwise), provided the method holds no "(" and the bank
    no line break. *)
Theorem payment_method_round_trip method bank :
  noParen (Js.trim method) = true ->
  Js.allChars isDot (Js.trim bank) = true ->
  parsePaymentMethod (formatPaymentMethod method bank)
  = (Js.trim method,
     if (Js.trim method =? "Mobile Banking") && Js.truthy (Js.trim bank)
     then Js.trim bank else "").
Proof.
  intros Hm Hb. unfold formatPaymentMethod.
  destruct (Js.truthy (Js.trim method)) eqn:Tm; cbn [negb].
  - destruct ((Js.trim method =? "Mobile Banking")
              && Js.truthy (Js.trim bank))%bool eqn:E.
    + apply Bool.andb_true_iff in E. destruct E as [E Tb].
      apply String.eqb_eq in E. rewrite E.
      set (b := Js.trim bank) in *.
      assert (Hne : b <> "").
      { intros X. rewrite X in Tb. discriminate Tb. }
      unfold parsePaymentMethod.
      assert (R : Js.trim ("Mobile Banking (" ++ b ++ ")")
                  = "Mobile Banking (" ++ b ++ ")").
      { unfold Js.trim. cbn [append Js.trimStart]. cbn.
        change (String "M" (String "o" (String "b" (String "i" (String "l"
                 (String "e" (String " " (String "B" (String "a" (String "n"
                 (String "k" (String "i" (String "n" (String "g" (String " "
                 (String "(" (b ++ ")")))))))))))))))))
          with ("Mobile Banking (" ++ b ++ ")").
        apply (trimEnd_paren ("Mobile Banking (" ++ b)). }
      rewrite R.
      assert (Tr : Js.truthy ("Mobile Banking (" ++ b ++ ")") = true)
        by reflexivity.
      rewrite Tr. cbn [negb].
      assert (M : matchMethod ("Mobile Banking (" ++ b ++ ")")
                  = Some ("Mobile Banking", b)).
      { cbn. rewrite (closing_group b Hne Hb). reflexivity. }
      rewrite M. f_equal. unfold b. apply trim_idem.
    + unfold parsePaymentMethod. rewrite trim_idem, Tm. cbn [negb].
      now rewrite (matchMethod_noParen _ Hm).
  - unfold parsePaymentMethod. cbn.
    unfold Js.truthy in Tm. apply Bool.negb_false_iff in Tm.
    apply String.eqb_eq in Tm. rewrite Tm. reflexivity.
Qed.

Lemma payment_method_round_trip_witness :
  (noParen (Js.trim " Mobile Banking ") = true
   /\ Js.allChars isDot (Js.trim "KBZ Special ") = true)
  /\ parsePaymentMethod
       (formatPaymentMethod " Mobile Banking " "KBZ Special ")
     = ("Mobile Banking", "KBZ Special").
Proof.
  split; [split; reflexivity|].
  exact (payment_method_round_trip " Mobile Banking " "KBZ Special "
           eq_refl eq_refl).
Defined.

(** ** manage.js and ui.js: the name on a fee row *)

Lemma trimStart_blank s :
  Js.trimStart s = "" <-> Js.allChars Js.isSpace s = true.
Proof.
  induction s as [|c r IH]; [now split|].
  cbn [Js.trimStart Js.allChars]. destruct (Js.isSpace c); cbn [andb].
  - exact IH.
  - split; discriminate.
Qed.

Lemma trimEnd_blank s :
  Js.trimEnd s = "" <-> Js.allChars Js.isSpace s = true.
Proof.
  induction s as [|c r IH]; [now split|].
  cbn [Js.trimEnd Js.allChars]. destruct (Js.isSpace c); cbn [andb].
  - destruct (String.eqb_spec (Js.trimEnd r) "") as [E|E].
    + split; [intros _; now apply IH | reflexivity].
    + split; [discriminate | intros H; apply IH in H; contradiction].
  - split; discriminate.
Qed.

Lemma trimStart_app s t :
  Js.trimStart (s ++ t)
  = if Js.allChars Js.isSpace s then Js.trimStart t else Js.trimStart s ++ t.
Proof.
  induction s as [|c r IH]; [reflexivity|].
  cbn [append Js.trimStart Js.allChars].
  destruct (Js.isSpace c); cbn [andb]; [exact IH | reflexivity].
Qed.

Lemma substring_all m s : (length s <= m)%nat -> substring 0 m s = s.
Proof.
  revert m. induction s as [|c r IH]; intros [|m] H; cbn in *;
    try reflexivity; try lia.
  rewrite IH; [reflexivity | lia].
Qed.

Lemma substring_paren n : forall y m,
  (n <= length y)%nat -> (length (y ++ ")") <= m)%nat ->
  exists z, substring n m (y ++ ")") = z ++ ")".
Proof.
  induction n as [|n IH]; intros y m Hn Hm.
  - exists y. now apply substring_all.
  - destruct y as [|c y]; cbn [length] in Hn; [lia|].
    cbn [append substring]. apply IH; [lia|].
    cbn [append length] in Hm. lia.
Qed.

Lemma trimStart_paren z : Js.trimStart (z ++ ")") <> "".
Proof.
  induction z as [|c r IH]; [discriminate|].
  cbn [append Js.trimStart]. destruct (Js.isSpace c); [exact IH|discriminate].
Qed.

Lemma length_append s t : length (s ++ t) = (length s + length t)%nat.
Proof. induction s as [|c r IH]; cbn; [reflexivity | now rewrite IH]. Qed.

Lemma append_assoc s t u : (s ++ t) ++ u = s ++ t ++ u.
Proof. induction s as [|c r IH]; cbn; [reflexivity | now rewrite IH]. Qed.

(** Nothing that ends with " (Fees)" is itself the tail "(fees)" and white
    space. *)
Lemma feesTail_suffixed x : Js.feesTail (x ++ " (Fees)") = false.
Proof.
  unfold Js.feesTail. apply Bool.andb_false_iff. right.
  change (x ++ " (Fees)") with (x ++ " (Fees" ++ ")").
  rewrite <- append_assoc.
  destruct (substring_paren 6 (x ++ " (Fees")
              (length ((x ++ " (Fees") ++ ")"))) as [z ->].
  - rewrite length_append. cbn. lia.
  - lia.
  - apply String.eqb_neq. apply trimStart_paren.
Qed.

Lemma stripFees_suffixed s : Js.stripFees (s ++ " (Fees)") = Js.trimEnd s.
Proof.
  induction s as [|c r IH]; [reflexivity|].
  assert (T : Js.feesTail (Js.trimStart (String c r ++ " (Fees)"))
              = Js.allChars Js.isSpace (String c r)).
  { rewrite trimStart_app.
    destruct (Js.allChars Js.isSpace (String c r)); [reflexivity|].
    apply feesTail_suffixed. }
  cbn [append Js.stripFees] in *. rewrite T, IH.
  cbn [Js.allChars Js.trimEnd].
  destruct (Js.isSpace c); cbn [andb]; [|reflexivity].
  destruct (Js.allChars Js.isSpace r) eqn:B.
  - apply trimEnd_blank in B. now rewrite B.
  - destruct (String.eqb_spec (Js.trimEnd r) "") as [E|E]; [|reflexivity].
    apply trimEnd_blank in E. congruence.
Qed.

Lemma normalize_suffixed n :
  normalizePassengerName (n ++ " (Fees)") = Js.trim n.
Proof.
  assert (R : Js.trim (n ++ " (Fees)")
              = if Js.allChars Js.isSpace n then "(Fees)"
                else Js.trimStart n ++ " (Fees)").
  { unfold Js.trim. rewrite trimStart_app.
    destruct (Js.allChars Js.isSpace n); [reflexivity|].
    change (Js.trimStart n ++ " (Fees)")
      with (Js.trimStart n ++ " (Fees" ++ ")").
    now rewrite <- append_assoc, trimEnd_paren. }
  unfold normalizePassengerName. rewrite R.
  destruct (Js.allChars Js.isSpace n) eqn:B.
  - apply trimStart_blank in B. unfold Js.trim at 2. rewrite B. reflexivity.
  - replace (Js.truthy (Js.trimStart n ++ " (Fees)")) with true
      by (now destruct (Js.trimStart n)).
    cbn [negb]. rewrite stripFees_suffixed.
    fold (Js.trim n). apply trim_idem.
Qed.

(** The fee row that an update appends for a passenger is a fee entry for
    both detectors, is grouped under the PNR of the ticket, and names the
    passenger of the ticket: the unpaid grouping strips its " (Fees)" suffix
    back to the trimmed name.  So, for a ticket whose name is not blank and
    carries no fee suffix, adding the fee row to the group of the ticket adds
    no second passenger. *)
Theorem fee_row_joins_passenger tz host now form pay o g :
  Js.trim (name o) <> "" ->
  Js.stripFees (Js.trim (name o)) = Js.trim (name o) ->
  let fee := feeRow tz host now form pay o in
  isFeeRow fee = true
  /\ isFeeEntryRow fee = true
  /\ groupKey fee = groupKey o
  /\ normalizePassengerName (name fee) = normalizePassengerName (name o)
  /\ passengers (addToGroup fee (addToGroup o g))
     = passengers (addToGroup o g).
Proof.
  intros Hne Hs fee.
  assert (No : normalizePassengerName (name o) = Js.trim (name o)).
  { unfold normalizePassengerName.
    replace (Js.truthy (Js.trim (name o))) with true.
    - cbn [negb]. rewrite Hs. apply trim_idem.
    - symmetry. unfold Js.truthy. apply Bool.negb_true_iff.
      now apply String.eqb_neq. }
  assert (Nf : normalizePassengerName (name fee) = Js.trim (name o)).
  { unfold fee, feeRow. cbn [name]. apply normalize_suffixed. }
  assert (To : Js.truthy (name o) = true).
  { destruct (name o); [now contradiction Hne | reflexivity]. }
  assert (Tf : Js.truthy (name fee) = true).
  { unfold fee, feeRow. cbn [name]. now destruct (name o). }
  split; [|split; [|split; [|split]]].
  - unfold isFeeRow, fee, feeRow. cbn [remarks].
    apply Bool.orb_true_iff. now right.
  - unfold isFeeEntryRow, fee, feeRow. cbn [remarks].
    apply Bool.orb_true_iff. now right.
  - reflexivity.
  - now rewrite No, Nf.
  - unfold addToGroup at 1. cbn [passengers]. rewrite Tf, Nf.
    unfold addToGroup. cbn [passengers]. rewrite To, No.
    destruct (inNames (Js.trim (name o)) (passengers g)) eqn:I.
    + now rewrite I.
    + replace (inNames (Js.trim (name o))
                 (passengers g ++ [Js.trim (name o)])) with true;
        [reflexivity|].
      symmetry. unfold inNames. rewrite existsb_app. cbn [existsb].
      now rewrite String.eqb_refl, Bool.orb_true_r.
Qed.

Lemma fee_row_joins_passenger_witness :
  (Js.trim " JOHN " <> ""
   /\ Js.stripFees (Js.trim " JOHN ") = Js.trim " JOHN ")
  /\ passengers
       (addToGroup
          (feeRow yangonTZA strictDateParse nov15NoonYangon extraFareForm
             (mkPayment false "" "")
             (ticketOf 2 "" " JOHN " "AB1" "" 100000 0 0 0 false))
          (addToGroup (ticketOf 2 "" " JOHN " "AB1" "" 100000 0 0 0 false)
             (mkGroup "AB1" [] 0)))
     = ["JOHN"].
Proof.
  assert (N : Js.trim " JOHN " <> "") by discriminate.
  assert (S : Js.stripFees (Js.trim " JOHN ") = Js.trim " JOHN ")
    by reflexivity.
  split; [now split|].
  rewrite (proj2 (proj2 (proj2 (proj2
             (fee_row_joins_passenger yangonTZA strictDateParse
                nov15NoonYangon extraFareForm (mkPayment false "" "")
                (ticketOf 2 "" " JOHN " "AB1" "" 100000 0 0 0 false)
                (mkGroup "AB1" [] 0) N S))))).
  reflexivity.
Defined.

(** ** booking.js: an accepted status update *)

Lemma mirrored_unique rows bs b b' :
  mirrored rows bs -> In b bs -> In b' bs ->
  b_rowIndex b = b_rowIndex b' -> b = b'.
Proof.
  intros M H H' E.
  destruct (M b H) as (n & r & Hn & ->).
  destruct (M b' H') as (n' & r' & Hn' & ->).
  cbn [trimBooking b_rowIndex] in E.
  assert (n = n') by lia. subst n'. congruence.
Qed.

Lemma withoutRows_none rowIndices bs :
  (forall b, In b bs -> ~ In (b_rowIndex b) rowIndices) ->
  withoutRows rowIndices bs = bs.
Proof.
  intros H. induction bs as [|b bs IH]; [reflexivity|].
  unfold withoutRows in *. cbn [filter].
  replace (includesRow rowIndices (b_rowIndex b)) with false.
  - cbn [negb]. f_equal. apply IH. intros c Hc. apply H. now right.
  - symmetry. apply not_true_iff_false. intros E.
    unfold includesRow in E. apply existsb_exists in E.
    destruct E as (x & Hx & E). apply Z.eqb_eq in E. subst x.
    apply (H b); [now left | assumption].
Qed.

(** A status update that the sheet accepts: the row of every booking in
    memory that the call names holds the cells of the booking as they are in
    memory, with the new remark in the remark cell; every other row of the
    sheet is as it was, the named bookings have left the
    list in memory, the submission flag is cleared, and the cached response
    is dropped when a row was written. *)
Theorem booking_update_accepted rowIndices remarks rows st :
  isSubmitting st = false ->
  mirrored rows (allBookings st) ->
  let p := updateBookingStatus rowIndices remarks st in
  let st' := run (fun _ => Resolved) p in
  let sheet' := sheetAfter (requests (fun _ => Resolved) p) rows in
  (forall b, In b (allBookings st) -> In (b_rowIndex b) rowIndices ->
     (exists v,
        nth_error sheet' (Z.to_nat (b_rowIndex b - 2)) = Some v
        /\ cellsOf v
           = [b_name b; b_id_no b; b_phone b; b_account_name b;
              b_account_type b; b_account_link b; b_departure b;
              b_destination b; b_departing_on b; pnr b; remarks;
              enddate b; endtime b])
     /\ bookingCache st' = false)
  /\ (forall n r, nth_error rows n = Some r ->
        (forall b, In b (allBookings st) -> In (b_rowIndex b) rowIndices ->
                   b_rowIndex b <> (Z.of_nat n + 2)%Z) ->
        nth_error sheet' n = Some r)
  /\ List.length sheet' = List.length rows
  /\ allBookings st' = withoutRows rowIndices (allBookings st)
  /\ isSubmitting st' = false.
Proof.
  intros Hsub M p st' sheet'.
  set (found := flat_map
                  (fun rowIndex =>
                     match find (fun b => (b_rowIndex b =? rowIndex)%Z)
                             (allBookings st) with
                     | Some b => [b]
                     | None => []
                     end) rowIndices).
  set (data := map (bookingEntry remarks) found).
  assert (Hfound : forall b, In b found <->
                     In b (allBookings st) /\ In (b_rowIndex b) rowIndices).
  { intros b. unfold found. rewrite in_flat_map. split.
    - intros (x & Hx & Hb).
      destruct (find _ (allBookings st)) as [c|] eqn:F; [|destruct Hb].
      destruct Hb as [<-|[]].
      apply find_some in F. destruct F as [Hc Ec].
      apply Z.eqb_eq in Ec. split; [exact Hc | now rewrite Ec].
    - intros [Hb Hr]. exists (b_rowIndex b). split; [exact Hr|].
      destruct (find _ (allBookings st)) as [c|] eqn:F.
      + pose proof (find_some _ _ F) as [Hc Ec]. apply Z.eqb_eq in Ec.
        left. now apply (mirrored_unique rows (allBookings st)).
      + apply (find_none _ _ F) in Hb. rewrite Z.eqb_refl in Hb.
        discriminate. }
  assert (Hp : p = match data with
                   | [] => Done (setSubmitting false
                                   (setBookings (allBookings st)
                                      (setBookings
                                         (withoutRows rowIndices
                                            (allBookings st))
                                         (showToast
                                            "Updating booking status..."
                                            "info"
                                            (setSubmitting true st)))))
                   | _ :: _ =>
                       Await
                         (setBookings
                            (withoutRows rowIndices (allBookings st))
                            (showToast "Updating booking status..." "info"
                               (setSubmitting true st)))
                         data
                         (fun r =>
                            match r with
                            | Resolved =>
                                Done (setSubmitting false
                                        (showToast
                                           "Booking updated successfully!"
                                           "success"
                                           (clearBookingCache
                                              (setBookings
                                                 (withoutRows rowIndices
                                                    (allBookings st))
                                                 (showToast
                                                    "Updating booking status..."
                                                    "info"
                                                    (setSubmitting true
                                                       st))))))
                            | Rejected message =>
                                Done (setSubmitting false
                                        (setBookings (allBookings st)
                                           (updateErrorToast message
                                              (setBookings
                                                 (withoutRows rowIndices
                                                    (allBookings st))
                                                 (showToast
                                                    "Updating booking status..."
                                                    "info"
                                                    (setSubmitting true
                                                       st))))))
                            end)
                   end).
  { unfold p, updateBookingStatus. rewrite Hsub. reflexivity. }
  assert (Hsheet : sheet' = applyBatch data rows).
  { unfold sheet'. rewrite Hp. destruct data; reflexivity. }
  assert (Hrow : forall n,
            (n < List.length rows)%nat ->
            nth_error sheet' n
            = match find (fun e => (e_row e =? Z.of_nat n + 2)%Z)
                      (rev data) with
              | Some e => Some (e_values e)
              | None => nth_error rows n
              end).
  { intros n Hn. rewrite Hsheet. now apply nth_error_applyBatch. }
  assert (Hdata : forall e, In e (rev data) ->
            exists b, In b (allBookings st) /\ In (b_rowIndex b) rowIndices
                      /\ e = bookingEntry remarks b).
  { intros e He. apply in_rev in He. unfold data in He.
    apply in_map_iff in He. destruct He as (b & <- & Hb).
    apply Hfound in Hb. exists b. now repeat split. }
  split; [|split; [|split; [|split]]].
  - intros b Hb Hr.
    destruct (M b Hb) as (n & r & Hn & Eb).
    assert (Rb : b_rowIndex b = (Z.of_nat n + 2)%Z) by now rewrite Eb.
    assert (Hne : In (bookingEntry remarks b) (rev data)).
    { apply in_rev. rewrite rev_involutive. unfold data.
      apply in_map. apply Hfound. now split. }
    split.
    + exists (bookingValues b remarks). split; [|reflexivity].
      replace (Z.to_nat (b_rowIndex b - 2)) with n by lia.
      rewrite Hrow by (apply nth_error_Some; congruence).
      destruct (find _ (rev data)) as [e|] eqn:F.
      * apply find_some in F. destruct F as [He Er].
        apply Z.eqb_eq in Er.
        destruct (Hdata e He) as (c & Hc & _ & ->).
        cbn [bookingEntry e_row e_values] in *.
        now rewrite (mirrored_unique rows _ c b M Hc Hb) by lia.
      * apply (find_none _ _ F) in Hne. cbn [bookingEntry e_row] in Hne.
        rewrite Rb, Z.eqb_refl in Hne. discriminate.
    + unfold st'. rewrite Hp.
      destruct data as [|e es]; [destruct Hne|].
      reflexivity.
  - intros n r Hn Hno.
    rewrite Hrow by (apply nth_error_Some; congruence).
    destruct (find _ (rev data)) as [e|] eqn:F; [|exact Hn].
    exfalso. apply find_some in F. destruct F as [He Er].
    apply Z.eqb_eq in Er.
    destruct (Hdata e He) as (c & Hc & Hr & ->).
    now apply (Hno c Hc Hr).
  - rewrite Hsheet. apply applyBatch_length.
  - unfold st'. rewrite Hp. destruct data as [|e es] eqn:E.
    + cbn [run allBookings setSubmitting setBookings].
      symmetry. apply withoutRows_none. intros b Hb Hr.
      assert (X : In b found) by (apply Hfound; now split).
      unfold data in E. apply map_eq_nil in E. rewrite E in X. destruct X.
    + reflexivity.
  - unfold st'. rewrite Hp. now destruct data.
Qed.

Lemma booking_update_accepted_witness :
  (isSubmitting twoBookings = false
   /\ mirrored (allBookings twoBookings) (allBookings twoBookings))
  /\ map cellsOf
       (sheetAfter
          (requests (fun _ => Resolved)
             (updateBookingStatus [3%Z] "complete" twoBookings))
          (allBookings twoBookings))
     = [ ["JOHN"; ""; ""; ""; ""; ""; ""; ""; "12/20/2025"; "AB1"; "";
          "12/01/2025"; "05:00 PM"];
         ["MARY"; ""; ""; ""; ""; ""; ""; ""; "12/24/2025"; "CD2";
          "complete"; ""; ""] ]
  /\ map b_name
       (allBookings
          (run (fun _ => Resolved)
             (updateBookingStatus [3%Z] "complete" twoBookings)))
     = ["JOHN"].
Proof.
  assert (S : isSubmitting twoBookings = false) by reflexivity.
  assert (M : mirrored (allBookings twoBookings) (allBookings twoBookings)).
  { intros b [<-|[<-|[]]].
    - exists 0%nat. eexists. split; reflexivity.
    - exists 1%nat. eexists. split; reflexivity. }
  split; [now split|]. split; [reflexivity|].
  rewrite (proj1 (proj2 (proj2 (proj2
             (booking_update_accepted [3%Z] "complete"
                (allBookings twoBookings) twoBookings S M))))).
  reflexivity.
Defined.

(** ** booking.js: the groups of the booking list *)

Lemma groupOf_snoc k bs b :
  groupOf k (bs ++ [b])%list
  = (groupOf k bs ++ (if (groupId b =? k)%string then [b] else []))%list.
Proof.
  unfold groupOf. rewrite filter_app. cbn [filter].
  now destruct (groupId b =? k)%string.
Qed.

Lemma gkey_addPassenger b g : gkey (addPassenger b g) = gkey g.
Proof. reflexivity. Qed.

Lemma keys_upsertBooking b gs :
  map gkey (upsertBooking b gs)
  = if existsb (fun g => (gkey g =? groupId b)%string) gs
    then map gkey gs else (map gkey gs ++ [groupId b])%list.
Proof.
  induction gs as [|g gs IH]; [reflexivity|].
  cbn [upsertBooking existsb]. fold (gkey g).
  destruct (gkey g =? groupId b)%string; cbn [orb map].
  - reflexivity.
  - rewrite IH. now destruct (existsb _ gs).
Qed.

Lemma in_upsertBooking b gs g' :
  NoDup (map gkey gs) ->
  In g' (upsertBooking b gs) ->
  (In g' gs /\ gkey g' <> groupId b)
  \/ (exists g, In g gs /\ gkey g = groupId b /\ g' = addPassenger b g)
  \/ (g' = addPassenger b (mkBGroup b [] [])
      /\ forall g, In g gs -> gkey g <> groupId b).
Proof.
  induction gs as [|g gs IH]; cbn [upsertBooking]; intros N.
  - intros [<-|[]]. right. right. split; [reflexivity|]. intros g [].
  - fold (gkey g). cbn [map] in N. inversion N as [|k ks Hk N']. subst.
    destruct (String.eqb_spec (gkey g) (groupId b)) as [E|E].
    + intros [<-|H].
      * right. left. exists g. split; [now left|]. now split.
      * left. split; [now right|]. intros E'. apply Hk.
        rewrite E, <- E'. now apply in_map.
    + intros [<-|H].
      * left. split; [now left | assumption].
      * destruct (IH N' H) as [[H1 H2]|[(g0 & H1 & H2 & H3)|[H1 H2]]].
        -- left. split; [now right | assumption].
        -- right. left. exists g0. split; [now right|]. now split.
        -- right. right. split; [assumption|].
           intros g0 [<-|H0]; [assumption | now apply H2].
Qed.

(** The groups of a list of bookings: distinct keys, each group holding the
    bookings of its key, every booking in a group. *)
Lemma groups_from bs2 : forall bs1 gs,
  NoDup (map gkey gs) ->
  (forall g, In g gs -> holds bs1 g) ->
  (forall b, In b bs1 -> In (groupId b) (map gkey gs)) ->
  let gs' := fold_left (fun acc booking => upsertBooking booking acc) bs2 gs in
  NoDup (map gkey gs')
  /\ (forall g, In g gs' -> holds (bs1 ++ bs2)%list g)
  /\ (forall b, In b (bs1 ++ bs2)%list -> In (groupId b) (map gkey gs')).
Proof.
  induction bs2 as [|b bs2 IH]; intros bs1 gs N H C; cbn [fold_left].
  - rewrite app_nil_r. split; [assumption | split; assumption].
  - replace (bs1 ++ b :: bs2)%list with ((bs1 ++ [b]) ++ bs2)%list
      by (now rewrite <- app_assoc).
    apply IH.
    + rewrite keys_upsertBooking.
      destruct (existsb _ gs) eqn:E; [assumption|].
      apply NoDup_snoc; [assumption|].
      intros Hin. apply in_map_iff in Hin. destruct Hin as (g & Eg & Hg).
      assert (X : existsb (fun g => (gkey g =? groupId b)%string) gs = true).
      { apply existsb_exists. exists g. split; [assumption|].
        now apply String.eqb_eq. }
      congruence.
    + intros g' Hg'.
      destruct (in_upsertBooking b gs g' N Hg')
        as [[H1 H2]|[(g & H1 & H2 & ->)|[-> H2]]].
      * destruct (H g' H1) as (R & P & F). unfold holds.
        rewrite groupOf_snoc.
        replace (groupId b =? gkey g')%string with false
          by (symmetry; apply String.eqb_neq; congruence).
        rewrite app_nil_r. now repeat split.
      * destruct (H g H1) as (R & P & F). unfold holds.
        rewrite gkey_addPassenger, groupOf_snoc, H2, String.eqb_refl.
        rewrite H2 in R, P, F.
        cbn [addPassenger rowIndices g_passengers g_first].
        rewrite !map_app, R, P. cbn [map]. repeat split.
        destruct (groupOf (groupId b) bs1); [discriminate F | exact F].
      * unfold holds. rewrite gkey_addPassenger.
        change (gkey (mkBGroup b [] [])) with (groupId b).
        rewrite groupOf_snoc, String.eqb_refl.
        assert (Z0 : groupOf (groupId b) bs1 = []).
        { unfold groupOf.
          destruct (filter _ bs1) as [|c l] eqn:F; [reflexivity|].
          exfalso.
          assert (Hc : In c (c :: l)) by now left.
          rewrite <- F in Hc. apply filter_In in Hc.
          destruct Hc as [Hc Ec]. apply String.eqb_eq in Ec.
          apply C in Hc. apply in_map_iff in Hc.
          destruct Hc as (g & Eg & Hg). apply (H2 g Hg). congruence. }
        rewrite Z0. now repeat split.
    + intros c Hc. rewrite keys_upsertBooking.
      apply in_app_or in Hc. destruct Hc as [Hc|[<-|[]]].
      * destruct (existsb _ gs); [now apply C|].
        apply in_or_app. left. now apply C.
      * destruct (existsb _ gs) eqn:E.
        -- apply existsb_exists in E. destruct E as (g & Hg & E).
           apply String.eqb_eq in E. rewrite <- E. now apply in_map.
        -- apply in_or_app. right. now left.
Qed.

Lemma groupedBookings_spec bs :
  NoDup (map gkey (groupedBookings bs))
  /\ (forall g, In g (groupedBookings bs) -> holds bs g)
  /\ (forall b, In b bs -> In (groupId b) (map gkey (groupedBookings bs))).
Proof.
  apply (groups_from bs [] []).
  - constructor.
  - intros g [].
  - intros b [].
Qed.

Section SortedGroups.

Variable LocalTZA : Z.
Variable DateParse : string -> option Z.

Lemma in_insertGroup g l x : In x (insertGroup LocalTZA DateParse g l) <-> x = g \/ In x l.
Proof.
  induction l as [|h t IH]; cbn.
  - intuition congruence.
  - destruct (travelTime LocalTZA DateParse g <=? travelTime LocalTZA DateParse h)%Z; cbn.
    + intuition congruence.
    + rewrite IH. intuition congruence.
Qed.

Lemma in_sortGroups l x : In x (sortGroups LocalTZA DateParse l) <-> In x l.
Proof.
  induction l as [|h t IH]; cbn; [reflexivity|].
  fold (sortGroups LocalTZA DateParse t). rewrite in_insertGroup, IH. intuition congruence.
Qed.

Lemma keys_insertGroup g l :
  NoDup (map gkey (g :: l)) -> NoDup (map gkey (insertGroup LocalTZA DateParse g l)).
Proof.
  induction l as [|h t IH]; intros N; cbn; [exact N|].
  destruct (travelTime LocalTZA DateParse g <=? travelTime LocalTZA DateParse h)%Z; [exact N|].
  cbn [map] in *.
  inversion N as [|? ? Hg N1]. subst. inversion N1 as [|? ? Hh N2]. subst.
  constructor.
  - intros Hin. apply in_map_iff in Hin. destruct Hin as (x & Ex & Hx).
    apply in_insertGroup in Hx. destruct Hx as [->|Hx].
    + apply Hg. left. congruence.
    + apply Hh. rewrite <- Ex. now apply in_map.
  - apply IH. constructor; [|assumption].
    intros Hin. apply Hg. now right.
Qed.

Lemma keys_sortGroups l :
  NoDup (map gkey l) -> NoDup (map gkey (sortGroups LocalTZA DateParse l)).
Proof.
  induction l as [|h t IH]; intros N; cbn; [constructor|].
  fold (sortGroups LocalTZA DateParse t). apply keys_insertGroup. cbn [map] in *.
  inversion N as [|? ? Hh N1]. subst. constructor; [|now apply IH].
  intros Hin. apply Hh. apply in_map_iff in Hin.
  destruct Hin as (x & Ex & Hx). apply (proj1 (in_sortGroups _ _)) in Hx.
  rewrite <- Ex. now apply in_map.
Qed.

Lemma sorted_insertGroup g l :
  StronglySorted (fun a b => (travelTime LocalTZA DateParse a <= travelTime LocalTZA DateParse b)%Z) l ->
  StronglySorted (fun a b => (travelTime LocalTZA DateParse a <= travelTime LocalTZA DateParse b)%Z) (insertGroup LocalTZA DateParse g l).
Proof.
  induction l as [|h t IH]; intros S; cbn.
  - constructor; constructor.
  - inversion S as [|? ? St Hall]. subst.
    destruct (Z.leb_spec (travelTime LocalTZA DateParse g) (travelTime LocalTZA DateParse h)).
    + constructor; [exact S|]. constructor; [assumption|].
      rewrite Forall_forall in *. intros x Hx. specialize (Hall x Hx). lia.
    + constructor; [now apply IH|].
      rewrite Forall_forall in *. intros x Hx.
      apply in_insertGroup in Hx. destruct Hx as [->|Hx]; [lia|].
      now apply Hall.
Qed.

Lemma sorted_sortGroups l :
  StronglySorted (fun a b => (travelTime LocalTZA DateParse a <= travelTime LocalTZA DateParse b)%Z) (sortGroups LocalTZA DateParse l).
Proof.
  induction l as [|h t IH]; cbn; [constructor|].
  fold (sortGroups LocalTZA DateParse t). now apply sorted_insertGroup.
Qed.

End SortedGroups.

(** The booking list shows the active bookings in groups: the groups have
    distinct group ids, each group lists the row indices and the passengers
    of exactly the active bookings with its id, in their order, and repeats
    the details of the first of them; every active booking is in a group; and
    the groups come in the order of their travel dates. *)
Theorem booking_groups_partition tz host today st :
  let active := activeBookings tz host today st in
  let groups := displayBookings tz host today st in
  NoDup (map gkey groups)
  /\ (forall g, In g groups -> holds active g)
  /\ (forall b, In b active ->
        exists g, In g groups /\ gkey g = groupId b
                  /\ In (b_rowIndex b) (rowIndices g))
  /\ StronglySorted
       (fun a b => (travelTime tz host a <= travelTime tz host b)%Z) groups.
Proof.
  intros active groups. unfold groups, displayBookings. fold active.
  destruct (groupedBookings_spec active) as (N & H & C).
  split; [now apply keys_sortGroups|].
  split; [intros g Hg; apply H; now apply (in_sortGroups tz host)|].
  split; [|apply sorted_sortGroups].
  intros b Hb. pose proof (C b Hb) as Hk. apply in_map_iff in Hk.
  destruct Hk as (g & Eg & Hg). exists g.
  split; [now apply in_sortGroups|]. split; [exact Eg|].
  destruct (H g Hg) as (R & _). rewrite R, Eg. apply in_map.
  apply filter_In. split; [exact Hb | apply String.eqb_refl].
Qed.

Lemma accepted_bookings rowIndices remarks st :
  isSubmitting st = false ->
  allBookings (run (fun _ => Resolved)
                 (updateBookingStatus rowIndices remarks st))
  = withoutRows rowIndices (allBookings st).
Proof.
  intros Hsub. unfold updateBookingStatus. rewrite Hsub.
  cbn [allBookings showToast setSubmitting setBookings].
  destruct (map (bookingEntry remarks) _) as [|e es] eqn:E; [|reflexivity].
  cbn [run allBookings setSubmitting setBookings].
  symmetry. apply withoutRows_none. intros b Hb Hr.
  apply map_eq_nil in E.
  apply (found_rows_nonempty rowIndices (allBookings st)); [|exact E].
  now exists b.
Qed.

(** 'Get Ticket' and 'Cancel' on a group of the booking list pass the row
    indices of the group to [updateBookingStatus].  When the sheet accepts
    the update, the active bookings that remain are those of the other
    groups: every passenger of the group leaves the list, nobody else
    does. *)
Theorem group_action_removes_group tz host today rows remarks st g :
  isSubmitting st = false ->
  mirrored rows (allBookings st) ->
  In g (displayBookings tz host today st) ->
  let st' := run (fun _ => Resolved)
               (updateBookingStatus (rowIndices g) remarks st) in
  activeBookings tz host today st'
  = filter (fun b => negb (groupId b =? gkey g)%string)
      (activeBookings tz host today st).
Proof.
  intros Hsub M Hg st'. unfold st', activeBookings.
  rewrite accepted_bookings by assumption.
  unfold displayBookings in Hg.
  apply (proj1 (in_sortGroups tz host _ _)) in Hg.
  destruct (groupedBookings_spec (activeBookings tz host today st))
    as (_ & H & _).
  destruct (H g Hg) as (R & _). fold (activeBookings tz host today st).
  unfold withoutRows.
  set (act := fun b : Booking =>
                hasNoAction b
                && (today <=? parseSheetDate tz host (b_departing_on b))%Z).
  assert (E : forall l,
            (forall b, In b l -> In b (allBookings st)) ->
            filter act
              (filter (fun b => negb (includesRow (rowIndices g)
                                        (b_rowIndex b))) l)
            = filter (fun b => negb (groupId b =? gkey g)%string)
                (filter act l)).
  { induction l as [|b l IH]; intros Hl; [reflexivity|].
    assert (Hb : In b (allBookings st)) by (apply Hl; now left).
    assert (IH' := IH (fun c Hc => Hl c (or_intror Hc))).
    cbn [filter].
    destruct (act b) eqn:A.
    - assert (X : includesRow (rowIndices g) (b_rowIndex b)
                  = (groupId b =? gkey g)%string).
      { unfold includesRow.
        destruct (String.eqb_spec (groupId b) (gkey g)) as [K|K].
        - apply existsb_exists. exists (b_rowIndex b).
          split; [|apply Z.eqb_refl]. rewrite R. apply in_map.
          apply filter_In. split; [|now apply String.eqb_eq].
          unfold activeBookings. apply filter_In. now split.
        - apply not_true_iff_false. intros Ex.
          apply existsb_exists in Ex. destruct Ex as (x & Hx & Ex).
          apply Z.eqb_eq in Ex. subst x. rewrite R in Hx.
          apply in_map_iff in Hx. destruct Hx as (c & Ec & Hc).
          apply filter_In in Hc. destruct Hc as [Hc Kc].
          apply String.eqb_eq in Kc.
          unfold activeBookings in Hc. apply filter_In in Hc.
          destruct Hc as [Hc _].
          rewrite (mirrored_unique rows _ c b M Hc Hb Ec) in Kc.
          contradiction. }
      rewrite X. cbv beta.
      destruct (groupId b =? gkey g)%string eqn:K; cbn [negb filter].
      + rewrite K. exact IH'.
      + rewrite A, K. cbn [negb]. now rewrite IH'.
    - destruct (negb (includesRow _ _)); cbn [filter]; [rewrite A|];
        exact IH'. }
  apply E. auto.
Qed.

Lemma group_action_removes_group_witness :
  (isSubmitting twoBookings = false
   /\ mirrored (allBookings twoBookings) (allBookings twoBookings)
   /\ In (mkBGroup
            (bookingOf 3 "MARY" "12/24/2025" "CD2" "" "" "")
            [("MARY", "", 3%Z)] [3%Z])
        (displayBookings yangonTZA strictDateParse dec1Yangon twoBookings))
  /\ map b_name
       (activeBookings yangonTZA strictDateParse dec1Yangon
          (run (fun _ => Resolved)
             (updateBookingStatus [3%Z] "cancel" twoBookings)))
     = ["JOHN"].
Proof.
  assert (S : isSubmitting twoBookings = false) by reflexivity.
  assert (M : mirrored (allBookings twoBookings) (allBookings twoBookings)).
  { intros b [<-|[<-|[]]].
    - exists 0%nat. eexists. split; reflexivity.
    - exists 1%nat. eexists. split; reflexivity. }
  assert (G : In (mkBGroup
                    (bookingOf 3 "MARY" "12/24/2025" "CD2" "" "" "")
                    [("MARY", "", 3%Z)] [3%Z])
                (displayBookings yangonTZA strictDateParse dec1Yangon
                   twoBookings)).
  { vm_compute. right. left. reflexivity. }
  split; [split; [exact S | split; [exact M | exact G]]|].
  change [3%Z]
    with (rowIndices
            (mkBGroup (bookingOf 3 "MARY" "12/24/2025" "CD2" "" "" "")
               [("MARY", "", 3%Z)] [3%Z])).
  rewrite (group_action_removes_group yangonTZA strictDateParse dec1Yangon
             (allBookings twoBookings) "cancel" twoBookings _ S M G).
  vm_compute. reflexivity.
Defined.

(** ** ui.js: pages and page buttons *)

Lemma firstn_plus {A : Type} (a b : nat) (l : list A) :
  firstn (a + b) l = (firstn a l ++ firstn b (skipn a l))%list.
Proof.
  revert l. induction a as [|a IH]; intros l; [reflexivity|].
  destruct l as [|x l]; cbn [Nat.add firstn skipn app].
  - now rewrite firstn_nil.
  - now rewrite IH.
Qed.

Lemma chunks_concat {A : Type} (r k : nat) (l : list A) :
  List.concat (map (fun j => firstn r (skipn (j * r) l)) (seq 0 k))
  = firstn (k * r) l.
Proof.
  induction k as [|k IH]; [reflexivity|].
  rewrite seq_S, map_app, concat_app, IH. cbn [map List.concat Nat.add].
  rewrite app_nil_r. replace (S k * r)%nat with (k * r + r)%nat by lia.
  now rewrite firstn_plus.
Qed.

Lemma pageRows_chunk {A : Type} (rowsPerPage page : Z) (data : list A) :
  (0 < rowsPerPage)%Z -> (1 <= page)%Z ->
  pageRows rowsPerPage page data
  = firstn (Z.to_nat rowsPerPage)
      (skipn (Z.to_nat (page - 1) * Z.to_nat rowsPerPage) data).
Proof.
  intros Hr Hp. unfold pageRows, slice, sliceIndex.
  set (n := List.length data).
  destruct (Z.ltb_spec ((page - 1) * rowsPerPage) 0) as [X|_]; [nia|].
  destruct (Z.ltb_spec (page * rowsPerPage) 0) as [X|_]; [nia|].
  replace (Z.to_nat (page - 1) * Z.to_nat rowsPerPage)%nat
    with (Z.to_nat ((page - 1) * rowsPerPage)) by nia.
  destruct (Z.le_gt_cases (Z.of_nat n) ((page - 1) * rowsPerPage)) as [C|C].
  - rewrite (Z.min_r ((page - 1) * rowsPerPage)) by assumption.
    rewrite Nat2Z.id.
    rewrite !skipn_all2 by (fold n; lia). now rewrite !firstn_nil.
  - rewrite (Z.min_l ((page - 1) * rowsPerPage)) by lia.
    set (rest := skipn (Z.to_nat ((page - 1) * rowsPerPage)) data).
    assert (L : List.length rest
                = (n - Z.to_nat ((page - 1) * rowsPerPage))%nat)
      by (unfold rest; apply length_skipn).
    destruct (Z.le_gt_cases (page * rowsPerPage) (Z.of_nat n)) as [D|D].
    + rewrite Z.min_l by assumption. f_equal. lia.
    + rewrite Z.min_r by lia.
      rewrite !firstn_all2 by lia. reflexivity.
Qed.

Lemma pageCount_bounds len rowsPerPage :
  (0 < rowsPerPage)%Z -> (0 <= len)%Z ->
  let pc := pageCount len rowsPerPage in
  (0 <= pc /\ len <= pc * rowsPerPage
   /\ (0 < len -> (pc - 1) * rowsPerPage < len)
   /\ (len = 0 -> pc = 0))%Z.
Proof.
  intros Hr Hl. unfold pageCount. cbv zeta.
  pose proof (Z.div_mod (- len) rowsPerPage ltac:(lia)) as E.
  pose proof (Z.mod_pos_bound (- len) rowsPerPage Hr) as B.
  split; [nia|]. split; [nia|]. split; [nia|].
  intros ->. reflexivity.
Qed.

(** The pages 1 to [pageCount] show every row once and in order: their rows
    in sequence are the data.  No page holds more than [rowsPerPage] rows,
    none of these pages is empty, and a page past the last is. *)
Theorem pages_partition_rows {A : Type} (rowsPerPage : Z) (data : list A) :
  (0 < rowsPerPage)%Z ->
  let pc := pageCount (Z.of_nat (List.length data)) rowsPerPage in
  List.concat (map (fun page => pageRows rowsPerPage page data) (pagesFrom 1 pc))
  = data
  /\ (forall page, (1 <= page)%Z ->
        (Z.of_nat (List.length (pageRows rowsPerPage page data))
         <= rowsPerPage)%Z)
  /\ (forall page, (1 <= page <= pc)%Z -> pageRows rowsPerPage page data <> [])
  /\ (forall page, (pc < page)%Z -> pageRows rowsPerPage page data = []).
Proof.
  intros Hr pc.
  destruct (pageCount_bounds (Z.of_nat (List.length data)) rowsPerPage Hr
              ltac:(lia)) as (P0 & P1 & P2 & P3).
  fold pc in P0, P1, P2, P3.
  split; [|split; [|split]].
  - unfold pagesFrom. rewrite map_map.
    replace (Z.to_nat (pc - 1 + 1)) with (Z.to_nat pc) by lia.
    rewrite (map_ext_in _
               (fun j => firstn (Z.to_nat rowsPerPage)
                           (skipn (j * Z.to_nat rowsPerPage) data))).
    + rewrite chunks_concat. apply firstn_all2. nia.
    + intros j Hj. apply in_seq in Hj.
      rewrite pageRows_chunk by lia. do 3 f_equal. lia.
  - intros page Hp. rewrite pageRows_chunk by assumption.
    rewrite length_firstn. lia.
  - intros page Hp. rewrite pageRows_chunk by lia.
    set (k := (Z.to_nat (page - 1) * Z.to_nat rowsPerPage)%nat).
    assert (K : (k < List.length data)%nat).
    { assert ((page - 1) * rowsPerPage <= (pc - 1) * rowsPerPage)%Z by nia.
      assert (0 <= (page - 1) * rowsPerPage)%Z by nia.
      replace k with (Z.to_nat ((page - 1) * rowsPerPage))
        by (unfold k; nia).
      lia. }
    intros E. apply (f_equal (@List.length A)) in E.
    rewrite length_firstn, length_skipn in E. cbn [List.length] in E. lia.
  - intros page Hp. rewrite pageRows_chunk by lia.
    rewrite skipn_all2 by nia. apply firstn_nil.
Qed.

Lemma pages_partition_rows_witness :
  (0 < 10)%Z
  /\ map (fun page => List.length (pageRows 10 page (seq 0 25)))
       (pagesFrom 1 (pageCount 25 10))
     = [10; 10; 5]%nat
  /\ List.concat (map (fun page => pageRows 10 page (seq 0 25))
               (pagesFrom 1 (pageCount (Z.of_nat (List.length (seq 0 25)))
                               10)))
     = seq 0 25.
Proof.
  assert (R : (0 < 10)%Z) by reflexivity.
  split; [exact R|]. split; [reflexivity|].
  exact (proj1 (pages_partition_rows 10 (seq 0 25) R)).
Defined.

Lemma pageWindow_spec pc cur :
  (1 < pc)%Z -> (1 <= cur <= pc)%Z ->
  let '(startPage, endPage) := pageWindow pc cur in
  (1 <= startPage <= cur /\ cur <= endPage <= pc
   /\ endPage - startPage + 1 = Z.min 5 pc)%Z.
Proof.
  intros Hpc Hcur. unfold pageWindow.
  change (5 / 2)%Z with 2%Z. cbv zeta.
  destruct (Z.ltb_spec
              (Z.min pc (Z.max 1 (cur - 2) + 5 - 1) - Z.max 1 (cur - 2) + 1)
              5); lia.
Qed.

Lemma in_pagesFrom startPage endPage i :
  In i (pagesFrom startPage endPage) <-> (startPage <= i <= endPage)%Z.
Proof.
  unfold pagesFrom. rewrite in_map_iff. split.
  - intros (j & <- & Hj). apply in_seq in Hj. lia.
  - intros H. exists (Z.to_nat (i - startPage)). split; [lia|].
    apply in_seq. lia.
Qed.

(** The pagination bar.  A list of one page at most, the empty list
    included, gets no button, whatever the current page.  For a list with
    more than one page, while the current page is one of its pages, every
    button renders an existing page, the numbered buttons are the pages of
    a window that holds the current page and has five pages, or all pages
    when there are fewer, and the current page is among them. *)
Theorem page_buttons_valid len rowsPerPage currentPage :
  let pc := pageCount len rowsPerPage in
  let buttons := setupGenericPagination len rowsPerPage currentPage in
  ((pc <= 1)%Z -> buttons = [])
  /\ ((0 < rowsPerPage)%Z -> (0 <= len <= rowsPerPage)%Z -> buttons = [])
  /\ ((1 <= currentPage <= pc)%Z -> (1 < pc)%Z ->
      (forall b, In b buttons -> (1 <= target b <= pc)%Z)
      /\ In (mkButton (Number currentPage) currentPage true) buttons
      /\ exists startPage,
           filter (fun b => match label b with Number _ => true | _ => false
                            end) buttons
           = map (fun i => mkButton (Number i) i true)
               (pagesFrom startPage (startPage + Z.min 5 pc - 1))
           /\ (1 <= startPage <= currentPage)%Z
           /\ (currentPage <= startPage + Z.min 5 pc - 1 <= pc)%Z).
Proof.
  intros pc buttons. unfold buttons, setupGenericPagination. fold pc.
  split; [|split].
  - intros Hpc. destruct (Z.leb_spec pc 1); [reflexivity|lia].
  - intros Hr Hl.
    destruct (pageCount_bounds len rowsPerPage Hr ltac:(lia))
      as (_ & _ & B & B0).
    fold pc in B, B0.
    destruct (Z.leb_spec pc 1) as [_|Hpc]; [reflexivity|exfalso].
    destruct (Z.eq_dec len 0) as [E|E]; [specialize (B0 E); lia|].
    specialize (B ltac:(lia)). nia.
  - intros Hcur Hpc.
    destruct (Z.leb_spec pc 1) as [Hpc'|_]; [lia|].
    pose proof (pageWindow_spec pc currentPage Hpc Hcur) as W.
    destruct (pageWindow pc currentPage) as [startPage endPage].
    destruct W as (Hs & He & Hw).
    split; [|split].
    + intros b Hb. cbn [app] in Hb. destruct Hb as [<-|Hb]; [cbn; lia|].
      apply in_app_or in Hb. destruct Hb as [Hb|Hb].
      { destruct (Z.ltb_spec 1 startPage); [|destruct Hb].
        destruct Hb as [<-|[]]. cbn. lia. }
      apply in_app_or in Hb. destruct Hb as [Hb|Hb].
      { apply in_map_iff in Hb. destruct Hb as (i & <- & Hi).
        apply in_pagesFrom in Hi. cbn. lia. }
      apply in_app_or in Hb. destruct Hb as [Hb|[<-|[]]].
      { destruct (Z.ltb_spec endPage pc); [|destruct Hb].
        destruct Hb as [<-|[]]. cbn. lia. }
      cbn. lia.
    + cbn [app]. right. apply in_or_app. right. apply in_or_app. left.
      apply in_map_iff. exists currentPage. split; [reflexivity|].
      apply in_pagesFrom. lia.
    + exists startPage.
      replace (startPage + Z.min 5 pc - 1)%Z with endPage by lia.
      split; [|lia].
      cbn [app filter label]. rewrite !filter_app.
      replace (filter _ (if (1 <? startPage)%Z then _ else _))
        with (@nil PageButton) by (now destruct (1 <? startPage)%Z).
      replace (filter _ (if (endPage <? pc)%Z then _ else _))
        with (@nil PageButton) by (now destruct (endPage <? pc)%Z).
      cbn [filter label app]. rewrite app_nil_r.
      induction (pagesFrom startPage endPage) as [|i l IH];
        [reflexivity|].
      cbn [map filter label]. now rewrite IH.
Qed.

Lemma page_buttons_valid_witness :
  ((1 <= 7 <= pageCount 95 10)%Z /\ (1 < pageCount 95 10)%Z)
  /\ map target (setupGenericPagination 95 10 7)
     = [1; 4; 5; 6; 7; 8; 9; 10; 10]%Z
  /\ (forall b, In b (setupGenericPagination 95 10 7) ->
        (1 <= target b <= pageCount 95 10)%Z)
  /\ ((0 < 10)%Z /\ (0 <= 0 <= 10)%Z)
  /\ setupGenericPagination 0 10 1 = [].
Proof.
  assert (C : (1 <= 7 <= pageCount 95 10)%Z)
    by (split; vm_compute; discriminate).
  assert (C1 : (1 < pageCount 95 10)%Z) by reflexivity.
  split; [now split|]. split; [reflexivity|]. split.
  - exact (proj1 (proj2 (proj2 (page_buttons_valid 95 10 7)) C C1)).
  - split; [lia|].
    exact (proj1 (proj2 (page_buttons_valid 0 10 1)) ltac:(lia) ltac:(lia)).
Defined.

(** ** booking.js: what the expiry sweep leaves alone *)

Lemma parseRowsFrom_at rows : forall i n r,
  nth_error rows n = Some r ->
  nth_error (parseRowsFrom i rows) n = Some (trimBooking r (i + Z.of_nat n)).
Proof.
  induction rows as [|x rows IH]; intros i n r H.
  - destruct n; discriminate H.
  - destruct n as [|n]; cbn [parseRowsFrom nth_error] in *.
    + injection H as <-. do 2 f_equal. lia.
    + rewrite (IH _ _ _ H). do 2 f_equal. lia.
Qed.

Lemma filter_none {A : Type} (p : A -> bool) (l : list A) :
  (forall x, In x l -> p x = false) -> filter p l = [].
Proof.
  induction l as [|x l IH]; intros H; [reflexivity|].
  cbn [filter]. rewrite (H x (or_introl eq_refl)).
  apply IH. intros y Hy. apply H. now right.
Qed.

Section SweepFrame.

Variable LocalTZA : Z.
Variable DateParse : string -> option Z.

Lemma sweep_rows now rows n r :
  nth_error rows n = Some r ->
  let b := trimBooking r (Z.of_nat n + 2) in
  nth_error
    (applyBatch
       (map (bookingEntry "end")
          (filter (isExpired LocalTZA DateParse now) (parseBookingData rows)))
       rows) n
  = Some (if isExpired LocalTZA DateParse now b
          then bookingValues b "end" else r).
Proof.
  intros Hn b.
  assert (Hb : nth_error (parseBookingData rows) n = Some b).
  { unfold parseBookingData. rewrite (parseRowsFrom_at _ _ _ _ Hn).
    unfold b. do 2 f_equal. lia. }
  rewrite nth_error_applyBatch by (apply nth_error_Some; congruence).
  destruct (find _ (rev _)) as [e|] eqn:F.
  - apply find_some in F. destruct F as [He Er]. apply Z.eqb_eq in Er.
    apply in_rev, in_map_iff in He. destruct He as (c & <- & Hc).
    apply filter_In in Hc. destruct Hc as [Hc Ec].
    cbn [bookingEntry e_row e_values] in *.
    apply In_nth_error in Hc. destruct Hc as [m Hm].
    pose proof (parseRowsFrom_rowIndex _ _ _ _ Hm) as Rm.
    assert (m = n) by lia. subst m.
    assert (c = b) by congruence. subst c. now rewrite Ec.
  - destruct (isExpired LocalTZA DateParse now b) eqn:Eb; [|exact Hn].
    exfalso.
    assert (He : In (bookingEntry "end" b)
                   (rev (map (bookingEntry "end")
                           (filter (isExpired LocalTZA DateParse now)
                              (parseBookingData rows))))).
    { apply in_rev. rewrite rev_involutive. apply in_map.
      apply filter_In. split; [|exact Eb].
      eapply nth_error_In; eassumption. }
    apply (find_none _ _ F) in He. cbn [bookingEntry e_row] in He.
    unfold b in He. cbn [trimBooking b_rowIndex] in He.
    rewrite Z.eqb_refl in He. discriminate.
Qed.

End SweepFrame.

(** The expiry sweep of a booking load, when the sheet accepts it: a row
    whose booking has not expired is left as it is, cell for cell; a row
    whose booking has expired holds the trimmed cells of the booking and the
    remark 'end'; the sheet keeps its length; and a second load of the sheet
    at the same instant sweeps nothing. *)
Theorem sweep_only_expired_rows tz host now rows st st2 :
  let p := loadBookingData tz host now (Some rows) st in
  let sheet' := sheetAfter (requests (fun _ => Resolved) p) rows in
  (forall n r, nth_error rows n = Some r ->
     exists v,
       nth_error sheet' n = Some v
       /\ if isExpired tz host now (trimBooking r (Z.of_nat n + 2))
          then cellsOf v
               = [Js.trim (b_name r); Js.trim (b_id_no r);
                  Js.trim (b_phone r); Js.trim (b_account_name r);
                  Js.trim (b_account_type r); Js.trim (b_account_link r);
                  Js.trim (b_departure r); Js.trim (b_destination r);
                  Js.trim (b_departing_on r); Js.trim (pnr r); "end";
                  Js.trim (enddate r); Js.trim (endtime r)]
          else v = r)
  /\ List.length sheet' = List.length rows
  /\ requests (fun _ => Resolved)
       (loadBookingData tz host now (Some sheet') st2) = [].
Proof.
  intros p sheet'.
  set (data := map (bookingEntry "end")
                 (filter (isExpired tz host now) (parseBookingData rows))).
  assert (Hs : sheet' = applyBatch data rows).
  { unfold sheet', p, loadBookingData, handleExpiredBookings.
    cbn [allBookings setBookings]. fold data. now destruct data. }
  assert (Hrow : forall n r, nth_error rows n = Some r ->
            nth_error sheet' n
            = Some (if isExpired tz host now (trimBooking r (Z.of_nat n + 2))
                    then bookingValues (trimBooking r (Z.of_nat n + 2)) "end"
                    else r)).
  { intros n r Hn. rewrite Hs. now apply sweep_rows. }
  assert (Hlen : List.length sheet' = List.length rows)
    by (rewrite Hs; apply applyBatch_length).
  split; [|split; [exact Hlen|]].
  { intros n r Hn. eexists. split; [exact (Hrow n r Hn)|].
    now destruct (isExpired tz host now (trimBooking r (Z.of_nat n + 2))). }
  unfold loadBookingData, handleExpiredBookings.
  cbn [allBookings setBookings].
  rewrite (filter_none (isExpired tz host now) (parseBookingData sheet'));
    [reflexivity|].
  intros b Hb. apply In_nth_error in Hb. destruct Hb as [n Hb].
  unfold parseBookingData in Hb.
  destruct (parseRowsFrom_nth _ _ _ _ Hb) as (v & Hv & ->).
  assert (Hn : (n < List.length rows)%nat)
    by (rewrite <- Hlen; apply nth_error_Some; congruence).
  destruct (nth_error rows n) as [r|] eqn:Er;
    [|apply nth_error_None in Er; lia].
  rewrite (Hrow n r Er) in Hv. injection Hv as <-.
  replace (2 + Z.of_nat n)%Z with (Z.of_nat n + 2)%Z by lia.
  destruct (isExpired tz host now (trimBooking r (Z.of_nat n + 2))) eqn:E.
  - unfold isExpired, hasNoAction.
    cbn [trimBooking bookingValues remark].
    replace (Js.truthy (Js.trim "end")) with true by reflexivity.
    replace (Js.trim (Js.trim "end") =? "") with false by reflexivity.
    reflexivity.
  - exact E.
Qed.

(** ** api.js: the cache of [fetchFromSheet] *)

(** A response that [fetchFromSheet] has stored answers every call for the
    same key made less than five minutes after it arrived: such a call sends
    no request, returns the stored data and leaves the cache as it is.  A
    call made five minutes or more after the arrival, or after the entry was
    set to null, sends a request.  A call never changes the entry of another
    key, and a failed request changes no entry. *)
Theorem fetch_cache_window {D : Type} (key : string) (now : Z)
    (data : D) (arrival : Z) (cache : Cache D) (later : Z)
    (answer : Answer D) :
  let first := fetchFromSheet key now (Arrived data arrival) cache in
  requested first = true ->
  let second := fetchFromSheet key later answer (cacheAfter first) in
  (later - arrival < CACHE_DURATION ->
   requested second = false /\ fetched second = Some data
   /\ forall k, cacheAfter second k = cacheAfter first k)%Z
  /\ (CACHE_DURATION <= later - arrival -> requested second = true)%Z
  /\ requested
       (fetchFromSheet key later answer (setCache key None (cacheAfter first)))
     = true
  /\ (forall k, k <> key ->
        cacheAfter second k = cache k)
  /\ (forall k, cacheAfter (fetchFromSheet key later Failed (cacheAfter first)) k
                = cacheAfter first k).
Proof.
  intros first Hreq second.
  assert (F : cacheAfter first
              = setCache key (Some (mkCacheEntry data arrival)) cache).
  { unfold first, fetchFromSheet in *.
    destruct (cache key) as [e|]; [|reflexivity].
    destruct (now - c_timestamp e <? CACHE_DURATION)%Z;
      [discriminate Hreq | reflexivity]. }
  assert (K : cacheAfter first key = Some (mkCacheEntry data arrival)).
  { rewrite F. unfold setCache. now rewrite String.eqb_refl. }
  split; [|split; [|split; [|split]]].
  - intros Hl. unfold second, fetchFromSheet. rewrite K.
    cbn [c_timestamp c_data].
    apply Z.ltb_lt in Hl. rewrite Hl. now repeat split.
  - intros Hl. unfold second, fetchFromSheet. rewrite K.
    cbn [c_timestamp]. apply Z.ltb_ge in Hl. rewrite Hl.
    now destruct answer.
  - unfold fetchFromSheet, setCache at 1 2. rewrite String.eqb_refl.
    now destruct answer.
  - intros k Hk. unfold second, fetchFromSheet. rewrite K.
    cbn [c_timestamp c_data].
    assert (N : (k =? key)%string = false) by now apply String.eqb_neq.
    destruct (later - arrival <? CACHE_DURATION)%Z; cbn [cacheAfter].
    + rewrite F. unfold setCache. now rewrite N.
    + destruct answer; cbn [cacheAfter]; rewrite ?F; unfold setCache;
        now rewrite ?N.
  - intros k. unfold fetchFromSheet. rewrite K.
    now destruct (_ <? _)%Z.
Qed.

Lemma fetch_cache_window_witness :
  requested
    (fetchFromSheet "bookingData" 1000 (Arrived 7%Z 1200) (fun _ => None))
  = true
  /\ fetched
       (fetchFromSheet "bookingData" 301199 Failed
          (cacheAfter
             (fetchFromSheet "bookingData" 1000 (Arrived 7%Z 1200)
                (fun _ => None))))
     = Some 7%Z.
Proof.
  assert (R : requested
                (fetchFromSheet "bookingData" 1000 (Arrived 7%Z 1200)
                   (fun _ : string => @None (CacheEntry Z))) = true)
    by reflexivity.
  split; [exact R|].
  refine (proj1 (proj2 (proj1 (fetch_cache_window "bookingData" 1000 7%Z
                                 1200 (fun _ => None) 301199 Failed R) _))).
  reflexivity.
Defined.

(** ** ui.js: the flights of the next two days *)

Lemma keys_addToGroups t k gs :
  map u_pnr (addToGroups t k gs)
  = if existsb (fun g => (u_pnr g =? k)%string) gs
    then map u_pnr gs else (map u_pnr gs ++ [k])%list.
Proof.
  induction gs as [|g gs IH]; [reflexivity|].
  cbn [addToGroups existsb].
  destruct (u_pnr g =? k)%string; cbn [orb map].
  - reflexivity.
  - rewrite IH. now destruct (existsb _ gs).
Qed.

Lemma in_addToGroups t k gs g' :
  NoDup (map u_pnr gs) ->
  In g' (addToGroups t k gs) ->
  (In g' gs /\ u_pnr g' <> k)
  \/ (exists g, In g gs /\ u_pnr g = k /\ g' = addUpcoming t g)
  \/ (g' = addUpcoming t (mkUpcoming k [] "")
      /\ forall g, In g gs -> u_pnr g <> k).
Proof.
  induction gs as [|g gs IH]; cbn [addToGroups]; intros N.
  - intros [<-|[]]. right. right. split; [reflexivity|]. intros g [].
  - cbn [map] in N. inversion N as [|x xs Hk N']. subst.
    destruct (String.eqb_spec (u_pnr g) k) as [E|E].
    + intros [<-|H].
      * right. left. exists g. split; [now left|]. now split.
      * left. split; [now right|]. intros E'. apply Hk.
        rewrite E, <- E'. now apply in_map.
    + intros [<-|H].
      * left. split; [now left | assumption].
      * destruct (IH N' H) as [[H1 H2]|[(g0 & H1 & H2 & H3)|[H1 H2]]].
        -- left. split; [now right | assumption].
        -- right. left. exists g0. split; [now right|]. now split.
        -- right. right. split; [assumption|].
           intros g0 [<-|H0]; [assumption | now apply H2].
Qed.

Lemma namesFor_snoc sel k ts t :
  namesFor sel k (ts ++ [t])
  = (namesFor sel k ts
     ++ (if sel t && (groupKey t =? k)%string && negb (isFeeEntryRow t)
            && Js.truthy (name t)
         then [normalizePassengerName (name t)] else []))%list.
Proof.
  unfold namesFor. rewrite filter_app, map_app. cbn [filter].
  now destruct (sel t && (groupKey t =? k)%string && negb (isFeeEntryRow t)
                && Js.truthy (name t)).
Qed.

(** The groups of a selection: distinct keys, the keys of the selected
    tickets, and for each key the names of its selected tickets that are no
    fee entries, in their order and with repetitions. *)
Lemma groupsFor_from sel ts2 : forall ts1 gs,
  NoDup (map u_pnr gs) ->
  (forall g, In g gs -> u_passengers g = namesFor sel (u_pnr g) ts1) ->
  (forall k, In k (map u_pnr gs)
             <-> exists t, In t ts1 /\ sel t = true /\ groupKey t = k) ->
  let gs' := fold_left
               (fun groups t =>
                  if sel t then addToGroups t (groupKey t) groups
                  else groups) ts2 gs in
  NoDup (map u_pnr gs')
  /\ (forall g, In g gs' ->
        u_passengers g = namesFor sel (u_pnr g) (ts1 ++ ts2)%list)
  /\ (forall k, In k (map u_pnr gs')
                <-> exists t, In t (ts1 ++ ts2)%list /\ sel t = true
                              /\ groupKey t = k).
Proof.
  induction ts2 as [|t ts2 IH]; intros ts1 gs N P K; cbn [fold_left].
  - rewrite app_nil_r. split; [assumption | split; assumption].
  - replace (ts1 ++ t :: ts2)%list with ((ts1 ++ [t]) ++ ts2)%list
      by (now rewrite <- app_assoc).
    apply IH.
    + destruct (sel t); [|assumption]. rewrite keys_addToGroups.
      destruct (existsb _ gs) eqn:E; [assumption|].
      apply NoDup_snoc; [assumption|].
      intros Hin. apply in_map_iff in Hin. destruct Hin as (g & Eg & Hg).
      assert (X : existsb (fun g => (u_pnr g =? groupKey t)%string) gs
                  = true).
      { apply existsb_exists. exists g. split; [assumption|].
        now apply String.eqb_eq. }
      congruence.
    + intros g' Hg'. rewrite namesFor_snoc.
      destruct (sel t) eqn:S; cbn [andb].
      * destruct (in_addToGroups t (groupKey t) gs g' N Hg')
          as [[H1 H2]|[(g & H1 & H2 & ->)|[-> H2]]].
        -- rewrite (P g' H1).
           replace (groupKey t =? u_pnr g')%string with false
             by (symmetry; apply String.eqb_neq; congruence).
           cbn [andb]. now rewrite app_nil_r.
        -- cbn [addUpcoming u_pnr u_passengers]. rewrite (P g H1), H2.
           rewrite String.eqb_refl. cbn [andb].
           destruct (negb (isFeeEntryRow t) && Js.truthy (name t));
             [reflexivity | now rewrite app_nil_r].
        -- cbn [addUpcoming u_pnr u_passengers].
           rewrite String.eqb_refl. cbn [andb].
           assert (Z0 : namesFor sel (groupKey t) ts1 = []).
           { unfold namesFor. rewrite filter_none; [reflexivity|].
             intros x Hx.
             destruct (sel x) eqn:Sx; [|reflexivity].
             destruct (String.eqb_spec (groupKey x) (groupKey t)) as [E|E];
               [|reflexivity].
             exfalso.
             assert (Hk : In (groupKey t) (map u_pnr gs)).
             { apply K. exists x. now repeat split. }
             apply in_map_iff in Hk. destruct Hk as (g & Eg & Hg).
             now apply (H2 g Hg). }
           rewrite Z0.
           now destruct (negb (isFeeEntryRow t) && Js.truthy (name t)).
      * rewrite app_nil_r. now apply P.
    + intros k. split.
      * intros Hk.
        assert (C : In k (map u_pnr gs)
                    \/ (sel t = true /\ k = groupKey t)).
        { destruct (sel t); [|now left]. rewrite keys_addToGroups in Hk.
          destruct (existsb _ gs); [now left|].
          apply in_app_or in Hk. destruct Hk as [Hk|[<-|[]]];
            [now left | now right]. }
        destruct C as [C|[S ->]].
        -- apply K in C. destruct C as (x & Hx & Sx & Ex). exists x.
           split; [apply in_or_app; now left | now split].
        -- exists t. split; [apply in_or_app; right; now left | now split].
      * intros (x & Hx & Sx & Ex). apply in_app_or in Hx.
        destruct Hx as [Hx|[<-|[]]].
        -- assert (C : In k (map u_pnr gs))
             by (apply K; exists x; now repeat split).
           destruct (sel t); [|assumption]. rewrite keys_addToGroups.
           destruct (existsb _ gs); [assumption|].
           apply in_or_app. now left.
        -- rewrite Sx, keys_addToGroups.
           destruct (existsb _ gs) eqn:E.
           ++ apply existsb_exists in E. destruct E as (g & Hg & E).
              apply String.eqb_eq in E. rewrite <- Ex, <- E.
              now apply in_map.
           ++ apply in_or_app. right. left. exact Ex.
Qed.

Lemma groupsFor_spec sel ts :
  NoDup (map u_pnr (groupsFor sel ts))
  /\ (forall g, In g (groupsFor sel ts) ->
        u_passengers g = namesFor sel (u_pnr g) ts)
  /\ (forall k, In k (map u_pnr (groupsFor sel ts))
                <-> exists t, In t ts /\ sel t = true /\ groupKey t = k).
Proof.
  apply (groupsFor_from sel ts [] []).
  - constructor.
  - intros g [].
  - intros k. split; [intros [] | intros (t & [] & _)].
Qed.

Section UpcomingDays.

Variable LocalTZA : Z.
Variable DateParse : string -> option Z.
Hypothesis tza_small : (Z.abs LocalTZA <= JsDate.msPerDay)%Z.

Lemma midnight_clip n :
  (-25202 <= n < 2932897)%Z ->
  JsDate.TimeClip (n * JsDate.msPerDay + 0 * JsDate.msPerHour
                   + 0 * JsDate.msPerMinute + 0 * 1000 + 0 - LocalTZA)%Z
  = Some (n * JsDate.msPerDay - LocalTZA)%Z.
Proof.
  intros Hn. unfold JsDate.TimeClip.
  replace (n * JsDate.msPerDay + 0 * JsDate.msPerHour
           + 0 * JsDate.msPerMinute + 0 * 1000 + 0 - LocalTZA)%Z
    with (n * JsDate.msPerDay - LocalTZA)%Z by lia.
  destruct (Z.leb_spec (Z.abs (n * JsDate.msPerDay - LocalTZA))
              8640000000000000); [reflexivity|].
  unfold JsDate.msPerDay in *. lia.
Qed.

Lemma dayAhead_spec today k :
  (-25202 <= JsDate.LocalDay LocalTZA today < 2932890)%Z ->
  (0 <= k <= 2)%Z ->
  dayAhead LocalTZA today k
  = Some ((JsDate.LocalDay LocalTZA today + k) * JsDate.msPerDay
          - LocalTZA)%Z.
Proof.
  intros HL Hk. unfold dayAhead, setDate.
  set (L := JsDate.LocalDay LocalTZA today) in *.
  assert (M : JsDate.MakeDay (JsDate.getFullYear LocalTZA today)
                (JsDate.getMonth LocalTZA today)
                (JsDate.getDate LocalTZA today + k) = (L + k)%Z).
  { destruct (civil_of_day L) as (_ & _ & E).
    unfold JsDate.getFullYear, JsDate.getMonth, JsDate.getDate. fold L.
    unfold JsDate.MakeDay in *. lia. }
  rewrite M.
  pose proof (Z.mod_pos_bound (today + LocalTZA) JsDate.msPerDay
                ltac:(reflexivity)) as R.
  set (r := ((today + LocalTZA) mod JsDate.msPerDay)%Z) in *.
  assert (C : JsDate.TimeClip ((L + k) * JsDate.msPerDay + r - LocalTZA)
              = Some ((L + k) * JsDate.msPerDay + r - LocalTZA)%Z).
  { unfold JsDate.TimeClip.
    destruct (Z.leb_spec
                (Z.abs ((L + k) * JsDate.msPerDay + r - LocalTZA))
                8640000000000000); [reflexivity|].
    unfold JsDate.msPerDay in *. lia. }
  rewrite C. cbn [bindT]. unfold JsDate.setHours.
  assert (D : JsDate.LocalDay LocalTZA
                ((L + k) * JsDate.msPerDay + r - LocalTZA) = (L + k)%Z).
  { unfold JsDate.LocalDay.
    replace ((L + k) * JsDate.msPerDay + r - LocalTZA + LocalTZA)%Z
      with (r + (L + k) * JsDate.msPerDay)%Z by lia.
    rewrite Z.div_add by discriminate.
    rewrite Z.div_small by assumption. lia. }
  rewrite D. apply midnight_clip. lia.
Qed.

(** The section of a ticket, by local days. *)
Lemma upcomingSlot_spec today t :
  (-25202 <= JsDate.LocalDay LocalTZA today < 2932890)%Z ->
  let travel :=
    JsDate.LocalDay LocalTZA
      (parseSheetDate LocalTZA DateParse (departing_on t)) in
  upcomingSlot LocalTZA DateParse today t
  = if isCancelledOrRefunded t then None
    else if (travel =? JsDate.LocalDay LocalTZA today + 1)%Z then Some 1%Z
    else if (travel =? JsDate.LocalDay LocalTZA today + 2)%Z then Some 2%Z
    else None.
Proof.
  intros HL travel. unfold upcomingSlot.
  destruct (isCancelledOrRefunded t); [reflexivity|].
  rewrite !dayAhead_spec by (assumption || lia).
  unfold JsDate.setHours. fold travel.
  set (L := JsDate.LocalDay LocalTZA today) in *.
  assert (E : forall k, (0 <= k <= 2)%Z ->
            eqT (JsDate.TimeClip
                   (travel * JsDate.msPerDay + 0 * JsDate.msPerHour
                    + 0 * JsDate.msPerMinute + 0 * 1000 + 0 - LocalTZA)%Z)
                (Some ((L + k) * JsDate.msPerDay - LocalTZA)%Z)
            = (travel =? L + k)%Z).
  { intros k Hk. destruct (Z.eqb_spec travel (L + k)) as [->|N].
    - rewrite midnight_clip by lia. cbn [eqT]. apply Z.eqb_refl.
    - unfold JsDate.TimeClip. destruct (_ <=? _)%Z; [|reflexivity].
      cbn [eqT]. apply Z.eqb_neq. unfold JsDate.msPerDay. lia. }
  rewrite !E by lia. reflexivity.
Qed.

End UpcomingDays.

Lemma groupsFor_ext sel sel' ts :
  (forall t, sel t = sel' t) -> groupsFor sel ts = groupsFor sel' ts.
Proof.
  intros H. unfold groupsFor. generalize (@nil UpcomingGroup).
  induction ts as [|t ts IH]; intros gs; [reflexivity|].
  cbn [fold_left]. rewrite H. apply IH.
Qed.

Lemma namesFor_ext sel sel' k ts :
  (forall t, sel t = sel' t) -> namesFor sel k ts = namesFor sel' k ts.
Proof.
  intros H. unfold namesFor. f_equal. apply filter_ext.
  intros t. now rewrite H.
Qed.

Lemma updateUpcomingPnrs_split tz host today ts :
  updateUpcomingPnrs tz host today ts
  = (groupsFor (fun t => match upcomingSlot tz host today t with
                         | Some 1%Z => true | _ => false end) ts,
     groupsFor (fun t => match upcomingSlot tz host today t with
                         | Some 1%Z => false | Some _ => true
                         | None => false end) ts).
Proof.
  unfold updateUpcomingPnrs, groupsFor.
  generalize (@nil UpcomingGroup) at 1 3.
  generalize (@nil UpcomingGroup).
  induction ts as [|t ts IH]; intros g2 g1; [reflexivity|].
  cbn [fold_left].
  destruct (upcomingSlot tz host today t) as [z|]; [|apply IH].
  destruct z as [|[p|p|]|p]; apply IH.
Qed.

(** The dashboard lists, for tomorrow and for the day after, the PNRs of
    the tickets that are not cancelled or refunded and whose travel date
    falls on the local day one, respectively two, days after today, month
    and year ends included.  Each PNR is listed once per day, with the names
    of those of its tickets that are no fee entries. *)
Theorem upcoming_is_next_local_day tz host today tickets :
  (Z.abs tz <= JsDate.msPerDay)%Z ->
  (-25202 <= JsDate.LocalDay tz today < 2932890)%Z ->
  let travels (k : Z) (t : Ticket) :=
    negb (isCancelledOrRefunded t)
    && (JsDate.LocalDay tz (parseSheetDate tz host (departing_on t))
        =? JsDate.LocalDay tz today + k)%Z in
  let section (k : Z) :=
    if (k =? 1)%Z then fst (updateUpcomingPnrs tz host today tickets)
    else snd (updateUpcomingPnrs tz host today tickets) in
  forall k, k = 1%Z \/ k = 2%Z ->
    NoDup (map u_pnr (section k))
    /\ (forall key, In key (map u_pnr (section k))
                    <-> exists t, In t tickets /\ travels k t = true
                                  /\ groupKey t = key)
    /\ (forall g, In g (section k) ->
          u_passengers g = namesFor (travels k) (u_pnr g) tickets).
Proof.
  intros Htz HL travels section k Hk.
  assert (S1 : forall t,
            match upcomingSlot tz host today t with
            | Some 1%Z => true | _ => false end = travels 1%Z t).
  { intros t. rewrite (upcomingSlot_spec tz host Htz today t HL).
    unfold travels. destruct (isCancelledOrRefunded t); [reflexivity|].
    cbn [negb andb].
    destruct (_ =? JsDate.LocalDay tz today + 1)%Z; [reflexivity|].
    now destruct (_ =? _)%Z. }
  assert (S2 : forall t,
            match upcomingSlot tz host today t with
            | Some 1%Z => false | Some _ => true | None => false end
            = travels 2%Z t).
  { intros t. rewrite (upcomingSlot_spec tz host Htz today t HL).
    unfold travels. destruct (isCancelledOrRefunded t); [reflexivity|].
    cbn [negb andb].
    destruct (Z.eqb_spec
                (JsDate.LocalDay tz (parseSheetDate tz host (departing_on t)))
                (JsDate.LocalDay tz today + 1)) as [E|E].
    - symmetry. apply Z.eqb_neq. lia.
    - now destruct (_ =? _)%Z. }
  unfold section. rewrite updateUpcomingPnrs_split. cbn [fst snd].
  destruct Hk as [->| ->]; cbn [Z.eqb Pos.eqb].
  - rewrite (groupsFor_ext _ (travels 1%Z) tickets S1).
    destruct (groupsFor_spec (travels 1%Z) tickets) as (A & B & C).
    split; [exact A | split; [exact C | exact B]].
  - rewrite (groupsFor_ext _ (travels 2%Z) tickets S2).
    destruct (groupsFor_spec (travels 2%Z) tickets) as (A & B & C).
    split; [exact A | split; [exact C | exact B]].
Qed.

Lemma upcoming_is_next_local_day_witness :
  ((Z.abs yangonTZA <= JsDate.msPerDay)%Z
   /\ (-25202 <= JsDate.LocalDay yangonTZA 1763530200000 < 2932890)%Z)
  /\ map u_pnr (fst (updateUpcomingPnrs yangonTZA strictDateParse
                       1763530200000 pnrSheet)) = ["AB1"]
  /\ NoDup (map u_pnr (fst (updateUpcomingPnrs yangonTZA strictDateParse
                              1763530200000 pnrSheet))).
Proof.
  assert (T : (Z.abs yangonTZA <= JsDate.msPerDay)%Z)
    by (vm_compute; discriminate).
  assert (L : (-25202 <= JsDate.LocalDay yangonTZA 1763530200000
               < 2932890)%Z)
    by (split; vm_compute; [discriminate | reflexivity]).
  split; [now split|]. split; [vm_compute; reflexivity|].
  exact (proj1 (upcoming_is_next_local_day yangonTZA strictDateParse
                  1763530200000 pnrSheet T L 1%Z (or_introl eq_refl))).
Defined.

(** ** main.js: the cards and the chart of the dashboard *)

Lemma startsWith_app_includes a : forall s b,
  Js.startsWith s (a ++ b) = true -> Js.includes s b = true.
Proof.
  induction a as [|c a IH]; intros s b H.
  - now apply startsWith_includes.
  - destruct s as [|c' s]; [discriminate H|].
    cbn [append Js.startsWith] in H. apply Bool.andb_true_iff in H.
    destruct H as [_ H]. cbn [Js.includes].
    rewrite (IH _ _ H). apply Bool.orb_true_r.
Qed.

Lemma includes_suffix s a b :
  Js.includes s (a ++ b) = true -> Js.includes s b = true.
Proof.
  induction s as [|c s IH]; intros H; cbn [Js.includes] in H.
  - rewrite Bool.orb_false_r in H.
    apply (startsWith_app_includes a "" b H).
  - apply Bool.orb_true_iff in H. destruct H as [H|H].
    + apply (startsWith_app_includes a (String c s) b H).
    + cbn [Js.includes]. rewrite (IH H). apply Bool.orb_true_r.
Qed.

Lemma fullRefund_is_refund t :
  hasFullRefund t = true -> isCancelledOrRefunded t = true.
Proof.
  unfold hasFullRefund, isCancelledOrRefunded. intros H.
  change "full refund" with ("full " ++ "refund") in H.
  rewrite (includes_suffix _ _ _ H). apply Bool.orb_true_r.
Qed.

(** The monthly cards of the main dashboard leave out every ticket whose
    remarks name a cancellation or a refund, the settlement dashboard only
    those with a full refund.  So the tickets behind the cards of the main
    dashboard are the tickets of the month on the settlement dashboard that
    are not cancelled or refunded, in the same order: each of its revenue,
    commission and extra fare sums those, the figures of the settlement
    dashboard sum all tickets of the month without a full refund, and the
    ticket count of the main dashboard counts no fee entry. *)
Theorem main_and_settlement_dashboards tz host now ts ss :
  let main := updateDashboardData tz host now ts in
  let settle := updateSettlementDashboard tz host now ts ss in
  let ofMonth := ticketsThisMonth tz host now ts in
  let active := filter (fun t => negb (isCancelledOrRefunded t)) ofMonth in
  revenueThisMonth settle
  = sumZ (fun t => net_amount t + date_change t)%Z ofMonth
  /\ commissionThisMonth settle = sumZ commission ofMonth
  /\ extraFareThisMonth settle = sumZ extra_fare ofMonth
  /\ totalRevenue main = sumZ (fun t => net_amount t + date_change t)%Z active
  /\ mainCommission main = sumZ commission active
  /\ mainExtraFare main = sumZ extra_fare active
  /\ totalTickets main
     = Z.of_nat
         (List.length (filter (fun t => negb (isFeeEntryRow t)) active))
  /\ (forall t, In t ofMonth ->
        In t active \/ (isCancelledOrRefunded t = true
                        /\ hasFullRefund t = false))
  /\ active
     = filter (fun t =>
                 inMonth tz host (Some (JsDate.getMonth tz now))
                   (Some (JsDate.getFullYear tz now)) (issued_date t)
                 && negb (isCancelledOrRefunded t)) ts.
Proof.
  intros main settle ofMonth active.
  assert (A : active
              = filter (fun t =>
                          inMonth tz host (Some (JsDate.getMonth tz now))
                            (Some (JsDate.getFullYear tz now)) (issued_date t)
                          && negb (isCancelledOrRefunded t)) ts).
  { unfold active, ofMonth, ticketsThisMonth. rewrite <- filter_filter.
    apply filter_same. intros t. pose proof (fullRefund_is_refund t) as H.
    destruct (inMonth _ _ _ _ _), (hasFullRefund t),
      (isCancelledOrRefunded t); cbn in *; try reflexivity.
    specialize (H eq_refl). discriminate H. }
  assert (M : filter (fun t =>
                        inMonth tz host (Some (JsDate.getMonth tz now))
                          (Some (JsDate.getFullYear tz now)) (issued_date t)
                        && negb (Js.includes (Js.toLowerCase (remarks t))
                                   "cancel")
                        && negb (Js.includes (Js.toLowerCase (remarks t))
                                   "refund")) ts
              = active).
  { rewrite A. apply filter_same. intros t. unfold isCancelledOrRefunded.
    destruct (inMonth _ _ _ _ _), (Js.includes _ "cancel"),
      (Js.includes _ "refund"); reflexivity. }
  split; [reflexivity|]. split; [reflexivity|]. split; [reflexivity|].
  unfold main, updateDashboardData.
  cbn [totalRevenue mainCommission mainExtraFare totalTickets]. rewrite M.
  split; [reflexivity|]. split; [reflexivity|]. split; [reflexivity|].
  split; [reflexivity|]. split; [|exact A].
  intros t Ht. unfold active. rewrite filter_In.
  unfold ofMonth, ticketsThisMonth in Ht. apply filter_In in Ht as Ht'.
  destruct Ht' as [_ Hc]. apply Bool.andb_true_iff in Hc.
  destruct Hc as [_ Hf]. apply Bool.negb_true_iff in Hf.
  destruct (isCancelledOrRefunded t); [right; now split | left; now split].
Qed.

Lemma chart_fold (mon : Ticket -> Z) (ts : list Ticket) :
  (forall t, (0 <= mon t < 12)%Z) ->
  forall (data : list MonthData) (m : nat) (d0 : MonthData),
  nth_error data m = Some d0 ->
  nth_error
    (fold_left
       (fun monthlyData t =>
          match nth_error monthlyData (Z.to_nat (mon t)) with
          | Some d => setNth (Z.to_nat (mon t)) (addToMonth t d) monthlyData
          | None => monthlyData
          end) ts data) m
  = Some (mkMonth
            (md_revenue d0
             + sumZ (fun t => if (mon t =? Z.of_nat m)%Z
                              then net_amount t + date_change t else 0) ts)
            (md_profit d0
             + sumZ (fun t => if (mon t =? Z.of_nat m)%Z
                              then commission t + extra_fare t else 0) ts)
            (md_tickets d0
             + sumZ (fun t => if (mon t =? Z.of_nat m)%Z
                                 && negb (isFeeEntryRow t)
                              then 1 else 0) ts))%Z.
Proof.
  intros Hm. induction ts as [|t ts IH]; intros data m d0 H.
  - cbn [fold_left]. rewrite !sumZ_nil, !Z.add_0_r, H. now destruct d0.
  - cbn [fold_left]. rewrite !sumZ_cons.
    destruct (Z.eqb_spec (mon t) (Z.of_nat m)) as [E|E].
    + replace (Z.to_nat (mon t)) with m by lia. rewrite H.
      rewrite (IH _ m (addToMonth t d0)).
      * cbn [addToMonth md_revenue md_profit md_tickets andb].
        f_equal. f_equal; try lia.
        destruct (negb (isFeeEntryRow t)); lia.
      * apply setNth_same. apply nth_error_Some. congruence.
    + cbn [andb].
      rewrite (IH _ m d0); [f_equal; f_equal; lia|].
      destruct (nth_error data (Z.to_nat (mon t))) as [d|]; [|exact H].
      rewrite setNth_other; [exact H|]. specialize (Hm t). lia.
Qed.

(** Every month of the comparison chart holds the tickets issued in that
    month of the current year that have no full refund: their net amounts
    and date-change fees as revenue, their commissions and extra fares as
    profit, and the number of them that are no fee entries.  The tickets
    behind the bar group of the current month are the tickets of the month
    on the settlement dashboard, in the same order. *)
Theorem chart_matches_settlement tz host now ts :
  let chart := updateComparisonChart tz host now ts in
  let issued t := parseSheetDate tz host (issued_date t) in
  let inMonthOf (m : nat) t :=
    (JsDate.getFullYear tz (issued t) =? JsDate.getFullYear tz now)%Z
    && negb (hasFullRefund t)
    && (JsDate.getMonth tz (issued t) =? Z.of_nat m)%Z in
  (forall m, (m < 12)%nat ->
     nth_error chart m
     = Some (mkMonth
               (sumZ (fun t => net_amount t + date_change t)%Z
                  (filter (inMonthOf m) ts))
               (sumZ (fun t => commission t + extra_fare t)%Z
                  (filter (inMonthOf m) ts))
               (Z.of_nat
                  (List.length
                     (filter (fun t => inMonthOf m t
                                       && negb (isFeeEntryRow t)) ts)))))
  /\ (Z.to_nat (JsDate.getMonth tz now) < 12)%nat
  /\ filter (inMonthOf (Z.to_nat (JsDate.getMonth tz now))) ts
     = ticketsThisMonth tz host now ts.
Proof.
  intros chart issued inMonthOf.
  assert (Hmon : forall t, (0 <= JsDate.getMonth tz (issued t) < 12)%Z).
  { intros t. unfold JsDate.getMonth. apply civil_of_day. }
  assert (Hcount : forall (p : Ticket -> bool) (l : list Ticket),
            sumZ (fun t => if p t then 1 else 0)%Z l
            = Z.of_nat (List.length (filter p l))).
  { intros p l. induction l as [|t l IH]; [reflexivity|].
    rewrite sumZ_cons, IH. cbn [filter].
    destruct (p t); cbn [List.length]; lia. }
  assert (Hall : forall m, (m < 12)%nat ->
     nth_error chart m
     = Some (mkMonth
               (sumZ (fun t => net_amount t + date_change t)%Z
                  (filter (inMonthOf m) ts))
               (sumZ (fun t => commission t + extra_fare t)%Z
                  (filter (inMonthOf m) ts))
               (Z.of_nat
                  (List.length
                     (filter (fun t => inMonthOf m t
                                       && negb (isFeeEntryRow t)) ts))))).
  { intros m Hm. unfold chart, updateComparisonChart.
    rewrite (chart_fold (fun t => JsDate.getMonth tz (issued t)) _ Hmon
               _ m (mkMonth 0 0 0)).
    - cbn [md_revenue md_profit md_tickets]. rewrite !Z.add_0_l.
      rewrite <- Hcount, !sumZ_filter.
      f_equal. f_equal; apply sumZ_ext; intros t; unfold inMonthOf;
        fold (issued t);
        destruct (_ =? JsDate.getFullYear tz now)%Z,
          (negb (hasFullRefund t)), (_ =? Z.of_nat m)%Z,
          (negb (isFeeEntryRow t)); reflexivity.
    - do 12 (destruct m as [|m]; [reflexivity|]). lia. }
  split; [exact Hall|].
  pose proof (proj1 (civil_of_day (JsDate.LocalDay tz now))) as Hnow.
  fold (JsDate.getMonth tz now) in Hnow.
  split; [lia|].
  unfold ticketsThisMonth. apply filter_same. intros t.
  unfold inMonthOf, inMonth. fold (issued t). cbn [eqT].
  rewrite Z2Nat.id by lia.
  destruct (_ =? JsDate.getFullYear tz now)%Z,
    (negb (hasFullRefund t)), (_ =? JsDate.getMonth tz now)%Z;
    reflexivity.
Qed.

(** ** ui.js: the unpaid tickets of the notification centre *)

Section ModalTotals.

Variable LocalTZA : Z.
Variable DateParse : string -> option Z.

(** The amount due of a PNR among the groups. *)
Let modalDue (k : string) (gs : list ModalGroup) : Z :=
  sumZ total_due (filter (fun g => (mg_pnr g =? k)%string) gs).

Let modalStep (acc : list ModalGroup) (t : Ticket) : list ModalGroup :=
  let pnr := Js.toUpperCase (booking_reference t) in
  if negb (Js.truthy pnr) then acc
  else upsertModal LocalTZA DateParse t pnr acc.

Lemma keys_upsertModal t k gs :
  map mg_pnr (upsertModal LocalTZA DateParse t k gs)
  = if existsb (fun x => (x =? k)%string) (map mg_pnr gs)
    then map mg_pnr gs else (map mg_pnr gs ++ [k])%list.
Proof.
  induction gs as [|g gs IH]; cbn [upsertModal map existsb].
  - reflexivity.
  - destruct (mg_pnr g =? k)%string; cbn [orb map]; [reflexivity|].
    rewrite IH. now destruct (existsb _ (map mg_pnr gs)).
Qed.

Lemma truthy_toUpperCase s : Js.truthy (Js.toUpperCase s) = Js.truthy s.
Proof. now destruct s. Qed.

Lemma keys_modal_from ts : forall gs,
  NoDup (map mg_pnr gs) ->
  let gs' := fold_left modalStep ts gs in
  NoDup (map mg_pnr gs')
  /\ forall k, In k (map mg_pnr gs')
               <-> In k (map mg_pnr gs)
                   \/ exists t, In t ts
                                /\ Js.truthy (booking_reference t) = true
                                /\ k = Js.toUpperCase (booking_reference t).
Proof.
  induction ts as [|t ts IH]; intros gs H; cbn [fold_left].
  - split; [exact H|]. intros k. split; [now left|].
    intros [X|(t & [] & _)]. exact X.
  - assert (H' : NoDup (map mg_pnr (modalStep gs t))).
    { unfold modalStep. cbv zeta. destruct (negb _); [exact H|].
      rewrite keys_upsertModal.
      destruct (existsb _ (map mg_pnr gs)) eqn:E; [exact H|].
      apply NoDup_snoc; [exact H|]. intros Hin.
      apply existsb_eqb_In in Hin. congruence. }
    destruct (IH _ H') as [N K]. split; [exact N|]. intros k.
    cbv zeta in K. rewrite K. unfold modalStep. cbv zeta.
    rewrite truthy_toUpperCase.
    destruct (Js.truthy (booking_reference t)) eqn:T; cbn [negb].
    + rewrite keys_upsertModal.
      destruct (existsb _ (map mg_pnr gs)) eqn:E.
      * apply existsb_eqb_In in E. split.
        -- intros [X|(x & Hx & Tx & Ex)]; [now left|].
           right. exists x. split; [now right | now split].
        -- intros [X|(x & [->|Hx] & Tx & Ex)]; [now left| |].
           ++ left. now subst k.
           ++ right. exists x. now split.
      * rewrite in_app_iff. cbn [In]. split.
        -- intros [[X|[X|[]]]|(x & Hx & Tx & Ex)].
           ++ now left.
           ++ right. exists t. split; [now left | now split].
           ++ right. exists x. split; [now right | now split].
        -- intros [X|(x & [->|Hx] & Tx & Ex)].
           ++ left. now left.
           ++ left. right. left. now subst k.
           ++ right. exists x. now split.
    + split.
      * intros [X|(x & Hx & Tx & Ex)]; [now left|].
        right. exists x. split; [now right | now split].
      * intros [X|(x & [->|Hx] & Tx & Ex)]; [now left|congruence|].
        right. exists x. now split.
Qed.

Lemma modalDue_cons k g gs :
  modalDue k (g :: gs)
  = ((if (mg_pnr g =? k)%string then total_due g else 0) + modalDue k gs)%Z.
Proof.
  unfold modalDue. cbn [filter].
  destruct (mg_pnr g =? k)%string; [rewrite sumZ_cons|]; lia.
Qed.

Lemma modalDue_upsert t k gs k' :
  modalDue k' (upsertModal LocalTZA DateParse t k gs)
  = (modalDue k' gs + (if (k =? k')%string then amountOf t else 0))%Z.
Proof.
  induction gs as [|g gs IH]; cbn [upsertModal].
  - rewrite modalDue_cons. cbn [mg_pnr addModal total_due].
    unfold modalDue. cbn [filter]. rewrite sumZ_nil.
    unfold amountOf. destruct (k =? k')%string; lia.
  - destruct (mg_pnr g =? k)%string eqn:E; rewrite !modalDue_cons.
    + apply String.eqb_eq in E. cbn [addModal mg_pnr total_due].
      rewrite E. unfold amountOf. destruct (k =? k')%string; lia.
    + rewrite IH. lia.
Qed.

Lemma modalDue_from k ts : forall gs,
  modalDue k (fold_left modalStep ts gs)
  = (modalDue k gs
     + sumZ amountOf
         (filter (fun t => (Js.toUpperCase (booking_reference t) =? k)%string
                           && Js.truthy (booking_reference t)) ts))%Z.
Proof.
  induction ts as [|t ts IH]; intros gs; cbn [fold_left filter].
  - rewrite sumZ_nil. lia.
  - rewrite IH. unfold modalStep. cbv zeta.
    rewrite truthy_toUpperCase.
    destruct (Js.truthy (booking_reference t)); cbn [negb].
    + rewrite modalDue_upsert.
      destruct (_ =? k)%string; cbn [andb]; [rewrite sumZ_cons|]; lia.
    + rewrite Bool.andb_false_r. lia.
Qed.

Lemma modalDue_absent k gs :
  ~ In k (map mg_pnr gs) -> modalDue k gs = 0%Z.
Proof.
  induction gs as [|g gs IH]; intros H; [reflexivity|].
  rewrite modalDue_cons. cbn [map In] in H.
  destruct (mg_pnr g =? k)%string eqn:E.
  - apply String.eqb_eq in E. tauto.
  - rewrite IH; [lia | tauto].
Qed.

Lemma modalDue_member g gs :
  NoDup (map mg_pnr gs) -> In g gs -> modalDue (mg_pnr g) gs = total_due g.
Proof.
  induction gs as [|h gs IH]; intros Hnd Hin; [destruct Hin|].
  cbn [map] in Hnd. inversion Hnd as [|x l Hx Hl]; subst.
  rewrite modalDue_cons. destruct Hin as [->|Hin].
  - rewrite String.eqb_refl, modalDue_absent by assumption. lia.
  - destruct (mg_pnr h =? mg_pnr g)%string eqn:E.
    + apply String.eqb_eq in E. exfalso. apply Hx. rewrite E.
      now apply in_map.
    + rewrite IH by assumption. lia.
Qed.

(** The groups of the notification centre, by their tickets. *)
Lemma modal_groups ts :
  let modal := groupedUnpaidTickets LocalTZA DateParse ts in
  NoDup (map mg_pnr modal)
  /\ (forall k, In k (map mg_pnr modal)
                <-> exists t, In t ts /\ unpaidActive t = true
                              /\ Js.truthy (booking_reference t) = true
                              /\ k = Js.toUpperCase (booking_reference t))
  /\ forall g, In g modal ->
       total_due g
       = sumZ amountOf
           (filter (fun t => unpaidActive t
                             && (Js.toUpperCase (booking_reference t)
                                 =? mg_pnr g)%string) ts).
Proof.
  intros modal.
  assert (M : modal = fold_left modalStep (filter unpaidActive ts) [])
    by reflexivity.
  destruct (keys_modal_from (filter unpaidActive ts) [] (NoDup_nil _))
    as [N K].
  cbv zeta in N, K. rewrite <- M in N, K.
  split; [exact N|]. split.
  - intros k. rewrite K. cbn [map In]. split.
    + intros [[]|(t & Ht & T & E)]. apply filter_In in Ht.
      exists t. tauto.
    + intros (t & Ht & A & T & E). right. exists t.
      rewrite filter_In. tauto.
  - intros g Hg. rewrite <- (modalDue_member g modal N Hg).
    rewrite M, modalDue_from. unfold modalDue at 1. cbn [filter].
    rewrite sumZ_nil, Z.add_0_l, <- filter_filter.
    assert (Hk : Js.truthy (mg_pnr g) = true).
    { assert (I : In (mg_pnr g) (map mg_pnr modal)) by now apply in_map.
      apply K in I. destruct I as [[]|(t & _ & T & ->)].
      now rewrite truthy_toUpperCase. }
    f_equal. apply filter_same. intros t. f_equal.
    destruct (String.eqb_spec (Js.toUpperCase (booking_reference t))
                (mg_pnr g)) as [E|_]; [|reflexivity].
    cbn [andb]. now rewrite <- truthy_toUpperCase, E.
Qed.

End ModalTotals.

(** The notification centre groups the unpaid tickets as the dashboard
    panel does, except that it drops the tickets without a booking
    reference, which the panel lists under 'N/A'.  Its groups have distinct
    PNRs, which are the upper-cased booking references of the unpaid
    tickets that are not cancelled and have a reference, each of them a PNR
    of the panel; the amount due of a group sums net amount, extra fare and
    date-change fee of the unpaid, non-cancelled tickets of its PNR; and a
    ticket without booking reference is in no group of the centre while the
    panel has a group 'N/A' for it. *)
Theorem modal_unpaid_totals tz host ts :
  let modal := groupedUnpaidTickets tz host ts in
  let panel := unpaidGroups ts in
  NoDup (map mg_pnr modal)
  /\ (forall k, In k (map mg_pnr modal)
                <-> exists t, In t ts /\ unpaidActive t = true
                              /\ Js.truthy (booking_reference t) = true
                              /\ k = Js.toUpperCase (booking_reference t))
  /\ (forall k, In k (map mg_pnr modal) -> In k (map g_pnr panel))
  /\ (forall g, In g modal ->
        total_due g
        = sumZ (fun t => net_amount t + extra_fare t + date_change t)%Z
            (filter (fun t => unpaidActive t
                              && (Js.toUpperCase (booking_reference t)
                                  =? mg_pnr g)%string) ts))
  /\ (forall t, In t ts -> unpaidActive t = true ->
        booking_reference t = "" ->
        In "N/A" (map g_pnr panel) /\ ~ In "" (map mg_pnr modal)).
Proof.
  intros modal panel.
  destruct (modal_groups tz host ts) as (N & K & D). fold modal in N, K, D.
  split; [exact N|]. split; [exact K|]. split; [|split; [exact D|]].
  - intros k Hk. apply K in Hk. destruct Hk as (t & Ht & A & T & ->).
    replace (Js.toUpperCase (booking_reference t)) with (groupKey t)
      by (unfold groupKey, Js.orElse; now rewrite T).
    now apply unpaid_key_listed.
  - intros t Ht A E. split.
    + replace "N/A" with (groupKey t)
        by (unfold groupKey, Js.orElse; now rewrite E).
      now apply unpaid_key_listed.
    + intros I. apply K in I. destruct I as (u & _ & _ & T & Eu).
      destruct (booking_reference u); [discriminate T | discriminate Eu].
Qed.

Lemma filter_andb {A : Type} (p w : A -> bool) (l : list A) :
  filter (fun x => p x && w x) l = filter w (filter p l).
Proof.
  induction l as [|x l IH]; [reflexivity|]. cbn [filter].
  destruct (p x); cbn [andb filter]; [destruct (w x)|]; now rewrite IH.
Qed.

Lemma filter_ext_all {A : Type} (p q : A -> bool) (l : list A) :
  (forall x, p x = q x) -> filter p l = filter q l.
Proof.
  intros H. induction l as [|x l IH]; [reflexivity|].
  cbn [filter]. now rewrite H, IH.
Qed.

Section SearchWindow.

Variable LocalTZA : Z.
Variable DateParse : string -> option Z.
Hypothesis tza_small : (Z.abs LocalTZA <= JsDate.msPerDay)%Z.

(** The bounds that the search reads from a date written by
    [formatDateForSheet]: the first and the last millisecond of its local
    day. *)
Lemma searchBound_written s :
  (-25202 <= JsDate.LocalDay LocalTZA s < 2932897)%Z ->
  searchBound LocalTZA DateParse (formatTime LocalTZA s) 0 0 0 0
  = Some (Some (JsDate.LocalDay LocalTZA s * JsDate.msPerDay - LocalTZA)%Z)
  /\ searchBound LocalTZA DateParse (formatTime LocalTZA s) 23 59 59 999
     = Some (Some (JsDate.LocalDay LocalTZA s * JsDate.msPerDay
                   + 86399999 - LocalTZA)%Z).
Proof.
  intros HL. pose proof (year_bounds _ HL) as Hy.
  assert (Hy' : (1900 < JsDate.getFullYear LocalTZA s <= 9999)%Z)
    by (unfold JsDate.getFullYear; lia).
  destruct (written_reads_back LocalTZA DateParse tza_small s Hy') as [E _].
  pose proof (spells_nonempty _ _ _ _
                (or_introl (formatTime_spells LocalTZA s Hy')))
    as T.
  unfold searchBound. rewrite T, E. unfold JsDate.setHours.
  rewrite LocalDay_midnight.
  set (L := JsDate.LocalDay LocalTZA s) in *.
  split.
  - now rewrite midnight_clip.
  - unfold JsDate.TimeClip.
    destruct (Z.leb_spec
                (Z.abs (L * JsDate.msPerDay + 23 * JsDate.msPerHour
                        + 59 * JsDate.msPerMinute + 59 * 1000 + 999
                        - LocalTZA)) 8640000000000000) as [_|N].
    + do 2 f_equal. unfold JsDate.msPerHour, JsDate.msPerMinute. lia.
    + unfold JsDate.msPerDay, JsDate.msPerHour, JsDate.msPerMinute in *.
      lia.
Qed.

(** The two comparisons of the search, by local days. *)
Lemma notBefore_day n a :
  notBefore (Some (Some (n * JsDate.msPerDay - LocalTZA)%Z)) a
  = (n <=? JsDate.LocalDay LocalTZA a)%Z.
Proof.
  cbn [notBefore leT]. unfold JsDate.LocalDay, JsDate.msPerDay.
  destruct (Z.leb_spec (n * 86400000 - LocalTZA) a),
    (Z.leb_spec n ((a + LocalTZA) / 86400000));
    try reflexivity; exfalso; Z.div_mod_to_equations; lia.
Qed.

Lemma notAfter_day n a :
  notAfter (Some (Some (n * JsDate.msPerDay + 86399999 - LocalTZA)%Z)) a
  = (JsDate.LocalDay LocalTZA a <=? n)%Z.
Proof.
  cbn [notAfter leT]. unfold JsDate.LocalDay, JsDate.msPerDay.
  destruct (Z.leb_spec a (n * 86400000 + 86399999 - LocalTZA)),
    (Z.leb_spec ((a + LocalTZA) / 86400000) n);
    try reflexivity; exfalso; Z.div_mod_to_equations; lia.
Qed.

(** The start of a preset is a date of the local day that lies [daysBack]
    days before today. *)
Lemma presetStart_day now range :
  (-25172 <= JsDate.LocalDay LocalTZA now < 2932897)%Z ->
  exists s,
    presetStart LocalTZA now range = Some s
    /\ JsDate.LocalDay LocalTZA s
       = (JsDate.LocalDay LocalTZA now - daysBack LocalTZA now range)%Z.
Proof.
  intros HL.
  set (L := JsDate.LocalDay LocalTZA now) in *.
  destruct (civil_of_day L) as (Hm & Hd & E).
  pose proof (daysInMonth_le_31 LocalTZA (JsDate.YearFromDay L) _ Hm) as D31.
  pose proof (year_bounds L ltac:(lia)) as Hy.
  pose proof (Z.mod_pos_bound (now + LocalTZA) JsDate.msPerDay
                ltac:(reflexivity)) as R.
  set (r := ((now + LocalTZA) mod JsDate.msPerDay)%Z) in *.
  assert (C : forall k, (0 <= k <= 30)%Z ->
            JsDate.TimeClip ((L - k) * JsDate.msPerDay + r - LocalTZA)
            = Some ((L - k) * JsDate.msPerDay + r - LocalTZA)%Z
            /\ JsDate.LocalDay LocalTZA
                 ((L - k) * JsDate.msPerDay + r - LocalTZA) = (L - k)%Z).
  { intros k Hk. split.
    - unfold JsDate.TimeClip.
      destruct (Z.leb_spec
                  (Z.abs ((L - k) * JsDate.msPerDay + r - LocalTZA))
                  8640000000000000); [reflexivity|].
      unfold JsDate.msPerDay in *. lia.
    - unfold JsDate.LocalDay.
      replace ((L - k) * JsDate.msPerDay + r - LocalTZA + LocalTZA)%Z
        with (r + (L - k) * JsDate.msPerDay)%Z by lia.
      rewrite Z.div_add by discriminate.
      rewrite Z.div_small by assumption. lia. }
  assert (M : forall k,
            JsDate.MakeDay (JsDate.getFullYear LocalTZA now)
              (JsDate.getMonth LocalTZA now)
              (JsDate.getDate LocalTZA now - k) = (L - k)%Z).
  { intros k. unfold JsDate.getFullYear, JsDate.getMonth, JsDate.getDate.
    fold L. unfold JsDate.MakeDay in *. lia. }
  destruct range; cbn [presetStart daysBack].
  - unfold setDate. fold r. rewrite M.
    destruct (C 7%Z ltac:(lia)) as [C1 C2]. rewrite C1. now eexists.
  - unfold setDate. fold r. rewrite M.
    destruct (C 30%Z ltac:(lia)) as [C1 C2]. rewrite C1. now eexists.
  - unfold JsDate.newDate.
    assert (Y : ((0 <=? JsDate.getFullYear LocalTZA now)%Z
                 && (JsDate.getFullYear LocalTZA now <=? 99)%Z) = false).
    { unfold JsDate.getFullYear. fold L. apply Bool.andb_false_iff. right.
      apply Z.leb_gt. lia. }
    rewrite Y.
    set (k := (JsDate.getDate LocalTZA now - 1)%Z).
    assert (M1 : JsDate.MakeDay (JsDate.getFullYear LocalTZA now)
                   (JsDate.getMonth LocalTZA now) 1 = (L - k)%Z).
    { rewrite <- M. f_equal. unfold k. lia. }
    rewrite M1.
    assert (Hk : (0 <= k <= 30)%Z)
      by (unfold k, JsDate.getDate; fold L; lia).
    exists ((L - k) * JsDate.msPerDay - LocalTZA)%Z. split.
    + unfold JsDate.TimeClip.
      destruct (Z.leb_spec (Z.abs ((L - k) * JsDate.msPerDay - LocalTZA))
                  8640000000000000); [reflexivity|].
      unfold JsDate.msPerDay in *. lia.
    + apply LocalDay_midnight.
  - exists now. split; [reflexivity|]. fold L. lia.
Qed.

End SearchWindow.

Lemma daysBack_bounds tz now range : (0 <= daysBack tz now range <= 30)%Z.
Proof.
  destruct range; cbn [daysBack]; try lia.
  unfold JsDate.getDate.
  destruct (civil_of_day (JsDate.LocalDay tz now)) as (Hm & Hd & _).
  pose proof (daysInMonth_le_31 tz
                (JsDate.YearFromDay (JsDate.LocalDay tz now)) _ Hm).
  lia.
Qed.

Lemma and_window (a b w c d e f g : bool) :
  a && b && w && c && d && e && f && g
  = a && b && (true && true) && c && d && e && f && g && w.
Proof. destruct a, b, w, c, d, e, f, g; reflexivity. Qed.

(** The two comparisons of the application order the tickets. *)
Lemma newerFirst_trans tz host a b c :
  (newerFirst tz host a b <= 0 -> newerFirst tz host b c <= 0 ->
   newerFirst tz host a c <= 0)%Z.
Proof.
  unfold newerFirst. cbv zeta.
  repeat match goal with
         | |- context [(?x =? 0)%Z] => destruct (Z.eqb_spec x 0)
         end; lia.
Qed.

Lemma newerFirst_total tz host a b :
  (0 < newerFirst tz host a b -> newerFirst tz host b a <= 0)%Z.
Proof.
  unfold newerFirst. cbv zeta.
  repeat match goal with
         | |- context [(?x =? 0)%Z] => destruct (Z.eqb_spec x 0)
         end; lia.
Qed.

(** A date preset of the search narrows the search without date bounds to a
    window of local days: with the clock between 31 January 1901 and the end
    of 9999, the search that [setDateRangePreset] starts lists the results
    of the search with the other fields of the form whose issue date, as
    [parseSheetDate] reads it, falls on a local day from the start of the
    preset to today, both included, in the order of those results: newest
    first, and the larger row index first among equal dates.  The start
    lies 7 or 30 days back or on the first of the month; for any other
    argument it is today. *)
Theorem preset_search_window tz host now range form ts :
  (Z.abs tz <= JsDate.msPerDay)%Z ->
  (-25172 <= JsDate.LocalDay tz now < 2932897)%Z ->
  searchStartDate form = "" ->
  searchEndDate form = "" ->
  let results := performSearch tz host (setDateRangePreset tz now range form)
                   ts in
  results
  = filter
      (fun t =>
         (JsDate.LocalDay tz now - daysBack tz now range
          <=? issuedDay tz host t)%Z
         && (issuedDay tz host t <=? JsDate.LocalDay tz now)%Z)
      (performSearch tz host form ts)
  /\ StronglySorted
       (fun a b =>
          (parseSheetDate tz host (issued_date b)
           < parseSheetDate tz host (issued_date a))%Z
          \/ (parseSheetDate tz host (issued_date b)
              = parseSheetDate tz host (issued_date a)
              /\ (rowIndex b <= rowIndex a)%Z))
       results.
Proof.
  intros Htz HL Hs He results.
  split.
  - unfold results.
    destruct (presetStart_day tz Htz now range HL) as (s & Es & Ds).
    pose proof (daysBack_bounds tz now range) as Hb.
    destruct (searchBound_written tz host Htz s ltac:(lia)) as [B0 _].
    destruct (searchBound_written tz host Htz now ltac:(lia)) as [_ B1].
    unfold performSearch, setDateRangePreset.
    cbn [searchName searchBooking searchStartDate searchEndDate
         searchTravelDate searchDeparture searchDestination searchAirline
         searchNotPaidToggle].
    rewrite Hs, He, Es. cbn [formatDate]. rewrite B0, B1, Ds.
    rewrite (filter_sortBy _ (newerFirst_trans tz host)
               (newerFirst_total tz host)). f_equal.
    rewrite <- filter_andb. apply filter_ext_all. intros t.
    rewrite notBefore_day, notAfter_day.
    change (searchBound tz host "" 0 0 0 0) with (@None (option Z)).
    change (searchBound tz host "" 23 59 59 999) with (@None (option Z)).
    cbn [notBefore notAfter]. unfold issuedDay. apply and_window.
  - unfold results, performSearch.
    eapply StronglySorted_ind
      with (P := fun l =>
                   StronglySorted
                     (fun a b =>
                        (parseSheetDate tz host (issued_date b)
                         < parseSheetDate tz host (issued_date a))%Z
                        \/ (parseSheetDate tz host (issued_date b)
                            = parseSheetDate tz host (issued_date a)
                            /\ (rowIndex b <= rowIndex a)%Z)) l);
      [constructor| |apply (sorted_sortBy (newerFirst tz host)
                              (newerFirst_trans tz host)
                              (newerFirst_total tz host))].
    intros a l _ IH Hall. constructor; [exact IH|].
    rewrite Forall_forall in *. intros x Hx. specialize (Hall x Hx).
    unfold newerFirst in Hall. cbv zeta in Hall.
    destruct (Z.eqb_spec
                (parseSheetDate tz host (issued_date x)
                 - parseSheetDate tz host (issued_date a)) 0); lia.
Qed.

Lemma preset_search_window_witness :
  (Z.abs yangonTZA <= JsDate.msPerDay)%Z
  /\ (-25172 <= JsDate.LocalDay yangonTZA nov15NoonYangon < 2932897)%Z
  /\ performSearch yangonTZA strictDateParse
       (setDateRangePreset yangonTZA nov15NoonYangon Last7
          (mkSearch "" "" "" "" "" "" "" "" false))
       [ ticketOf 2 "11/07/2025" "A" "P1" "" 0 0 0 0 false;
         ticketOf 3 "11/08/2025" "B" "P2" "" 0 0 0 0 false;
         ticketOf 4 "15-Nov-2025" "C" "P3" "" 0 0 0 0 false;
         ticketOf 5 "11/16/2025" "D" "P4" "" 0 0 0 0 false ]
     = [ ticketOf 4 "15-Nov-2025" "C" "P3" "" 0 0 0 0 false;
         ticketOf 3 "11/08/2025" "B" "P2" "" 0 0 0 0 false ].
Proof.
  assert (T : (Z.abs yangonTZA <= JsDate.msPerDay)%Z)
    by (vm_compute; discriminate).
  assert (L : (-25172 <= JsDate.LocalDay yangonTZA nov15NoonYangon
               < 2932897)%Z)
    by (vm_compute; split; [discriminate | reflexivity]).
  split; [exact T|]. split; [exact L|].
  rewrite (proj1 (preset_search_window yangonTZA strictDateParse
                    nov15NoonYangon Last7
                    (mkSearch "" "" "" "" "" "" "" "" false) _ T L
                    eq_refl eq_refl)).
  vm_compute. reflexivity.
Defined.

(** ** The client directory *)

Lemma lookup_unique {A : Type} (l : list (string * A)) k v :
  NoDup (map fst l) -> In (k, v) l -> lookup l k = Some v.
Proof.
  induction l as [|[k0 v0] l IH]; intros N H; [destruct H|].
  cbn [map fst] in N. inversion N as [|? ? N1 N2]; subst.
  cbn [lookup]. destruct H as [H|H].
  - injection H as -> ->. now rewrite String.eqb_refl.
  - destruct (String.eqb_spec k0 k) as [->|_]; [|now apply IH].
    exfalso. apply N1. change k with (fst (k, v)). now apply in_map.
Qed.

Lemma fold_add {A : Type} (p : A -> bool) (g : A -> Z) (l : list A) :
  forall m,
  fold_left (fun m x => if p x then (m + g x)%Z else m) l m
  = (m + sumZ g (filter p l))%Z.
Proof.
  induction l as [|x l IH]; intros m; cbn [fold_left filter].
  - rewrite sumZ_nil. lia.
  - rewrite IH. destruct (p x); [rewrite sumZ_cons|]; lia.
Qed.

Lemma sumZ_count {A : Type} (p : A -> bool) (l : list A) :
  sumZ (fun x => if p x then 0%Z else 1%Z) l
  = Z.of_nat (List.length (filter (fun x => negb (p x)) l)).
Proof.
  induction l as [|x l IH]; [reflexivity|].
  rewrite sumZ_cons, IH. cbn [filter].
  destruct (p x); cbn [negb List.length]; lia.
Qed.

(** The running maximum that [last_travel] keeps. *)
Lemma fold_max {A : Type} (p : A -> bool) (d : A -> Z) (l : list A) :
  forall m,
  let r := fold_left (fun m x => if p x then Z.max m (d x) else m) l m in
  (m <= r)%Z
  /\ (forall x, In x (filter p l) -> (d x <= r)%Z)
  /\ (r = m \/ exists x, In x (filter p l) /\ d x = r).
Proof.
  induction l as [|x l IH]; intros m; cbn [fold_left filter].
  - split; [lia|]. split; [intros x []|now left].
  - destruct (IH (if p x then Z.max m (d x) else m)) as (A1 & A2 & A3).
    cbv zeta in *. destruct (p x) eqn:P.
    + split; [lia|]. split.
      * intros y [<-|H]; [lia|now apply A2].
      * destruct A3 as [E|(y & Hy & E)].
        -- destruct (Z.max_spec m (d x)) as [[_ M]|[_ M]].
           ++ right. exists x. split; [now left|]. congruence.
           ++ left. congruence.
        -- right. exists y. split; [now right|exact E].
    + split; [exact A1|]. split; [exact A2|exact A3].
Qed.

Section ClientList.

Variable LocalTZA : Z.
Variable DateParse : string -> option Z.

Lemma lookup_upsertClient t k cs k' :
  lookup (upsertClient LocalTZA DateParse t k cs) k'
  = if (k =? k')%string
    then Some (countTicket LocalTZA DateParse t
                 (match lookup cs k with
                  | Some c => c
                  | None => newClient t
                  end))
    else lookup cs k'.
Proof.
  induction cs as [|[k0 c0] cs IH]; cbn [upsertClient lookup].
  - reflexivity.
  - destruct (String.eqb_spec k0 k) as [->|N]; cbn [lookup].
    + now destruct (k =? k')%string.
    + rewrite IH. destruct (String.eqb_spec k k') as [E|N'].
      * subst k'. destruct (String.eqb_spec k0 k); [contradiction|].
        reflexivity.
      * reflexivity.
Qed.

Lemma keys_upsertClient t k cs :
  map fst (upsertClient LocalTZA DateParse t k cs)
  = if existsb (fun x => (x =? k)%string) (map fst cs)
    then map fst cs else (map fst cs ++ [k])%list.
Proof.
  induction cs as [|[k0 c0] cs IH]; cbn [upsertClient map existsb fst].
  - reflexivity.
  - destruct (k0 =? k)%string; cbn [orb map fst]; [reflexivity|].
    rewrite IH. now destruct (existsb _ (map fst cs)).
Qed.

Lemma clientKeyOf_countTicket t c :
  clientKeyOf (countTicket LocalTZA DateParse t c) = clientKeyOf c.
Proof.
  unfold countTicket.
  destruct (negb _ && negb _); cbn [last_travel];
    destruct (_ <? _)%Z; reflexivity.
Qed.

Lemma keyed_upsertClient t cs :
  Forall (fun p => fst p = clientKeyOf (snd p)) cs ->
  Forall (fun p => fst p = clientKeyOf (snd p))
    (upsertClient LocalTZA DateParse t (clientKey t) cs).
Proof.
  induction 1 as [|[k0 c0] cs H0 H IH]; cbn [upsertClient].
  - constructor; [|constructor]. cbn [fst snd].
    now rewrite clientKeyOf_countTicket.
  - destruct (k0 =? clientKey t)%string; constructor; try assumption.
    cbn [fst snd] in *. now rewrite clientKeyOf_countTicket.
Qed.

Lemma booked_countTicket t c :
  ticket_count (countTicket LocalTZA DateParse t c)
  = (ticket_count c + (if isCancelledOrRefunded t then 0 else 1))%Z
  /\ total_spent (countTicket LocalTZA DateParse t c)
     = (total_spent c + (if isCancelledOrRefunded t then 0 else amountOf t))%Z
  /\ last_travel (countTicket LocalTZA DateParse t c)
     = Z.max (last_travel c)
         (parseSheetDate LocalTZA DateParse (departing_on t)).
Proof.
  unfold countTicket, isCancelledOrRefunded, amountOf.
  destruct (Js.includes _ "cancel"), (Js.includes _ "refund");
    cbn [negb andb orb last_travel];
    destruct (Z.ltb_spec (last_travel c)
                (parseSheetDate LocalTZA DateParse (departing_on t)));
    cbn [ticket_count total_spent last_travel]; repeat split; lia.
Qed.

(** The value of a field under a key, 0 for a key without an entry. *)
Let valueOf (f : Client -> Z) (k : string) (cs : list (string * Client)) : Z :=
  match lookup cs k with Some c => f c | None => 0%Z end.

Lemma value_from (f : Client -> Z) (h : Z -> Ticket -> Z) k :
  (forall t c, f (countTicket LocalTZA DateParse t c) = h (f c) t) ->
  (forall t, f (newClient t) = 0%Z) ->
  forall ts cs,
  valueOf f k
    (fold_left (fun clients ticket =>
                  upsertClient LocalTZA DateParse ticket (clientKey ticket)
                    clients) ts cs)
  = fold_left (fun m t => if (clientKey t =? k)%string then h m t else m)
      ts (valueOf f k cs).
Proof.
  intros Hc Hn. induction ts as [|t ts IH]; intros cs; cbn [fold_left].
  - reflexivity.
  - rewrite IH. f_equal. unfold valueOf. rewrite lookup_upsertClient.
    destruct (clientKey t =? k)%string eqn:E; [|reflexivity].
    rewrite Hc. apply String.eqb_eq in E. subst k.
    destruct (lookup cs (clientKey t)); [reflexivity|]. now rewrite Hn.
Qed.

Lemma total_from (f : Client -> Z) (g : Ticket -> Z) :
  (forall t c, f (countTicket LocalTZA DateParse t c) = (f c + g t)%Z) ->
  (forall t, f (newClient t) = 0%Z) ->
  forall ts cs,
  sumZ (fun p => f (snd p))
    (fold_left (fun clients ticket =>
                  upsertClient LocalTZA DateParse ticket (clientKey ticket)
                    clients) ts cs)
  = (sumZ (fun p => f (snd p)) cs + sumZ g ts)%Z.
Proof.
  intros Hc Hn.
  assert (U : forall t k cs,
            sumZ (fun p => f (snd p)) (upsertClient LocalTZA DateParse t k cs)
            = (sumZ (fun p => f (snd p)) cs + g t)%Z).
  { intros t k cs. induction cs as [|[k0 c0] cs IH]; cbn [upsertClient].
    - rewrite sumZ_cons, sumZ_nil. cbn [snd]. rewrite Hc, Hn. lia.
    - destruct (k0 =? k)%string; rewrite !sumZ_cons; cbn [snd].
      + rewrite Hc. lia.
      + rewrite IH. lia. }
  induction ts as [|t ts IH]; intros cs; cbn [fold_left].
  - rewrite sumZ_nil. lia.
  - rewrite IH, U, sumZ_cons. lia.
Qed.

Lemma keys_from ts : forall cs,
  let cs' :=
    fold_left (fun clients ticket =>
                 upsertClient LocalTZA DateParse ticket (clientKey ticket)
                   clients) ts cs in
  (NoDup (map fst cs) -> NoDup (map fst cs'))
  /\ (Forall (fun p => fst p = clientKeyOf (snd p)) cs ->
      Forall (fun p => fst p = clientKeyOf (snd p)) cs')
  /\ (forall k, In k (map fst cs')
                <-> In k (map fst cs) \/ exists t, In t ts /\ clientKey t = k).
Proof.
  induction ts as [|t ts IH]; intros cs; cbn [fold_left].
  - split; [tauto|]. split; [tauto|]. intros k. split; [now left|].
    intros [H|(t & [] & _)]. exact H.
  - destruct (IH (upsertClient LocalTZA DateParse t (clientKey t) cs))
      as (N & F & K). cbv zeta in *.
    assert (E : forall k,
              In k (map fst (upsertClient LocalTZA DateParse t
                               (clientKey t) cs))
              <-> In k (map fst cs) \/ clientKey t = k).
    { intros k. rewrite keys_upsertClient.
      destruct (existsb _ (map fst cs)) eqn:X.
      - split; [now left|]. intros [H|<-]; [exact H|].
        apply existsb_exists in X. destruct X as (x & Hx & Ex).
        apply String.eqb_eq in Ex. now subst x.
      - rewrite in_app_iff. cbn [In]. tauto. }
    split; [|split].
    + intros ND. apply N. rewrite keys_upsertClient.
      destruct (existsb _ (map fst cs)) eqn:X; [exact ND|].
      apply NoDup_snoc; [exact ND|].
      intros H. assert (T : existsb (fun x => (x =? clientKey t)%string)
                              (map fst cs) = true).
      { apply existsb_exists. exists (clientKey t).
        split; [exact H|apply String.eqb_refl]. }
      congruence.
    + intros H. apply F. now apply keyed_upsertClient.
    + intros k. rewrite K, E. split.
      * intros [[H|H]|(x & Hx & Ex)].
        -- now left.
        -- right. exists t. split; [now left|exact H].
        -- right. exists x. split; [now right|exact Ex].
      * intros [H|(x & [<-|Hx] & Ex)].
        -- left. now left.
        -- left. now right.
        -- right. now exists x.
Qed.

End ClientList.

Lemma sumZ_map {A B : Type} (f : B -> Z) (g : A -> B) (l : list A) :
  sumZ f (map g l) = sumZ (fun x => f (g x)) l.
Proof.
  induction l as [|x l IH]; [reflexivity|].
  cbn [map]. now rewrite !sumZ_cons, IH.
Qed.

Lemma keyed_keys (cs : list (string * Client)) :
  Forall (fun p => fst p = clientKeyOf (snd p)) cs ->
  map clientKeyOf (map snd cs) = map fst cs.
Proof.
  induction 1 as [|p cs H _ IH]; [reflexivity|].
  cbn [map]. now rewrite IH, H.
Qed.

Lemma sumZ_booked (g : Ticket -> Z) (l : list Ticket) :
  sumZ (fun t => if isCancelledOrRefunded t then 0%Z else g t) l
  = sumZ g (filter (fun t => negb (isCancelledOrRefunded t)) l).
Proof.
  rewrite sumZ_filter. apply sumZ_ext. intros t.
  now destruct (isCancelledOrRefunded t).
Qed.

(** The client directory accounts for every ticket once.  A client is a
    distinct combination of name, phone and account name, and every ticket,
    cancelled or not, lists its client.  The ticket count and the total spent
    of a client are the number and the amounts (net amount, extra fare and
    date change fee) of the tickets of that combination that are neither
    cancelled nor refunded, so a client with only cancelled tickets is
    listed with no ticket; over all clients the ticket counts add up to the
    number of all such tickets.  The last travel date is the latest
    departure date of the client's tickets, cancelled ones included, as
    [parseSheetDate] reads them, and never before the epoch. *)
Theorem client_list_accounts tz host ts :
  let cs := buildClientList tz host ts in
  let booked := fun t => negb (isCancelledOrRefunded t) in
  let travel := fun t => parseSheetDate tz host (departing_on t) in
  NoDup (map clientKeyOf cs)
  /\ (forall k, In k (map clientKeyOf cs)
                <-> exists t, In t ts /\ clientKey t = k)
  /\ (forall c, In c cs ->
      let mine := filter (fun t => (clientKey t =? clientKeyOf c)%string) ts in
      ticket_count c = Z.of_nat (List.length (filter booked mine))
      /\ total_spent c = sumZ amountOf (filter booked mine)
      /\ (0 <= last_travel c)%Z
      /\ (forall t, In t mine -> (travel t <= last_travel c)%Z)
      /\ (last_travel c = 0%Z
          \/ exists t, In t mine /\ travel t = last_travel c))
  /\ sumZ ticket_count cs = Z.of_nat (List.length (filter booked ts)).
Proof.
  intros cs booked travel. unfold cs, buildClientList, clientsOf.
  destruct (keys_from tz host ts []) as (N & F & K). cbv zeta in N, F, K.
  set (R := fold_left
              (fun clients ticket =>
                 upsertClient tz host ticket (clientKey ticket) clients)
              ts []) in *.
  specialize (N (NoDup_nil _)). specialize (F (Forall_nil _)).
  rewrite (keyed_keys R F).
  split; [exact N|]. split; [|split].
  - intros k. rewrite K. cbn [map In]. tauto.
  - intros c Hc.
    set (mine := filter (fun t => (clientKey t =? clientKeyOf c)%string) ts).
    apply in_map_iff in Hc.
    destruct Hc as ([k c'] & E & Hc). cbn [snd] in E. subst c'.
    assert (Ek : k = clientKeyOf c).
    { rewrite Forall_forall in F. exact (F _ Hc). }
    subst k. pose proof (lookup_unique R _ _ N Hc) as L.
    pose proof (value_from tz host ticket_count
                  (fun m t => (m + (if isCancelledOrRefunded t
                                    then 0 else 1))%Z)
                  (clientKeyOf c)
                  (fun t c => proj1 (booked_countTicket tz host t c))
                  (fun _ => eq_refl) ts []) as V1.
    pose proof (value_from tz host total_spent
                  (fun m t => (m + (if isCancelledOrRefunded t
                                    then 0 else amountOf t))%Z)
                  (clientKeyOf c)
                  (fun t c => proj1 (proj2 (booked_countTicket tz host t c)))
                  (fun _ => eq_refl) ts []) as V2.
    pose proof (value_from tz host last_travel
                  (fun m t => Z.max m (travel t))
                  (clientKeyOf c)
                  (fun t c => proj2 (proj2 (booked_countTicket tz host t c)))
                  (fun _ => eq_refl) ts []) as V3.
    cbv beta zeta in V1, V2, V3. fold R in V1, V2, V3.
    rewrite L in V1, V2, V3.
    cbn [lookup] in V1, V2, V3.
    rewrite fold_add in V1. rewrite fold_add in V2. fold mine in V1, V2.
    rewrite Z.add_0_l in V1, V2.
    split; [rewrite V1; apply sumZ_count|].
    split; [rewrite V2; apply sumZ_booked|].
    destruct (fold_max (fun t => (clientKey t =? clientKeyOf c)%string)
                travel ts 0%Z) as (M1 & M2 & M3).
    cbv zeta in M1, M2, M3. rewrite <- V3 in M1, M2, M3.
    fold mine in M2, M3. split; [exact M1|]. split; [exact M2|].
    destruct M3 as [M3|M3]; [now left|now right].
  - rewrite sumZ_map. unfold R.
    rewrite (total_from tz host ticket_count
               (fun t => if isCancelledOrRefunded t then 0%Z else 1%Z)
               (fun t c => proj1 (booked_countTicket tz host t c))
               (fun _ => eq_refl) ts []).
    rewrite sumZ_nil, Z.add_0_l. apply sumZ_count.
Qed.

(** ** The history of a client and the directory *)

Lemma fold_left_ext {A B : Type} (f g : B -> A -> B) (l : list A) :
  (forall b a, f b a = g b a) ->
  forall b, fold_left f l b = fold_left g l b.
Proof.
  intros H. induction l as [|x l IH]; intros b; cbn [fold_left].
  - reflexivity.
  - now rewrite H, IH.
Qed.

Lemma active_booked (l : list Ticket) :
  filter
    (fun t =>
       let lowerRemarks := Js.toLowerCase (remarks t) in
       negb (Js.includes lowerRemarks "cancel")
       && negb (Js.includes lowerRemarks "refund")) l
  = filter (fun t => negb (isCancelledOrRefunded t)) l.
Proof.
  apply filter_ext_all. intros t. unfold isCancelledOrRefunded. cbv zeta.
  now destruct (Js.includes _ "cancel"), (Js.includes _ "refund").
Qed.

Section NamedClients.

Variable LocalTZA : Z.
Variable DateParse : string -> option Z.
Variable all : list Ticket.

(** An entry of the directory is under the key of a ticket and has its
    name. *)
Let named (p : string * Client) : Prop :=
  exists t, In t all /\ clientKey t = fst p /\ name t = cl_name (snd p).

Lemma cl_name_countTicket t c :
  cl_name (countTicket LocalTZA DateParse t c) = cl_name c.
Proof.
  unfold countTicket.
  destruct (negb _ && negb _); cbn [last_travel];
    destruct (_ <? _)%Z; reflexivity.
Qed.

Lemma named_upsert t cs :
  In t all -> Forall named cs ->
  Forall named (upsertClient LocalTZA DateParse t (clientKey t) cs).
Proof.
  intros Ht. induction 1 as [|[k0 c0] cs H0 H IH]; cbn [upsertClient].
  - constructor; [|constructor]. exists t. cbn [fst snd].
    now rewrite cl_name_countTicket.
  - destruct (k0 =? clientKey t)%string; constructor; try assumption.
    destruct H0 as (t0 & H1 & H2 & H3). exists t0. cbn [fst snd] in *.
    now rewrite cl_name_countTicket.
Qed.

Lemma named_from ts : forall cs,
  incl ts all -> Forall named cs ->
  Forall named
    (fold_left (fun clients ticket =>
                  upsertClient LocalTZA DateParse ticket (clientKey ticket)
                    clients) ts cs).
Proof.
  induction ts as [|t ts IH]; intros cs Hi H; cbn [fold_left];
    [exact H|].
  apply IH.
  - intros x Hx. apply Hi. now right.
  - apply named_upsert; [apply Hi; now left|exact H].
Qed.

Hypothesis key_names :
  forall t t', In t all -> In t' all ->
  clientKey t = clientKey t' -> name t = name t'.

Variable clientName : string.

Lemma name_total (f : Client -> Z) (g : Ticket -> Z) :
  (forall t c, f (countTicket LocalTZA DateParse t c) = (f c + g t)%Z) ->
  (forall t, f (newClient t) = 0%Z) ->
  forall ts cs, incl ts all -> Forall named cs ->
  sumZ (fun p => if (cl_name (snd p) =? clientName)%string
                 then f (snd p) else 0%Z)
    (fold_left (fun clients ticket =>
                  upsertClient LocalTZA DateParse ticket (clientKey ticket)
                    clients) ts cs)
  = (sumZ (fun p => if (cl_name (snd p) =? clientName)%string
                    then f (snd p) else 0%Z) cs
     + sumZ (fun t => if (name t =? clientName)%string then g t else 0%Z)
         ts)%Z.
Proof.
  intros Hc Hn.
  assert (U : forall t cs, In t all -> Forall named cs ->
            sumZ (fun p => if (cl_name (snd p) =? clientName)%string
                           then f (snd p) else 0%Z)
              (upsertClient LocalTZA DateParse t (clientKey t) cs)
            = (sumZ (fun p => if (cl_name (snd p) =? clientName)%string
                              then f (snd p) else 0%Z) cs
               + (if (name t =? clientName)%string then g t else 0))%Z).
  { intros t cs Ht. induction 1 as [|[k0 c0] cs H0 H IH];
      cbn [upsertClient].
    - rewrite sumZ_cons, sumZ_nil. cbn [snd].
      rewrite cl_name_countTicket, Hc, Hn. cbn [newClient cl_name].
      destruct (name t =? clientName)%string; lia.
    - destruct (String.eqb_spec k0 (clientKey t)) as [E|_];
        rewrite !sumZ_cons; cbn [snd].
      + destruct H0 as (t0 & H1 & H2 & H3). cbn [fst snd] in H2, H3.
        rewrite cl_name_countTicket, Hc.
        rewrite (key_names t t0 Ht H1) by congruence. rewrite H3.
        destruct (cl_name c0 =? clientName)%string; lia.
      + rewrite IH. lia. }
  induction ts as [|t ts IH]; intros cs Hi H; cbn [fold_left].
  - rewrite sumZ_nil. lia.
  - rewrite IH, U, sumZ_cons.
    + lia.
    + apply Hi. now left.
    + exact H.
    + intros x Hx. apply Hi. now right.
    + apply named_upsert; [apply Hi; now left|exact H].
Qed.

End NamedClients.

(** The history of a name and the directory agree.  When no two tickets
    share the directory key (name, phone and account name joined by bars)
    without sharing the name, the tickets of a name are the tickets of the
    directory clients of that name; the history of the name stays closed
    exactly when the directory has no client of that name; otherwise its
    number of tickets, which counts the tickets of those clients that are
    neither cancelled nor refunded, is the sum of their ticket counts. *)
Theorem history_totals_directory tz host ts clientName :
  (forall t t', In t ts -> In t' ts ->
                clientKey t = clientKey t' -> name t = name t') ->
  let cs := filter (fun c => (cl_name c =? clientName)%string)
              (buildClientList tz host ts) in
  let ofClients t :=
    existsb (fun c => (clientKeyOf c =? clientKey t)%string) cs in
  (forall t, In t ts -> ofClients t = (name t =? clientName)%string)
  /\ match viewClientHistory tz host clientName ts with
     | None => cs = []
     | Some h =>
         cs <> []
         /\ activeTickets h = sumZ ticket_count cs
         /\ activeTickets h
            = Z.of_nat
                (List.length
                   (filter (fun t => ofClients t
                                     && negb (isCancelledOrRefunded t)) ts))
     end.
Proof.
  intros Hinj cs ofClients.
  pose proof (named_from tz host ts ts [] (incl_refl _) (Forall_nil _)) as Q.
  destruct (keys_from tz host ts []) as (_ & F & K). cbv zeta in F, K.
  cbv beta zeta in Q.
  set (R := fold_left
              (fun clients ticket =>
                 upsertClient tz host ticket (clientKey ticket) clients)
              ts []) in *.
  specialize (F (Forall_nil _)).
  rewrite Forall_forall in Q, F.
  assert (S : forall f g,
            (forall t c, f (countTicket tz host t c)
                         = (f c + (if isCancelledOrRefunded t
                                   then 0 else g t))%Z) ->
            (forall t, f (newClient t) = 0%Z) ->
            sumZ f cs
            = sumZ g (filter (fun t => negb (isCancelledOrRefunded t))
                        (filter (fun t => (name t =? clientName)%string)
                           ts))).
  { intros f g Hc Hn. unfold cs, buildClientList, clientsOf. fold R.
    rewrite sumZ_filter, sumZ_map. unfold R.
    rewrite (name_total tz host ts Hinj clientName f
               (fun t => if isCancelledOrRefunded t then 0%Z else g t)
               Hc Hn ts [] (incl_refl _) (Forall_nil _)).
    rewrite sumZ_nil, Z.add_0_l, <- sumZ_booked, sumZ_filter.
    reflexivity. }
  assert (O : forall t, In t ts ->
                ofClients t = (name t =? clientName)%string).
  { intros t Ht. apply Bool.eq_iff_eq_true. unfold ofClients.
    rewrite existsb_exists. split.
    - intros (c & Hc & E). apply String.eqb_eq in E.
      unfold cs in Hc. apply filter_In in Hc. destruct Hc as [Hc Hn].
      apply String.eqb_eq in Hn.
      unfold buildClientList, clientsOf in Hc. fold R in Hc.
      apply in_map_iff in Hc. destruct Hc as (p & Ep & Hp). subst c.
      destruct (Q p Hp) as (t0 & Ht0 & Kt0 & Nt0).
      pose proof (F p Hp) as Fp. apply String.eqb_eq.
      rewrite <- (Hinj t0 t Ht0 Ht) by congruence. congruence.
    - intros Hn. apply String.eqb_eq in Hn.
      assert (Kt : In (clientKey t) (map fst R)).
      { apply K. right. now exists t. }
      apply in_map_iff in Kt. destruct Kt as (p & Ep & Hp).
      destruct (Q p Hp) as (t0 & Ht0 & Kt0 & Nt0).
      pose proof (F p Hp) as Fp.
      exists (snd p). split.
      + unfold cs. apply filter_In. split.
        * unfold buildClientList, clientsOf. fold R. now apply in_map.
        * apply String.eqb_eq.
          rewrite <- Hn, <- (Hinj t0 t Ht0 Ht) by congruence. congruence.
      + apply String.eqb_eq. congruence. }
  split; [exact O|].
  unfold viewClientHistory. cbv zeta.
  rewrite length_sortBy, active_booked, length_filter_sortBy.
  set (mine := filter (fun t => (name t =? clientName)%string) ts) in *.
  destruct (Z.eqb_spec (Z.of_nat (List.length mine)) 0) as [E|E].
  - destruct mine as [|x mine'] eqn:M; [|cbn [List.length] in E; lia].
    destruct cs as [|c cs'] eqn:C; [reflexivity|exfalso].
    assert (Hc : In c cs) by (rewrite C; now left).
    unfold cs in Hc. apply filter_In in Hc. destruct Hc as [Hc Hn].
    unfold buildClientList, clientsOf in Hc. fold R in Hc.
    apply in_map_iff in Hc. destruct Hc as (p & <- & Hp).
    destruct (Q p Hp) as (t & Ht & _ & Nt).
    assert (X : In t mine).
    { unfold mine. apply filter_In. split; [exact Ht|]. now rewrite Nt. }
    rewrite M in X. destruct X.
  - cbn [activeTickets]. split; [|split].
    + destruct mine as [|x mine'] eqn:M; [contradiction E; reflexivity|].
      assert (X : In x mine) by (rewrite M; now left).
      unfold mine in X. apply filter_In in X. destruct X as [Hx Nx].
      pose proof (O x Hx) as Ox. rewrite Nx in Ox. unfold ofClients in Ox.
      intros Z0. rewrite Z0 in Ox. discriminate Ox.
    + rewrite (S ticket_count (fun _ => 1%Z)
                 (fun t c => proj1 (booked_countTicket tz host t c))
                 (fun _ => eq_refl)).
      rewrite <- sumZ_booked. symmetry. apply sumZ_count.
    + f_equal. f_equal. unfold mine. rewrite <- filter_filter.
      apply filter_ext_in. intros t Ht. now rewrite (O t Ht).
Qed.

Lemma history_totals_directory_witness :
  (forall t t', In t directoryTickets -> In t' directoryTickets ->
                clientKey t = clientKey t' -> name t = name t')
  /\ viewClientHistory yangonTZA strictDateParse "MR A" directoryTickets
     = Some (mkHistory 1 105 5)
  /\ map (fun c => (clientKeyOf c, ticket_count c))
       (filter (fun c => (cl_name c =? "MR A")%string)
          (buildClientList yangonTZA strictDateParse directoryTickets))
     = [("MR A|0911|", 1%Z); ("MR A|0922|", 0%Z)]
  /\ sumZ ticket_count
       (filter (fun c => (cl_name c =? "MR A")%string)
          (buildClientList yangonTZA strictDateParse directoryTickets))
     = 1%Z.
Proof.
  assert (H : forall t t', In t directoryTickets -> In t' directoryTickets ->
                clientKey t = clientKey t' -> name t = name t').
  { intros t t' [<-|[<-|[<-|[]]]] [<-|[<-|[<-|[]]]] E;
      try reflexivity; vm_compute in E; discriminate E. }
  split; [exact H|].
  pose proof (proj2 (history_totals_directory yangonTZA strictDateParse
                       directoryTickets "MR A" H)) as T.
  cbv zeta in T.
  change (viewClientHistory yangonTZA strictDateParse "MR A"
            directoryTickets)
    with (Some (mkHistory 1 105 5)) in T.
  destruct T as (_ & T1 & _). cbn [activeTickets] in T1.
  split; [reflexivity|]. split; [reflexivity|]. now symmetry.
Defined.
